(** * Armonite: ramp-up calculator, agent metrics, phase orchestration and
      test-run finalisation, embedded in Rocq.

    The development follows the Go sources of the repository: the ramp-up
    calculator with its strategy constructors and validation, [agent.go]
    (metric recording, phase execution, status updates), [phase.go]
    (sequential phase scheduling), [config.go] (the bus subscriptions of
    the coordinator and their callbacks), [test_run.go] (finalisation) and
    [test_run_handlers.go] (the delete handler).

    Conventions.
    - Go [int]/[int64] values are [Z]; every arithmetic operation of the
      source that can wrap is written with [wrap64].
    - [time.Duration] is a [Z] count of nanoseconds; [time.Time] is a [Z]
      count of nanoseconds on the monotonic clock.
    - [float64] values are the finite doubles, represented by the rational
      they denote; each operation rounds to nearest, ties to even (module
      [F64]).
    - Go maps are [gmap]s; map iteration order is passed in explicitly where
      the source ranges over a map and the order matters.
    - [time.ParseDuration] and [Duration.String] belong to the Go standard
      library; they are section variables. *)

From Stdlib Require Import ZArith QArith Qround Qabs Qpower Qminmax Lia Lqa.
From Stdlib Require Import String Ascii DecimalString List Sorting.Permutation.
From Stdlib Require DecimalPos DecimalZ.
From Stdlib Require Import Floats.SpecFloat.
From stdpp Require Import base option list gmap strings sorting.

Local Open Scope Z_scope.

(* ===================================================================== *)
(** * Machine integers *)
(* ===================================================================== *)

Module GoInt.

Definition min_int64 : Z := - 2 ^ 63.
Definition max_int64 : Z := 2 ^ 63 - 1.

(** Two's complement wrap-around of a 64-bit signed result. *)
Definition wrap64 (z : Z) : Z := (z + 2 ^ 63) mod 2 ^ 64 - 2 ^ 63.

Definition in_int64 (z : Z) : Prop := min_int64 <= z <= max_int64.

(** [fmt.Sprintf("%d", n)]. *)
Definition itoa (n : Z) : string := NilZero.string_of_int (Z.to_int n).

End GoInt.
Import GoInt.

(* ===================================================================== *)
(** * Double-precision arithmetic *)
(* ===================================================================== *)

(** A finite [float64] is represented by the rational number it denotes.
    Every operation computes the exact rational result and rounds it to the
    nearest number with a 53-bit significand, ties to even.  The exponent
    range of binary64 is not modelled: the operands that occur in this
    program are 64-bit integers and quotients or products of two of them,
    which stay far inside it.  Infinities and NaN are not represented; a
    division by zero (which the source guards against on every path that
    is the subject of a property below) yields 0 here, as in [Q]. *)

Module F64.

(** [ilog2 x] is the exponent of the binade of a positive [x]:
    [2^(ilog2 x) <= x < 2^(ilog2 x + 1)]. *)
Definition ilog2 (x : Q) : Z :=
  let k := Z.log2 (Qnum x) - Z.log2 (Zpos (Qden x)) in
  if Qle_bool (2 ^ k) x then k else k - 1.

(** Round to the nearest integer, ties to even. *)
Definition rne (x : Q) : Z :=
  let f := Qfloor x in
  match Qcompare (x - inject_Z f) (1 # 2) with
  | Lt => f
  | Gt => f + 1
  | Eq => if Z.even f then f else f + 1
  end.

(** Rounding of a positive rational to 53 significant bits. *)
Definition round_pos (x : Q) : Q :=
  let s := ilog2 x - 52 in
  (inject_Z (rne (x * 2 ^ (- s))) * 2 ^ s)%Q.

Definition round (x : Q) : Q :=
  match Qcompare 0 x with
  | Eq => 0%Q
  | Lt => round_pos x
  | Gt => (- round_pos (- x))%Q
  end.

(** [float64(n)] for an integer [n]. *)
Definition of_int (n : Z) : Q := round (inject_Z n).

Definition add (x y : Q) : Q := round (x + y).
Definition mul (x y : Q) : Q := round (x * y).
Definition div (x y : Q) : Q := round (x / y).

(** [int(f)]: the conversion to an integer truncates toward zero. *)
Definition to_int (x : Q) : Z :=
  if Qle_bool 0 x then Qfloor x else Qceiling x.

(** The comparison operators of the source on doubles. *)
Definition ltb (x y : Q) : bool := negb (Qle_bool y x).
Definition gtb (x y : Q) : bool := ltb y x.
Definition eqb (x y : Q) : bool := Qeq_bool x y.

(** [fmt.Sprintf("%.0f", x)]: the nearest integer, ties to even, in
    decimal; a negative value keeps its sign even when it rounds to zero. *)
Definition fmt0 (x : Q) : string :=
  if ltb x 0 then String "-" (itoa (rne (- x))) else itoa (rne x).

(** The value of a double of the Standard Library's IEEE 754 specification
    [SpecFloat], used to compare this module with it on concrete inputs. *)
Definition of_spec (f : spec_float) : option Q :=
  match f with
  | S754_zero _ => Some 0%Q
  | S754_finite s m e =>
      Some ((if s then -1 else 1) * inject_Z (Zpos m) * 2 ^ e)%Q
  | _ => None
  end.

Definition spec_of_int (n : Z) : spec_float :=
  binary_normalize 53 1024 n 0 false.

(** [x] is the value of the [SpecFloat] double [f]. *)
Definition agrees (x : Q) (f : spec_float) : bool :=
  match of_spec f with
  | Some y => Qeq_bool x y
  | None => false
  end.

(** [max * (elapsed / duration)] on three integers, in this module and in
    [SpecFloat], and whether the two agree. *)
Definition ramp_product (m e d : Z) : Q := mul (of_int m) (div (of_int e) (of_int d)).

Definition spec_ramp_product (m e d : Z) : spec_float :=
  SFmul 53 1024 (spec_of_int m) (SFdiv 53 1024 (spec_of_int e) (spec_of_int d)).

Definition ramp_product_agrees (med : Z * Z * Z) : bool :=
  let '(m, e, d) := med in agrees (ramp_product m e d) (spec_ramp_product m e d).

(** Pseudo-random test inputs: [n] triples [(m, e, d)] with [m < 2^50],
    [1 <= d <= 2^bits] and [e < d], from a linear congruential generator. *)
Definition lcg (s : Z) : Z :=
  (s * 6364136223846793005 + 1442695040888963407) mod 2 ^ 64.

Fixpoint triples (n : nat) (s : Z) (bits : Z) : list (Z * Z * Z) :=
  match n with
  | O => []
  | S n =>
      let s1 := lcg s in
      let s2 := lcg s1 in
      let s3 := lcg s2 in
      let d := 1 + (s2 / 2 ^ 8) mod 2 ^ bits in
      ((s1 / 2 ^ 8) mod 2 ^ 50, (s3 / 2 ^ 8) mod d, d) :: triples n s3 bits
  end.

End F64.

(* ===================================================================== *)
(** * The [time] package *)
(* ===================================================================== *)

Module GoTime.

Definition Nanosecond : Z := 1.
Definition Microsecond : Z := 1000 * Nanosecond.
Definition Millisecond : Z := 1000 * Microsecond.
Definition Second : Z := 1000 * Millisecond.
Definition Minute : Z := 60 * Second.
Definition Hour : Z := 60 * Minute.

(** [Duration.Seconds]: [float64(d / Second) + float64(d % Second) / 1e9]. *)
Definition Seconds (d : Z) : Q :=
  F64.add (F64.of_int (Z.quot d Second))
          (F64.div (F64.of_int (Z.rem d Second)) (F64.of_int 1000000000)).

(** The same computation in [SpecFloat], and whether the two agree. *)
Definition spec_Seconds (d : Z) : spec_float :=
  SFadd 53 1024 (F64.spec_of_int (Z.quot d Second))
    (SFdiv 53 1024 (F64.spec_of_int (Z.rem d Second)) (F64.spec_of_int 1000000000)).

Definition Seconds_agrees (d : Z) : bool := F64.agrees (Seconds d) (spec_Seconds d).

(** [Duration.Milliseconds]: integer division of the nanosecond count. *)
Definition Milliseconds (d : Z) : Z := Z.quot d Millisecond.

(** [Time.Sub]: the difference of two instants, saturated to the range of
    [Duration]. *)
Definition Sub (t u : Z) : Z := Z.max min_int64 (Z.min max_int64 (t - u)).

(** [time.Sleep d] on a virtual clock: a non-positive [d] returns at once. *)
Definition Sleep (d : Z) (clock : Z) : Z := clock + Z.max 0 d.

(** A fragment of [time.ParseDuration], used to run the model on concrete
    plans: an unsigned decimal integer followed by one unit.  Every string
    it accepts is accepted by the Go function with the same value; nothing
    is claimed about the strings it rejects. *)
Definition digit_of (c : ascii) : option Z :=
  let n := Z.of_N (N_of_ascii c) in
  if (48 <=? n) && (n <=? 57) then Some (n - 48) else None.

Fixpoint digits_then_unit (s : string) (acc : option Z) : option (Z * string) :=
  match s with
  | EmptyString => None
  | String c rest =>
      match digit_of c with
      | Some d => digits_then_unit rest (Some (10 * default 0 acc + d))
      | None => match acc with Some n => Some (n, s) | None => None end
      end
  end.

Definition unit_of (u : string) : option Z :=
  if String.eqb u "ns" then Some Nanosecond
  else if String.eqb u "us" then Some Microsecond
  else if String.eqb u "ms" then Some Millisecond
  else if String.eqb u "s" then Some Second
  else if String.eqb u "m" then Some Minute
  else if String.eqb u "h" then Some Hour
  else None.

Definition parse_units (s : string) : option Z :=
  match digits_then_unit s None with
  | Some (n, u) =>
      match unit_of u with
      | Some k => if n * k <=? max_int64 then Some (n * k) else None
      | None => None
      end
  | None => None
  end.

(** A fragment of [Duration.String] for the same purpose: a positive whole
    number of seconds below one minute prints as ["<n>s"]; other values get
    a rendering of the nanosecond count that is not Go's and is not used in
    any statement. *)
Definition string_seconds (d : Z) : string :=
  if (0 <? d) && (d <? Minute) && (Z.rem d Second =? 0)
  then itoa (Z.quot d Second) +:+ "s"
  else itoa d +:+ "ns".

End GoTime.
Import GoTime.

(* ===================================================================== *)
(** * The [sort] package *)
(* ===================================================================== *)

(** [sort.Strings]: the ascending order of Go strings is the byte-wise
    lexicographic order. *)
Definition string_le (s1 s2 : string) : Prop := String.leb s1 s2 = true.

#[global] Instance string_le_dec : RelDecision string_le :=
  fun s1 s2 => decide (String.leb s1 s2 = true).

Definition sortStrings (l : list string) : list string :=
  merge_sort string_le l.

(* ===================================================================== *)
(** * Data model *)
(* ===================================================================== *)

(** ** Ramp-up strategies *)

(** [RampUpType] is a string type; its four constants are below and any
    other string is an unknown type. *)
Definition RampUpTypeImmediate : string := "immediate".
Definition RampUpTypeLinear : string := "linear".
Definition RampUpTypeStep : string := "step".
Definition RampUpTypeCustom : string := "custom".

Module RampPhase.
Record t : Type := mk {
  Duration : string;
  Concurrency : Z;
  Mode : string
}.
End RampPhase.

Module RampUpStrategy.
Record t : Type := mk {
  Type_ : string;
  Duration : string;
  Phases : list RampPhase.t
}.
End RampUpStrategy.

Module RampUpExecution.
Record t : Type := mk {
  Strategy : RampUpStrategy.t;
  StartTime : Z;
  CurrentPhase : Z;
  TargetConcurrency : Z;
  MaxConcurrency : Z
}.
End RampUpExecution.

Module RampUpCalculator.
Record t : Type := mk {
  strategy : RampUpStrategy.t;
  maxConcurrency : Z;
  startTime : Z;
  duration : Z
}.
End RampUpCalculator.

(** The errors of [ValidateRampUpStrategy], one constructor per
    [fmt.Errorf] of the source; phase errors carry the phase index. *)
Inductive ValidationError : Type :=
| ErrInvalidDuration
| ErrNoPhases
| ErrPhaseDuration (i : nat)
| ErrPhaseConcurrency (i : nat)
| ErrPhaseMode (i : nat)
| ErrUnknownType.

(** ** Agent metrics ([agent.go]) *)

Module AgentMetrics.
Record t : Type := mk {
  AgentID : string;
  Timestamp : string;
  Requests : Z;
  Errors : Z;
  AvgLatencyMs : Q;
  MinLatencyMs : Q;
  MaxLatencyMs : Q;
  StatusCodes : gmap string Z;
  totalLatency : Q
}.
End AgentMetrics.

(** The calls that workers make on the metrics of an agent. *)
Inductive MetricOp : Type :=
| OpRequest (statusCode : Z) (latency : Z)
| OpError.

(** ** Phase commands ([test_run.go], [agent.go]) *)

Module PhaseInfo.
Record t : Type := mk {
  PhaseIndex : Z;
  PhaseID : string;
  Mode : string;
  Concurrency : Z;
  Duration : string;
  AgentOrder : list string
}.
End PhaseInfo.

Module TestStartCommand.
Record t : Type := mk {
  TestRunID : string;
  Command : string;
  CurrentPhase : option PhaseInfo.t
}.
End TestStartCommand.

Module PhaseCompletion.
Record t : Type := mk {
  AgentID : string;
  PhaseID : string;
  PhaseIndex : Z
}.
End PhaseCompletion.

(** The part of the agent that [executePhase] reads. *)
Module Agent.
Record t : Type := mk {
  id : string;
  concurrency : Z;
  currentTestRunID : string
}.
End Agent.

(** What one call of [Agent.executePhase] does: nothing for a nil phase, a
    run-time panic when the request channel is made with a negative size,
    or a pool of workers (by worker id) that runs for [ran_for] and then
    publishes the completion. *)
Inductive PhaseOutcome : Type :=
| PhaseNil
| PhasePanic
| PhaseRan (workers : list Z) (queue : Z) (ran_for : Z)
           (completion : PhaseCompletion.t).

(** A message of the orchestrator on the bus, with the virtual time at
    which it is published. *)
Module Sent.
Record t : Type := mk {
  at_time : Z;
  subject : string;
  command : TestStartCommand.t
}.
End Sent.

(** ** Coordinator state *)

Inductive TestRunStatus : Type :=
| TestRunStatusCreated
| TestRunStatusWaiting
| TestRunStatusRunning
| TestRunStatusCompleting
| TestRunStatusCompleted
| TestRunStatusFailed
| TestRunStatusCancelled.

(** The string value of each status constant. *)
Definition status_string (s : TestRunStatus) : string :=
  match s with
  | TestRunStatusCreated => "created"
  | TestRunStatusWaiting => "waiting_for_agents"
  | TestRunStatusRunning => "running"
  | TestRunStatusCompleting => "completing"
  | TestRunStatusCompleted => "completed"
  | TestRunStatusFailed => "failed"
  | TestRunStatusCancelled => "cancelled"
  end.

Module AgentResult.
Record t : Type := mk {
  AgentID : string;
  Region : string;
  Requests : Z;
  Errors : Z;
  AvgLatencyMs : Q;
  MinLatencyMs : Q;
  MaxLatencyMs : Q;
  StatusCodes : gmap string Z
}.
End AgentResult.

Module TestRunResults.
Record t : Type := mk {
  TotalRequests : Z;
  TotalErrors : Z;
  SuccessRate : Q;
  AvgLatencyMs : Q;
  MinLatencyMs : Q;
  MaxLatencyMs : Q;
  RequestsPerSec : Q;
  StatusCodes : gmap string Z;
  AgentResults : list AgentResult.t
}.
End TestRunResults.

Module TestRun.
Record t : Type := mk {
  ID : string;
  Name : string;
  PlanDuration : string;
  PlanStrategy : option RampUpStrategy.t;
  Status : TestRunStatus;
  CreatedAt : Z;
  StartedAt : option Z;
  CompletedAt : option Z;
  Duration : option string;
  Results : option TestRunResults.t;
  AgentCount : Z
}.
End TestRun.

Module AgentInfo.
Record t : Type := mk {
  ID : string;
  Region : string;
  ConnectedAt : Z;
  LastSeen : Z;
  Concurrency : Z;
  ExecutionState : string
}.
End AgentInfo.

(** The two tables of the database, keyed by test-run id. *)
Module Database.
Record t : Type := mk {
  test_runs : gmap string TestRun.t;
  agent_results : gmap string (list AgentResult.t)
}.
End Database.

(** [testRuns] holds pointers and [currentTestRun] is one of them: the
    pointer is represented by the id of the run it points to.
    [phaseOrchestrator] is represented by the id of the run it drives. *)
Module Coordinator.
Record t : Type := mk {
  database : Database.t;
  connectedAgents : gmap string AgentInfo.t;
  testRuns : gmap string TestRun.t;
  currentTestRun : option string;
  agentResults : gmap string (list AgentResult.t);
  phaseOrchestrator : option string
}.
End Coordinator.

(** An HTTP response of the control API: status code and JSON object. *)
Module Response.
Record t : Type := mk {
  code : Z;
  body : gmap string string
}.
End Response.

Definition StatusOK : Z := 200.
Definition StatusBadRequest : Z := 400.
Definition StatusNotFound : Z := 404.
Definition StatusConflict : Z := 409.

(** A message on the bus: subject and JSON object. *)
Module Msg.
Record t : Type := mk {
  subject : string;
  data : gmap string string
}.
End Msg.

(** The callbacks that [startAgentRegistration] registers on the bus. *)
Inductive Callback : Type :=
| RegistrationCallback
| HeartbeatCallback
| ExecutionCallback.

Module AgentExecutionUpdate.
Record t : Type := mk {
  AgentID : string;
  Status : string;
  Message : string;
  Timestamp : string
}.
End AgentExecutionUpdate.

(** The local variables of the aggregation loop of [completeTestRun]. *)
Module Totals.
Record t : Type := mk {
  totalRequests : Z;
  totalErrors : Z;
  totalLatency : Q;
  minLatency : Q;
  maxLatency : Q;
  statusCodes : gmap string Z
}.
End Totals.

(** ** The phase orchestrator ([phase.go]) *)

(** The part of the orchestrator that the completion monitor reads and
    writes.  [completedAgents] is a map to [bool] whose entries are all
    [true]; [phaseDoneCh] is the content of the buffered channel, oldest
    signal first. *)
Module PhaseOrchestrator.
Record t : Type := mk {
  testRunID : string;
  currentPhase : Z;
  activeAgents : gmap string AgentInfo.t;
  completedAgents : gmap string bool;
  phaseDoneCh : list Z
}.
End PhaseOrchestrator.

(** ** Registration messages ([config.go]) *)

Module AgentRegistration.
Record t : Type := mk {
  AgentID : string;
  Region : string;
  Concurrency : Z;
  Status : string;
  Timestamp : string;
  Action : string
}.
End AgentRegistration.

(** A JSON integer literal into an [int]: an optional minus sign and
    decimal digits without leading zeros, within the range of 64 bits; any
    other text is a type error. *)
Definition atoi (text : string) : option Z :=
  if String.eqb text "-0" then Some 0
  else
    match NilZero.int_of_string text with
    | Some d =>
        let n := Z.of_int d in
        if String.eqb (itoa n) text && (min_int64 <=? n) && (n <=? max_int64)
        then Some n
        else None
    | None => None
    end.

(** ** Exported results (the result writer) *)

(** [TestResults].  [Summary.ConfigUsed], a copy of the plan, is not
    represented.  [RequestsPerSec] is [None] when the division by the
    duration gives an infinity or a NaN. *)
Module TestResults.
Record t : Type := mk {
  TestName : string;
  StartTime : Z;
  EndTime : Z;
  Duration : string;
  TotalRequests : Z;
  TotalErrors : Z;
  SuccessRate : Q;
  AvgLatencyMs : Q;
  MinLatencyMs : Q;
  MaxLatencyMs : Q;
  RequestsPerSec : option Q;
  StatusCodes : gmap string Z;
  Agents : list AgentResult.t;
  ActualConcurrency : Z;
  AgentCount : Z
}.
End TestResults.

(** ** Replies of the control API *)

(** The body of a reply: a JSON object whose values are given as text, or
    a test run. *)
Inductive Body : Type :=
| BodyObject (fields : gmap string string)
| BodyTestRun (testRun : TestRun.t).

Module Reply.
Record t : Type := mk {
  code : Z;
  body : Body
}.
End Reply.

Definition StatusCreated : Z := 201.

Module BulkDeleteRequest.
Record t : Type := mk {
  Status : string;
  OlderThan : string;
  Confirm : bool
}.
End BulkDeleteRequest.

(** The statistics of [handleTestRunStats]: the total of the database, its
    breakdown by status, the sizes of the two maps in memory and the id,
    name and status of the current run. *)
Module Stats.
Record t : Type := mk {
  total_test_runs : Z;
  status_breakdown : gmap string Z;
  in_memory_test_runs : Z;
  in_memory_agent_results : Z;
  current_test_run : option (string * string * string)
}.
End Stats.

(** ** Creating and starting a run *)

(** An endpoint of a test plan; the values of the JSON body are given as
    text. *)
Module Endpoint.
Record t : Type := mk {
  Method : string;
  URL : string;
  Headers : gmap string string;
  Body : gmap string string;
  ThinkTime : string
}.
End Endpoint.

(** [CreateTestRunRequest], with the fields of the plan that [TestRun.t]
    keeps and its endpoints. *)
Module CreateTestRunRequest.
Record t : Type := mk {
  Name : string;
  PlanDuration : string;
  PlanStrategy : option RampUpStrategy.t;
  Endpoints : list Endpoint.t;
  MinAgents : Z
}.
End CreateTestRunRequest.

(** The [TestStartCommand] of [broadcastTestStart], which carries the plan
    of the run. *)
Module TestStart.
Record t : Type := mk {
  TestRunID : string;
  PlanDuration : string;
  PlanStrategy : option RampUpStrategy.t;
  StartTime : string;
  Command : string
}.
End TestStart.

(** What [startTestRun] leaves behind: the coordinator, the field
    [RampUpExecution] of the connected agents (by agent id), the
    orchestrator that was created, the commands published on
    [armonite.test.command] and the delay of the completion timer. *)
Module Started.
Record t : Type := mk {
  coordinator : Coordinator.t;
  executions : gmap string RampUpExecution.t;
  orchestrator : option PhaseOrchestrator.t;
  published : list TestStart.t;
  timer : option Z
}.
End Started.

(** ** Test commands on the agent *)

(** What [handleTestCommand] does with a command: it runs
    [executeTestPlan] after it has stored the id of the run and published
    the update, it runs [stopTest] after it has published the update, or it
    ignores the command. *)
Inductive TestCommandOutcome : Type :=
| TestStarted (a : Agent.t) (update : Msg.t)
| TestStopped (update : Msg.t)
| StopIgnored
| CommandIgnored.

(* ===================================================================== *)
(** * Concrete plans and states *)
(* ===================================================================== *)

(** The inputs on which the properties below are instantiated. *)
Module Examples.

Definition phase (duration : string) (concurrency : Z) (mode : string) : RampPhase.t :=
  {| RampPhase.Duration := duration;
     RampPhase.Concurrency := concurrency;
     RampPhase.Mode := mode |}.

(** A custom strategy: 5 users for 10s, then 20 users for 20s. *)
Definition custom : RampUpStrategy.t :=
  {| RampUpStrategy.Type_ := RampUpTypeCustom;
     RampUpStrategy.Duration := "30s";
     RampUpStrategy.Phases := [phase "10s" 5 "parallel"; phase "20s" 20 "parallel"] |}.

Definition calculator (strategy : RampUpStrategy.t) (maxConcurrency duration : Z)
  : RampUpCalculator.t :=
  {| RampUpCalculator.strategy := strategy;
     RampUpCalculator.maxConcurrency := maxConcurrency;
     RampUpCalculator.startTime := 0;
     RampUpCalculator.duration := duration |}.

(** An execution started at time 0. *)
Definition execution (strategy : RampUpStrategy.t) (initial maxConcurrency : Z)
  : RampUpExecution.t :=
  {| RampUpExecution.Strategy := strategy;
     RampUpExecution.StartTime := 0;
     RampUpExecution.CurrentPhase := 0;
     RampUpExecution.TargetConcurrency := initial;
     RampUpExecution.MaxConcurrency := maxConcurrency |}.

Definition linear (duration : string) : RampUpStrategy.t :=
  {| RampUpStrategy.Type_ := RampUpTypeLinear;
     RampUpStrategy.Duration := duration;
     RampUpStrategy.Phases := [] |}.

(** An immediate strategy that carries a phase of negative concurrency. *)
Definition immediateWithBadPhase : RampUpStrategy.t :=
  {| RampUpStrategy.Type_ := RampUpTypeImmediate;
     RampUpStrategy.Duration := "0s";
     RampUpStrategy.Phases := [phase "1s" (-1) "parallel"] |}.

Definition agent : Agent.t :=
  {| Agent.id := "agent-1"; Agent.concurrency := 8; Agent.currentTestRunID := "run-1" |}.

(** A phase command that asks for more workers than the agent declares. *)
Definition phaseInfo : PhaseInfo.t :=
  {| PhaseInfo.PhaseIndex := 0;
     PhaseInfo.PhaseID := "run-1-phase-0";
     PhaseInfo.Mode := "sequential";
     PhaseInfo.Concurrency := 20;
     PhaseInfo.Duration := "3s";
     PhaseInfo.AgentOrder := ["agent-1"] |}.

Definition run (id : string) (status : TestRunStatus) (started : option Z) : TestRun.t :=
  {| TestRun.ID := id;
     TestRun.Name := "load test";
     TestRun.PlanDuration := "2s";
     TestRun.PlanStrategy := None;
     TestRun.Status := status;
     TestRun.CreatedAt := 0;
     TestRun.StartedAt := started;
     TestRun.CompletedAt := None;
     TestRun.Duration := None;
     TestRun.Results := None;
     TestRun.AgentCount := 1 |}.

Definition agentResult (id : string) (requests errors : Z) (avg min max : Q)
  : AgentResult.t :=
  {| AgentResult.AgentID := id;
     AgentResult.Region := "eu";
     AgentResult.Requests := requests;
     AgentResult.Errors := errors;
     AgentResult.AvgLatencyMs := avg;
     AgentResult.MinLatencyMs := min;
     AgentResult.MaxLatencyMs := max;
     AgentResult.StatusCodes := {[ "200" := requests ]} |}.

Definition agentInfo : AgentInfo.t :=
  {| AgentInfo.ID := "agent-1";
     AgentInfo.Region := "eu";
     AgentInfo.ConnectedAt := 0;
     AgentInfo.LastSeen := 0;
     AgentInfo.Concurrency := 8;
     AgentInfo.ExecutionState := "" |}.

(** A coordinator with one registered agent and the run [run-1] in the
    given state, current and persisted, with the results of one agent. *)
Definition coordinator (testRun : TestRun.t) : Coordinator.t :=
  {| Coordinator.database :=
       {| Database.test_runs := {[ "run-1" := testRun ]};
          Database.agent_results :=
            {[ "run-1" := [agentResult "agent-1" 100 0 12 3 40] ]} |};
     Coordinator.connectedAgents := {[ "agent-1" := agentInfo ]};
     Coordinator.testRuns := {[ "run-1" := testRun ]};
     Coordinator.currentTestRun := Some "run-1";
     Coordinator.agentResults :=
       {[ "run-1" := [agentResult "agent-1" 100 0 12 3 40] ]};
     Coordinator.phaseOrchestrator := None |}.

(** A registration callback that ignores the message. *)
Definition ignoreRegistration (data : gmap string string) (now : Z)
    (c : Coordinator.t) : Coordinator.t := c.

(** Metrics of an agent that already served a run: the counters are reset
    before the next one. *)
Definition metrics : AgentMetrics.t :=
  {| AgentMetrics.AgentID := "agent-1";
     AgentMetrics.Timestamp := "";
     AgentMetrics.Requests := 7;
     AgentMetrics.Errors := 1;
     AgentMetrics.AvgLatencyMs := 12%Q;
     AgentMetrics.MinLatencyMs := 3%Q;
     AgentMetrics.MaxLatencyMs := 40%Q;
     AgentMetrics.StatusCodes := {[ "200" := 7 ]};
     AgentMetrics.totalLatency := 84%Q |}.

(** Three responses of 5ms, 2ms and 9ms with a failed attempt in between. *)
Definition calls : list MetricOp :=
  [ OpRequest 200 (5 * Millisecond); OpError; OpRequest 500 (2 * Millisecond);
    OpRequest 200 (9 * Millisecond) ].

(** An orchestrator for [run-1] over the agents [a] and [b]. *)
Definition orchestrator : PhaseOrchestrator.t :=
  {| PhaseOrchestrator.testRunID := "run-1";
     PhaseOrchestrator.currentPhase := 0;
     PhaseOrchestrator.activeAgents := {[ "a" := agentInfo; "b" := agentInfo ]};
     PhaseOrchestrator.completedAgents := ∅;
     PhaseOrchestrator.phaseDoneCh := [] |}.

Definition completion (agentID : string) (phaseIndex : Z) : PhaseCompletion.t :=
  {| PhaseCompletion.AgentID := agentID;
     PhaseCompletion.PhaseID := "run-1-phase";
     PhaseCompletion.PhaseIndex := phaseIndex |}.

(** An agent that is not yet registered. *)
Definition newAgent : Agent.t :=
  {| Agent.id := "agent-2"; Agent.concurrency := 16; Agent.currentTestRunID := "" |}.

(** A custom strategy whose first phase is sequential. *)
Definition sequential : RampUpStrategy.t :=
  {| RampUpStrategy.Type_ := RampUpTypeCustom;
     RampUpStrategy.Duration := "30s";
     RampUpStrategy.Phases := [phase "10s" 5 "sequential"; phase "20s" 20 "parallel"] |}.

(** A created run with that strategy. *)
Definition sequentialRun (id : string) : TestRun.t :=
  {| TestRun.ID := id;
     TestRun.Name := "phased test";
     TestRun.PlanDuration := "30s";
     TestRun.PlanStrategy := Some sequential;
     TestRun.Status := TestRunStatusCreated;
     TestRun.CreatedAt := 1;
     TestRun.StartedAt := None;
     TestRun.CompletedAt := None;
     TestRun.Duration := None;
     TestRun.Results := None;
     TestRun.AgentCount := 1 |}.

(** The coordinator of [coordinator] with the created run [run-2] as a
    second run. *)
Definition coordinator2 (testRun : TestRun.t) : Coordinator.t :=
  {| Coordinator.database :=
       {| Database.test_runs :=
            <[ "run-2" := sequentialRun "run-2" ]> {[ "run-1" := testRun ]};
          Database.agent_results :=
            {[ "run-1" := [agentResult "agent-1" 100 0 12 3 40] ]} |};
     Coordinator.connectedAgents := {[ "agent-1" := agentInfo ]};
     Coordinator.testRuns := <[ "run-2" := sequentialRun "run-2" ]> {[ "run-1" := testRun ]};
     Coordinator.currentTestRun := Some "run-1";
     Coordinator.agentResults :=
       {[ "run-1" := [agentResult "agent-1" 100 0 12 3 40] ]};
     Coordinator.phaseOrchestrator := None |}.

End Examples.

(* ===================================================================== *)
(** * The program *)
(* ===================================================================== *)

Section Armonite.

(** [time.ParseDuration]: the duration in nanoseconds, [None] on error. *)
Variable ParseDuration : string -> option Z.

(** [Duration.String]. *)
Variable DurationString : Z -> string.

(** ** Ramp-up calculator *)

Definition NewRampUpCalculator (strategy : RampUpStrategy.t) (maxConcurrency : Z)
  : option RampUpCalculator.t :=
  match ParseDuration (RampUpStrategy.Duration strategy) with
  | None => None
  | Some duration =>
      Some {| RampUpCalculator.strategy := strategy;
              RampUpCalculator.maxConcurrency := maxConcurrency;
              RampUpCalculator.startTime := 0;
              RampUpCalculator.duration := duration |}
  end.

Definition getInitialConcurrency (calc : RampUpCalculator.t) : Z :=
  let ty := RampUpStrategy.Type_ (RampUpCalculator.strategy calc) in
  if String.eqb ty RampUpTypeImmediate then RampUpCalculator.maxConcurrency calc
  else if String.eqb ty RampUpTypeLinear then 1
  else if String.eqb ty RampUpTypeStep || String.eqb ty RampUpTypeCustom then
    match RampUpStrategy.Phases (RampUpCalculator.strategy calc) with
    | phase :: _ => RampPhase.Concurrency phase
    | [] => 1
    end
  else RampUpCalculator.maxConcurrency calc.

(** [Start] reads the clock ([now]) and returns the calculator with its
    start time set together with the new execution. *)
Definition Start (calc : RampUpCalculator.t) (now : Z)
  : RampUpCalculator.t * RampUpExecution.t :=
  let calc' := {| RampUpCalculator.strategy := RampUpCalculator.strategy calc;
                  RampUpCalculator.maxConcurrency := RampUpCalculator.maxConcurrency calc;
                  RampUpCalculator.startTime := now;
                  RampUpCalculator.duration := RampUpCalculator.duration calc |} in
  (calc',
   {| RampUpExecution.Strategy := RampUpCalculator.strategy calc;
      RampUpExecution.StartTime := now;
      RampUpExecution.CurrentPhase := 0;
      RampUpExecution.TargetConcurrency := getInitialConcurrency calc;
      RampUpExecution.MaxConcurrency := RampUpCalculator.maxConcurrency calc |}).

(** [time.Since(execution.StartTime)] at clock reading [now]. *)
Definition Since (execution : RampUpExecution.t) (now : Z) : Z :=
  Sub now (RampUpExecution.StartTime execution).

Definition enterPhase (execution : RampUpExecution.t) (i : nat) (phase : RampPhase.t)
  : RampUpExecution.t :=
  {| RampUpExecution.Strategy := RampUpExecution.Strategy execution;
     RampUpExecution.StartTime := RampUpExecution.StartTime execution;
     RampUpExecution.CurrentPhase := Z.of_nat i;
     RampUpExecution.TargetConcurrency := RampPhase.Concurrency phase;
     RampUpExecution.MaxConcurrency := RampUpExecution.MaxConcurrency execution |}.

(** The loop of [getPhaseBasedConcurrency] from phase index [i] on, with
    the running [cumulativeDuration].  A phase whose duration does not
    parse is skipped. *)
Fixpoint phaseLoop (maxConcurrency : Z) (execution : RampUpExecution.t) (elapsed : Z)
    (phases : list RampPhase.t) (i : nat) (cumulativeDuration : Z)
  : Z * RampUpExecution.t :=
  match phases with
  | [] => (maxConcurrency, execution)
  | phase :: rest =>
      match ParseDuration (RampPhase.Duration phase) with
      | None =>
          phaseLoop maxConcurrency execution elapsed rest (S i) cumulativeDuration
      | Some phaseDuration =>
          if elapsed <=? wrap64 (cumulativeDuration + phaseDuration)
          then (RampPhase.Concurrency phase, enterPhase execution i phase)
          else phaseLoop maxConcurrency execution elapsed rest (S i)
                 (wrap64 (cumulativeDuration + phaseDuration))
      end
  end.

Definition getPhaseBasedConcurrency (calc : RampUpCalculator.t)
    (execution : RampUpExecution.t) (elapsed : Z) : Z * RampUpExecution.t :=
  match RampUpStrategy.Phases (RampUpCalculator.strategy calc) with
  | [] => (RampUpCalculator.maxConcurrency calc, execution)
  | phases =>
      phaseLoop (RampUpCalculator.maxConcurrency calc) execution elapsed phases 0%nat 0
  end.

(** The target concurrency at clock reading [now], with the execution as
    the call leaves it. *)
Definition GetCurrentConcurrency (calc : RampUpCalculator.t)
    (execution : RampUpExecution.t) (now : Z) : Z * RampUpExecution.t :=
  let elapsed := Since execution now in
  let ty := RampUpStrategy.Type_ (RampUpCalculator.strategy calc) in
  if String.eqb ty RampUpTypeImmediate then
    (RampUpCalculator.maxConcurrency calc, execution)
  else if String.eqb ty RampUpTypeLinear then
    if RampUpCalculator.duration calc <=? elapsed then
      (RampUpCalculator.maxConcurrency calc, execution)
    else
      let progress :=
        F64.div (F64.of_int elapsed) (F64.of_int (RampUpCalculator.duration calc)) in
      (F64.to_int (F64.mul (F64.of_int (RampUpCalculator.maxConcurrency calc)) progress),
       execution)
  else if String.eqb ty RampUpTypeStep || String.eqb ty RampUpTypeCustom then
    getPhaseBasedConcurrency calc execution elapsed
  else (RampUpCalculator.maxConcurrency calc, execution).

Definition IsComplete (calc : RampUpCalculator.t) (execution : RampUpExecution.t)
    (now : Z) : bool :=
  RampUpCalculator.duration calc <=? Since execution now.

Definition GetRemainingDuration (calc : RampUpCalculator.t)
    (execution : RampUpExecution.t) (now : Z) : Z :=
  let elapsed := Since execution now in
  if RampUpCalculator.duration calc <=? elapsed then 0
  else wrap64 (RampUpCalculator.duration calc - elapsed).

Definition CreateDefaultRampUp : RampUpStrategy.t :=
  {| RampUpStrategy.Type_ := RampUpTypeImmediate;
     RampUpStrategy.Duration := "0s";
     RampUpStrategy.Phases := [] |}.

Definition CreateLinearRampUp (duration : string) : RampUpStrategy.t :=
  {| RampUpStrategy.Type_ := RampUpTypeLinear;
     RampUpStrategy.Duration := duration;
     RampUpStrategy.Phases := [] |}.

Definition parseOrDefault (duration : string) (defaultDuration : Z) : Z :=
  match ParseDuration duration with
  | Some d => d
  | None => defaultDuration
  end.

(** The text that [CreateStepRampUp] gives every phase as its duration:
    [fmt.Sprintf("%.0fs", seconds / float64(steps))]. *)
Definition stepDuration (duration : string) (steps : Z) : string :=
  F64.fmt0 (F64.div (Seconds (parseOrDefault duration (60 * Second)))
                    (F64.of_int steps)) +:+ "s".

Definition CreateStepRampUp (duration : string) (steps : Z) : RampUpStrategy.t :=
  let steps := if steps <=? 0 then 3 else steps in
  let phases :=
    map (fun i : nat =>
           {| RampPhase.Duration := stepDuration duration steps;
              RampPhase.Concurrency :=
                Z.quot (wrap64 (wrap64 (Z.of_nat i + 1) * 100)) steps;
              RampPhase.Mode := "parallel" |})
        (seq 0 (Z.to_nat steps)) in
  {| RampUpStrategy.Type_ := RampUpTypeStep;
     RampUpStrategy.Duration := duration;
     RampUpStrategy.Phases := phases |}.

Definition CreateCustomRampUp (totalDuration : string) (phases : list RampPhase.t)
  : RampUpStrategy.t :=
  {| RampUpStrategy.Type_ := RampUpTypeCustom;
     RampUpStrategy.Duration := totalDuration;
     RampUpStrategy.Phases := phases |}.

(** The loop of [ValidateRampUpStrategy] over the phases, from index [i]. *)
Fixpoint validatePhases (phases : list RampPhase.t) (i : nat) : option ValidationError :=
  match phases with
  | [] => None
  | phase :: rest =>
      match ParseDuration (RampPhase.Duration phase) with
      | None => Some (ErrPhaseDuration i)
      | Some _ =>
          if RampPhase.Concurrency phase <? 0 then Some (ErrPhaseConcurrency i)
          else if negb (String.eqb (RampPhase.Mode phase) "parallel")
                  && negb (String.eqb (RampPhase.Mode phase) "sequential")
          then Some (ErrPhaseMode i)
          else validatePhases rest (S i)
      end
  end.

(** [None] is the [nil] error. *)
Definition ValidateRampUpStrategy (strategy : RampUpStrategy.t) : option ValidationError :=
  match ParseDuration (RampUpStrategy.Duration strategy) with
  | None => Some ErrInvalidDuration
  | Some _ =>
      let ty := RampUpStrategy.Type_ strategy in
      if String.eqb ty RampUpTypeImmediate || String.eqb ty RampUpTypeLinear then None
      else if String.eqb ty RampUpTypeStep || String.eqb ty RampUpTypeCustom then
        match RampUpStrategy.Phases strategy with
        | [] => Some ErrNoPhases
        | phases => validatePhases phases 0
        end
      else Some ErrUnknownType
  end.

(** ** Agent metrics ([agent.go]) *)

Definition resetMetrics (m : AgentMetrics.t) : AgentMetrics.t :=
  {| AgentMetrics.AgentID := AgentMetrics.AgentID m;
     AgentMetrics.Timestamp := AgentMetrics.Timestamp m;
     AgentMetrics.Requests := 0;
     AgentMetrics.Errors := 0;
     AgentMetrics.AvgLatencyMs := 0%Q;
     AgentMetrics.MinLatencyMs := 0%Q;
     AgentMetrics.MaxLatencyMs := 0%Q;
     AgentMetrics.StatusCodes := ∅;
     AgentMetrics.totalLatency := 0%Q |}.

(** [counts[key]++] on a Go map: a missing key reads as zero. *)
Definition incr (key : string) (counts : gmap string Z) : gmap string Z :=
  <[key := wrap64 (default 0 (counts !! key) + 1)]> counts.

Definition recordRequest (m : AgentMetrics.t) (statusCode : Z) (latency : Z)
  : AgentMetrics.t :=
  let latencyMs := F64.of_int (Milliseconds latency) in
  let requests := wrap64 (AgentMetrics.Requests m + 1) in
  let total := F64.add (AgentMetrics.totalLatency m) latencyMs in
  let first := requests =? 1 in
  {| AgentMetrics.AgentID := AgentMetrics.AgentID m;
     AgentMetrics.Timestamp := AgentMetrics.Timestamp m;
     AgentMetrics.Requests := requests;
     AgentMetrics.Errors := AgentMetrics.Errors m;
     AgentMetrics.AvgLatencyMs := F64.div total (F64.of_int requests);
     AgentMetrics.MinLatencyMs :=
       if first then latencyMs
       else if F64.ltb latencyMs (AgentMetrics.MinLatencyMs m) then latencyMs
       else AgentMetrics.MinLatencyMs m;
     AgentMetrics.MaxLatencyMs :=
       if first then latencyMs
       else if F64.gtb latencyMs (AgentMetrics.MaxLatencyMs m) then latencyMs
       else AgentMetrics.MaxLatencyMs m;
     AgentMetrics.StatusCodes := incr (itoa statusCode) (AgentMetrics.StatusCodes m);
     AgentMetrics.totalLatency := total |}.

Definition recordError (m : AgentMetrics.t) : AgentMetrics.t :=
  {| AgentMetrics.AgentID := AgentMetrics.AgentID m;
     AgentMetrics.Timestamp := AgentMetrics.Timestamp m;
     AgentMetrics.Requests := AgentMetrics.Requests m;
     AgentMetrics.Errors := wrap64 (AgentMetrics.Errors m + 1);
     AgentMetrics.AvgLatencyMs := AgentMetrics.AvgLatencyMs m;
     AgentMetrics.MinLatencyMs := AgentMetrics.MinLatencyMs m;
     AgentMetrics.MaxLatencyMs := AgentMetrics.MaxLatencyMs m;
     AgentMetrics.StatusCodes := AgentMetrics.StatusCodes m;
     AgentMetrics.totalLatency := AgentMetrics.totalLatency m |}.

Definition applyOp (m : AgentMetrics.t) (op : MetricOp) : AgentMetrics.t :=
  match op with
  | OpRequest statusCode latency => recordRequest m statusCode latency
  | OpError => recordError m
  end.

(** The metrics after the workers made the calls [ops], in the order in
    which they took the lock, on metrics that were just reset. *)
Definition runOps (m : AgentMetrics.t) (ops : list MetricOp) : AgentMetrics.t :=
  fold_left applyOp ops (resetMetrics m).

(** [reportMetrics]: the snapshot published on [armonite.telemetry] with
    the time stamp [ts], or nothing while no request has been recorded. *)
Definition reportMetrics (m : AgentMetrics.t) (ts : string) : option AgentMetrics.t :=
  if AgentMetrics.Requests m =? 0 then None
  else Some {| AgentMetrics.AgentID := AgentMetrics.AgentID m;
               AgentMetrics.Timestamp := ts;
               AgentMetrics.Requests := AgentMetrics.Requests m;
               AgentMetrics.Errors := AgentMetrics.Errors m;
               AgentMetrics.AvgLatencyMs := AgentMetrics.AvgLatencyMs m;
               AgentMetrics.MinLatencyMs := AgentMetrics.MinLatencyMs m;
               AgentMetrics.MaxLatencyMs := AgentMetrics.MaxLatencyMs m;
               AgentMetrics.StatusCodes := AgentMetrics.StatusCodes m;
               AgentMetrics.totalLatency := AgentMetrics.totalLatency m |}.

(** The sum of the counts of a status-code map. *)
Definition sumCodes (codes : gmap string Z) : Z :=
  map_fold (fun _ count acc => count + acc) 0 codes.

(** ** Phase execution on the agent ([agent.go]) *)

Definition executePhaseLoad (a : Agent.t) (concurrency : Z) (duration : Z)
    (phase : PhaseInfo.t) : PhaseOutcome :=
  (* make(chan Endpoint, concurrency*10) panics on a negative size *)
  let queue := wrap64 (concurrency * 10) in
  if queue <? 0 then PhasePanic
  else
    (* for i := 0; i < concurrency; i++ { go a.phaseWorker(i, ...) } *)
    let workers := map Z.of_nat (seq 0 (Z.to_nat concurrency)) in
    PhaseRan workers queue duration
      {| PhaseCompletion.AgentID := Agent.id a;
         PhaseCompletion.PhaseID := PhaseInfo.PhaseID phase;
         PhaseCompletion.PhaseIndex := PhaseInfo.PhaseIndex phase |}.

Definition executePhase (a : Agent.t) (phase : option PhaseInfo.t) : PhaseOutcome :=
  match phase with
  | None => PhaseNil
  | Some phase =>
      let phaseConcurrency :=
        if Agent.concurrency a <? PhaseInfo.Concurrency phase
        then Agent.concurrency a
        else PhaseInfo.Concurrency phase in
      let duration :=
        match ParseDuration (PhaseInfo.Duration phase) with
        | Some d => d
        | None => 30 * Second
        end in
      executePhaseLoad a phaseConcurrency duration phase
  end.

(** The number of workers that an outcome started. *)
Definition workerCount (o : PhaseOutcome) : option Z :=
  match o with
  | PhaseRan workers _ _ _ => Some (Z.of_nat (length workers))
  | _ => None
  end.

(** ** Sequential phases on the coordinator ([phase.go]) *)

Definition sendPhaseCommand (testRunID agentID command : string)
    (phase : PhaseInfo.t) (clock : Z) : Sent.t :=
  {| Sent.at_time := clock;
     Sent.subject := "armonite.agent." +:+ agentID +:+ ".command";
     Sent.command := {| TestStartCommand.TestRunID := testRunID;
                        TestStartCommand.Command := command;
                        TestStartCommand.CurrentPhase := Some phase |} |}.

(** The loop of [executeSequentialPhase] over the sorted agent ids from
    position [i] on.  [clock] is the virtual time since the phase was
    entered; [stopAt] is the time at which [Stop] closes the stop channel,
    if it does. *)
Fixpoint sequentialLoop (testRunID : string) (stopAt : option Z)
    (phaseIndex : Z) (phase : RampPhase.t) (phaseID : string) (timePerAgent : Z)
    (agentIDs : list string) (i : nat) (clock : Z) : list Sent.t :=
  match agentIDs with
  | [] => []
  | agentID :: rest =>
      if match stopAt with Some s => s <=? clock | None => false end then []
      else
        let clock := if (0 <? i)%nat then Sleep timePerAgent clock else clock in
        let phaseInfo :=
          {| PhaseInfo.PhaseIndex := phaseIndex;
             PhaseInfo.PhaseID := phaseID;
             PhaseInfo.Mode := RampPhase.Mode phase;
             PhaseInfo.Concurrency := RampPhase.Concurrency phase;
             PhaseInfo.Duration := DurationString timePerAgent;
             PhaseInfo.AgentOrder := [agentID] |} in
        sendPhaseCommand testRunID agentID "START_PHASE" phaseInfo clock
        :: sequentialLoop testRunID stopAt phaseIndex phase phaseID timePerAgent
             rest (S i) clock
  end.

(** [executeSequentialPhase]: [rangeOrder] is the order in which the range
    over the map [activeAgents] yields its keys. *)
Definition executeSequentialPhase (testRunID : string) (stopAt : option Z)
    (rangeOrder : list string) (phaseIndex : Z) (phase : RampPhase.t)
    (phaseID : string) : list Sent.t :=
  let agentIDs := sortStrings rangeOrder in
  match agentIDs with
  | [] => []
  | _ =>
      let phaseDuration :=
        match ParseDuration (RampPhase.Duration phase) with
        | Some d => d
        | None => 30 * Second
        end in
      let timePerAgent := Z.quot phaseDuration (Z.of_nat (length agentIDs)) in
      sequentialLoop testRunID stopAt phaseIndex phase phaseID timePerAgent
        agentIDs 0%nat 0
  end.

(** ** The delete handler ([test_run_handlers.go]) *)

(** [Database.DeleteTestRun]: the agent results of the run, then its row. *)
Definition DeleteTestRun (d : Database.t) (id : string) : Database.t :=
  {| Database.test_runs := delete id (Database.test_runs d);
     Database.agent_results := delete id (Database.agent_results d) |}.

(** [Database.SaveTestRun]: insert or replace the row of the run. *)
Definition SaveTestRun (d : Database.t) (testRun : TestRun.t) : Database.t :=
  {| Database.test_runs := <[TestRun.ID testRun := testRun]> (Database.test_runs d);
     Database.agent_results := Database.agent_results d |}.

Definition isCurrent (c : Coordinator.t) (testRunID : string) : bool :=
  match Coordinator.currentTestRun c with
  | Some id => String.eqb id testRunID
  | None => false
  end.

Definition handleDeleteTestRun (c : Coordinator.t) (testRunID : string)
  : Coordinator.t * Response.t :=
  match Coordinator.testRuns c !! testRunID with
  | None =>
      (c, {| Response.code := StatusNotFound;
             Response.body := {[ "error" := "Test run not found" ]} |})
  | Some testRun =>
      match TestRun.Status testRun with
      | TestRunStatusRunning | TestRunStatusWaiting =>
          (c, {| Response.code := StatusBadRequest;
                 Response.body :=
                   <[ "error" := "Cannot delete active test run" ]>
                     {[ "status" := status_string (TestRun.Status testRun) ]} |})
      | _ =>
          ({| Coordinator.database := DeleteTestRun (Coordinator.database c) testRunID;
              Coordinator.connectedAgents := Coordinator.connectedAgents c;
              Coordinator.testRuns := delete testRunID (Coordinator.testRuns c);
              Coordinator.currentTestRun :=
                if isCurrent c testRunID then None else Coordinator.currentTestRun c;
              Coordinator.agentResults := delete testRunID (Coordinator.agentResults c);
              Coordinator.phaseOrchestrator := Coordinator.phaseOrchestrator c |},
           {| Response.code := StatusOK;
              Response.body := {[ "message" := "Test run deleted" ]} |})
      end
  end.

(** ** Execution updates ([agent.go], [config.go]) *)

(** [sendExecutionUpdate]: the message that the agent publishes; [ts] is
    the formatted clock reading. *)
Definition sendExecutionUpdate (a : Agent.t) (status message ts : string) : Msg.t :=
  let update : gmap string string :=
    <[ "agent_id" := Agent.id a ]>
      (<[ "timestamp" := ts ]>
         (<[ "status" := status ]> {[ "message" := message ]})) in
  {| Msg.subject := "armonite.agent.status";
     Msg.data := if String.eqb (Agent.currentTestRunID a) "" then update
                 else <[ "test_run_id" := Agent.currentTestRunID a ]> update |}.

(** The subscriptions of [startAgentRegistration], in the order in which
    it makes them. *)
Definition startAgentRegistration : list (string * Callback) :=
  [ ("armonite.agent.register", RegistrationCallback);
    ("armonite.agent.heartbeat", HeartbeatCallback);
    ("armonite.agent.execution", ExecutionCallback) ].

(** [json.Unmarshal] into [AgentExecutionUpdate]: a missing field is left
    at its zero value. *)
Definition unmarshalExecutionUpdate (data : gmap string string)
  : AgentExecutionUpdate.t :=
  {| AgentExecutionUpdate.AgentID := default "" (data !! "agent_id");
     AgentExecutionUpdate.Status := default "" (data !! "status");
     AgentExecutionUpdate.Message := default "" (data !! "message");
     AgentExecutionUpdate.Timestamp := default "" (data !! "timestamp") |}.

Definition setExecutionState (state : string) (agent : AgentInfo.t) : AgentInfo.t :=
  {| AgentInfo.ID := AgentInfo.ID agent;
     AgentInfo.Region := AgentInfo.Region agent;
     AgentInfo.ConnectedAt := AgentInfo.ConnectedAt agent;
     AgentInfo.LastSeen := AgentInfo.LastSeen agent;
     AgentInfo.Concurrency := AgentInfo.Concurrency agent;
     AgentInfo.ExecutionState := state |}.

Definition setAgents (c : Coordinator.t) (agents : gmap string AgentInfo.t)
  : Coordinator.t :=
  {| Coordinator.database := Coordinator.database c;
     Coordinator.connectedAgents := agents;
     Coordinator.testRuns := Coordinator.testRuns c;
     Coordinator.currentTestRun := Coordinator.currentTestRun c;
     Coordinator.agentResults := Coordinator.agentResults c;
     Coordinator.phaseOrchestrator := Coordinator.phaseOrchestrator c |}.

Definition handleAgentExecutionUpdate (c : Coordinator.t)
    (update : AgentExecutionUpdate.t) : Coordinator.t :=
  let id := AgentExecutionUpdate.AgentID update in
  let agents :=
    alter (setExecutionState (AgentExecutionUpdate.Status update)) id
      (Coordinator.connectedAgents c) in
  if String.eqb (AgentExecutionUpdate.Status update) "completed"
  then setAgents c (alter (setExecutionState "idle") id agents)
  else setAgents c agents.

Definition setLastSeen (now : Z) (agent : AgentInfo.t) : AgentInfo.t :=
  {| AgentInfo.ID := AgentInfo.ID agent;
     AgentInfo.Region := AgentInfo.Region agent;
     AgentInfo.ConnectedAt := AgentInfo.ConnectedAt agent;
     AgentInfo.LastSeen := now;
     AgentInfo.Concurrency := AgentInfo.Concurrency agent;
     AgentInfo.ExecutionState := AgentInfo.ExecutionState agent |}.

Definition handleAgentHeartbeat (c : Coordinator.t) (agentID : string) (now : Z)
  : Coordinator.t :=
  setAgents c (alter (setLastSeen now) agentID (Coordinator.connectedAgents c)).

(** The registration callback ([handleAgentRegistration] and
    [handleAgentUnregistration]) is not modelled; it is a parameter. *)
Variable registrationCallback : gmap string string -> Z -> Coordinator.t -> Coordinator.t.

Definition runCallback (cb : Callback) (data : gmap string string) (now : Z)
    (c : Coordinator.t) : Coordinator.t :=
  match cb with
  | RegistrationCallback => registrationCallback data now c
  | HeartbeatCallback => handleAgentHeartbeat c (default "" (data !! "agent_id")) now
  | ExecutionCallback => handleAgentExecutionUpdate c (unmarshalExecutionUpdate data)
  end.

(** The bus delivers a message to every subscription on its subject; the
    subjects of this program contain no wildcard. *)
Definition deliver (subscriptions : list (string * Callback)) (m : Msg.t) (now : Z)
    (c : Coordinator.t) : Coordinator.t :=
  fold_left
    (fun c sub =>
       if String.eqb (fst sub) (Msg.subject m)
       then runCallback (snd sub) (Msg.data m) now c
       else c)
    subscriptions c.

(** ** Finalisation of a run ([test_run.go]) *)

(** [TestRun.Complete] at clock reading [now]. *)
Definition Complete (testRun : TestRun.t) (results : TestRunResults.t) (now : Z)
  : TestRun.t :=
  {| TestRun.ID := TestRun.ID testRun;
     TestRun.Name := TestRun.Name testRun;
     TestRun.PlanDuration := TestRun.PlanDuration testRun;
     TestRun.PlanStrategy := TestRun.PlanStrategy testRun;
     TestRun.Status := TestRunStatusCompleted;
     TestRun.CreatedAt := TestRun.CreatedAt testRun;
     TestRun.StartedAt := TestRun.StartedAt testRun;
     TestRun.CompletedAt := Some now;
     TestRun.Duration :=
       match TestRun.StartedAt testRun with
       | Some started => Some (DurationString (Sub now started))
       | None => TestRun.Duration testRun
       end;
     TestRun.Results := Some results;
     TestRun.AgentCount := TestRun.AgentCount testRun |}.

(** [statusCodes[code] += count] for every entry of the map of a result. *)
Definition addCodes (codes : gmap string Z) (statusCodes : gmap string Z)
  : gmap string Z :=
  map_fold
    (fun code count acc => <[code := wrap64 (default 0 (acc !! code) + count)]> acc)
    statusCodes codes.

(** One iteration of the loop over the agent results.  (The product and
    the sum of [totalLatency] are rounded separately; a compiler that
    fuses them rounds once, which touches the average latency only.) *)
Definition aggregate (acc : Totals.t) (result : AgentResult.t) : Totals.t :=
  {| Totals.totalRequests :=
       wrap64 (Totals.totalRequests acc + AgentResult.Requests result);
     Totals.totalErrors :=
       wrap64 (Totals.totalErrors acc + AgentResult.Errors result);
     Totals.totalLatency :=
       F64.add (Totals.totalLatency acc)
         (F64.mul (AgentResult.AvgLatencyMs result)
                  (F64.of_int (AgentResult.Requests result)));
     Totals.minLatency :=
       if F64.gtb (AgentResult.MinLatencyMs result) 0
          && (F64.eqb (Totals.minLatency acc) 0
              || F64.ltb (AgentResult.MinLatencyMs result) (Totals.minLatency acc))
       then AgentResult.MinLatencyMs result
       else Totals.minLatency acc;
     Totals.maxLatency :=
       if F64.gtb (AgentResult.MaxLatencyMs result) (Totals.maxLatency acc)
       then AgentResult.MaxLatencyMs result
       else Totals.maxLatency acc;
     Totals.statusCodes :=
       addCodes (AgentResult.StatusCodes result) (Totals.statusCodes acc) |}.

(** The variables before the loop: the latency bounds start from the
    first result. *)
Definition initialTotals (agentResults : list AgentResult.t) : Totals.t :=
  {| Totals.totalRequests := 0;
     Totals.totalErrors := 0;
     Totals.totalLatency := 0%Q;
     Totals.minLatency :=
       match agentResults with
       | first :: _ => AgentResult.MinLatencyMs first
       | [] => 0%Q
       end;
     Totals.maxLatency :=
       match agentResults with
       | first :: _ => AgentResult.MaxLatencyMs first
       | [] => 0%Q
       end;
     Totals.statusCodes := ∅ |}.

(** The results that [completeTestRun] computes for [testRun] as it finds
    it, before the call of [Complete]. *)
Definition computeResults (testRun : TestRun.t) (agentResults : list AgentResult.t)
  : TestRunResults.t :=
  let t := fold_left aggregate agentResults (initialTotals agentResults) in
  let totalRequests := Totals.totalRequests t in
  let totalErrors := Totals.totalErrors t in
  let avgLatency :=
    if 0 <? totalRequests
    then F64.div (Totals.totalLatency t) (F64.of_int totalRequests)
    else 0%Q in
  let successRate :=
    if 0 <? totalRequests
    then F64.mul (F64.div (F64.of_int (wrap64 (totalRequests - totalErrors)))
                          (F64.of_int totalRequests))
                 (F64.of_int 100)
    else F64.of_int 100 in
  let requestsPerSec :=
    match TestRun.StartedAt testRun, TestRun.CompletedAt testRun with
    | Some started, Some completed =>
        let durationSeconds := Seconds (Sub completed started) in
        if F64.gtb durationSeconds 0
        then F64.div (F64.of_int totalRequests) durationSeconds
        else 0%Q
    | _, _ => 0%Q
    end in
  {| TestRunResults.TotalRequests := totalRequests;
     TestRunResults.TotalErrors := totalErrors;
     TestRunResults.SuccessRate := successRate;
     TestRunResults.AvgLatencyMs := avgLatency;
     TestRunResults.MinLatencyMs := Totals.minLatency t;
     TestRunResults.MaxLatencyMs := Totals.maxLatency t;
     TestRunResults.RequestsPerSec := requestsPerSec;
     TestRunResults.StatusCodes := Totals.statusCodes t;
     TestRunResults.AgentResults := agentResults |}.

(** [completeTestRun] when the completion timer fires at clock reading
    [now]. *)
Definition completeTestRun (c : Coordinator.t) (testRunID : string) (now : Z)
  : Coordinator.t :=
  match Coordinator.testRuns c !! testRunID with
  | None => c
  | Some testRun =>
      let agentResults := default [] (Coordinator.agentResults c !! testRunID) in
      let results := computeResults testRun agentResults in
      let testRun' := Complete testRun results now in
      {| Coordinator.database := SaveTestRun (Coordinator.database c) testRun';
         Coordinator.connectedAgents := Coordinator.connectedAgents c;
         Coordinator.testRuns := <[testRunID := testRun']> (Coordinator.testRuns c);
         Coordinator.currentTestRun :=
           if isCurrent c testRunID then None else Coordinator.currentTestRun c;
         Coordinator.agentResults := Coordinator.agentResults c;
         Coordinator.phaseOrchestrator := None |}
  end.

(** [TestRun.Start] and [MarkRunning] ([handleStartTestRun],
    [startTestRun]). *)
Definition StartRun (testRun : TestRun.t) (now : Z) : TestRun.t :=
  {| TestRun.ID := TestRun.ID testRun;
     TestRun.Name := TestRun.Name testRun;
     TestRun.PlanDuration := TestRun.PlanDuration testRun;
     TestRun.PlanStrategy := TestRun.PlanStrategy testRun;
     TestRun.Status := TestRunStatusWaiting;
     TestRun.CreatedAt := TestRun.CreatedAt testRun;
     TestRun.StartedAt := Some now;
     TestRun.CompletedAt := TestRun.CompletedAt testRun;
     TestRun.Duration := TestRun.Duration testRun;
     TestRun.Results := TestRun.Results testRun;
     TestRun.AgentCount := TestRun.AgentCount testRun |}.

Definition MarkRunning (testRun : TestRun.t) : TestRun.t :=
  {| TestRun.ID := TestRun.ID testRun;
     TestRun.Name := TestRun.Name testRun;
     TestRun.PlanDuration := TestRun.PlanDuration testRun;
     TestRun.PlanStrategy := TestRun.PlanStrategy testRun;
     TestRun.Status := TestRunStatusRunning;
     TestRun.CreatedAt := TestRun.CreatedAt testRun;
     TestRun.StartedAt := TestRun.StartedAt testRun;
     TestRun.CompletedAt := TestRun.CompletedAt testRun;
     TestRun.Duration := TestRun.Duration testRun;
     TestRun.Results := TestRun.Results testRun;
     TestRun.AgentCount := TestRun.AgentCount testRun |}.

(** [NewTestRun] with the generated identifier [id], created at [now]. *)
Definition NewTestRun (id name planDuration : string)
    (strategy : option RampUpStrategy.t) (minAgents : Z) (now : Z) : TestRun.t :=
  {| TestRun.ID := id;
     TestRun.Name := name;
     TestRun.PlanDuration := planDuration;
     TestRun.PlanStrategy := strategy;
     TestRun.Status := TestRunStatusCreated;
     TestRun.CreatedAt := now;
     TestRun.StartedAt := None;
     TestRun.CompletedAt := None;
     TestRun.Duration := None;
     TestRun.Results := None;
     TestRun.AgentCount := minAgents |}.

(** ** Phase completion on the coordinator ([phase.go]) *)

(** The capacity of [phaseDoneCh]: [make(chan int, 10)]. *)
Definition phaseDoneCapacity : nat := 10.

Definition NewPhaseOrchestrator (testRunID : string)
    (agents : gmap string AgentInfo.t) : PhaseOrchestrator.t :=
  {| PhaseOrchestrator.testRunID := testRunID;
     PhaseOrchestrator.currentPhase := 0;
     PhaseOrchestrator.activeAgents := agents;
     PhaseOrchestrator.completedAgents := ∅;
     PhaseOrchestrator.phaseDoneCh := [] |}.

(** The head of the loop of [executePhases] for the phase [phaseIndex]:
    the phase becomes current and the set of completed agents is emptied. *)
Definition beginPhase (po : PhaseOrchestrator.t) (phaseIndex : Z)
  : PhaseOrchestrator.t :=
  {| PhaseOrchestrator.testRunID := PhaseOrchestrator.testRunID po;
     PhaseOrchestrator.currentPhase := phaseIndex;
     PhaseOrchestrator.activeAgents := PhaseOrchestrator.activeAgents po;
     PhaseOrchestrator.completedAgents := ∅;
     PhaseOrchestrator.phaseDoneCh := PhaseOrchestrator.phaseDoneCh po |}.

(** The callback that [monitorPhaseCompletion] subscribes, on one
    completion message: the send on the channel does not block, a signal
    for a full channel is dropped. *)
Definition monitorPhaseCompletion (po : PhaseOrchestrator.t)
    (completion : PhaseCompletion.t) : PhaseOrchestrator.t :=
  if PhaseCompletion.PhaseIndex completion =? PhaseOrchestrator.currentPhase po then
    let completed :=
      <[PhaseCompletion.AgentID completion := true]>
        (PhaseOrchestrator.completedAgents po) in
    let ch := PhaseOrchestrator.phaseDoneCh po in
    {| PhaseOrchestrator.testRunID := PhaseOrchestrator.testRunID po;
       PhaseOrchestrator.currentPhase := PhaseOrchestrator.currentPhase po;
       PhaseOrchestrator.activeAgents := PhaseOrchestrator.activeAgents po;
       PhaseOrchestrator.completedAgents := completed;
       PhaseOrchestrator.phaseDoneCh :=
         if (size completed =? size (PhaseOrchestrator.activeAgents po))%nat
         then if (length ch <? phaseDoneCapacity)%nat
              then ch ++ [PhaseCompletion.PhaseIndex completion]
              else ch
         else ch |}
  else po.

(** ** The agent registry ([config.go]) *)

(** The run that [currentTestRun] points to.  A current run that a bulk
    deletion has removed from [testRuns] is reachable through the pointer
    only; it is not represented. *)
Definition currentRun (c : Coordinator.t) : option TestRun.t :=
  match Coordinator.currentTestRun c with
  | Some id => Coordinator.testRuns c !! id
  | None => None
  end.

(** [handleAgentRegistration] at clock reading [now]; [started] is the
    clock reading of [calculator.Start].  The result is the coordinator,
    the field [RampUpExecution] of the entry that was stored (the record
    [AgentInfo.t] does not carry it), and whether [startTestRun] was
    launched for the current run. *)
Definition handleAgentRegistration (c : Coordinator.t)
    (registration : AgentRegistration.t) (now started : Z)
  : Coordinator.t * option RampUpExecution.t * bool :=
  let agentID := AgentRegistration.AgentID registration in
  let agentInfo :=
    {| AgentInfo.ID := agentID;
       AgentInfo.Region := AgentRegistration.Region registration;
       AgentInfo.ConnectedAt := now;
       AgentInfo.LastSeen := now;
       AgentInfo.Concurrency := AgentRegistration.Concurrency registration;
       AgentInfo.ExecutionState := "" |} in
  let rampUpExecution :=
    match currentRun c with
    | Some testRun =>
        match TestRun.PlanStrategy testRun with
        | Some strategy =>
            match NewRampUpCalculator strategy
                    (AgentRegistration.Concurrency registration) with
            | Some calculator => Some (snd (Start calculator started))
            | None => None
            end
        | None => None
        end
    | None => None
    end in
  let known := bool_decide (is_Some (Coordinator.connectedAgents c !! agentID)) in
  let agents := <[agentID := agentInfo]> (Coordinator.connectedAgents c) in
  let start :=
    negb known
    && match currentRun c with
       | Some testRun =>
           match TestRun.Status testRun with
           | TestRunStatusWaiting => TestRun.AgentCount testRun <=? Z.of_nat (size agents)
           | _ => false
           end
       | None => false
       end in
  (setAgents c agents, rampUpExecution, start).

Definition handleAgentUnregistration (c : Coordinator.t)
    (registration : AgentRegistration.t) : Coordinator.t :=
  setAgents c (delete (AgentRegistration.AgentID registration)
                 (Coordinator.connectedAgents c)).

(** [json.Unmarshal] into [AgentRegistration]: a missing field is left at
    its zero value, a concurrency that is not an integer is an error. *)
Definition unmarshalRegistration (data : gmap string string)
  : option AgentRegistration.t :=
  match match data !! "concurrency" with
        | Some text => atoi text
        | None => Some 0
        end with
  | Some concurrency =>
      Some {| AgentRegistration.AgentID := default "" (data !! "agent_id");
              AgentRegistration.Region := default "" (data !! "region");
              AgentRegistration.Concurrency := concurrency;
              AgentRegistration.Status := default "" (data !! "status");
              AgentRegistration.Timestamp := default "" (data !! "timestamp");
              AgentRegistration.Action := default "" (data !! "action") |}
  | None => None
  end.

(** The callback that [startAgentRegistration] subscribes to
    [armonite.agent.register], as far as it changes the coordinator. *)
Definition onRegistration (data : gmap string string) (now : Z) (c : Coordinator.t)
  : Coordinator.t :=
  match unmarshalRegistration data with
  | None => c
  | Some registration =>
      if String.eqb (AgentRegistration.Action registration) "register"
      then fst (fst (handleAgentRegistration c registration now now))
      else if String.eqb (AgentRegistration.Action registration) "unregister"
      then handleAgentUnregistration c registration
      else c
  end.

(** [cleanupStaleAgents] at clock reading [now]: the loop ranges over the
    registry and deletes from it. *)
Definition cleanupStaleAgents (c : Coordinator.t) (now : Z) : Coordinator.t :=
  let staleThreshold := 60 * Second in
  setAgents c
    (map_fold
       (fun agentID agent agents =>
          if staleThreshold <? Sub now (AgentInfo.LastSeen agent)
          then delete agentID agents
          else agents)
       (Coordinator.connectedAgents c) (Coordinator.connectedAgents c)).

(** ** Registration and heartbeat on the agent *)

(** The messages of [registerWithCoordinator], [unregisterFromCoordinator]
    and [sendHeartbeat]; [region] is the region of the agent and [ts] the
    formatted clock reading. *)
Definition registrationMessage (a : Agent.t) (region status ts action : string)
  : Msg.t :=
  {| Msg.subject := "armonite.agent.register";
     Msg.data :=
       <[ "agent_id" := Agent.id a ]>
         (<[ "region" := region ]>
            (<[ "concurrency" := itoa (Agent.concurrency a) ]>
               (<[ "status" := status ]>
                  (<[ "timestamp" := ts ]> {[ "action" := action ]})))) |}.

Definition registerWithCoordinator (a : Agent.t) (region ts : string) : Msg.t :=
  registrationMessage a region "ready" ts "register".

Definition unregisterFromCoordinator (a : Agent.t) (region ts : string) : Msg.t :=
  registrationMessage a region "shutting_down" ts "unregister".

Definition sendHeartbeat (a : Agent.t) (ts : string) : Msg.t :=
  {| Msg.subject := "armonite.agent.heartbeat";
     Msg.data := <[ "agent_id" := Agent.id a ]> {[ "timestamp" := ts ]} |}.

(** ** Telemetry on the coordinator *)

(** The callback that [startTelemetryCollection] subscribes to
    [armonite.telemetry], at clock reading [now].  [lastUpdate] is the
    rate-limiting state of its goroutine; the result holds the metrics when
    they are passed on to [handleTelemetryUpdate], which publishes them on
    the internal subject for [processTelemetryUpdate]. *)
Definition startTelemetryCollection (lastUpdate : gmap string Z)
    (metrics : AgentMetrics.t) (now : Z) : gmap string Z * option AgentMetrics.t :=
  let pass := (<[AgentMetrics.AgentID metrics := now]> lastUpdate, Some metrics) in
  match lastUpdate !! AgentMetrics.AgentID metrics with
  | Some lastTime => if Sub now lastTime <? Second then (lastUpdate, None) else pass
  | None => pass
  end.

(** [getCurrentTestRunInfo]: the arguments that it gives its callback. *)
Definition getCurrentTestRunInfo (c : Coordinator.t) : string * string :=
  (match Coordinator.currentTestRun c with
   | Some id => id
   | None => ""
   end, "").

(** The [AgentResult] that [processTelemetryUpdate] makes of the metrics. *)
Definition newResult (metrics : AgentMetrics.t) (region : string) : AgentResult.t :=
  {| AgentResult.AgentID := AgentMetrics.AgentID metrics;
     AgentResult.Region := region;
     AgentResult.Requests := AgentMetrics.Requests metrics;
     AgentResult.Errors := AgentMetrics.Errors metrics;
     AgentResult.AvgLatencyMs := AgentMetrics.AvgLatencyMs metrics;
     AgentResult.MinLatencyMs := AgentMetrics.MinLatencyMs metrics;
     AgentResult.MaxLatencyMs := AgentMetrics.MaxLatencyMs metrics;
     AgentResult.StatusCodes := AgentMetrics.StatusCodes metrics |}.

(** The search loop of [processTelemetryUpdate]: the first result of the
    agent is overwritten; [None] when the loop ends with [found] unset. *)
Fixpoint replaceResult (result : AgentResult.t) (results : list AgentResult.t)
  : option (list AgentResult.t) :=
  match results with
  | [] => None
  | agent :: rest =>
      if String.eqb (AgentResult.AgentID agent) (AgentResult.AgentID result)
      then Some (result :: rest)
      else match replaceResult result rest with
           | Some rest' => Some (agent :: rest')
           | None => None
           end
  end.

(** [processTelemetryUpdate] on the decoded metrics: the new value of the
    map [agentResults] of the internal message handler, and the results
    that are handed to [saveAgentResultsToDatabase] with their run. *)
Definition processTelemetryUpdate (c : Coordinator.t) (metrics : AgentMetrics.t)
    (agentResults : gmap string (list AgentResult.t))
  : gmap string (list AgentResult.t) * option (string * list AgentResult.t) :=
  let '(testRunID, region) := getCurrentTestRunInfo c in
  if String.eqb testRunID "" then (agentResults, None)
  else
    let results := default [] (agentResults !! testRunID) in
    let result := newResult metrics region in
    let results' :=
      match replaceResult result results with
      | Some results' => results'
      | None => results ++ [result]
      end in
    (<[testRunID := results']> agentResults, Some (testRunID, results')).

(** ** The result writer *)

(** [getTotalOtherStatus]: the counts of the codes that have no column of
    their own in the CSV file. *)
Definition getTotalOtherStatus (statusCodes : gmap string Z) : Z :=
  map_fold
    (fun code count total =>
       if negb (String.eqb code "200") && negb (String.eqb code "400")
          && negb (String.eqb code "500")
       then wrap64 (total + count)
       else total)
    0 statusCodes.

(** One iteration of the loop of [CreateTestResults] over the agents; the
    bounds are taken from the average latencies. *)
Definition accumulate (acc : Totals.t) (agent : AgentResult.t) : Totals.t :=
  {| Totals.totalRequests :=
       wrap64 (Totals.totalRequests acc + AgentResult.Requests agent);
     Totals.totalErrors :=
       wrap64 (Totals.totalErrors acc + AgentResult.Errors agent);
     Totals.totalLatency :=
       F64.add (Totals.totalLatency acc)
         (F64.mul (AgentResult.AvgLatencyMs agent)
                  (F64.of_int (AgentResult.Requests agent)));
     Totals.minLatency :=
       if F64.ltb (AgentResult.AvgLatencyMs agent) (Totals.minLatency acc)
          && F64.gtb (AgentResult.AvgLatencyMs agent) 0
       then AgentResult.AvgLatencyMs agent
       else Totals.minLatency acc;
     Totals.maxLatency :=
       if F64.gtb (AgentResult.AvgLatencyMs agent) (Totals.maxLatency acc)
       then AgentResult.AvgLatencyMs agent
       else Totals.maxLatency acc;
     Totals.statusCodes :=
       addCodes (AgentResult.StatusCodes agent) (Totals.statusCodes acc) |}.

(** [CreateTestResults] at clock reading [now].  The success rate of an
    empty total is first the NaN of [0 / 0] and then set to 0. *)
Definition CreateTestResults (testName : string) (startTime : Z)
    (agents : list AgentResult.t) (now : Z) : TestResults.t :=
  let endTime := now in
  let duration := Sub endTime startTime in
  let t := fold_left accumulate agents
             {| Totals.totalRequests := 0;
                Totals.totalErrors := 0;
                Totals.totalLatency := 0%Q;
                Totals.minLatency := F64.of_int 999999;
                Totals.maxLatency := F64.of_int 0;
                Totals.statusCodes := ∅ |} in
  let totalRequests := Totals.totalRequests t in
  let totalErrors := Totals.totalErrors t in
  {| TestResults.TestName := testName;
     TestResults.StartTime := startTime;
     TestResults.EndTime := endTime;
     TestResults.Duration := DurationString duration;
     TestResults.TotalRequests := totalRequests;
     TestResults.TotalErrors := totalErrors;
     TestResults.SuccessRate :=
       if totalRequests =? 0 then 0%Q
       else F64.mul (F64.div (F64.of_int (wrap64 (totalRequests - totalErrors)))
                             (F64.of_int totalRequests))
                    (F64.of_int 100);
     TestResults.AvgLatencyMs :=
       if 0 <? totalRequests
       then F64.div (Totals.totalLatency t) (F64.of_int totalRequests)
       else 0%Q;
     TestResults.MinLatencyMs := Totals.minLatency t;
     TestResults.MaxLatencyMs := Totals.maxLatency t;
     TestResults.RequestsPerSec :=
       if F64.eqb (Seconds duration) 0 then None
       else Some (F64.div (F64.of_int totalRequests) (Seconds duration));
     TestResults.StatusCodes := Totals.statusCodes t;
     TestResults.Agents := agents;
     TestResults.ActualConcurrency := Z.of_nat (length agents);
     TestResults.AgentCount := Z.of_nat (length agents) |}.

(** ** Starting, stopping and re-running a run ([test_run_handlers.go]) *)

Definition isActive (status : TestRunStatus) : bool :=
  match status with
  | TestRunStatusRunning | TestRunStatusWaiting => true
  | _ => false
  end.

(** The conflict reply when [currentTestRun] is running or waiting. *)
Definition activeConflict (c : Coordinator.t) : option Reply.t :=
  match currentRun c with
  | Some current =>
      if isActive (TestRun.Status current)
      then Some {| Reply.code := StatusConflict;
                   Reply.body :=
                     BodyObject
                       (<[ "error" := "Another test run is already active" ]>
                          {[ "active_test_run" := TestRun.ID current ]}) |}
      else None
  | None => None
  end.

(** The common end of [handleStartTestRun] and [handleRerunTestRun]: the
    run is started, made current and saved; the last component tells
    whether [startTestRun] is launched for it. *)
Definition startAndSave (c : Coordinator.t) (testRunID : string) (testRun : TestRun.t)
    (now : Z) : Coordinator.t * TestRun.t * bool :=
  let started := StartRun testRun now in
  let enough :=
    TestRun.AgentCount started <=? Z.of_nat (size (Coordinator.connectedAgents c)) in
  ({| Coordinator.database := SaveTestRun (Coordinator.database c) started;
      Coordinator.connectedAgents := Coordinator.connectedAgents c;
      Coordinator.testRuns := <[testRunID := started]> (Coordinator.testRuns c);
      Coordinator.currentTestRun := Some testRunID;
      Coordinator.agentResults := Coordinator.agentResults c;
      Coordinator.phaseOrchestrator := Coordinator.phaseOrchestrator c |},
   started, enough).

(** [handleStartTestRun] at clock reading [now]. *)
Definition handleStartTestRun (c : Coordinator.t) (testRunID : string) (now : Z)
  : Coordinator.t * Reply.t * bool :=
  match Coordinator.testRuns c !! testRunID with
  | None =>
      (c, {| Reply.code := StatusNotFound;
             Reply.body := BodyObject {[ "error" := "Test run not found" ]} |}, false)
  | Some testRun =>
      match TestRun.Status testRun with
      | TestRunStatusCreated =>
          match activeConflict c with
          | Some conflict => (c, conflict, false)
          | None =>
              let '(c', started, launched) := startAndSave c testRunID testRun now in
              (c', {| Reply.code := StatusOK; Reply.body := BodyTestRun started |},
               launched)
          end
      | status =>
          (c, {| Reply.code := StatusBadRequest;
                 Reply.body :=
                   BodyObject
                     (<[ "error" := "Test run cannot be started" ]>
                        {[ "status" := status_string status ]}) |}, false)
      end
  end.

(** [handleStopTestRun]: the reply and whether [stopTestRun] is launched. *)
Definition handleStopTestRun (c : Coordinator.t) (testRunID : string)
  : Reply.t * bool :=
  match Coordinator.testRuns c !! testRunID with
  | None =>
      ({| Reply.code := StatusNotFound;
          Reply.body := BodyObject {[ "error" := "Test run not found" ]} |}, false)
  | Some testRun =>
      if isActive (TestRun.Status testRun)
      then ({| Reply.code := StatusOK;
               Reply.body := BodyObject {[ "message" := "Test run stop initiated" ]} |},
            true)
      else ({| Reply.code := StatusBadRequest;
               Reply.body :=
                 BodyObject
                   (<[ "error" := "Test run is not running" ]>
                      {[ "status" := status_string (TestRun.Status testRun) ]}) |},
            false)
  end.

Definition setStatus (status : TestRunStatus) (testRun : TestRun.t) : TestRun.t :=
  {| TestRun.ID := TestRun.ID testRun;
     TestRun.Name := TestRun.Name testRun;
     TestRun.PlanDuration := TestRun.PlanDuration testRun;
     TestRun.PlanStrategy := TestRun.PlanStrategy testRun;
     TestRun.Status := status;
     TestRun.CreatedAt := TestRun.CreatedAt testRun;
     TestRun.StartedAt := TestRun.StartedAt testRun;
     TestRun.CompletedAt := TestRun.CompletedAt testRun;
     TestRun.Duration := TestRun.Duration testRun;
     TestRun.Results := TestRun.Results testRun;
     TestRun.AgentCount := TestRun.AgentCount testRun |}.

Definition setTestRuns (c : Coordinator.t) (testRuns : gmap string TestRun.t)
  : Coordinator.t :=
  {| Coordinator.database := Coordinator.database c;
     Coordinator.connectedAgents := Coordinator.connectedAgents c;
     Coordinator.testRuns := testRuns;
     Coordinator.currentTestRun := Coordinator.currentTestRun c;
     Coordinator.agentResults := Coordinator.agentResults c;
     Coordinator.phaseOrchestrator := Coordinator.phaseOrchestrator c |}.

(** [stopTestRun] on the run with the id [testRunID]: the command that it
    publishes on [armonite.test.command] and the coordinator with the run
    marked as completing. *)
Definition stopTestRun (c : Coordinator.t) (testRunID : string)
  : Coordinator.t * (string * TestStartCommand.t) :=
  (setTestRuns c (alter (setStatus TestRunStatusCompleting) testRunID
                    (Coordinator.testRuns c)),
   ("armonite.test.command",
    {| TestStartCommand.TestRunID := testRunID;
       TestStartCommand.Command := "STOP";
       TestStartCommand.CurrentPhase := None |})).

(** [handleRerunTestRun]: [newID] is the identifier that [NewTestRun]
    generates and [created] its clock reading; [now] is the later clock
    reading of [Start]. *)
Definition handleRerunTestRun (c : Coordinator.t) (testRunID newID : string)
    (created now : Z)
  : Coordinator.t * Reply.t * bool :=
  match Coordinator.testRuns c !! testRunID with
  | None =>
      (c, {| Reply.code := StatusNotFound;
             Reply.body := BodyObject {[ "error" := "Test run not found" ]} |}, false)
  | Some originalTestRun =>
      match TestRun.Status originalTestRun with
      | TestRunStatusRunning | TestRunStatusWaiting | TestRunStatusCreated =>
          (c, {| Reply.code := StatusBadRequest;
                 Reply.body :=
                   BodyObject
                     (<[ "error" :=
                           "Can only rerun completed, failed, or cancelled test runs" ]>
                        {[ "status" := status_string (TestRun.Status originalTestRun) ]}) |},
           false)
      | _ =>
          match activeConflict c with
          | Some conflict => (c, conflict, false)
          | None =>
              let newTestRun :=
                NewTestRun newID (TestRun.Name originalTestRun +:+ " (Rerun)")
                  (TestRun.PlanDuration originalTestRun)
                  (TestRun.PlanStrategy originalTestRun)
                  (TestRun.AgentCount originalTestRun) created in
              let stored :=
                {| Coordinator.database := SaveTestRun (Coordinator.database c) newTestRun;
                   Coordinator.connectedAgents := Coordinator.connectedAgents c;
                   Coordinator.testRuns := <[newID := newTestRun]> (Coordinator.testRuns c);
                   Coordinator.currentTestRun := Coordinator.currentTestRun c;
                   Coordinator.agentResults := Coordinator.agentResults c;
                   Coordinator.phaseOrchestrator := Coordinator.phaseOrchestrator c |} in
              let '(c', started, launched) := startAndSave stored newID newTestRun now in
              (c', {| Reply.code := StatusCreated; Reply.body := BodyTestRun started |},
               launched)
          end
      end
  end.

(** ** Bulk deletion and statistics ([database.go], [test_run_handlers.go]) *)

(** The text of the error of [time.ParseDuration] on a string that it
    rejects. *)
Variable ParseDurationError : string -> string.

(** The rows of [test_runs] whose column [status] is [status]. *)
Definition rowsWithStatus (d : Database.t) (status : string) : gmap string TestRun.t :=
  filter (fun row => status_string (TestRun.Status (snd row)) = status)
    (Database.test_runs d).

(** The rows whose column [created_at] is before [cutoffTime]. *)
Definition rowsCreatedBefore (d : Database.t) (cutoffTime : Z) : gmap string TestRun.t :=
  filter (fun row => TestRun.CreatedAt (snd row) < cutoffTime) (Database.test_runs d).

(** The two [DELETE] statements of the bulk deletions, for the rows [rows]
    that the selection found: nothing is done when there is none. *)
Definition deleteRows (d : Database.t) (rows : gmap string TestRun.t) : Database.t * Z :=
  if (size rows =? 0)%nat then (d, 0)
  else
    ({| Database.test_runs :=
          filter (fun row => rows !! fst row = None) (Database.test_runs d);
        Database.agent_results :=
          filter (fun row => rows !! fst row = None) (Database.agent_results d) |},
     Z.of_nat (size rows)).

Definition DeleteTestRunsByStatus (d : Database.t) (status : string) : Database.t * Z :=
  deleteRows d (rowsWithStatus d status).

(** [DeleteTestRunsOlderThan] at clock reading [now]. *)
Definition DeleteTestRunsOlderThan (d : Database.t) (duration : Z) (now : Z)
  : Database.t * Z :=
  deleteRows d (rowsCreatedBefore d (now - duration)).

Definition GetTestRunCount (d : Database.t) : Z :=
  Z.of_nat (size (Database.test_runs d)).

Definition GetTestRunCountByStatus (d : Database.t) (status : string) : Z :=
  Z.of_nat (size (rowsWithStatus d status)).

(** The loops of [handleBulkDeleteTestRuns] over the runs in memory: a run
    that the test [selected] picks is removed, with its agent results,
    unless it is running or waiting. *)
Definition removeFromMemory (selected : TestRun.t -> bool) (c : Coordinator.t)
  : Coordinator.t :=
  let '(testRuns, agentResults) :=
    map_fold
      (fun id testRun (acc : gmap string TestRun.t * gmap string (list AgentResult.t)) =>
         if selected testRun && negb (isActive (TestRun.Status testRun))
         then (delete id (fst acc), delete id (snd acc))
         else acc)
      (Coordinator.testRuns c, Coordinator.agentResults c)
      (Coordinator.testRuns c) in
  {| Coordinator.database := Coordinator.database c;
     Coordinator.connectedAgents := Coordinator.connectedAgents c;
     Coordinator.testRuns := testRuns;
     Coordinator.currentTestRun := Coordinator.currentTestRun c;
     Coordinator.agentResults := agentResults;
     Coordinator.phaseOrchestrator := Coordinator.phaseOrchestrator c |}.

Definition setDatabase (c : Coordinator.t) (d : Database.t) : Coordinator.t :=
  {| Coordinator.database := d;
     Coordinator.connectedAgents := Coordinator.connectedAgents c;
     Coordinator.testRuns := Coordinator.testRuns c;
     Coordinator.currentTestRun := Coordinator.currentTestRun c;
     Coordinator.agentResults := Coordinator.agentResults c;
     Coordinator.phaseOrchestrator := Coordinator.phaseOrchestrator c |}.

(** [handleBulkDeleteTestRuns] on a request that was bound, at the clock
    readings [now] of the database call and [later] of the handler. *)
Definition handleBulkDeleteTestRuns (c : Coordinator.t) (req : BulkDeleteRequest.t)
    (now later : Z) : Coordinator.t * Reply.t :=
  if negb (BulkDeleteRequest.Confirm req) then
    (c, {| Reply.code := StatusBadRequest;
           Reply.body :=
             BodyObject
               {[ "error" := "Bulk deletion requires confirmation (set confirm: true)" ]} |})
  else if negb (String.eqb (BulkDeleteRequest.Status req) "") then
    let status := BulkDeleteRequest.Status req in
    let '(d, deletedCount) := DeleteTestRunsByStatus (Coordinator.database c) status in
    (removeFromMemory
       (fun testRun => String.eqb (status_string (TestRun.Status testRun)) status)
       (setDatabase c d),
     {| Reply.code := StatusOK;
        Reply.body :=
          BodyObject
            (<[ "message" := "Deleted " +:+ itoa deletedCount
                             +:+ " test runs with status: " +:+ status ]>
               {[ "deleted_count" := itoa deletedCount ]}) |})
  else if negb (String.eqb (BulkDeleteRequest.OlderThan req) "") then
    let olderThan := BulkDeleteRequest.OlderThan req in
    match ParseDuration olderThan with
    | None =>
        (c, {| Reply.code := StatusBadRequest;
               Reply.body :=
                 BodyObject
                   (<[ "error" := "Invalid duration format" ]>
                      {[ "details" := ParseDurationError olderThan ]}) |})
    | Some duration =>
        let '(d, deletedCount) :=
          DeleteTestRunsOlderThan (Coordinator.database c) duration now in
        let cutoffTime := later - duration in
        (removeFromMemory
           (fun testRun => TestRun.CreatedAt testRun <? cutoffTime)
           (setDatabase c d),
         {| Reply.code := StatusOK;
            Reply.body :=
              BodyObject
                (<[ "message" := "Deleted " +:+ itoa deletedCount
                                 +:+ " test runs older than " +:+ olderThan ]>
                   {[ "deleted_count" := itoa deletedCount ]}) |})
    end
  else
    (c, {| Reply.code := StatusBadRequest;
           Reply.body :=
             BodyObject
               {[ "error" := "Must specify either 'status' or 'older_than' parameter" ]} |}).

(** [handleTestRunStats]. *)
Definition handleTestRunStats (c : Coordinator.t) : Stats.t :=
  let statuses := ["created"; "waiting"; "running"; "completed"; "failed"; "cancelled"] in
  {| Stats.total_test_runs := GetTestRunCount (Coordinator.database c);
     Stats.status_breakdown :=
       fold_left
         (fun statusCounts status =>
            <[status := GetTestRunCountByStatus (Coordinator.database c) status]>
              statusCounts)
         statuses ∅;
     Stats.in_memory_test_runs := Z.of_nat (size (Coordinator.testRuns c));
     Stats.in_memory_agent_results := Z.of_nat (size (Coordinator.agentResults c));
     Stats.current_test_run :=
       match currentRun c with
       | Some current =>
           Some (TestRun.ID current, TestRun.Name current,
                 status_string (TestRun.Status current))
       | None => None
       end |}.

(** ** Phase commands on the agent and their completions ([agent.go],
    [phase.go]) *)

(** The subject of the agent's own commands ([subscribeToTestCommands]). *)
Definition agentCommandSubject (a : Agent.t) : string :=
  "armonite.agent." +:+ Agent.id a +:+ ".command".

(** The end of [executePhase]: once [executePhaseLoad] has returned, the
    completion is published on the subject of the run that the agent takes
    to be its current one. *)
Definition publishPhaseCompletion (a : Agent.t) (phase : option PhaseInfo.t)
  : option (string * PhaseCompletion.t) :=
  match executePhase a phase with
  | PhaseRan _ _ _ completion =>
      Some ("armonite.phase.complete." +:+ Agent.currentTestRunID a, completion)
  | _ => None
  end.

(** [handleAgentCommand]: the phase completion that the command makes the
    agent publish.  [STOP_PHASE] closes the stop channel of the phase and
    publishes nothing; any other command is ignored. *)
Definition handleAgentCommand (a : Agent.t) (command : TestStartCommand.t)
  : option (string * PhaseCompletion.t) :=
  if String.eqb (TestStartCommand.Command command) "START_PHASE"
  then publishPhaseCompletion a (TestStartCommand.CurrentPhase command)
  else None.

(** The subscription of the agent on its own subject, on a message of the
    orchestrator. *)
Definition receivePhaseCommand (a : Agent.t) (sent : Sent.t)
  : option (string * PhaseCompletion.t) :=
  if String.eqb (Sent.subject sent) (agentCommandSubject a)
  then handleAgentCommand a (Sent.command sent)
  else None.

(** The subject on which [monitorPhaseCompletion] subscribes. *)
Definition phaseCompleteSubject (po : PhaseOrchestrator.t) : string :=
  "armonite.phase.complete." +:+ PhaseOrchestrator.testRunID po.

(** The bus hands a published completion to the subscription of
    [monitorPhaseCompletion] when the subjects agree. *)
Definition deliverPhaseCompletion (po : PhaseOrchestrator.t)
    (published : option (string * PhaseCompletion.t)) : PhaseOrchestrator.t :=
  match published with
  | Some (subject, completion) =>
      if String.eqb subject (phaseCompleteSubject po)
      then monitorPhaseCompletion po completion
      else po
  | None => po
  end.

(** ** Creating, starting and reading a run ([test_run.go],
    [test_run_handlers.go], [database.go]) *)

(** [TestRun.Fail] at clock reading [now]. *)
Definition Fail (testRun : TestRun.t) (now : Z) : TestRun.t :=
  {| TestRun.ID := TestRun.ID testRun;
     TestRun.Name := TestRun.Name testRun;
     TestRun.PlanDuration := TestRun.PlanDuration testRun;
     TestRun.PlanStrategy := TestRun.PlanStrategy testRun;
     TestRun.Status := TestRunStatusFailed;
     TestRun.CreatedAt := TestRun.CreatedAt testRun;
     TestRun.StartedAt := TestRun.StartedAt testRun;
     TestRun.CompletedAt := Some now;
     TestRun.Duration :=
       match TestRun.StartedAt testRun with
       | Some started => Some (DurationString (Sub now started))
       | None => TestRun.Duration testRun
       end;
     TestRun.Results := TestRun.Results testRun;
     TestRun.AgentCount := TestRun.AgentCount testRun |}.

(** [handleCreateTestRun] on a request that was bound: [defaultMinAgents]
    is the default of the configuration, [newID] the identifier that
    [NewTestRun] generates and [now] its clock reading. *)
Definition handleCreateTestRun (c : Coordinator.t) (req : CreateTestRunRequest.t)
    (defaultMinAgents : Z) (newID : string) (now : Z) : Coordinator.t * Reply.t :=
  if String.eqb (CreateTestRunRequest.Name req) "" then
    (c, {| Reply.code := StatusBadRequest;
           Reply.body := BodyObject {[ "error" := "Test run name is required" ]} |})
  else if (length (CreateTestRunRequest.Endpoints req) =? 0)%nat then
    (c, {| Reply.code := StatusBadRequest;
           Reply.body :=
             BodyObject {[ "error" := "Test plan must have at least one endpoint" ]} |})
  else
    let minAgents :=
      if CreateTestRunRequest.MinAgents req =? 0 then defaultMinAgents
      else CreateTestRunRequest.MinAgents req in
    let testRun :=
      NewTestRun newID (CreateTestRunRequest.Name req)
        (CreateTestRunRequest.PlanDuration req) (CreateTestRunRequest.PlanStrategy req)
        minAgents now in
    ({| Coordinator.database := SaveTestRun (Coordinator.database c) testRun;
        Coordinator.connectedAgents := Coordinator.connectedAgents c;
        Coordinator.testRuns := <[TestRun.ID testRun := testRun]> (Coordinator.testRuns c);
        Coordinator.currentTestRun := Coordinator.currentTestRun c;
        Coordinator.agentResults := Coordinator.agentResults c;
        Coordinator.phaseOrchestrator := Coordinator.phaseOrchestrator c |},
     {| Reply.code := StatusCreated; Reply.body := BodyTestRun testRun |}).

(** [Database.GetTestRun]: the row of the run, if there is one. *)
Definition GetTestRun (d : Database.t) (id : string) : option TestRun.t :=
  Database.test_runs d !! id.

(** [handleGetTestRun]: the database first, then the memory. *)
Definition handleGetTestRun (c : Coordinator.t) (testRunID : string) : Reply.t :=
  match GetTestRun (Coordinator.database c) testRunID with
  | Some testRun => {| Reply.code := StatusOK; Reply.body := BodyTestRun testRun |}
  | None =>
      match Coordinator.testRuns c !! testRunID with
      | Some testRun => {| Reply.code := StatusOK; Reply.body := BodyTestRun testRun |}
      | None =>
          {| Reply.code := StatusNotFound;
             Reply.body := BodyObject {[ "error" := "Test run not found" ]} |}
      end
  end.

(** [Database.SaveAgentResults]: the rows of the run are replaced. *)
Definition SaveAgentResults (d : Database.t) (testRunID : string)
    (results : list AgentResult.t) : Database.t :=
  {| Database.test_runs := Database.test_runs d;
     Database.agent_results :=
       match results with
       | [] => delete testRunID (Database.agent_results d)
       | _ => <[testRunID := results]> (Database.agent_results d)
       end |}.

Definition saveAgentResultsToDatabase (c : Coordinator.t) (testRunID : string)
    (results : list AgentResult.t) : Coordinator.t :=
  setDatabase c (SaveAgentResults (Coordinator.database c) testRunID results).

(** [hasSequentialPhases]. *)
Definition hasSequentialPhases (strategy : option RampUpStrategy.t) : bool :=
  match strategy with
  | None => false
  | Some strategy =>
      if negb (String.eqb (RampUpStrategy.Type_ strategy) "custom") then false
      else existsb (fun phase => String.eqb (RampPhase.Mode phase) "sequential")
             (RampUpStrategy.Phases strategy)
  end.

(** The first loop of [broadcastTestStart]: every connected agent without a
    ramp-up execution gets one, if the strategy has a calculator;
    [started] gives the clock reading of [calculator.Start] for each
    agent. *)
Definition initRampUp (strategy : option RampUpStrategy.t)
    (agents : gmap string AgentInfo.t) (executions : gmap string RampUpExecution.t)
    (started : string -> Z) : gmap string RampUpExecution.t :=
  match strategy with
  | None => executions
  | Some strategy =>
      map_fold
        (fun agentID agent executions =>
           match executions !! agentID with
           | Some _ => executions
           | None =>
               match NewRampUpCalculator strategy (AgentInfo.Concurrency agent) with
               | Some calculator =>
                   <[agentID := snd (Start calculator (started agentID))]> executions
               | None => executions
               end
           end)
        executions agents
  end.

Definition setOrchestrator (c : Coordinator.t) (orchestrator : option string)
  : Coordinator.t :=
  {| Coordinator.database := Coordinator.database c;
     Coordinator.connectedAgents := Coordinator.connectedAgents c;
     Coordinator.testRuns := Coordinator.testRuns c;
     Coordinator.currentTestRun := Coordinator.currentTestRun c;
     Coordinator.agentResults := Coordinator.agentResults c;
     Coordinator.phaseOrchestrator := orchestrator |}.

(** [broadcastTestStart] for the run [testRun]: [ts] is the formatted clock
    reading and [publishOK] tells whether the command could be marshalled
    and published.  The last component is [false] when an error is
    returned. *)
Definition broadcastTestStart (c : Coordinator.t)
    (executions : gmap string RampUpExecution.t) (testRun : TestRun.t)
    (started : string -> Z) (ts : string) (publishOK : bool)
  : Coordinator.t * gmap string RampUpExecution.t * option PhaseOrchestrator.t
    * list TestStart.t * bool :=
  let executions :=
    initRampUp (TestRun.PlanStrategy testRun) (Coordinator.connectedAgents c)
      executions started in
  if hasSequentialPhases (TestRun.PlanStrategy testRun) then
    (setOrchestrator c (Some (TestRun.ID testRun)), executions,
     Some (NewPhaseOrchestrator (TestRun.ID testRun) (Coordinator.connectedAgents c)),
     [], true)
  else if publishOK then
    (c, executions, None,
     [ {| TestStart.TestRunID := TestRun.ID testRun;
          TestStart.PlanDuration := TestRun.PlanDuration testRun;
          TestStart.PlanStrategy := TestRun.PlanStrategy testRun;
          TestStart.StartTime := ts;
          TestStart.Command := "START" |} ],
     true)
  else (c, executions, None, [], false).

(** [startTestRun] on the run with the id [testRunID], which is still in
    [testRuns]; [failedAt] is the clock reading of [Fail].  (A run that was
    deleted in between is reachable from the caller only, which this
    representation of pointers does not cover.) *)
Definition startTestRun (c : Coordinator.t) (executions : gmap string RampUpExecution.t)
    (testRunID : string) (started : string -> Z) (ts : string) (publishOK : bool)
    (failedAt : Z) : option Started.t :=
  match Coordinator.testRuns c !! testRunID with
  | None => None
  | Some testRun =>
      let running := MarkRunning testRun in
      let c := setTestRuns c (<[testRunID := running]> (Coordinator.testRuns c)) in
      let '(c, executions, orchestrator, published, ok) :=
        broadcastTestStart c executions running started ts publishOK in
      if ok then
        Some {| Started.coordinator := c;
                Started.executions := executions;
                Started.orchestrator := orchestrator;
                Started.published := published;
                Started.timer :=
                  Some match ParseDuration (TestRun.PlanDuration running) with
                       | Some duration => duration
                       | None => Minute
                       end |}
      else
        Some {| Started.coordinator :=
                  setTestRuns c (<[testRunID := Fail running failedAt]>
                                   (Coordinator.testRuns c));
                Started.executions := executions;
                Started.orchestrator := orchestrator;
                Started.published := published;
                Started.timer := None |}
  end.

(** ** Parallel phases and the wait of the orchestrator ([phase.go]) *)

(** [executeParallelPhase]: [rangeOrder] is the order in which the range
    over the map [activeAgents] yields its keys, [clock] the time at which
    the commands are sent. *)
Definition executeParallelPhase (testRunID : string) (rangeOrder : list string)
    (phaseIndex : Z) (phase : RampPhase.t) (phaseID : string) (clock : Z)
  : list Sent.t :=
  let phaseInfo :=
    {| PhaseInfo.PhaseIndex := phaseIndex;
       PhaseInfo.PhaseID := phaseID;
       PhaseInfo.Mode := RampPhase.Mode phase;
       PhaseInfo.Concurrency := RampPhase.Concurrency phase;
       PhaseInfo.Duration := RampPhase.Duration phase;
       PhaseInfo.AgentOrder := [] |} in
  map (fun agentID => sendPhaseCommand testRunID agentID "START_PHASE" phaseInfo clock)
    rangeOrder.

(** The timer that [executePhases] sets after it has sent the commands of
    a phase. *)
Definition phaseTimer (phase : RampPhase.t) : Z :=
  match ParseDuration (RampPhase.Duration phase) with
  | Some phaseDuration => phaseDuration
  | None => 30 * Second
  end.

(** ** Test commands on the agent ([agent.go]) *)

Definition setCurrentTestRunID (a : Agent.t) (testRunID : string) : Agent.t :=
  {| Agent.id := Agent.id a;
     Agent.concurrency := Agent.concurrency a;
     Agent.currentTestRunID := testRunID |}.

(** [handleTestCommand] on a decoded command; [planName] is the name of the
    plan that the command carries and [ts] the formatted clock reading. *)
Definition handleTestCommand (a : Agent.t) (command : TestStartCommand.t)
    (planName ts : string) : TestCommandOutcome :=
  if String.eqb (TestStartCommand.Command command) "START" then
    let a :=
      if negb (String.eqb (TestStartCommand.TestRunID command) "")
      then setCurrentTestRunID a (TestStartCommand.TestRunID command)
      else a in
    TestStarted a
      (sendExecutionUpdate a "starting" ("Starting test execution: " +:+ planName) ts)
  else if String.eqb (TestStartCommand.Command command) "STOP" then
    if negb (String.eqb (TestStartCommand.TestRunID command) "")
       && negb (String.eqb (TestStartCommand.TestRunID command) (Agent.currentTestRunID a))
    then StopIgnored
    else TestStopped
           (sendExecutionUpdate a "stopping" "Received stop command from coordinator" ts)
  else CommandIgnored.

(** The command of [broadcastTestStart] as [handleTestCommand] reads it,
    without the plan. *)
Definition commandOf (start : TestStart.t) : TestStartCommand.t :=
  {| TestStartCommand.TestRunID := TestStart.TestRunID start;
     TestStartCommand.Command := TestStart.Command start;
     TestStartCommand.CurrentPhase := None |}.

(* ===================================================================== *)
(** * Statements of the specification *)
(* ===================================================================== *)

(** ** Validation *)

Definition knownType (ty : string) : Prop :=
  ty = RampUpTypeImmediate \/ ty = RampUpTypeLinear
  \/ ty = RampUpTypeStep \/ ty = RampUpTypeCustom.

Definition phaseBased (ty : string) : Prop :=
  ty = RampUpTypeStep \/ ty = RampUpTypeCustom.

Definition badDuration (phase : RampPhase.t) : Prop :=
  ParseDuration (RampPhase.Duration phase) = None.

Definition negativeConcurrency (phase : RampPhase.t) : Prop :=
  RampPhase.Concurrency phase < 0.

Definition badMode (phase : RampPhase.t) : Prop :=
  RampPhase.Mode phase <> "parallel" /\ RampPhase.Mode phase <> "sequential".

(** The rejection condition as the specification words it: the checks on
    the phases apply to every strategy type. *)
Definition rejectedBySpec (strategy : RampUpStrategy.t) : Prop :=
  ParseDuration (RampUpStrategy.Duration strategy) = None
  \/ ~ knownType (RampUpStrategy.Type_ strategy)
  \/ (phaseBased (RampUpStrategy.Type_ strategy)
      /\ RampUpStrategy.Phases strategy = [])
  \/ Exists badDuration (RampUpStrategy.Phases strategy)
  \/ Exists negativeConcurrency (RampUpStrategy.Phases strategy)
  \/ Exists badMode (RampUpStrategy.Phases strategy).

(** The rejection condition of the code: the phases are only looked at
    for the step and custom types. *)
Definition rejectedByCode (strategy : RampUpStrategy.t) : Prop :=
  ParseDuration (RampUpStrategy.Duration strategy) = None
  \/ ~ knownType (RampUpStrategy.Type_ strategy)
  \/ (phaseBased (RampUpStrategy.Type_ strategy)
      /\ (RampUpStrategy.Phases strategy = []
          \/ Exists badDuration (RampUpStrategy.Phases strategy)
          \/ Exists negativeConcurrency (RampUpStrategy.Phases strategy)
          \/ Exists badMode (RampUpStrategy.Phases strategy))).

(** ** Phase walk *)

Definition sumZ (l : list Z) : Z := fold_right Z.add 0 l.

(** The duration of a phase in nanoseconds (zero if it does not parse). *)
Definition phaseNanos (phase : RampPhase.t) : Z :=
  default 0 (ParseDuration (RampPhase.Duration phase)).

(** The sum of the durations of the phases before phase [i]. *)
Definition priorDurations (phases : list RampPhase.t) (i : nat) : Z :=
  sumZ (map phaseNanos (take i phases)).

(** Phase [i] covers [elapsed]: its duration parses and
    [elapsed <= (sum of prior durations) + duration of phase i]. *)
Definition covers (phases : list RampPhase.t) (elapsed : Z) (i : nat) : Prop :=
  exists phase d, phases !! i = Some phase
    /\ ParseDuration (RampPhase.Duration phase) = Some d
    /\ elapsed <= priorDurations phases i + d.

(** No cumulative duration leaves the range of [time.Duration]. *)
Definition noOverflow (phases : list RampPhase.t) : Prop :=
  forall i : nat, (i <= length phases)%nat -> in_int64 (priorDurations phases i).

(** ** Phase execution on the agent *)

(** The worker ids [0, 1, ..., n-1]. *)
Definition workerIDs (n : Z) : list Z := map Z.of_nat (seq 0 (Z.to_nat n)).

(** ** Sequential phases *)

(** The [START_PHASE] command for the agent at position [k] of the sorted
    ids, sent [k * perAgent] after the phase was entered. *)
Definition expectedSend (testRunID : string) (phaseIndex : Z) (phase : RampPhase.t)
    (phaseID : string) (perAgent : Z) (k : nat) (agentID : string) : Sent.t :=
  {| Sent.at_time := Z.of_nat k * perAgent;
     Sent.subject := "armonite.agent." +:+ agentID +:+ ".command";
     Sent.command :=
       {| TestStartCommand.TestRunID := testRunID;
          TestStartCommand.Command := "START_PHASE";
          TestStartCommand.CurrentPhase :=
            Some {| PhaseInfo.PhaseIndex := phaseIndex;
                    PhaseInfo.PhaseID := phaseID;
                    PhaseInfo.Mode := RampPhase.Mode phase;
                    PhaseInfo.Concurrency := RampPhase.Concurrency phase;
                    PhaseInfo.Duration := DurationString perAgent;
                    PhaseInfo.AgentOrder := [agentID] |} |} |}.

(** ** Agent metrics *)

Definition isRequest (op : MetricOp) : bool :=
  match op with OpRequest _ _ => true | OpError => false end.

(** The number of [recordRequest] and of [recordError] calls among [ops]. *)
Definition requestCalls (ops : list MetricOp) : Z :=
  Z.of_nat (length (List.filter isRequest ops)).

Definition errorCalls (ops : list MetricOp) : Z :=
  Z.of_nat (length (List.filter (fun op => negb (isRequest op)) ops)).

(** The invariant of the counters between calls. *)
Definition countersOK (m : AgentMetrics.t) : Prop :=
  0 <= AgentMetrics.Requests m
  /\ 0 <= AgentMetrics.Errors m
  /\ sumCodes (AgentMetrics.StatusCodes m) = AgentMetrics.Requests m
  /\ (forall code count, AgentMetrics.StatusCodes m !! code = Some count -> 0 <= count).

(** ** Deleting a run *)

Definition activeStatus (s : TestRunStatus) : Prop :=
  s = TestRunStatusRunning \/ s = TestRunStatusWaiting.

Definition terminalStatus (s : TestRunStatus) : Prop :=
  s = TestRunStatusCompleted \/ s = TestRunStatusFailed \/ s = TestRunStatusCancelled.

(** The body of the refusal to delete an active run. *)
Definition activeRunBody (s : TestRunStatus) : gmap string string :=
  <[ "error" := "Cannot delete active test run" ]> {[ "status" := status_string s ]}.

(** ** Step strategies *)

(** The number of phases that [CreateStepRampUp] builds. *)
Definition stepCount (steps : Z) : Z := if steps <=? 0 then 3 else steps.

(** [round(k * max / N)]: the nearest integer to the quotient. *)
Definition roundedShare (k max N : Z) : Z := F64.rne ((k * max) # Z.to_pos N).

(** ** The linear ramp *)

(** The value that the linear case computes:
    [int(float64(max) * (float64(elapsed) / float64(duration)))]. *)
Definition linearTarget (maxConcurrency elapsed duration : Z) : Z :=
  F64.to_int (F64.mul (F64.of_int maxConcurrency)
                      (F64.div (F64.of_int elapsed) (F64.of_int duration))).

(** The value that the specification gives:
    [floor(max * min(1, elapsed / duration))], in exact arithmetic. *)
Definition linearSpec (maxConcurrency elapsed duration : Z) : Z :=
  Qfloor (inject_Z maxConcurrency
          * Qmin 1 (inject_Z elapsed / inject_Z duration))%Q.

(** ** Finalisation *)

(** The invariant of the minimum over the results seen so far, for
    non-negative per-agent minima taken from [all]. *)
Definition minimumSoFar (all seen : list AgentResult.t) (m : Q) : Prop :=
  ((m == 0)%Q \/ ((0 < m)%Q /\ exists r, In r all /\ m = AgentResult.MinLatencyMs r))
  /\ (forall r, In r seen -> (0 < AgentResult.MinLatencyMs r)%Q ->
        (0 < m)%Q /\ (m <= AgentResult.MinLatencyMs r)%Q).

(** ** Latencies *)

(** The latencies in whole milliseconds of the [recordRequest] calls among
    [ops], in call order, and the doubles that the agent makes of them. *)
Definition requestMillis (ops : list MetricOp) : list Z :=
  omap (fun op => match op with
                  | OpRequest _ latency => Some (Milliseconds latency)
                  | OpError => None
                  end) ops.

Definition latenciesMs (ops : list MetricOp) : list Q :=
  map F64.of_int (requestMillis ops).

(** ** Phase completion *)

(** The agents that report the completion of phase [phaseIndex] among the
    messages [completions]. *)
Definition reported (completions : list PhaseCompletion.t) (phaseIndex : Z)
    (agentID : string) : Prop :=
  exists completion, In completion completions
    /\ PhaseCompletion.AgentID completion = agentID
    /\ PhaseCompletion.PhaseIndex completion = phaseIndex.

(** The time per agent of a sequential phase over [n] agents. *)
Definition timePerAgent (phase : RampPhase.t) (n : nat) : Z :=
  Z.quot (match ParseDuration (RampPhase.Duration phase) with
          | Some d => d
          | None => 30 * Second
          end) (Z.of_nat n).

(** ** Telemetry *)

(** The telemetry messages, with their arrival times, that the rate limiter
    passes on, starting from the state [lastUpdate]. *)
Fixpoint telemetryLoop (events : list (Z * AgentMetrics.t)) (lastUpdate : gmap string Z)
  : list (Z * AgentMetrics.t) :=
  match events with
  | [] => []
  | (now, metrics) :: rest =>
      match startTelemetryCollection lastUpdate metrics now with
      | (lastUpdate', Some passed) => (now, passed) :: telemetryLoop rest lastUpdate'
      | (lastUpdate', None) => telemetryLoop rest lastUpdate'
      end
  end.

(** Two passed messages of the same agent are at least a second apart. *)
Definition spaced (x y : Z * AgentMetrics.t) : Prop :=
  AgentMetrics.AgentID (snd x) = AgentMetrics.AgentID (snd y) ->
  fst x + Second <= fst y.

(** The map of the internal message handler after the updates, each with
    the coordinator as it is when the update is processed. *)
Definition telemetryUpdates (updates : list (Coordinator.t * AgentMetrics.t))
    (agentResults : gmap string (list AgentResult.t))
  : gmap string (list AgentResult.t) :=
  fold_left (fun acc update => fst (processTelemetryUpdate (fst update) (snd update) acc))
    updates agentResults.

(** [result] is what the latest update of its agent during the run
    [testRunID] reported. *)
Definition latestUpdate (updates : list (Coordinator.t * AgentMetrics.t))
    (testRunID : string) (result : AgentResult.t) : Prop :=
  exists before c metrics after,
    updates = before ++ (c, metrics) :: after
    /\ Coordinator.currentTestRun c = Some testRunID
    /\ result = newResult metrics ""
    /\ forall c' metrics', In (c', metrics') after ->
         Coordinator.currentTestRun c' = Some testRunID ->
         AgentMetrics.AgentID metrics' <> AgentMetrics.AgentID metrics.

(** ** Invariants used in the proofs *)

(** The state of the latency fields after the calls [seen] on metrics that
    were reset: the counter is the number of requests, and once a request
    was recorded the bounds are recorded latencies that enclose all of
    them. *)
Definition latencyInv (m : AgentMetrics.t) (seen : list Z) : Prop :=
  AgentMetrics.Requests m = Z.of_nat (length seen)
  /\ (seen <> [] ->
      In (AgentMetrics.MinLatencyMs m) (map F64.of_int seen)
      /\ In (AgentMetrics.MaxLatencyMs m) (map F64.of_int seen)
      /\ forall x, In x (map F64.of_int seen) ->
           (AgentMetrics.MinLatencyMs m <= x <= AgentMetrics.MaxLatencyMs m)%Q).

(** The running total of the latencies is exact while the sum of the whole
    milliseconds stays below [2^53], and the average is the quotient of the
    total by the counter, as it was computed at the last request. *)
Definition averageInv (m : AgentMetrics.t) (seen : list Z) : Prop :=
  AgentMetrics.Requests m = Z.of_nat (length seen)
  /\ (AgentMetrics.totalLatency m == inject_Z (sumZ seen))%Q
  /\ (seen <> [] ->
      AgentMetrics.AvgLatencyMs m
      = F64.div (AgentMetrics.totalLatency m) (F64.of_int (AgentMetrics.Requests m))).

(** What the monitor has recorded after the messages seen so far: the
    completed agents are the active agents that reported for the current
    phase, and a signal was sent if and only if all of them have. *)
Definition monitorInv (po0 po : PhaseOrchestrator.t) (seen : list PhaseCompletion.t)
  : Prop :=
  PhaseOrchestrator.currentPhase po = PhaseOrchestrator.currentPhase po0
  /\ PhaseOrchestrator.activeAgents po = PhaseOrchestrator.activeAgents po0
  /\ (forall agentID,
        is_Some (PhaseOrchestrator.completedAgents po !! agentID)
        <-> reported seen (PhaseOrchestrator.currentPhase po0) agentID)
  /\ dom (PhaseOrchestrator.completedAgents po)
     ⊆ dom (PhaseOrchestrator.activeAgents po0)
  /\ (PhaseOrchestrator.phaseDoneCh po <> [] <->
        PhaseOrchestrator.completedAgents po <> ∅
        /\ dom (PhaseOrchestrator.completedAgents po)
           = dom (PhaseOrchestrator.activeAgents po0))
  /\ Forall (fun signal => signal = PhaseOrchestrator.currentPhase po0)
       (PhaseOrchestrator.phaseDoneCh po)
  /\ (length (PhaseOrchestrator.phaseDoneCh po) <= phaseDoneCapacity)%nat.

(** The invariant of the map of the internal message handler after the
    updates [seen]. *)
Definition telemetryInv (seen : list (Coordinator.t * AgentMetrics.t))
    (agentResults : gmap string (list AgentResult.t)) : Prop :=
  (forall testRunID results,
     agentResults !! testRunID = Some results ->
     testRunID <> ""
     /\ NoDup (map AgentResult.AgentID results)
     /\ forall result, In result results -> latestUpdate seen testRunID result)
  /\ (forall c metrics testRunID,
        In (c, metrics) seen ->
        Coordinator.currentTestRun c = Some testRunID -> testRunID <> "" ->
        exists results result,
          agentResults !! testRunID = Some results
          /\ In result results
          /\ AgentResult.AgentID result = AgentMetrics.AgentID metrics).

(** The part of the loop variables that the two aggregations share. *)
Definition sumsOf (results : list AgentResult.t) (acc0 acc : Totals.t) : Prop :=
  Totals.totalRequests acc
  = wrap64 (Totals.totalRequests acc0 + sumZ (map AgentResult.Requests results))
  /\ Totals.totalErrors acc
     = wrap64 (Totals.totalErrors acc0 + sumZ (map AgentResult.Errors results))
  /\ (forall code,
        default 0 (Totals.statusCodes acc !! code)
        = wrap64 (default 0 (Totals.statusCodes acc0 !! code)
                  + sumZ (map (fun r => default 0 (AgentResult.StatusCodes r !! code))
                            results)))
  /\ (forall code,
        is_Some (Totals.statusCodes acc !! code)
        <-> is_Some (Totals.statusCodes acc0 !! code)
            \/ exists r, In r results /\ is_Some (AgentResult.StatusCodes r !! code)).

(** The count of a code in a Go map: zero when the code is absent. *)
Definition countOf (statusCodes : gmap string Z) (code : string) : Z :=
  default 0 (statusCodes !! code).

(** ** The runs of the coordinator *)

(** Every run that is running or waiting is the current run, so that at
    most one run is active. *)
Definition singleActive (c : Coordinator.t) : Prop :=
  forall id testRun,
    Coordinator.testRuns c !! id = Some testRun ->
    isActive (TestRun.Status testRun) = true ->
    Coordinator.currentTestRun c = Some id.

(** No run in memory is running or waiting. *)
Definition noneActive (c : Coordinator.t) : Prop :=
  forall id testRun,
    Coordinator.testRuns c !! id = Some testRun ->
    isActive (TestRun.Status testRun) = false.

(** ** The rows of the database *)

(** The states in which a run is saved. *)
Definition savedStatus (status : TestRunStatus) : Prop :=
  status = TestRunStatusCreated \/ status = TestRunStatusWaiting
  \/ status = TestRunStatusCompleted.

Definition rowsSaved (d : Database.t) : Prop :=
  forall id row, Database.test_runs d !! id = Some row ->
                 savedStatus (TestRun.Status row).

(** One operation of the coordinator on its state: a request of the control
    API, a goroutine that a request or a timer launches, or a message of an
    agent. *)
Inductive operation (c : Coordinator.t) : Coordinator.t -> Prop :=
| op_create req defaultMinAgents newID now :
    operation c (fst (handleCreateTestRun c req defaultMinAgents newID now))
| op_start testRunID now :
    operation c (fst (fst (handleStartTestRun c testRunID now)))
| op_rerun testRunID newID created now :
    operation c (fst (fst (handleRerunTestRun c testRunID newID created now)))
| op_startTestRun executions testRunID started ts publishOK failedAt r :
    startTestRun c executions testRunID started ts publishOK failedAt = Some r ->
    operation c (Started.coordinator r)
| op_stopTestRun testRunID :
    operation c (fst (stopTestRun c testRunID))
| op_completeTestRun testRunID now :
    operation c (completeTestRun c testRunID now)
| op_delete testRunID :
    operation c (fst (handleDeleteTestRun c testRunID))
| op_bulkDelete req now later :
    operation c (fst (handleBulkDeleteTestRuns c req now later))
| op_registration data now :
    operation c (onRegistration data now c)
| op_heartbeat agentID now :
    operation c (handleAgentHeartbeat c agentID now)
| op_executionUpdate update :
    operation c (handleAgentExecutionUpdate c update)
| op_cleanup now :
    operation c (cleanupStaleAgents c now)
| op_telemetry testRunID results :
    operation c (saveAgentResultsToDatabase c testRunID results).

(* ===================================================================== *)
(** * Properties *)
(* ===================================================================== *)

(** ** Machine integers *)

Lemma wrap64_id z : in_int64 z -> wrap64 z = z.
Proof.
  unfold in_int64, min_int64, max_int64, wrap64. intros H.
  rewrite Z.mod_small; lia.
Qed.

Lemma wrap64_range z : in_int64 (wrap64 z).
Proof.
  unfold in_int64, min_int64, max_int64, wrap64.
  pose proof (Z.mod_pos_bound (z + 2 ^ 63) (2 ^ 64) ltac:(lia)). lia.
Qed.

(** ** Double-precision arithmetic *)

Lemma pow2_pos (k : Z) : (0 < 2 ^ k)%Q.
Proof. apply Qpower_0_lt. reflexivity. Qed.

Lemma pow2_add (a b : Z) : (2 ^ (a + b) == 2 ^ a * 2 ^ b)%Q.
Proof. apply Qpower_plus. discriminate. Qed.

Lemma pow2_le (a b : Z) : a <= b -> (2 ^ a <= 2 ^ b)%Q.
Proof. intros H. apply Qpower_le_compat_l; [exact H | discriminate]. Qed.

Lemma pow2_lt (a b : Z) : a < b -> (2 ^ a < 2 ^ b)%Q.
Proof. intros H. apply Qpower_lt_compat_l; [exact H | reflexivity]. Qed.

Lemma pow2_lt_inv (a b : Z) : (2 ^ a < 2 ^ b)%Q -> a < b.
Proof. intros H. apply (Qpower_lt_compat_l_inv 2); [exact H | reflexivity]. Qed.

Lemma pow2_inject (k : Z) : 0 <= k -> (2 ^ k == inject_Z (2 ^ k))%Q.
Proof. intros H. symmetry. apply (Zpower_Qpower 2 k H). Qed.

Lemma pow2_cancel (k : Z) : (2 ^ k * 2 ^ (- k) == 1)%Q.
Proof. rewrite <- pow2_add, Z.add_opp_diag_r. reflexivity. Qed.

Lemma pow2_succ (k : Z) : (2 ^ (k + 1) == 2 * 2 ^ k)%Q.
Proof. rewrite pow2_add. change (2 ^ 1)%Q with 2%Q. ring. Qed.

Lemma ilog2_spec (x : Q) :
  (0 < x)%Q -> (2 ^ F64.ilog2 x <= x)%Q /\ (x < 2 ^ (F64.ilog2 x + 1))%Q.
Proof.
  intros Hx. destruct x as [n d]. unfold F64.ilog2. cbn [Qnum Qden].
  assert (Hn : 0 < n).
  { unfold Qlt in Hx. simpl in Hx. lia. }
  set (a := Z.log2 n). set (b := Z.log2 (Zpos d)).
  destruct (Z.log2_spec n Hn) as [Ha1 Ha2]. fold a in Ha1, Ha2.
  destruct (Z.log2_spec (Zpos d) ltac:(lia)) as [Hb1 Hb2]. fold b in Hb1, Hb2.
  assert (Ha0 : 0 <= a) by apply Z.log2_nonneg.
  assert (Hb0 : 0 <= b) by apply Z.log2_nonneg.
  assert (Hx' : (n # d == inject_Z n / inject_Z (Zpos d))%Q) by apply Qmake_Qdiv.
  assert (Hd : (0 < inject_Z (Zpos d))%Q) by (unfold Qlt; simpl; lia).
  (* bounds of x by powers *)
  assert (Hup : (n # d < 2 ^ (a - b + 1))%Q).
  { rewrite Hx'. apply Qlt_shift_div_r; [exact Hd|].
    replace (a - b + 1) with ((a + 1) + - b) by lia.
    rewrite pow2_add.
    apply Qlt_le_trans with (2 ^ (a + 1))%Q.
    - rewrite (pow2_inject (a + 1)) by lia. rewrite <- Zlt_Qlt. replace (Z.succ a) with (a + 1) in Ha2 by lia. exact Ha2.
    - rewrite <- (Qmult_1_r (2 ^ (a + 1))) at 1. rewrite <- Qmult_assoc.
      apply Qmult_le_l; [apply pow2_pos|].
      rewrite <- (pow2_cancel b), (Qmult_comm (2 ^ b)).
      apply Qmult_le_l; [apply pow2_pos|].
      rewrite (pow2_inject b) by lia. rewrite <- Zle_Qle. exact Hb1. }
  assert (Hlow : (2 ^ (a - b - 1) <= n # d)%Q).
  { rewrite Hx'. apply Qle_shift_div_l; [exact Hd|].
    replace (a - b - 1) with (a + - (b + 1)) by lia.
    rewrite pow2_add.
    apply Qle_trans with (2 ^ a)%Q.
    - rewrite <- (Qmult_1_r (2 ^ a)) at 2. rewrite <- Qmult_assoc.
      apply Qmult_le_l; [apply pow2_pos|].
      rewrite <- (pow2_cancel (b + 1)), (Qmult_comm (2 ^ (b + 1))).
      apply Qmult_le_l; [apply pow2_pos|].
      rewrite (pow2_inject (b + 1)) by lia. rewrite <- Zle_Qle.
      replace (Z.succ b) with (b + 1) in Hb2 by lia. lia.
    - rewrite (pow2_inject a) by lia. rewrite <- Zle_Qle. exact Ha1. }
  destruct (Qle_bool (2 ^ (a - b)) (n # d)) eqn:Hc.
  - apply Qle_bool_iff in Hc. split; [exact Hc | exact Hup].
  - split; [exact Hlow|].
    replace (a - b - 1 + 1) with (a - b) by lia.
    apply Qnot_le_lt. intros H. apply Qle_bool_iff in H. congruence.
Qed.

Lemma ilog2_unique (x : Q) (k : Z) :
  (2 ^ k <= x)%Q -> (x < 2 ^ (k + 1))%Q -> F64.ilog2 x = k.
Proof.
  intros Hlo Hhi.
  assert (Hx : (0 < x)%Q) by (eapply Qlt_le_trans; [apply (pow2_pos k) | exact Hlo]).
  destruct (ilog2_spec x Hx) as [Hlo' Hhi'].
  assert (H1 : k < F64.ilog2 x + 1).
  { apply pow2_lt_inv. eapply Qle_lt_trans; eassumption. }
  assert (H2 : F64.ilog2 x < k + 1).
  { apply pow2_lt_inv. eapply Qle_lt_trans; eassumption. }
  lia.
Qed.

Lemma ilog2_mono (x y : Q) :
  (0 < x)%Q -> (x <= y)%Q -> F64.ilog2 x <= F64.ilog2 y.
Proof.
  intros Hx Hxy.
  assert (Hy : (0 < y)%Q) by (eapply Qlt_le_trans; eassumption).
  destruct (ilog2_spec x Hx) as [Hlo _]. destruct (ilog2_spec y Hy) as [_ Hhi].
  assert (H : F64.ilog2 x < F64.ilog2 y + 1); [|lia].
  apply pow2_lt_inv. eapply Qle_lt_trans; [exact Hlo|].
  eapply Qle_lt_trans; eassumption.
Qed.

Lemma rne_bounds (x : Q) : Qfloor x <= F64.rne x <= Qfloor x + 1.
Proof.
  unfold F64.rne. destruct (Qcompare _ _); [destruct (Z.even _)| |]; lia.
Qed.

Lemma rne_Z (z : Z) : F64.rne (inject_Z z) = z.
Proof.
  unfold F64.rne. rewrite Qfloor_Z.
  assert (H : (inject_Z z - inject_Z z == 0)%Q) by ring.
  assert (Hc : Qcompare (inject_Z z - inject_Z z) (1 # 2) = Lt).
  { apply Qlt_alt. rewrite H. reflexivity. }
  rewrite Hc. reflexivity.
Qed.

Lemma rne_comp (x y : Q) : (x == y)%Q -> F64.rne x = F64.rne y.
Proof.
  intros H. unfold F64.rne. rewrite (Qfloor_comp _ _ H).
  assert (Hc : Qcompare (x - inject_Z (Qfloor y)) (1 # 2)
               = Qcompare (y - inject_Z (Qfloor y)) (1 # 2)).
  { apply Qcompare_comp; [rewrite H; reflexivity | reflexivity]. }
  rewrite Hc. reflexivity.
Qed.

Lemma rne_mono (x y : Q) : (x <= y)%Q -> F64.rne x <= F64.rne y.
Proof.
  intros Hxy.
  pose proof (Qfloor_resp_le _ _ Hxy) as Hf.
  pose proof (rne_bounds x) as Hx. pose proof (rne_bounds y) as Hy.
  destruct (Z.eq_dec (Qfloor x) (Qfloor y)) as [Heq|Hne]; [|lia].
  unfold F64.rne. rewrite Heq.
  destruct (Qcompare_spec (x - inject_Z (Qfloor y)) (1 # 2)) as [Hx1|Hx1|Hx1];
    destruct (Qcompare_spec (y - inject_Z (Qfloor y)) (1 # 2)) as [Hy1|Hy1|Hy1];
    try destruct (Z.even (Qfloor y)); try lia; exfalso; lra.
Qed.

Lemma rne_error (x : Q) : (Qabs (inject_Z (F64.rne x) - x) <= 1 # 2)%Q.
Proof.
  pose proof (Qfloor_le x) as Hlo. pose proof (Qlt_floor x) as Hhi.
  rewrite inject_Z_plus in Hhi. change (inject_Z 1) with 1%Q in Hhi.
  apply Qabs_Qle_condition. unfold F64.rne.
  destruct (Qcompare_spec (x - inject_Z (Qfloor x)) (1 # 2)) as [H|H|H];
    [destruct (Z.even (Qfloor x))| |];
    rewrite ?inject_Z_plus; change (inject_Z 1) with 1%Q; split; lra.
Qed.

(** The significand before rounding lies in [2^52, 2^53). *)
Lemma scaled_bounds (x : Q) :
  (0 < x)%Q ->
  let y := (x * 2 ^ (- (F64.ilog2 x - 52)))%Q in
  (2 ^ 52 <= y)%Q /\ (y < 2 ^ 53)%Q.
Proof.
  intros Hx y. destruct (ilog2_spec x Hx) as [Hlo Hhi].
  set (e := F64.ilog2 x) in *. subst y.
  pose proof (pow2_pos (- (e - 52))) as Hp. split.
  - assert (H52 : (2 ^ 52 == 2 ^ e * 2 ^ (- (e - 52)))%Q).
    { rewrite <- pow2_add. replace (e + - (e - 52)) with 52 by lia. reflexivity. }
    rewrite H52.
    apply Qmult_le_compat_r; [exact Hlo | apply Qlt_le_weak, Hp].
  - assert (H53 : (2 ^ 53 == 2 ^ (e + 1) * 2 ^ (- (e - 52)))%Q).
    { rewrite <- pow2_add. replace (e + 1 + - (e - 52)) with 53 by lia. reflexivity. }
    rewrite H53.
    apply Qmult_lt_compat_r; [exact Hp | exact Hhi].
Qed.

Lemma significand_bounds (x : Q) :
  (0 < x)%Q ->
  2 ^ 52 <= F64.rne (x * 2 ^ (- (F64.ilog2 x - 52))) <= 2 ^ 53.
Proof.
  intros Hx. destruct (scaled_bounds x Hx) as [Hlo Hhi]. split.
  - rewrite <- (rne_Z (2 ^ 52)). apply rne_mono.
    rewrite <- (pow2_inject 52) by lia. exact Hlo.
  - rewrite <- (rne_Z (2 ^ 53)). apply rne_mono.
    rewrite <- (pow2_inject 53) by lia. apply Qlt_le_weak, Hhi.
Qed.

Lemma round_pos_bounds (x : Q) :
  (0 < x)%Q ->
  (2 ^ F64.ilog2 x <= F64.round_pos x)%Q
  /\ (F64.round_pos x <= 2 ^ (F64.ilog2 x + 1))%Q.
Proof.
  intros Hx. destruct (significand_bounds x Hx) as [Hlo Hhi].
  unfold F64.round_pos. set (e := F64.ilog2 x) in *.
  set (n := F64.rne (x * 2 ^ (- (e - 52)))) in *.
  pose proof (pow2_pos (e - 52)) as Hp. split.
  - assert (He : (2 ^ e == 2 ^ 52 * 2 ^ (e - 52))%Q).
    { rewrite <- pow2_add. replace (52 + (e - 52)) with e by lia. reflexivity. }
    rewrite He.
    apply Qmult_le_compat_r; [|apply Qlt_le_weak, Hp].
    rewrite (pow2_inject 52) by lia. rewrite <- Zle_Qle. exact Hlo.
  - assert (He : (2 ^ (e + 1) == 2 ^ 53 * 2 ^ (e - 52))%Q).
    { rewrite <- pow2_add. replace (53 + (e - 52)) with (e + 1) by lia. reflexivity. }
    rewrite He.
    apply Qmult_le_compat_r; [|apply Qlt_le_weak, Hp].
    rewrite (pow2_inject 53) by lia. rewrite <- Zle_Qle. exact Hhi.
Qed.

Lemma round_pos_comp (x y : Q) :
  (0 < x)%Q -> (x == y)%Q -> (F64.round_pos x == F64.round_pos y)%Q.
Proof.
  intros Hx Hxy.
  assert (He : F64.ilog2 y = F64.ilog2 x).
  { destruct (ilog2_spec x Hx) as [Hlo Hhi].
    apply ilog2_unique; rewrite <- Hxy; assumption. }
  unfold F64.round_pos. rewrite He.
  rewrite (rne_comp (x * 2 ^ (- (F64.ilog2 x - 52))) (y * 2 ^ (- (F64.ilog2 x - 52)))).
  - reflexivity.
  - apply Qmult_comp; [exact Hxy | reflexivity].
Qed.

Lemma round_pos_mono (x y : Q) :
  (0 < x)%Q -> (x <= y)%Q -> (F64.round_pos x <= F64.round_pos y)%Q.
Proof.
  intros Hx Hxy.
  assert (Hy : (0 < y)%Q) by (eapply Qlt_le_trans; eassumption).
  pose proof (ilog2_mono x y Hx Hxy) as He.
  destruct (Z.eq_dec (F64.ilog2 x) (F64.ilog2 y)) as [Heq|Hne].
  - unfold F64.round_pos. rewrite Heq.
    pose proof (pow2_pos (F64.ilog2 y - 52)) as Hp.
    pose proof (pow2_pos (- (F64.ilog2 y - 52))) as Hp'.
    apply Qmult_le_compat_r; [|apply Qlt_le_weak, Hp].
    rewrite <- Zle_Qle. apply rne_mono.
    apply Qmult_le_compat_r; [exact Hxy | apply Qlt_le_weak, Hp'].
  - destruct (round_pos_bounds x Hx) as [_ Hhi].
    destruct (round_pos_bounds y Hy) as [Hlo _].
    eapply Qle_trans; [exact Hhi|]. eapply Qle_trans; [|exact Hlo].
    apply pow2_le. lia.
Qed.

(** The rounding error is at most half a unit in the last place. *)
Lemma round_pos_error (x : Q) :
  (0 < x)%Q ->
  (Qabs (F64.round_pos x - x) <= 2 ^ (F64.ilog2 x - 53))%Q.
Proof.
  intros Hx. unfold F64.round_pos. set (s := F64.ilog2 x - 52).
  set (y := (x * 2 ^ (- s))%Q).
  pose proof (pow2_pos s) as Hp.
  assert (Hxy : (x == y * 2 ^ s)%Q).
  { unfold y. rewrite <- Qmult_assoc, (Qmult_comm (2 ^ (- s))), pow2_cancel. ring. }
  assert (Hdiff : (inject_Z (F64.rne y) * 2 ^ s - x
                   == (inject_Z (F64.rne y) - y) * 2 ^ s)%Q).
  { rewrite Hxy at 1. ring. }
  rewrite Hdiff, Qabs_Qmult, (Qabs_pos (2 ^ s)) by (apply Qlt_le_weak, Hp).
  assert (Hhalf : (2 ^ (F64.ilog2 x - 53) == (1 # 2) * 2 ^ s)%Q).
  { replace (F64.ilog2 x - 53) with (-1 + s) by (unfold s; lia).
    rewrite pow2_add. reflexivity. }
  rewrite Hhalf.
  apply Qmult_le_compat_r; [apply rne_error | apply Qlt_le_weak, Hp].
Qed.

Lemma round_pos_rel_error (x : Q) :
  (0 < x)%Q ->
  (Qabs (F64.round_pos x - x) <= x * 2 ^ (-53))%Q.
Proof.
  intros Hx. eapply Qle_trans; [apply round_pos_error, Hx|].
  destruct (ilog2_spec x Hx) as [Hlo _].
  assert (Hs : (2 ^ (F64.ilog2 x - 53) == 2 ^ F64.ilog2 x * 2 ^ (-53))%Q).
  { rewrite <- pow2_add. reflexivity. }
  rewrite Hs. apply Qmult_le_compat_r; [exact Hlo|].
  apply Qlt_le_weak, pow2_pos.
Qed.

(** A value whose scaled significand is an integer is not changed. *)
Lemma round_pos_exact (x : Q) (n : Z) :
  (0 < x)%Q ->
  (x * 2 ^ (- (F64.ilog2 x - 52)) == inject_Z n)%Q ->
  (F64.round_pos x == x)%Q.
Proof.
  intros Hx Hn. unfold F64.round_pos.
  rewrite (rne_comp _ _ Hn), rne_Z, <- Hn.
  rewrite <- Qmult_assoc, (Qmult_comm (2 ^ (- _))), pow2_cancel. ring.
Qed.

Lemma round_pos_int (z : Z) :
  0 < z <= 2 ^ 53 -> (F64.round_pos (inject_Z z) == inject_Z z)%Q.
Proof.
  intros Hz.
  assert (Hx : (0 < inject_Z z)%Q) by (rewrite <- (Zlt_Qlt 0); lia).
  destruct (Z.eq_dec z (2 ^ 53)) as [->|Hne]; [vm_compute; reflexivity|].
  assert (He : F64.ilog2 (inject_Z z) <= 52).
  { assert (H : F64.ilog2 (inject_Z z) < 53); [|lia].
    apply pow2_lt_inv. destruct (ilog2_spec _ Hx) as [Hlo _].
    eapply Qle_lt_trans; [exact Hlo|].
    rewrite (pow2_inject 53) by lia. rewrite <- Zlt_Qlt. lia. }
  apply (round_pos_exact _ (z * 2 ^ (- (F64.ilog2 (inject_Z z) - 52))) Hx).
  rewrite inject_Z_mult, <- pow2_inject by lia. reflexivity.
Qed.

Lemma round_zero (x : Q) : (x == 0)%Q -> F64.round x = 0%Q.
Proof.
  intros H. unfold F64.round.
  assert (Hc : Qcompare 0 x = Eq) by (apply Qeq_alt; symmetry; exact H).
  rewrite Hc. reflexivity.
Qed.

Lemma round_positive (x : Q) : (0 < x)%Q -> F64.round x = F64.round_pos x.
Proof.
  intros H. unfold F64.round.
  assert (Hc : Qcompare 0 x = Lt) by (apply Qlt_alt; exact H).
  rewrite Hc. reflexivity.
Qed.

Lemma round_pos_positive (x : Q) : (0 < x)%Q -> (0 < F64.round_pos x)%Q.
Proof.
  intros H. destruct (round_pos_bounds x H) as [Hlo _].
  eapply Qlt_le_trans; [apply pow2_pos | exact Hlo].
Qed.

Lemma round_nonneg (x : Q) : (0 <= x)%Q -> (0 <= F64.round x)%Q.
Proof.
  intros H. destruct (Qlt_le_dec 0 x) as [Hpos|Hle].
  - rewrite round_positive by exact Hpos. apply Qlt_le_weak, round_pos_positive, Hpos.
  - rewrite round_zero; [apply Qle_refl | apply Qle_antisym; assumption].
Qed.

(** Rounding is monotone (on the non-negative numbers). *)
Lemma round_mono (x y : Q) : (0 <= x)%Q -> (x <= y)%Q -> (F64.round x <= F64.round y)%Q.
Proof.
  intros Hx Hxy. destruct (Qlt_le_dec 0 x) as [Hpos|Hle].
  - rewrite (round_positive x Hpos).
    rewrite (round_positive y) by (eapply Qlt_le_trans; eassumption).
    apply round_pos_mono; assumption.
  - rewrite (round_zero x) by (apply Qle_antisym; assumption).
    apply round_nonneg. eapply Qle_trans; eassumption.
Qed.

(** The integers up to [2^53] are doubles. *)
Lemma round_int (z : Z) : 0 <= z <= 2 ^ 53 -> (F64.round (inject_Z z) == inject_Z z)%Q.
Proof.
  intros Hz. destruct (Z.eq_dec z 0) as [->|Hne]; [reflexivity|].
  rewrite round_positive by (rewrite <- (Zlt_Qlt 0); lia).
  apply round_pos_int. lia.
Qed.

Lemma round_comp_nonneg (x y : Q) :
  (0 <= x)%Q -> (x == y)%Q -> (F64.round x == F64.round y)%Q.
Proof.
  intros Hx Hxy. destruct (Qlt_le_dec 0 x) as [Hpos|Hle].
  - rewrite (round_positive x Hpos).
    rewrite (round_positive y) by (rewrite <- Hxy; exact Hpos).
    apply round_pos_comp; assumption.
  - rewrite (round_zero x) by (apply Qle_antisym; assumption).
    rewrite (round_zero y); [reflexivity|].
    rewrite <- Hxy. apply Qle_antisym; assumption.
Qed.

(** The relative error of one rounding is at most [2^-53]. *)
Lemma round_rel_error (x : Q) :
  (0 <= x)%Q -> (Qabs (F64.round x - x) <= x * 2 ^ (-53))%Q.
Proof.
  intros Hx. destruct (Qlt_le_dec 0 x) as [Hpos|Hle].
  - rewrite round_positive by exact Hpos. apply round_pos_rel_error, Hpos.
  - assert (H0 : (x == 0)%Q) by (apply Qle_antisym; assumption).
    rewrite (round_zero x H0), H0. vm_compute. discriminate.
Qed.

Lemma to_int_nonneg (x : Q) : (0 <= x)%Q -> F64.to_int x = Qfloor x.
Proof.
  intros H. unfold F64.to_int. apply Qle_bool_iff in H. rewrite H. reflexivity.
Qed.

(** ** The linear ramp *)

Lemma progress_range (elapsed duration : Z) :
  0 <= elapsed < duration ->
  (0 <= F64.div (F64.of_int elapsed) (F64.of_int duration) <= 1)%Q.
Proof.
  intros He. unfold F64.div, F64.of_int.
  assert (Hq0 : (0 <= inject_Z elapsed)%Q) by (rewrite <- (Zle_Qle 0); lia).
  assert (Ha : (0 <= F64.round (inject_Z elapsed))%Q) by (apply round_nonneg, Hq0).
  assert (Hab : (F64.round (inject_Z elapsed) <= F64.round (inject_Z duration))%Q).
  { apply round_mono; [exact Hq0 | rewrite <- Zle_Qle; lia]. }
  assert (Hb : (1 <= F64.round (inject_Z duration))%Q).
  { rewrite <- (round_int 1) by lia. apply round_mono; [discriminate|].
    rewrite <- Zle_Qle. lia. }
  assert (Hbpos : (0 < F64.round (inject_Z duration))%Q) by lra.
  assert (Hq : (0 <= F64.round (inject_Z elapsed) / F64.round (inject_Z duration) <= 1)%Q).
  { split.
    - apply Qle_shift_div_l; [exact Hbpos | lra].
    - apply Qle_shift_div_r; [exact Hbpos | lra]. }
  split.
  - apply round_nonneg, Hq.
  - rewrite <- (round_int 1) by lia. apply round_mono; apply Hq.
Qed.

Lemma linearTarget_range (maxConcurrency elapsed duration : Z) :
  0 <= maxConcurrency <= 2 ^ 53 ->
  0 <= elapsed < duration ->
  0 <= linearTarget maxConcurrency elapsed duration <= maxConcurrency.
Proof.
  intros HM He. unfold linearTarget.
  destruct (progress_range elapsed duration He) as [Hp0 Hp1].
  set (p := F64.div (F64.of_int elapsed) (F64.of_int duration)) in *.
  unfold F64.mul, F64.of_int.
  pose proof (round_int maxConcurrency HM) as Hm.
  assert (HM0 : (0 <= inject_Z maxConcurrency)%Q) by (rewrite <- (Zle_Qle 0); lia).
  assert (Hprod : (0 <= F64.round (inject_Z maxConcurrency) * p
                   <= inject_Z maxConcurrency)%Q).
  { rewrite Hm. split; [apply Qmult_le_0_compat; assumption|].
    nra. }
  assert (Ht : (0 <= F64.round (F64.round (inject_Z maxConcurrency) * p)
                <= inject_Z maxConcurrency)%Q).
  { split; [apply round_nonneg, Hprod|].
    rewrite <- Hm at 2. apply round_mono; apply Hprod. }
  rewrite to_int_nonneg by apply Ht. split.
  - rewrite <- (Qfloor_Z 0). apply Qfloor_resp_le, Ht.
  - rewrite <- (Qfloor_Z maxConcurrency) at 2. apply Qfloor_resp_le, Ht.
Qed.

Lemma linearTarget_start (maxConcurrency duration : Z) :
  linearTarget maxConcurrency 0 duration = 0.
Proof.
  unfold linearTarget, F64.mul, F64.div, F64.of_int.
  change (F64.round (inject_Z 0)) with 0%Q.
  rewrite (round_zero (0 / _)) by (unfold Qdiv; ring).
  rewrite (round_zero (_ * 0)) by ring. reflexivity.
Qed.

(** One rounding changes a non-negative value by a factor in
    [1 - 2^-53, 1 + 2^-53]. *)
Lemma round_between (x : Q) :
  (0 <= x)%Q ->
  (x * (9007199254740991 # 9007199254740992) <= F64.round x)%Q
  /\ (F64.round x <= x * (9007199254740993 # 9007199254740992))%Q.
Proof.
  intros Hx. pose proof (round_rel_error x Hx) as H.
  change (2 ^ (-53))%Q with (1 # 9007199254740992)%Q in H.
  apply Qabs_Qle_condition in H. split; lra.
Qed.

(** The double product of the linear ramp is less than one away from the
    exact [max * elapsed / duration]. *)
Lemma linear_product_close (maxConcurrency elapsed duration : Z) :
  0 <= maxConcurrency <= 2 ^ 50 ->
  0 <= elapsed < duration ->
  let x := (inject_Z maxConcurrency * (inject_Z elapsed / inject_Z duration))%Q in
  let t := F64.mul (F64.of_int maxConcurrency)
             (F64.div (F64.of_int elapsed) (F64.of_int duration)) in
  (0 <= t)%Q /\ (x - 1 < t)%Q /\ (t < x + 1)%Q.
Proof.
  intros HM He x t.
  destruct (progress_range elapsed duration He) as [Hp0 Hp1].
  subst t. unfold F64.mul, F64.div, F64.of_int in *.
  set (E := inject_Z elapsed) in *. set (D := inject_Z duration) in *.
  set (M := inject_Z maxConcurrency) in *.
  assert (HE : (0 <= E)%Q) by (unfold E; rewrite <- (Zle_Qle 0); lia).
  assert (HD : (1 <= D)%Q) by (unfold D; rewrite <- (Zle_Qle 1); lia).
  assert (HED : (E <= D)%Q) by (unfold E, D; rewrite <- Zle_Qle; lia).
  assert (HM0 : (0 <= M)%Q) by (unfold M; rewrite <- (Zle_Qle 0); lia).
  assert (HM1 : (M <= 1125899906842624)%Q).
  { unfold M. change 1125899906842624%Q with (inject_Z (2 ^ 50)).
    rewrite <- Zle_Qle. lia. }
  assert (Hm : (F64.round M == M)%Q) by (apply round_int; lia).
  destruct (round_between E HE) as [Ha1 Ha2].
  destruct (round_between D ltac:(lra)) as [Hb1 Hb2].
  set (a := F64.round E) in *. set (b := F64.round D) in *.
  assert (Hb : (0 < b)%Q) by lra.
  assert (Ha : (0 <= a)%Q) by lra.
  assert (Hq0 : (0 <= a / b)%Q) by (apply Qle_shift_div_l; [exact Hb | lra]).
  destruct (round_between (a / b) Hq0) as [Hp2 Hp3].
  set (q := (a / b)%Q) in *. set (p := F64.round q) in *.
  assert (Hqb : (q * b == a)%Q) by (unfold q; field; lra).
  set (r := (E / D)%Q).
  assert (HrD : (r * D == E)%Q) by (unfold r; field; lra).
  assert (Hr0 : (0 <= r)%Q) by (apply Qle_shift_div_l; lra).
  assert (Hr1 : (r <= 1)%Q) by (apply Qle_shift_div_r; lra).
  (* the quotient against the exact ratio *)
  assert (Hq_up : (q * (9007199254740991 # 9007199254740992)
                   <= r * (9007199254740993 # 9007199254740992))%Q).
  { apply (Qmult_le_r _ _ D); [lra|].
    assert (H1 : (q * (D * (9007199254740991 # 9007199254740992)) <= q * b)%Q) by nra.
    nra. }
  assert (Hq_lo : (r * (9007199254740991 # 9007199254740992)
                   <= q * (9007199254740993 # 9007199254740992))%Q).
  { apply (Qmult_le_r _ _ D); [lra|].
    assert (H1 : (q * b <= q * (D * (9007199254740993 # 9007199254740992)))%Q) by nra.
    nra. }
  assert (HP0 : (0 <= F64.round M * p)%Q).
  { rewrite Hm. apply Qmult_le_0_compat; assumption. }
  destruct (round_between (F64.round M * p) HP0) as [Ht1 Ht2].
  set (t := F64.round (F64.round M * p)) in *.
  rewrite Hm in Ht1, Ht2.
  assert (Ht0 : (0 <= t)%Q).
  { assert (0 <= M * p)%Q by (apply Qmult_le_0_compat; assumption). lra. }
  assert (S1 : (M * p <= M * (q * (9007199254740993 # 9007199254740992)))%Q) by nra.
  assert (S2 : (M * (q * (9007199254740991 # 9007199254740992))
                <= M * (r * (9007199254740993 # 9007199254740992)))%Q) by nra.
  assert (S3 : (M * (q * (9007199254740991 # 9007199254740992)) <= M * p)%Q) by nra.
  assert (S4 : (M * (r * (9007199254740991 # 9007199254740992))
                <= M * (q * (9007199254740993 # 9007199254740992)))%Q) by nra.
  assert (Hx0 : (0 <= M * r)%Q) by (apply Qmult_le_0_compat; assumption).
  assert (Hx1 : (M * r <= M)%Q) by nra.
  fold r in x. subst x. split; [exact Ht0|]. split; lra.
Qed.

(** The target of the linear ramp is the exact [floor(max * elapsed /
    duration)] or differs from it by one. *)
Lemma linearTarget_close (maxConcurrency elapsed duration : Z) :
  0 <= maxConcurrency <= 2 ^ 50 ->
  0 <= elapsed < duration ->
  Z.abs (linearTarget maxConcurrency elapsed duration
         - maxConcurrency * elapsed / duration) <= 1.
Proof.
  intros HM He.
  destruct (linear_product_close maxConcurrency elapsed duration HM He)
    as (Ht0 & Hlo & Hhi).
  unfold linearTarget. rewrite to_int_nonneg by exact Ht0.
  set (t := F64.mul _ _) in *.
  set (x := (inject_Z maxConcurrency * (inject_Z elapsed / inject_Z duration))%Q) in *.
  assert (Hx : maxConcurrency * elapsed / duration = Qfloor x).
  { rewrite Zdiv_Qdiv. apply Qfloor_comp. unfold x.
    rewrite inject_Z_mult. field.
    intros H. apply (inject_Z_injective duration 0) in H. lia. }
  rewrite Hx.
  pose proof (Qfloor_le t) as Ht1. pose proof (Qlt_floor t) as Ht2.
  pose proof (Qfloor_le x) as Hx1. pose proof (Qlt_floor x) as Hx2.
  rewrite inject_Z_plus in Ht2, Hx2.
  change (inject_Z 1) with 1%Q in Ht2, Hx2.
  assert (H1 : (inject_Z (Qfloor t) < inject_Z (Qfloor x) + 2)%Q) by lra.
  assert (H2 : (inject_Z (Qfloor x) < inject_Z (Qfloor t) + 2)%Q) by lra.
  change 2%Q with (inject_Z 2) in H1, H2.
  rewrite <- inject_Z_plus, <- Zlt_Qlt in H1, H2. lia.
Qed.

(** ** Validation *)

Lemma knownType_cases ty :
  knownType ty <->
  (String.eqb ty RampUpTypeImmediate || String.eqb ty RampUpTypeLinear
   || (String.eqb ty RampUpTypeStep || String.eqb ty RampUpTypeCustom)) = true.
Proof.
  unfold knownType. rewrite !orb_true_iff, !String.eqb_eq. tauto.
Qed.

Lemma phaseBased_cases ty :
  phaseBased ty <->
  (String.eqb ty RampUpTypeStep || String.eqb ty RampUpTypeCustom) = true.
Proof.
  unfold phaseBased. rewrite orb_true_iff, !String.eqb_eq. tauto.
Qed.

Lemma phaseBased_not_simple ty :
  phaseBased ty ->
  (String.eqb ty RampUpTypeImmediate || String.eqb ty RampUpTypeLinear) = false.
Proof.
  intros [-> | ->]; reflexivity.
Qed.

Lemma validatePhases_error_iff phases i :
  validatePhases phases i <> None <->
  Exists badDuration phases \/ Exists negativeConcurrency phases
  \/ Exists badMode phases.
Proof.
  revert i. induction phases as [|phase rest IH]; intros i; simpl.
  - split; [congruence|]. intros [H|[H|H]]; inversion H.
  - rewrite !Exists_cons. unfold badDuration at 1, negativeConcurrency at 1, badMode at 1.
    destruct (ParseDuration (RampPhase.Duration phase)) as [d|] eqn:Hd.
    + destruct (Z.ltb_spec (RampPhase.Concurrency phase) 0) as [Hc|Hc].
      { split; [intros _; right; left; left; exact Hc | congruence]. }
      destruct (String.eqb_spec (RampPhase.Mode phase) "parallel") as [Hp|Hp];
        destruct (String.eqb_spec (RampPhase.Mode phase) "sequential") as [Hs|Hs];
        simpl; rewrite ?IH;
        try (split; [intros [H|[H|H]]; tauto
                    | intros [[H|H]|[[H|H]|[[H1 H2]|H]]];
                      try congruence; try lia; tauto]).
      split; [intros _; right; right; left; split; assumption | congruence].
    + split; [intros _; left; left; reflexivity | congruence].
Qed.

(** C8 (amended).  [ValidateRampUpStrategy] returns an error if and only
    if the strategy duration does not parse, or the type is not one of
    immediate, linear, step and custom, or the type is step or custom and
    the phase list is empty or has a phase with an unparseable duration, a
    negative concurrency or a mode other than parallel and sequential.
    The phases of an immediate or linear strategy are not examined. *)
Theorem ValidateRampUpStrategy_rejects (strategy : RampUpStrategy.t) :
  ValidateRampUpStrategy strategy <> None <-> rejectedByCode strategy.
Proof.
  unfold ValidateRampUpStrategy, rejectedByCode.
  destruct (ParseDuration (RampUpStrategy.Duration strategy)) as [d|] eqn:Hd.
  2: { split; [intros _; left; reflexivity | congruence]. }
  set (ty := RampUpStrategy.Type_ strategy).
  pose proof (knownType_cases ty) as Hk.
  pose proof (phaseBased_cases ty) as Hp.
  destruct (String.eqb ty RampUpTypeImmediate || String.eqb ty RampUpTypeLinear)
    eqn:Hsimple.
  - split; [congruence|]. intros [H|[H|[H _]]].
    + congruence.
    + exfalso. apply H, Hk. reflexivity.
    + apply phaseBased_not_simple in H. fold ty in H. congruence.
  - simpl in Hk.
    destruct (String.eqb ty RampUpTypeStep || String.eqb ty RampUpTypeCustom)
      eqn:Hphase.
    + assert (Hpb : phaseBased ty) by (apply Hp; reflexivity).
      destruct (RampUpStrategy.Phases strategy) as [|phase rest] eqn:Hph.
      * split; [intros _; right; right; split; [exact Hpb | left; reflexivity]
               | congruence].
      * rewrite validatePhases_error_iff. split.
        -- intros H. right; right. split; [exact Hpb | right; exact H].
        -- intros [H|[H|[_ [H|H]]]]; [congruence| |congruence|exact H].
           exfalso. apply H, Hk. reflexivity.
    + split; [intros _; right; left; intros H; apply Hk in H; congruence
             | congruence].
Qed.

(** ** Phase walk *)

Lemma priorDurations_0 phases : priorDurations phases 0 = 0.
Proof. unfold priorDurations. rewrite take_0. reflexivity. Qed.

Lemma priorDurations_S phase rest i :
  priorDurations (phase :: rest) (S i) = phaseNanos phase + priorDurations rest i.
Proof. reflexivity. Qed.

(** The loop started at phase [i] with the durations of the earlier
    phases already accumulated in [cum].  [k] counts from the head of the
    remaining list. *)
Lemma phaseLoop_walk maxC execution elapsed rest :
  forall (i : nat) (cum : Z),
  (forall k : nat, (k <= length rest)%nat -> in_int64 (cum + priorDurations rest k)) ->
  (forall (k : nat) phase d,
      rest !! k = Some phase ->
      ParseDuration (RampPhase.Duration phase) = Some d ->
      elapsed <= cum + priorDurations rest k + d ->
      (forall (j : nat) q dq, (j < k)%nat -> rest !! j = Some q ->
                 ParseDuration (RampPhase.Duration q) = Some dq ->
                 cum + priorDurations rest j + dq < elapsed) ->
      phaseLoop maxC execution elapsed rest i cum
      = (RampPhase.Concurrency phase, enterPhase execution (i + k) phase))
  /\ ((forall (j : nat) q dq, rest !! j = Some q ->
                 ParseDuration (RampPhase.Duration q) = Some dq ->
                 cum + priorDurations rest j + dq < elapsed) ->
      phaseLoop maxC execution elapsed rest i cum = (maxC, execution)).
Proof.
  induction rest as [|phase rest IH]; intros i cum Hrange.
  - split; [intros k q d Hk; inversion Hk | reflexivity].
  - assert (Hrange' : forall k : nat, (k <= length rest)%nat ->
                        in_int64 (cum + phaseNanos phase + priorDurations rest k)).
    { intros k Hk. specialize (Hrange (S k) ltac:(simpl; lia)).
      rewrite priorDurations_S in Hrange.
      replace (cum + phaseNanos phase + priorDurations rest k)
        with (cum + (phaseNanos phase + priorDurations rest k)) by lia. exact Hrange. }
    destruct (IH (S i) (cum + phaseNanos phase) Hrange') as [IHhit IHmiss].
    assert (Hwrap : wrap64 (cum + phaseNanos phase) = cum + phaseNanos phase).
    { apply wrap64_id. specialize (Hrange' 0%nat ltac:(lia)).
      rewrite priorDurations_0, Z.add_0_r in Hrange'. exact Hrange'. }
    simpl. unfold phaseNanos in *.
    destruct (ParseDuration (RampPhase.Duration phase)) as [d|] eqn:Hd; simpl in *.
    + rewrite Hwrap. split.
      * intros k q dq Hk Hq Hle Hbefore. destruct k as [|k].
        -- simpl in Hk. inversion Hk; subst q.
           assert (dq = d) by congruence. subst dq.
           rewrite priorDurations_0 in Hle.
           destruct (Z.leb_spec elapsed (cum + d)); [|lia].
           rewrite Nat.add_0_r. reflexivity.
        -- pose proof (Hbefore 0%nat phase d ltac:(lia) eq_refl Hd) as Hb0.
           rewrite priorDurations_0 in Hb0.
           destruct (Z.leb_spec elapsed (cum + d)); [lia|].
           simpl in Hk. rewrite priorDurations_S in Hle.
           unfold phaseNanos in Hle. rewrite Hd in Hle. simpl in Hle.
           replace (i + S k)%nat with (S i + k)%nat by lia.
           apply (IHhit k q dq Hk Hq); [lia|].
           intros j q' dq' Hj Hq' Hdq'.
           specialize (Hbefore (S j) q' dq' ltac:(lia) Hq' Hdq').
           rewrite priorDurations_S in Hbefore.
           unfold phaseNanos in Hbefore. rewrite Hd in Hbefore. simpl in Hbefore. lia.
      * intros Hall.
        pose proof (Hall 0%nat phase d eq_refl Hd) as H0.
        rewrite priorDurations_0 in H0.
        destruct (Z.leb_spec elapsed (cum + d)); [lia|].
        apply IHmiss. intros j q dq Hq Hdq. specialize (Hall (S j) q dq Hq Hdq).
        rewrite priorDurations_S in Hall.
        unfold phaseNanos in Hall. rewrite Hd in Hall. simpl in Hall. lia.
    + rewrite Z.add_0_r in IHhit, IHmiss. split.
      * intros k q dq Hk Hq Hle Hbefore. destruct k as [|k].
        -- simpl in Hk. inversion Hk; subst q. congruence.
        -- simpl in Hk. rewrite priorDurations_S in Hle.
           unfold phaseNanos in Hle. rewrite Hd in Hle. simpl in Hle.
           replace (i + S k)%nat with (S i + k)%nat by lia.
           apply (IHhit k q dq Hk Hq); [lia|].
           intros j q' dq' Hj Hq' Hdq'.
           specialize (Hbefore (S j) q' dq' ltac:(lia) Hq' Hdq').
           rewrite priorDurations_S in Hbefore.
           unfold phaseNanos in Hbefore. rewrite Hd in Hbefore. simpl in Hbefore. lia.
      * intros Hall. apply IHmiss. intros j q dq Hq Hdq.
        specialize (Hall (S j) q dq Hq Hdq).
        rewrite priorDurations_S in Hall.
        unfold phaseNanos in Hall. rewrite Hd in Hall. simpl in Hall. lia.
Qed.

Lemma NewRampUpCalculator_fields strategy maxConcurrency calc :
  NewRampUpCalculator strategy maxConcurrency = Some calc ->
  RampUpCalculator.strategy calc = strategy
  /\ RampUpCalculator.maxConcurrency calc = maxConcurrency
  /\ ParseDuration (RampUpStrategy.Duration strategy)
     = Some (RampUpCalculator.duration calc).
Proof.
  unfold NewRampUpCalculator.
  destruct (ParseDuration (RampUpStrategy.Duration strategy)) as [d|]; [|discriminate].
  intros H. inversion H; subst. auto.
Qed.

Lemma GetCurrentConcurrency_phaseBased calc execution now :
  phaseBased (RampUpStrategy.Type_ (RampUpCalculator.strategy calc)) ->
  GetCurrentConcurrency calc execution now
  = getPhaseBasedConcurrency calc execution (Since execution now).
Proof.
  unfold GetCurrentConcurrency. intros [-> | ->]; reflexivity.
Qed.

(** C3.  For a step or custom strategy with a non-empty phase list (whose
    cumulative durations fit a [time.Duration]) the target concurrency is
    the concurrency of the first phase [i] with
    [elapsed <= (sum of prior durations) + duration of i]; if no phase
    covers [elapsed] the target is [maxConcurrency]; and [IsComplete]
    holds exactly when [elapsed >= strategy.duration].  A phase whose
    duration does not parse has no duration: it covers nothing and adds
    nothing to the sum. *)
Theorem phase_based_target (strategy : RampUpStrategy.t) (maxConcurrency : Z)
    (calc : RampUpCalculator.t) (execution : RampUpExecution.t) (now D : Z) :
  phaseBased (RampUpStrategy.Type_ strategy) ->
  RampUpStrategy.Phases strategy <> [] ->
  noOverflow (RampUpStrategy.Phases strategy) ->
  NewRampUpCalculator strategy maxConcurrency = Some calc ->
  ParseDuration (RampUpStrategy.Duration strategy) = Some D ->
  let phases := RampUpStrategy.Phases strategy in
  let elapsed := Since execution now in
  let target := fst (GetCurrentConcurrency calc execution now) in
  (forall (i : nat) phase,
      phases !! i = Some phase ->
      covers phases elapsed i ->
      (forall j : nat, (j < i)%nat -> ~ covers phases elapsed j) ->
      target = RampPhase.Concurrency phase)
  /\ ((forall j : nat, ~ covers phases elapsed j) -> target = maxConcurrency)
  /\ (IsComplete calc execution now = true <-> elapsed >= D).
Proof.
  intros Hty Hne Hrange Hcalc HD phases elapsed target.
  destruct (NewRampUpCalculator_fields _ _ _ Hcalc) as (Hs & Hm & Hd).
  assert (Htarget : target
                    = fst (phaseLoop maxConcurrency execution elapsed phases 0%nat 0)).
  { unfold target. rewrite GetCurrentConcurrency_phaseBased by (rewrite Hs; exact Hty).
    unfold getPhaseBasedConcurrency. rewrite Hs, Hm. subst phases elapsed.
    destruct (RampUpStrategy.Phases strategy); [contradiction | reflexivity]. }
  destruct (phaseLoop_walk maxConcurrency execution elapsed phases 0%nat 0)
    as [Hhit Hmiss].
  { intros k Hk. rewrite Z.add_0_l. apply Hrange, Hk. }
  assert (Hnot : forall (j : nat) q dq, phases !! j = Some q ->
                   ParseDuration (RampPhase.Duration q) = Some dq ->
                   ~ covers phases elapsed j ->
                   0 + priorDurations phases j + dq < elapsed).
  { intros j q dq Hq Hdq Hn.
    destruct (Z.lt_ge_cases (0 + priorDurations phases j + dq) elapsed)
      as [Hlt|Hge]; [exact Hlt|].
    exfalso. apply Hn. exists q, dq. repeat split; [exact Hq | exact Hdq | lia]. }
  split; [|split].
  - intros i phase Hi (q & d & Hq & Hdq & Hle) Hfirst.
    rewrite Hi in Hq. inversion Hq; subst q.
    rewrite Htarget, (Hhit i phase d Hi Hdq); [reflexivity | lia |].
    intros j q dq Hj Hq' Hdq'. apply (Hnot j q dq Hq' Hdq'), Hfirst, Hj.
  - intros Hnone. rewrite Htarget, Hmiss; [reflexivity|].
    intros j q dq Hq Hdq. apply (Hnot j q dq Hq Hdq), Hnone.
  - unfold IsComplete. fold elapsed. rewrite HD in Hd. inversion Hd; subst.
    rewrite Z.leb_le. lia.
Qed.

(** ** Immediate and linear strategies *)

(** C2 (amended).  For a maximum concurrency in [0, 2^50], a parseable
    strategy duration [D] and a non-negative elapsed time: the immediate
    strategy returns the maximum; the linear strategy returns the maximum
    when [elapsed >= D] and otherwise the integer part of the
    double-precision product [max * (elapsed / D)], which is
    [floor(max * elapsed / D)] or differs from it by one, and is 0 at
    [elapsed = 0] (for [D > 0]); in both strategies the target lies in
    [0, max]. *)
Theorem GetCurrentConcurrency_immediate_linear (strategy : RampUpStrategy.t)
    (maxConcurrency : Z) (calc : RampUpCalculator.t)
    (execution : RampUpExecution.t) (now D : Z) :
  NewRampUpCalculator strategy maxConcurrency = Some calc ->
  ParseDuration (RampUpStrategy.Duration strategy) = Some D ->
  0 <= maxConcurrency <= 2 ^ 50 ->
  0 <= Since execution now ->
  let elapsed := Since execution now in
  let target := fst (GetCurrentConcurrency calc execution now) in
  (RampUpStrategy.Type_ strategy = RampUpTypeImmediate -> target = maxConcurrency)
  /\ (RampUpStrategy.Type_ strategy = RampUpTypeLinear ->
        (D <= elapsed -> target = maxConcurrency)
        /\ (elapsed < D ->
              target = linearTarget maxConcurrency elapsed D
              /\ Z.abs (target - maxConcurrency * elapsed / D) <= 1)
        /\ (elapsed = 0 -> 0 < D -> target = 0))
  /\ (RampUpStrategy.Type_ strategy = RampUpTypeImmediate
      \/ RampUpStrategy.Type_ strategy = RampUpTypeLinear ->
        0 <= target <= maxConcurrency).
Proof.
  intros Hcalc HD HM Hel elapsed target.
  destruct (NewRampUpCalculator_fields _ _ _ Hcalc) as (Hs & Hm & Hd).
  assert (Hd' : D = RampUpCalculator.duration calc) by congruence. clear Hd.
  assert (Himm : RampUpStrategy.Type_ strategy = RampUpTypeImmediate ->
                 target = maxConcurrency).
  { intros Hty. unfold target, GetCurrentConcurrency. rewrite Hs, Hty, Hm. reflexivity. }
  assert (Hlin : RampUpStrategy.Type_ strategy = RampUpTypeLinear ->
                 target = if D <=? elapsed then maxConcurrency
                          else linearTarget maxConcurrency elapsed D).
  { intros Hty. unfold target, GetCurrentConcurrency. rewrite Hs, Hty, Hm, <- Hd'.
    fold elapsed. cbn [String.eqb Ascii.eqb Bool.eqb RampUpTypeLinear RampUpTypeImmediate].
    destruct (D <=? elapsed); reflexivity. }
  change (0 <= elapsed) in Hel.
  clearbody target elapsed. clear Hd' Hcalc Hs Hm.
  assert (HM' : 0 <= maxConcurrency <= 2 ^ 53) by lia.
  split; [exact Himm|]. split.
  - intros Hty. rewrite (Hlin Hty). clear Hlin Himm. split; [|split].
    + intros Hle. destruct (Z.leb_spec D elapsed); [reflexivity | lia].
    + intros Hlt. destruct (Z.leb_spec D elapsed); [lia|].
      split; [reflexivity | apply linearTarget_close; lia].
    + intros H0 HDpos. destruct (Z.leb_spec D elapsed); [lia|].
      rewrite H0. apply linearTarget_start.
  - intros [Hty|Hty].
    + rewrite (Himm Hty). lia.
    + rewrite (Hlin Hty). clear Hlin Himm.
      destruct (Z.leb_spec D elapsed); [lia|].
      apply linearTarget_range; [exact HM' | lia].
Qed.

(** ** Phase execution on the agent *)

(** C10.  An agent of declared concurrency [C] that processes a
    [START_PHASE] command of phase concurrency [P] (both non-negative, the
    pool small enough for its request queue to be allocated) runs the phase
    with exactly [min P C] workers, numbered from 0, hence never with more
    than [C]. *)
Theorem executePhase_workers (a : Agent.t) (phase : PhaseInfo.t) :
  0 <= PhaseInfo.Concurrency phase ->
  0 <= Agent.concurrency a ->
  Z.min (PhaseInfo.Concurrency phase) (Agent.concurrency a) * 10 <= max_int64 ->
  let n := Z.min (PhaseInfo.Concurrency phase) (Agent.concurrency a) in
  (exists queue ran_for completion,
      executePhase a (Some phase) = PhaseRan (workerIDs n) queue ran_for completion)
  /\ workerCount (executePhase a (Some phase)) = Some n
  /\ n <= Agent.concurrency a.
Proof.
  intros HP HC Hq n.
  assert (Hsel : (if Agent.concurrency a <? PhaseInfo.Concurrency phase
                  then Agent.concurrency a else PhaseInfo.Concurrency phase) = n).
  { unfold n. destruct (Z.ltb_spec (Agent.concurrency a) (PhaseInfo.Concurrency phase)); lia. }
  assert (Hn : 0 <= n) by (unfold n; lia).
  assert (Hw : wrap64 (n * 10) = n * 10).
  { apply wrap64_id. unfold in_int64, min_int64. fold n in Hq. lia. }
  assert (Hrun : exists queue ran_for completion,
             executePhase a (Some phase) = PhaseRan (workerIDs n) queue ran_for completion).
  { unfold executePhase, executePhaseLoad. rewrite Hsel, Hw.
    destruct (Z.ltb_spec (n * 10) 0); [lia|]. unfold workerIDs. eauto. }
  split; [exact Hrun|]. split; [|unfold n; lia].
  destruct Hrun as (queue & ran_for & completion & ->). simpl.
  unfold workerIDs. rewrite length_map, length_seq, Z2Nat.id by exact Hn. reflexivity.
Qed.

(** ** The order of strings *)

Lemma ascii_compare_trans_le (a b c : ascii) :
  Ascii.compare a b <> Gt -> Ascii.compare b c <> Gt -> Ascii.compare a c <> Gt.
Proof.
  unfold Ascii.compare. rewrite !N.compare_gt_iff. lia.
Qed.

Lemma string_compare_trans_le (s1 : string) :
  forall s2 s3,
  String.compare s1 s2 <> Gt -> String.compare s2 s3 <> Gt ->
  String.compare s1 s3 <> Gt.
Proof.
  induction s1 as [|c1 s1 IH]; intros [|c2 s2] [|c3 s3]; simpl; try congruence.
  unfold Ascii.compare.
  destruct (N.compare_spec (N_of_ascii c1) (N_of_ascii c2)) as [H12|H12|H12];
    destruct (N.compare_spec (N_of_ascii c2) (N_of_ascii c3)) as [H23|H23|H23];
    destruct (N.compare_spec (N_of_ascii c1) (N_of_ascii c3)) as [H13|H13|H13];
    try congruence; try lia.
  apply IH.
Qed.

Lemma string_leb_compare s1 s2 :
  String.leb s1 s2 = true <-> String.compare s1 s2 <> Gt.
Proof.
  unfold String.leb. destruct (String.compare s1 s2); split; congruence.
Qed.

#[local] Instance string_le_total : Total string_le.
Proof. intros s1 s2. apply String.leb_total. Qed.

#[local] Instance string_le_trans : Transitive string_le.
Proof.
  intros s1 s2 s3. unfold string_le. rewrite !string_leb_compare.
  apply string_compare_trans_le.
Qed.

#[local] Instance string_le_antisym : AntiSymm (=) string_le.
Proof. intros s1 s2 H1 H2. apply String.leb_antisym; assumption. Qed.

Lemma sortStrings_sorted l : Sorted string_le (sortStrings l).
Proof. apply Sorted_merge_sort, _. Qed.

Lemma sortStrings_perm l : sortStrings l ≡ₚ l.
Proof. apply merge_sort_Permutation. Qed.

(** The result of the sort does not depend on the order of its input. *)
Lemma sortStrings_deterministic l1 l2 :
  l1 ≡ₚ l2 -> sortStrings l1 = sortStrings l2.
Proof.
  intros Hp. apply (Sorted_unique string_le); try apply sortStrings_sorted.
  rewrite !sortStrings_perm. exact Hp.
Qed.

(** ** Sequential phases *)

Lemma sequentialLoop_schedule testRunID phaseIndex phase phaseID perAgent :
  0 <= perAgent ->
  forall agentIDs (i : nat),
  sequentialLoop testRunID None phaseIndex phase phaseID perAgent agentIDs (S i)
    (Z.of_nat i * perAgent)
  = imap (fun k => expectedSend testRunID phaseIndex phase phaseID perAgent (S i + k))
      agentIDs.
Proof.
  intros Hper. induction agentIDs as [|agentID rest IH]; intros i; [reflexivity|].
  simpl. unfold Sleep. rewrite Z.max_r by exact Hper.
  replace (Z.of_nat i * perAgent + perAgent) with (Z.of_nat (S i) * perAgent) by lia.
  rewrite IH. f_equal.
  - unfold sendPhaseCommand, expectedSend. rewrite Nat.add_0_r. reflexivity.
  - apply imap_ext. intros k x _. simpl. f_equal. lia.
Qed.

(** C7.  A sequential phase of parseable duration [D >= 0] over a
    non-empty set of [n] active agents: the agent ids are put in ascending
    order whatever the order in which the map yields them, and the agent at
    position [k] (from 0) of that order is sent [START_PHASE]
    [k * (D / n)] after the phase was entered, with duration [D / n]. *)
Theorem executeSequentialPhase_schedule (testRunID : string)
    (rangeOrder : list string) (phaseIndex : Z) (phase : RampPhase.t)
    (phaseID : string) (D : Z) :
  ParseDuration (RampPhase.Duration phase) = Some D ->
  0 <= D ->
  rangeOrder <> [] ->
  let agentIDs := sortStrings rangeOrder in
  let perAgent := D / Z.of_nat (length rangeOrder) in
  Sorted string_le agentIDs
  /\ agentIDs ≡ₚ rangeOrder
  /\ (forall other, other ≡ₚ rangeOrder -> sortStrings other = agentIDs)
  /\ executeSequentialPhase testRunID None rangeOrder phaseIndex phase phaseID
     = imap (expectedSend testRunID phaseIndex phase phaseID perAgent) agentIDs.
Proof.
  intros HD Hpos Hne agentIDs perAgent.
  split; [apply sortStrings_sorted|].
  split; [apply sortStrings_perm|].
  split; [intros other Hp; apply sortStrings_deterministic, Hp|].
  unfold executeSequentialPhase. fold agentIDs. rewrite HD.
  assert (Hlen : length agentIDs = length rangeOrder).
  { unfold agentIDs. rewrite sortStrings_perm. reflexivity. }
  assert (Hn : 0 < Z.of_nat (length rangeOrder)).
  { destruct rangeOrder; [contradiction | simpl; lia]. }
  rewrite Hlen, Z.quot_div_nonneg by lia. fold perAgent.
  assert (Hper : 0 <= perAgent) by (unfold perAgent; apply Z.div_pos; lia).
  destruct agentIDs as [|agentID rest] eqn:Hids.
  { destruct rangeOrder; [contradiction | discriminate]. }
  pose proof (sequentialLoop_schedule testRunID phaseIndex phase phaseID perAgent
                Hper rest 0%nat) as Hloop.
  change (Z.of_nat 0) with 0 in Hloop. rewrite Z.mul_0_l in Hloop.
  change (sequentialLoop testRunID None phaseIndex phase phaseID perAgent
            (agentID :: rest) 0 0)
    with (sendPhaseCommand testRunID agentID "START_PHASE"
            {| PhaseInfo.PhaseIndex := phaseIndex;
               PhaseInfo.PhaseID := phaseID;
               PhaseInfo.Mode := RampPhase.Mode phase;
               PhaseInfo.Concurrency := RampPhase.Concurrency phase;
               PhaseInfo.Duration := DurationString perAgent;
               PhaseInfo.AgentOrder := [agentID] |} 0
          :: sequentialLoop testRunID None phaseIndex phase phaseID perAgent rest 1 0).
  rewrite Hloop. reflexivity.
Qed.

(** ** Agent metrics *)

Lemma sumCodes_insert_fresh (code : string) (count : Z) (codes : gmap string Z) :
  codes !! code = None -> sumCodes (<[code := count]> codes) = count + sumCodes codes.
Proof.
  intros Hnone. unfold sumCodes. rewrite map_fold_insert_L; [reflexivity | | exact Hnone].
  intros; lia.
Qed.

Lemma sumCodes_delete (code : string) (count : Z) (codes : gmap string Z) :
  codes !! code = Some count -> sumCodes codes = count + sumCodes (delete code codes).
Proof.
  intros Hsome. unfold sumCodes. rewrite (map_fold_delete_L _ _ code count codes);
    [reflexivity | | exact Hsome].
  intros; lia.
Qed.

Lemma sumCodes_nonneg (codes : gmap string Z) :
  (forall code count, codes !! code = Some count -> 0 <= count) -> 0 <= sumCodes codes.
Proof.
  induction codes as [|code count codes Hnone IH] using map_ind; intros Hpos.
  - unfold sumCodes. rewrite map_fold_empty. lia.
  - rewrite sumCodes_insert_fresh by exact Hnone.
    pose proof (Hpos code count (lookup_insert_eq _ _ _)).
    assert (0 <= sumCodes codes); [|lia].
    apply IH. intros code' count' H'. apply (Hpos code' count').
    rewrite lookup_insert_ne; [exact H'|]. intros ->. congruence.
Qed.

Lemma sumCodes_split (code : string) (codes : gmap string Z) :
  sumCodes codes = default 0 (codes !! code) + sumCodes (delete code codes).
Proof.
  destruct (codes !! code) as [count|] eqn:Hc; simpl.
  - apply sumCodes_delete, Hc.
  - rewrite delete_id by exact Hc. lia.
Qed.

Lemma sumCodes_incr (code : string) (codes : gmap string Z) :
  (forall code count, codes !! code = Some count -> 0 <= count) ->
  sumCodes codes < max_int64 ->
  sumCodes (incr code codes) = sumCodes codes + 1
  /\ (forall code' count, incr code codes !! code' = Some count -> 0 <= count).
Proof.
  intros Hpos Hmax.
  pose proof (sumCodes_split code codes) as Hsplit.
  assert (Hrest : 0 <= sumCodes (delete code codes)).
  { apply sumCodes_nonneg. intros code' count H'.
    apply lookup_delete_Some in H' as [_ H']. eapply Hpos, H'. }
  assert (Hcur : 0 <= default 0 (codes !! code)).
  { destruct (codes !! code) eqn:Hc; simpl; [eapply Hpos, Hc | lia]. }
  assert (Hw : wrap64 (default 0 (codes !! code) + 1) = default 0 (codes !! code) + 1).
  { apply wrap64_id. unfold in_int64, min_int64. lia. }
  unfold incr. rewrite Hw. split.
  - rewrite <- insert_delete_eq, sumCodes_insert_fresh by apply lookup_delete_eq. lia.
  - intros code' count. destruct (decide (code = code')) as [<-|Hne].
    + rewrite lookup_insert_eq. intros H; inversion H. lia.
    + rewrite lookup_insert_ne by exact Hne. apply Hpos.
Qed.

Lemma applyOp_counters (m : AgentMetrics.t) (op : MetricOp) :
  countersOK m ->
  AgentMetrics.Requests m + (if isRequest op then 1 else 0) <= max_int64 ->
  AgentMetrics.Errors m + (if isRequest op then 0 else 1) <= max_int64 ->
  countersOK (applyOp m op)
  /\ AgentMetrics.Requests (applyOp m op)
     = AgentMetrics.Requests m + (if isRequest op then 1 else 0)
  /\ AgentMetrics.Errors (applyOp m op)
     = AgentMetrics.Errors m + (if isRequest op then 0 else 1).
Proof.
  intros (Hr & He & Hsum & Hpos) Hrmax Hemax.
  destruct op as [statusCode latency|]; simpl in *.
  - assert (Hw : wrap64 (AgentMetrics.Requests m + 1) = AgentMetrics.Requests m + 1).
    { apply wrap64_id. unfold in_int64, min_int64. lia. }
    destruct (sumCodes_incr (itoa statusCode) _ Hpos) as [Hs Hp]; [lia|].
    unfold countersOK. simpl. rewrite Hw, Hs, Hsum. repeat split; try lia. exact Hp.
  - assert (Hw : wrap64 (AgentMetrics.Errors m + 1) = AgentMetrics.Errors m + 1).
    { apply wrap64_id. unfold in_int64, min_int64. lia. }
    unfold countersOK. simpl. rewrite Hw. repeat split; try lia. exact Hpos.
Qed.

Lemma fold_applyOp_counters (ops : list MetricOp) :
  forall m : AgentMetrics.t,
  countersOK m ->
  AgentMetrics.Requests m + requestCalls ops <= max_int64 ->
  AgentMetrics.Errors m + errorCalls ops <= max_int64 ->
  countersOK (fold_left applyOp ops m)
  /\ AgentMetrics.Requests (fold_left applyOp ops m)
     = AgentMetrics.Requests m + requestCalls ops
  /\ AgentMetrics.Errors (fold_left applyOp ops m)
     = AgentMetrics.Errors m + errorCalls ops.
Proof.
  unfold requestCalls, errorCalls.
  induction ops as [|op ops IH]; intros m Hok Hr He; simpl in *.
  - split; [exact Hok | split; lia].
  - destruct (applyOp_counters m op Hok) as (Hok' & Hr' & He').
    { destruct (isRequest op); simpl in *; lia. }
    { destruct (isRequest op); simpl in *; lia. }
    destruct (IH (applyOp m op) Hok') as (Hok'' & Hr'' & He'').
    { rewrite Hr'. destruct (isRequest op); simpl in *; lia. }
    { rewrite He'. destruct (isRequest op); simpl in *; lia. }
    split; [exact Hok''|]. rewrite Hr'', He'', Hr', He'.
    destruct (isRequest op); simpl; lia.
Qed.

(** What the counters are after any sequence of [recordRequest] and
    [recordError] calls on reset metrics (short of 2^63 calls): [requests]
    is the number of [recordRequest] calls and [errors] the number of
    [recordError] calls, and the status-code counts add up to [requests],
    hence to at least [requests - errors]. *)
Lemma runOps_counters (m : AgentMetrics.t) (ops : list MetricOp) :
  Z.of_nat (length ops) <= max_int64 ->
  let m' := runOps m ops in
  AgentMetrics.Requests m' = requestCalls ops
  /\ AgentMetrics.Errors m' = errorCalls ops
  /\ sumCodes (AgentMetrics.StatusCodes m') = AgentMetrics.Requests m'
  /\ sumCodes (AgentMetrics.StatusCodes m')
     >= AgentMetrics.Requests m' - AgentMetrics.Errors m'.
Proof.
  intros Hlen m'. subst m'. unfold runOps.
  assert (Hreq : requestCalls ops <= Z.of_nat (length ops)).
  { unfold requestCalls. pose proof (filter_length_le isRequest ops). lia. }
  assert (Herr : errorCalls ops <= Z.of_nat (length ops)).
  { unfold errorCalls.
    pose proof (filter_length_le (fun op => negb (isRequest op)) ops). lia. }
  destruct (fold_applyOp_counters ops (resetMetrics m)) as (Hok & Hr & He).
  - unfold countersOK. simpl. repeat split; try lia.
    intros code count H. rewrite lookup_empty in H. discriminate.
  - simpl. lia.
  - simpl. lia.
  - simpl in Hr, He. destruct Hok as (_ & He0 & Hsum & _).
    rewrite Hsum, Hr, He. repeat split. unfold errorCalls. lia.
Qed.

(** C4 (failing input).  Two failed attempts followed by one response,
    on reset metrics: [recordError] does not count the attempt as a
    request, so the snapshot that is published has [errors = 2] and
    [requests = 1]. *)
Theorem errors_exceed_requests :
  let m0 := {| AgentMetrics.AgentID := "agent-1";
               AgentMetrics.Timestamp := "";
               AgentMetrics.Requests := 0;
               AgentMetrics.Errors := 0;
               AgentMetrics.AvgLatencyMs := 0%Q;
               AgentMetrics.MinLatencyMs := 0%Q;
               AgentMetrics.MaxLatencyMs := 0%Q;
               AgentMetrics.StatusCodes := ∅;
               AgentMetrics.totalLatency := 0%Q |} in
  let m := runOps m0 [OpError; OpError; OpRequest 200 (5 * Millisecond)] in
  AgentMetrics.Requests m = 1
  /\ AgentMetrics.Errors m = 2
  /\ AgentMetrics.StatusCodes m = {[ "200" := 1 ]}
  /\ (exists snapshot, reportMetrics m "2024-05-01T10:00:00Z" = Some snapshot
        /\ AgentMetrics.Requests snapshot = 1
        /\ AgentMetrics.Errors snapshot = 2)
  /\ ~ AgentMetrics.Errors m <= AgentMetrics.Requests m.
Proof.
  cbv zeta. split; [reflexivity|]. split; [reflexivity|].
  split; [vm_compute; reflexivity|].
  split; [eexists; split; [reflexivity | split; reflexivity]|].
  vm_compute. intros H. apply H. reflexivity.
Qed.

(** ** Deleting a run *)

(** C5 (amended).  Deleting a run whose status is running or
    waiting_for_agents is refused with HTTP status 400 and the body
    [{error: "Cannot delete active test run", status: <status>}]; the
    in-memory and the persisted state stay as they are.  Whenever the
    deletion succeeds the run was not active, and the deletion of a run in
    a terminal state does succeed: it answers 200 and removes the run and
    its agent results from memory and from the database. *)
Theorem handleDeleteTestRun_active (c : Coordinator.t) (testRunID : string)
    (testRun : TestRun.t) :
  Coordinator.testRuns c !! testRunID = Some testRun ->
  let c' := fst (handleDeleteTestRun c testRunID) in
  let response := snd (handleDeleteTestRun c testRunID) in
  (activeStatus (TestRun.Status testRun) ->
     response = {| Response.code := StatusBadRequest;
                   Response.body := activeRunBody (TestRun.Status testRun) |}
     /\ c' = c)
  /\ (Response.code response = StatusOK -> ~ activeStatus (TestRun.Status testRun))
  /\ (terminalStatus (TestRun.Status testRun) ->
        Response.code response = StatusOK
        /\ Coordinator.testRuns c' !! testRunID = None
        /\ Coordinator.agentResults c' !! testRunID = None
        /\ Database.test_runs (Coordinator.database c') !! testRunID = None
        /\ Database.agent_results (Coordinator.database c') !! testRunID = None
        /\ Coordinator.currentTestRun c' <> Some testRunID).
Proof.
  intros Hrun c' response. subst c' response.
  unfold handleDeleteTestRun, activeStatus, terminalStatus. rewrite Hrun.
  destruct (TestRun.Status testRun) eqn:Hst; simpl;
    (split; [|split]);
    try (intros [H|H]; discriminate);
    try (intros [H|[H|H]]; discriminate);
    try (intros _; split; reflexivity);
    try (intros H; discriminate H);
    try (intros _ [H|H]; discriminate).
  all: intros _; rewrite !lookup_delete_eq; repeat (split; [reflexivity|]).
  all: unfold isCurrent; destruct (Coordinator.currentTestRun c) as [cur|]; [|discriminate].
  all: destruct (String.eqb_spec cur testRunID); congruence.
Qed.

(** ** Execution updates *)

(** C9 (failing input: every status update).  The message that
    [sendExecutionUpdate] publishes goes out on [armonite.agent.status],
    while the coordinator subscribed its execution-update callback to
    [armonite.agent.execution]: no callback runs and the coordinator, its
    registry included, is left as it was. *)
Theorem execution_update_not_delivered (c : Coordinator.t) (a : Agent.t)
    (status message ts : string) (now : Z) :
  Msg.subject (sendExecutionUpdate a status message ts) = "armonite.agent.status"
  /\ In ("armonite.agent.execution", ExecutionCallback) startAgentRegistration
  /\ (forall subject callback, In (subject, callback) startAgentRegistration ->
        subject <> "armonite.agent.status")
  /\ deliver startAgentRegistration (sendExecutionUpdate a status message ts) now c = c.
Proof.
  split; [reflexivity|]. split; [simpl; tauto|]. split; [|reflexivity].
  intros subject callback [H|[H|[H|[]]]]; inversion H; discriminate.
Qed.

(** Had the update arrived on the subject of the subscription, the
    callback would have recorded the status of a registered agent
    ([completed] is recorded as [idle]). *)
Lemma execution_update_on_subscribed_subject (c : Coordinator.t) (a : Agent.t)
    (status message ts : string) (now : Z) (agent : AgentInfo.t) :
  Coordinator.connectedAgents c !! Agent.id a = Some agent ->
  let m := {| Msg.subject := "armonite.agent.execution";
              Msg.data := Msg.data (sendExecutionUpdate a status message ts) |} in
  AgentInfo.ExecutionState
    <$> (Coordinator.connectedAgents (deliver startAgentRegistration m now c)
           !! Agent.id a)
  = Some (if String.eqb status "completed" then "idle" else status).
Proof.
  intros Hagent m. subst m.
  assert (Hid : default "" (Msg.data (sendExecutionUpdate a status message ts) !! "agent_id")
                = Agent.id a).
  { unfold sendExecutionUpdate. simpl.
    destruct (String.eqb (Agent.currentTestRunID a) ""); simpl;
      repeat (rewrite lookup_insert_ne by discriminate);
      rewrite lookup_insert_eq; reflexivity. }
  assert (Hst : default "" (Msg.data (sendExecutionUpdate a status message ts) !! "status")
                = status).
  { unfold sendExecutionUpdate. simpl.
    destruct (String.eqb (Agent.currentTestRunID a) ""); simpl;
      repeat (rewrite lookup_insert_ne by discriminate);
      rewrite lookup_insert_eq; reflexivity. }
  change (deliver startAgentRegistration _ now c)
    with (handleAgentExecutionUpdate c
            (unmarshalExecutionUpdate
               (Msg.data (sendExecutionUpdate a status message ts)))).
  unfold handleAgentExecutionUpdate, unmarshalExecutionUpdate.
  cbn [AgentExecutionUpdate.AgentID AgentExecutionUpdate.Status].
  rewrite Hid, Hst.
  destruct (String.eqb status "completed");
    cbn [setAgents Coordinator.connectedAgents];
    rewrite ?lookup_alter_eq, Hagent; reflexivity.
Qed.

(** ** Step strategies *)

(** C1 (amended).  [CreateStepRampUp] builds exactly [N] phases, where [N]
    is the step count or 3 when that is not positive; every phase has
    mode parallel and the same duration text, the seconds of [D / N]
    rounded to a whole number ([D] is 60s when the duration does not
    parse); phase [k] (from 1) has concurrency [floor(k * 100 / N)], a
    percentage that does not depend on any maximum concurrency. *)
Theorem CreateStepRampUp_phases (duration : string) (steps : Z) :
  let N := stepCount steps in
  N * 100 <= max_int64 ->
  let s := CreateStepRampUp duration steps in
  RampUpStrategy.Type_ s = RampUpTypeStep
  /\ RampUpStrategy.Duration s = duration
  /\ Z.of_nat (length (RampUpStrategy.Phases s)) = N
  /\ (forall k : Z, 1 <= k <= N ->
        RampUpStrategy.Phases s !! Z.to_nat (k - 1)
        = Some {| RampPhase.Duration := stepDuration duration N;
                  RampPhase.Concurrency := k * 100 / N;
                  RampPhase.Mode := "parallel" |}).
Proof.
  intros N Hmax s.
  assert (HN : 0 < N) by (unfold N, stepCount; destruct (Z.leb_spec steps 0); lia).
  subst s. unfold CreateStepRampUp. fold (stepCount steps). fold N.
  cbn [RampUpStrategy.Type_ RampUpStrategy.Duration RampUpStrategy.Phases].
  split; [reflexivity|]. split; [reflexivity|].
  split; [rewrite length_map, length_seq; lia|].
  intros k Hk. rewrite list_lookup_fmap, lookup_seq_lt by lia. simpl.
  replace (Z.of_nat (Z.to_nat (k - 1)) + 1) with k by lia.
  assert (Hw1 : wrap64 k = k).
  { apply wrap64_id. unfold in_int64, min_int64. lia. }
  assert (Hw2 : wrap64 (k * 100) = k * 100).
  { apply wrap64_id. unfold in_int64, min_int64. nia. }
  rewrite Hw1, Hw2, Z.quot_div_nonneg by lia. reflexivity.
Qed.

(** ** Finalisation *)

Lemma F64_ltb_lt (x y : Q) : F64.ltb x y = true <-> (x < y)%Q.
Proof.
  unfold F64.ltb. rewrite negb_true_iff. split.
  - intros H. apply Qnot_le_lt. intros Hle. apply Qle_bool_iff in Hle. congruence.
  - intros H. destruct (Qle_bool y x) eqn:Hb; [|reflexivity].
    apply Qle_bool_iff in Hb. exfalso. apply (Qlt_not_le _ _ H Hb).
Qed.

Lemma F64_gtb_gt (x y : Q) : F64.gtb x y = true <-> (y < x)%Q.
Proof. apply F64_ltb_lt. Qed.

(** The maximum after the loop is at least every maximum it has seen and
    is the starting value or one of them. *)
Lemma fold_aggregate_max (results : list AgentResult.t) :
  forall acc : Totals.t,
  let final := Totals.maxLatency (fold_left aggregate results acc) in
  (Totals.maxLatency acc <= final)%Q
  /\ (forall r, In r results -> (AgentResult.MaxLatencyMs r <= final)%Q)
  /\ (final = Totals.maxLatency acc
      \/ exists r, In r results /\ final = AgentResult.MaxLatencyMs r).
Proof.
  induction results as [|r results IH]; intros acc; simpl.
  - split; [apply Qle_refl|]. split; [intros r []|left; reflexivity].
  - destruct (IH (aggregate acc r)) as (Hle & Hall & Hmem). clear IH.
    set (final := Totals.maxLatency (fold_left aggregate results (aggregate acc r))) in *.
    assert (Hstep : (Totals.maxLatency acc <= Totals.maxLatency (aggregate acc r))%Q
                    /\ (AgentResult.MaxLatencyMs r <= Totals.maxLatency (aggregate acc r))%Q
                    /\ (Totals.maxLatency (aggregate acc r) = Totals.maxLatency acc
                        \/ Totals.maxLatency (aggregate acc r) = AgentResult.MaxLatencyMs r)).
    { unfold aggregate. cbn [Totals.maxLatency].
      destruct (F64.gtb (AgentResult.MaxLatencyMs r) (Totals.maxLatency acc)) eqn:Hg.
      - apply F64_gtb_gt in Hg. repeat split; [lra | lra | right; reflexivity].
      - assert (~ (Totals.maxLatency acc < AgentResult.MaxLatencyMs r)%Q).
        { intros H. apply F64_gtb_gt in H. congruence. }
        repeat split; [lra | lra | left; reflexivity]. }
    destruct Hstep as (H1 & H2 & H3). split; [lra|]. split.
    + intros r' [<-|Hin]; [lra | apply Hall, Hin].
    + destruct Hmem as [Hm|(r' & Hin & Hm)].
      * destruct H3 as [H3|H3]; [left; congruence | right; exists r; split; [left; reflexivity | congruence]].
      * right. exists r'. split; [right; exact Hin | exact Hm].
Qed.

(** The global maximum is the largest of the per-agent maxima. *)
Lemma computeResults_max (testRun : TestRun.t) (results : list AgentResult.t) :
  results <> [] ->
  let final := TestRunResults.MaxLatencyMs (computeResults testRun results) in
  (forall r, In r results -> (AgentResult.MaxLatencyMs r <= final)%Q)
  /\ (exists r, In r results /\ final = AgentResult.MaxLatencyMs r).
Proof.
  intros Hne final. subst final. unfold computeResults. cbn [TestRunResults.MaxLatencyMs].
  destruct (fold_aggregate_max results (initialTotals results)) as (Hle & Hall & Hmem).
  split; [exact Hall|].
  destruct Hmem as [Hm|Hm]; [|exact Hm].
  destruct results as [|first rest]; [contradiction|].
  exists first. split; [left; reflexivity | exact Hm].
Qed.

Lemma F64_eqb_eq (x y : Q) : F64.eqb x y = true <-> (x == y)%Q.
Proof. apply Qeq_bool_iff. Qed.


Lemma aggregate_min (all seen : list AgentResult.t) (acc : Totals.t) (r : AgentResult.t) :
  In r all ->
  minimumSoFar all seen (Totals.minLatency acc) ->
  minimumSoFar all (seen ++ [r]) (Totals.minLatency (aggregate acc r)).
Proof.
  intros Hin [Hval Hseen]. unfold aggregate. cbn [Totals.minLatency].
  set (m := Totals.minLatency acc) in *. set (x := AgentResult.MinLatencyMs r) in *.
  destruct (F64.gtb x 0) eqn:Hpos; simpl.
  - apply F64_gtb_gt in Hpos.
    destruct (F64.eqb m 0) eqn:Hz; simpl.
    + apply F64_eqb_eq in Hz. split.
      * right. split; [exact Hpos | exists r; split; [exact Hin | reflexivity]].
      * intros r' Hr' Hr'pos. apply in_app_or in Hr' as [Hr'|[<-|[]]].
        -- destruct (Hseen r' Hr' Hr'pos) as [Hm _]. lra.
        -- fold x. split; [exact Hpos | apply Qle_refl].
    + assert (Hnz : ~ (m == 0)%Q) by (intros H; apply F64_eqb_eq in H; congruence).
      assert (Hm : (0 < m)%Q) by (destruct Hval as [H|[H _]]; [contradiction | exact H]).
      destruct (F64.ltb x m) eqn:Hlt.
      * apply F64_ltb_lt in Hlt. split.
        -- right. split; [exact Hpos | exists r; split; [exact Hin | reflexivity]].
        -- intros r' Hr' Hr'pos. apply in_app_or in Hr' as [Hr'|[<-|[]]].
           ++ destruct (Hseen r' Hr' Hr'pos) as [_ Hle]. split; [exact Hpos | lra].
           ++ fold x. split; [exact Hpos | apply Qle_refl].
      * assert (Hge : (m <= x)%Q).
        { apply Qnot_lt_le. intros H. apply F64_ltb_lt in H. congruence. }
        split; [exact Hval|].
        intros r' Hr' Hr'pos. apply in_app_or in Hr' as [Hr'|[<-|[]]].
        -- apply Hseen; assumption.
        -- fold x. split; [exact Hm | exact Hge].
  - assert (Hnpos : ~ (0 < x)%Q) by (intros H; apply F64_gtb_gt in H; congruence).
    split; [exact Hval|].
    intros r' Hr' Hr'pos. apply in_app_or in Hr' as [Hr'|[<-|[]]].
    + apply Hseen; assumption.
    + contradiction.
Qed.

Lemma fold_aggregate_min (all : list AgentResult.t) (rest : list AgentResult.t) :
  forall (seen : list AgentResult.t) (acc : Totals.t),
  (forall r, In r rest -> In r all) ->
  minimumSoFar all seen (Totals.minLatency acc) ->
  minimumSoFar all (seen ++ rest) (Totals.minLatency (fold_left aggregate rest acc)).
Proof.
  induction rest as [|r rest IH]; intros seen acc Hsub Hinv; simpl.
  - rewrite app_nil_r. exact Hinv.
  - replace (seen ++ r :: rest) with ((seen ++ [r]) ++ rest)
      by (rewrite <- app_assoc; reflexivity).
    apply IH.
    + intros r' Hr'. apply Hsub. right. exact Hr'.
    + apply aggregate_min; [apply Hsub; left; reflexivity | exact Hinv].
Qed.

(** The global minimum is the smallest of the positive per-agent minima,
    and zero when there is none. *)
Lemma computeResults_min (testRun : TestRun.t) (results : list AgentResult.t) :
  (forall r, In r results -> (0 <= AgentResult.MinLatencyMs r)%Q) ->
  let final := TestRunResults.MinLatencyMs (computeResults testRun results) in
  (forall r, In r results -> (0 < AgentResult.MinLatencyMs r)%Q ->
     (final <= AgentResult.MinLatencyMs r)%Q
     /\ exists r', In r' results /\ (0 < AgentResult.MinLatencyMs r')%Q
                   /\ final = AgentResult.MinLatencyMs r')
  /\ ((forall r, In r results -> ~ (0 < AgentResult.MinLatencyMs r)%Q) -> (final == 0)%Q).
Proof.
  intros Hnonneg final. subst final. unfold computeResults.
  cbn [TestRunResults.MinLatencyMs].
  assert (Hinit : minimumSoFar results [] (Totals.minLatency (initialTotals results))).
  { split; [|intros r []]. unfold initialTotals. cbn [Totals.minLatency].
    destruct results as [|first rest]; [left; reflexivity|].
    pose proof (Hnonneg first (or_introl eq_refl)) as H0.
    destruct (Qlt_le_dec 0 (AgentResult.MinLatencyMs first)) as [Hpos|Hle].
    - right. split; [exact Hpos | exists first; split; [left; reflexivity | reflexivity]].
    - left. apply Qle_antisym; assumption. }
  pose proof (fold_aggregate_min results results [] (initialTotals results)
                (fun r H => H) Hinit) as [Hval Hseen].
  simpl in Hseen.
  set (final := Totals.minLatency (fold_left aggregate results (initialTotals results))) in *.
  split.
  - intros r Hr Hpos. destruct (Hseen r Hr Hpos) as [Hm Hle]. split; [exact Hle|].
    destruct Hval as [Hz|[_ (r' & Hr' & Heq)]]; [lra|].
    exists r'. split; [exact Hr'|]. split; [rewrite <- Heq; exact Hm | exact Heq].
  - intros Hnone. destruct Hval as [Hz|[Hm (r' & Hr' & Heq)]]; [exact Hz|].
    exfalso. apply (Hnone r' Hr'). rewrite <- Heq. exact Hm.
Qed.

(** The success rate is 100 without requests and otherwise the double
    value of [(total - errors) / total * 100], which is within
    [300 * 2^-53] of the exact percentage. *)
Lemma computeResults_success_rate (testRun : TestRun.t) (results : list AgentResult.t) :
  let res := computeResults testRun results in
  let total := TestRunResults.TotalRequests res in
  let errors := TestRunResults.TotalErrors res in
  (total <= 0 -> (TestRunResults.SuccessRate res == 100)%Q)
  /\ (0 < total <= 2 ^ 53 -> 0 <= errors <= total ->
      (Qabs (TestRunResults.SuccessRate res
             - 100 * (inject_Z (total - errors) / inject_Z total))
       <= 300 * 2 ^ (-53))%Q).
Proof.
  intros res total errors. subst res total errors. unfold computeResults.
  cbn [TestRunResults.TotalRequests TestRunResults.TotalErrors TestRunResults.SuccessRate].
  set (t := fold_left aggregate results (initialTotals results)).
  set (total := Totals.totalRequests t). set (errors := Totals.totalErrors t).
  split.
  - intros Hle. destruct (Z.ltb_spec 0 total); [lia|]. vm_compute. reflexivity.
  - intros Ht He. destruct (Z.ltb_spec 0 total); [|lia].
    rewrite wrap64_id by (unfold in_int64, min_int64, max_int64; lia).
    unfold F64.mul, F64.div, F64.of_int.
    assert (Ha : (F64.round (inject_Z (total - errors)) == inject_Z (total - errors))%Q)
      by (apply round_int; lia).
    assert (Hb : (F64.round (inject_Z total) == inject_Z total)%Q)
      by (apply round_int; lia).
    assert (Hc : (F64.round (inject_Z 100) == 100)%Q) by (vm_compute; reflexivity).
    set (A := inject_Z (total - errors)) in *. set (B := inject_Z total) in *.
    assert (HA : (0 <= A)%Q) by (unfold A; rewrite <- (Zle_Qle 0); lia).
    assert (HB : (0 < B)%Q) by (unfold B; rewrite <- (Zlt_Qlt 0); lia).
    assert (HAB : (A <= B)%Q) by (unfold A, B; rewrite <- Zle_Qle; lia).
    set (q := (A / B)%Q).
    assert (Hq : (0 <= q <= 1)%Q).
    { unfold q. split; [apply Qle_shift_div_l | apply Qle_shift_div_r]; lra. }
    assert (Hq' : (F64.round A / F64.round B == q)%Q).
    { unfold q. rewrite Ha, Hb. reflexivity. }
    assert (Hq0 : (0 <= F64.round A / F64.round B)%Q) by (rewrite Hq'; apply Hq).
    destruct (round_between _ Hq0) as [Hp1 Hp2].
    set (p := F64.round (F64.round A / F64.round B)) in *.
    rewrite Hq' in Hp1, Hp2.
    assert (Hp0 : (0 <= p * F64.round (inject_Z 100))%Q).
    { rewrite Hc. lra. }
    destruct (round_between _ Hp0) as [Hr1 Hr2].
    set (rate := F64.round (p * F64.round (inject_Z 100))) in *.
    rewrite Hc in Hr1, Hr2.
    change (2 ^ (-53))%Q with (1 # 9007199254740992)%Q.
    apply Qabs_Qle_condition. split; lra.
Qed.

(** With a completion time on the run the rate would be the requests
    over the seconds between start and completion. *)
Lemma computeResults_rate_when_completed (testRun : TestRun.t)
    (agentResults : list AgentResult.t) (started completed : Z) :
  TestRun.StartedAt testRun = Some started ->
  TestRun.CompletedAt testRun = Some completed ->
  F64.gtb (Seconds (Sub completed started)) 0 = true ->
  TestRunResults.RequestsPerSec (computeResults testRun agentResults)
  = F64.div (F64.of_int (TestRunResults.TotalRequests
                           (computeResults testRun agentResults)))
            (Seconds (Sub completed started)).
Proof.
  intros Hs Hc Hpos. unfold computeResults.
  cbn [TestRunResults.RequestsPerSec TestRunResults.TotalRequests].
  rewrite Hs, Hc, Hpos. reflexivity.
Qed.

(** While the run has no completion time, no request rate is computed. *)
Lemma computeResults_rate_unset (testRun : TestRun.t)
    (agentResults : list AgentResult.t) :
  TestRun.CompletedAt testRun = None ->
  TestRunResults.RequestsPerSec (computeResults testRun agentResults) = 0%Q.
Proof.
  intros Hc. unfold computeResults. cbn [TestRunResults.RequestsPerSec].
  rewrite Hc. destruct (TestRun.StartedAt testRun); reflexivity.
Qed.

(** [completeTestRun] computes the results before [Complete] sets the
    completion time: a run that reaches it without one (every run that
    was started through the API) is stored with a request rate of zero. *)
Lemma completeTestRun_rate (c : Coordinator.t) (testRunID : string) (now : Z)
    (testRun : TestRun.t) :
  Coordinator.testRuns c !! testRunID = Some testRun ->
  TestRun.CompletedAt testRun = None ->
  exists testRun' results,
    Coordinator.testRuns (completeTestRun c testRunID now) !! testRunID = Some testRun'
    /\ TestRun.Status testRun' = TestRunStatusCompleted
    /\ TestRun.CompletedAt testRun' = Some now
    /\ TestRun.StartedAt testRun' = TestRun.StartedAt testRun
    /\ TestRun.Results testRun' = Some results
    /\ TestRunResults.RequestsPerSec results = 0%Q.
Proof.
  intros Hrun Hc. unfold completeTestRun. rewrite Hrun.
  cbn [Coordinator.testRuns]. rewrite lookup_insert_eq.
  eexists _, _. split; [reflexivity|]. cbn.
  repeat (split; [reflexivity|]). apply computeResults_rate_unset, Hc.
Qed.

(** ** The ramp-up calculator: completion, validated strategies, monotonicity *)

Lemma wrap64_pos_nonzero (z : Z) : 0 < z < 2 ^ 64 -> wrap64 z <> 0.
Proof.
  unfold wrap64. intros Hz H.
  assert (Hm : (z + 2 ^ 63) mod 2 ^ 64 = 2 ^ 63) by lia.
  destruct (Z.lt_ge_cases z (2 ^ 63)) as [Hlt|Hge].
  - rewrite Z.mod_small in Hm by lia. lia.
  - replace (z + 2 ^ 63) with (z - 2 ^ 63 + 1 * 2 ^ 64) in Hm by lia.
    rewrite Z.mod_add, Z.mod_small in Hm by lia. lia.
Qed.

Lemma Sub_range (t u : Z) : in_int64 (Sub t u).
Proof. unfold Sub, in_int64, min_int64, max_int64. lia. Qed.

Lemma Sub_mono (t1 t2 u : Z) : t1 <= t2 -> Sub t1 u <= Sub t2 u.
Proof. unfold Sub. lia. Qed.

(** X1.  The ramp-up is complete exactly when no time remains: the
    remaining duration is zero if and only if [IsComplete] holds; while the
    ramp-up is not complete (and the clock has not run backwards) the
    remaining duration is positive, at most the strategy duration, and
    elapsed time plus remaining time is the strategy duration. *)
Theorem GetRemainingDuration_complete (calc : RampUpCalculator.t)
    (execution : RampUpExecution.t) (now : Z) :
  in_int64 (RampUpCalculator.duration calc) ->
  let elapsed := Since execution now in
  let remaining := GetRemainingDuration calc execution now in
  (IsComplete calc execution now = true <-> remaining = 0)
  /\ (IsComplete calc execution now = false -> 0 <= elapsed ->
        0 < remaining <= RampUpCalculator.duration calc
        /\ elapsed + remaining = RampUpCalculator.duration calc).
Proof.
  intros HD elapsed remaining.
  unfold remaining, IsComplete, GetRemainingDuration. fold elapsed.
  pose proof (Sub_range now (RampUpExecution.StartTime execution)) as He.
  fold (Since execution now) in He. fold elapsed in He.
  unfold in_int64, min_int64, max_int64 in HD, He.
  destruct (Z.leb_spec (RampUpCalculator.duration calc) elapsed) as [Hle|Hlt].
  - split; [split; reflexivity | discriminate].
  - split.
    + split; [discriminate|]. intros H. exfalso.
      revert H. apply wrap64_pos_nonzero. lia.
    + intros _ Hpos. rewrite wrap64_id by (unfold in_int64, min_int64, max_int64; lia).
      lia.
Qed.

(** The loop of [getPhaseBasedConcurrency] either falls through, leaving
    the execution as it was, or stops in one of the phases and records it. *)
Lemma phaseLoop_result maxC execution elapsed phases :
  forall (i : nat) (cum : Z),
  phaseLoop maxC execution elapsed phases i cum = (maxC, execution)
  \/ exists (k : nat) phase,
       phases !! k = Some phase
       /\ phaseLoop maxC execution elapsed phases i cum
          = (RampPhase.Concurrency phase, enterPhase execution (i + k) phase).
Proof.
  induction phases as [|phase rest IH]; intros i cum; simpl.
  - left. reflexivity.
  - destruct (ParseDuration (RampPhase.Duration phase)) as [d|].
    + destruct (elapsed <=? wrap64 (cum + d)).
      * right. exists 0%nat, phase. rewrite Nat.add_0_r. split; reflexivity.
      * destruct (IH (S i) (wrap64 (cum + d))) as [H|(k & q & Hk & H)].
        -- left. exact H.
        -- right. exists (S k), q. split; [exact Hk|].
           rewrite H. replace (S i + k)%nat with (i + S k)%nat by lia. reflexivity.
    + destruct (IH (S i) cum) as [H|(k & q & Hk & H)].
      * left. exact H.
      * right. exists (S k), q. split; [exact Hk|].
        rewrite H. replace (S i + k)%nat with (i + S k)%nat by lia. reflexivity.
Qed.

Lemma validatePhases_accepts phases :
  forall i : nat, validatePhases phases i = None ->
  forall (k : nat) phase, phases !! k = Some phase ->
    ParseDuration (RampPhase.Duration phase) <> None
    /\ 0 <= RampPhase.Concurrency phase
    /\ (RampPhase.Mode phase = "parallel" \/ RampPhase.Mode phase = "sequential").
Proof.
  induction phases as [|p rest IH]; intros i Hv k phase Hk; [inversion Hk|].
  simpl in Hv.
  destruct (ParseDuration (RampPhase.Duration p)) as [d|] eqn:Hd; [|discriminate].
  destruct (Z.ltb_spec (RampPhase.Concurrency p) 0) as [Hc|Hc]; [discriminate|].
  destruct (String.eqb_spec (RampPhase.Mode p) "parallel") as [Hp|Hp];
    destruct (String.eqb_spec (RampPhase.Mode p) "sequential") as [Hs|Hs];
    simpl in Hv; try discriminate;
    (destruct k as [|k]; simpl in Hk;
     [inversion Hk; subst phase; rewrite Hd; repeat split; auto; congruence
     | exact (IH (S i) Hv k phase Hk)]).
Qed.

(** X2.  A strategy that [ValidateRampUpStrategy] accepts always yields a
    calculator.  For an accepted step or custom strategy every call of
    [GetCurrentConcurrency] either returns the maximum and leaves the
    execution untouched, or returns the concurrency of one of the phases,
    which is not negative, and records that phase and its concurrency in
    the execution; so with a non-negative maximum the target is never
    negative. *)
Theorem validated_strategy_target (strategy : RampUpStrategy.t) (maxConcurrency : Z) :
  ValidateRampUpStrategy strategy = None ->
  exists calc,
    NewRampUpCalculator strategy maxConcurrency = Some calc
    /\ (phaseBased (RampUpStrategy.Type_ strategy) ->
        forall (execution : RampUpExecution.t) (now : Z),
          let r := GetCurrentConcurrency calc execution now in
          (r = (maxConcurrency, execution)
           \/ exists (i : nat) phase,
                RampUpStrategy.Phases strategy !! i = Some phase
                /\ 0 <= RampPhase.Concurrency phase
                /\ fst r = RampPhase.Concurrency phase
                /\ snd r = enterPhase execution i phase)
          /\ (0 <= maxConcurrency -> 0 <= fst r)).
Proof.
  intros Hv. unfold ValidateRampUpStrategy in Hv.
  unfold NewRampUpCalculator.
  destruct (ParseDuration (RampUpStrategy.Duration strategy)) as [D|]; [|discriminate].
  eexists. split; [reflexivity|].
  intros Hty execution now.
  set (calc := {| RampUpCalculator.strategy := strategy;
                  RampUpCalculator.maxConcurrency := maxConcurrency;
                  RampUpCalculator.startTime := 0;
                  RampUpCalculator.duration := D |}).
  set (r := GetCurrentConcurrency calc execution now).
  assert (Hphases : RampUpStrategy.Phases strategy <> []
                    /\ validatePhases (RampUpStrategy.Phases strategy) 0 = None).
  { assert (Hv' : match RampUpStrategy.Phases strategy with
                   | [] => Some ErrNoPhases
                   | phases => validatePhases phases 0
                   end = None)
      by (destruct Hty as [Hty|Hty]; rewrite Hty in Hv; exact Hv).
    destruct (RampUpStrategy.Phases strategy); [discriminate|].
    split; [discriminate | exact Hv']. }
  destruct Hphases as [Hne Hok].
  assert (Hr : r = phaseLoop maxConcurrency execution (Since execution now)
                     (RampUpStrategy.Phases strategy) 0 0).
  { unfold r. rewrite GetCurrentConcurrency_phaseBased by exact Hty.
    unfold getPhaseBasedConcurrency. simpl.
    destruct (RampUpStrategy.Phases strategy); [contradiction | reflexivity]. }
  assert (Hcases : r = (maxConcurrency, execution)
           \/ exists (i : nat) phase,
                RampUpStrategy.Phases strategy !! i = Some phase
                /\ 0 <= RampPhase.Concurrency phase
                /\ fst r = RampPhase.Concurrency phase
                /\ snd r = enterPhase execution i phase).
  { rewrite Hr.
    destruct (phaseLoop_result maxConcurrency execution (Since execution now)
                (RampUpStrategy.Phases strategy) 0 0) as [H|(k & phase & Hk & H)].
    - left. exact H.
    - right. exists k, phase. rewrite H. simpl.
      destruct (validatePhases_accepts _ _ Hok k phase Hk) as (_ & Hc & _).
      auto. }
  split; [exact Hcases|].
  intros Hmax. destruct Hcases as [H|(i & phase & _ & Hc & Hf & _)].
  - rewrite H. exact Hmax.
  - rewrite Hf. exact Hc.
Qed.

Lemma of_int_nonneg (z : Z) : 0 <= z -> (0 <= F64.of_int z)%Q.
Proof.
  intros Hz. apply round_nonneg. change 0%Q with (inject_Z 0).
  rewrite <- Zle_Qle. exact Hz.
Qed.

Lemma of_int_mono (x y : Z) : 0 <= x <= y -> (F64.of_int x <= F64.of_int y)%Q.
Proof.
  intros H. apply round_mono; [change 0%Q with (inject_Z 0)|];
    rewrite <- Zle_Qle; lia.
Qed.

Lemma of_int_pos (z : Z) : 0 < z -> (0 < F64.of_int z)%Q.
Proof.
  intros Hz. unfold F64.of_int.
  assert (H : (0 < inject_Z z)%Q)
    by (change 0%Q with (inject_Z 0); rewrite <- Zlt_Qlt; exact Hz).
  rewrite round_positive by exact H. apply round_pos_positive, H.
Qed.

(** The value of the linear case does not decrease with the elapsed time. *)
Lemma linearTarget_mono (maxConcurrency e1 e2 duration : Z) :
  0 <= maxConcurrency ->
  0 <= e1 <= e2 ->
  0 < duration ->
  linearTarget maxConcurrency e1 duration <= linearTarget maxConcurrency e2 duration.
Proof.
  intros Hm He Hd. unfold linearTarget, F64.mul, F64.div.
  pose proof (of_int_nonneg maxConcurrency Hm) as HM.
  pose proof (of_int_nonneg e1 ltac:(lia)) as H1.
  pose proof (of_int_mono e1 e2 He) as H12.
  pose proof (of_int_pos duration Hd) as HD.
  set (M := F64.of_int maxConcurrency) in *.
  set (P1 := F64.of_int e1) in *. set (P2 := F64.of_int e2) in *.
  set (d := F64.of_int duration) in *.
  assert (Hinv : (0 < / d)%Q) by (apply Qinv_lt_0_compat, HD).
  assert (Hq1 : (0 <= P1 / d)%Q).
  { unfold Qdiv. apply Qmult_le_0_compat; [exact H1 | apply Qlt_le_weak, Hinv]. }
  assert (Hq12 : (P1 / d <= P2 / d)%Q).
  { unfold Qdiv. apply Qmult_le_compat_r; [exact H12 | apply Qlt_le_weak, Hinv]. }
  pose proof (round_nonneg _ Hq1) as Hr1.
  pose proof (round_mono _ _ Hq1 Hq12) as Hr12.
  assert (Hp1 : (0 <= M * F64.round (P1 / d))%Q) by (apply Qmult_le_0_compat; assumption).
  assert (Hp12 : (M * F64.round (P1 / d) <= M * F64.round (P2 / d))%Q).
  { rewrite !(Qmult_comm M). apply Qmult_le_compat_r; assumption. }
  pose proof (round_nonneg _ Hp1) as Hs1.
  pose proof (round_mono _ _ Hp1 Hp12) as Hs12.
  pose proof (Qle_trans _ _ _ Hs1 Hs12) as Hs2.
  rewrite (to_int_nonneg _ Hs1), (to_int_nonneg _ Hs2).
  apply Qfloor_resp_le, Hs12.
Qed.

(** X3.  The linear ramp never goes down: for a linear strategy with a
    maximum in [0, 2^53], the target computed at a later instant is at least
    the target computed at an earlier one (from the start of the ramp-up
    on), through the switch to the maximum at the end of the ramp. *)
Theorem linear_ramp_monotone (calc : RampUpCalculator.t)
    (execution : RampUpExecution.t) (now1 now2 : Z) :
  RampUpStrategy.Type_ (RampUpCalculator.strategy calc) = RampUpTypeLinear ->
  0 <= RampUpCalculator.maxConcurrency calc <= 2 ^ 53 ->
  0 <= Since execution now1 ->
  now1 <= now2 ->
  fst (GetCurrentConcurrency calc execution now1)
  <= fst (GetCurrentConcurrency calc execution now2).
Proof.
  intros Hty Hm He Hnow.
  assert (H12 : Since execution now1 <= Since execution now2).
  { unfold Since. apply Sub_mono, Hnow. }
  unfold GetCurrentConcurrency. rewrite Hty.
  cbn [String.eqb Ascii.eqb Bool.eqb RampUpTypeLinear RampUpTypeImmediate].
  set (e1 := Since execution now1) in *. set (e2 := Since execution now2) in *.
  set (D := RampUpCalculator.duration calc).
  set (M := RampUpCalculator.maxConcurrency calc) in *.
  destruct (Z.leb_spec D e1) as [H1|H1]; destruct (Z.leb_spec D e2) as [H2|H2];
    cbn [fst]; try lia.
  - fold (linearTarget M e1 D).
    apply (linearTarget_range M e1 D); [exact Hm | lia].
  - fold (linearTarget M e1 D). fold (linearTarget M e2 D).
    apply linearTarget_mono; lia.
Qed.

(** ** Agent metrics: latency bounds, average, reporting *)

Lemma requestMillis_app ops1 ops2 :
  requestMillis (ops1 ++ ops2) = requestMillis ops1 ++ requestMillis ops2.
Proof. unfold requestMillis. apply omap_app. Qed.

Lemma requestMillis_length ops :
  Z.of_nat (length (requestMillis ops)) = requestCalls ops.
Proof.
  unfold requestCalls. f_equal.
  induction ops as [|[c l|] ops IH]; simpl; [reflexivity | f_equal; exact IH | exact IH].
Qed.

Lemma requestCalls_le_length ops : 0 <= requestCalls ops <= Z.of_nat (length ops).
Proof.
  unfold requestCalls. pose proof (List.filter_length isRequest ops). lia.
Qed.

Lemma recordRequest_latencyInv m seen statusCode latency :
  latencyInv m seen ->
  Z.of_nat (length seen) < max_int64 ->
  latencyInv (recordRequest m statusCode latency) (seen ++ [Milliseconds latency]).
Proof.
  intros [Hn Hb] Hlen. unfold latencyInv, recordRequest.
  cbn [AgentMetrics.Requests AgentMetrics.MinLatencyMs AgentMetrics.MaxLatencyMs].
  rewrite Hn, wrap64_id by (unfold in_int64, min_int64; lia).
  rewrite length_app, map_app. cbn [length map app].
  split; [lia|]. intros _.
  set (x0 := F64.of_int (Milliseconds latency)).
  destruct seen as [|s seen'].
  - cbn [length Z.of_nat Z.add Z.eqb Pos.eqb app map In]. fold x0.
    split; [left; reflexivity|]. split; [left; reflexivity|].
    intros x [<-|[]]. split; apply Qle_refl.
  - destruct (Hb ltac:(discriminate)) as (Hmin & Hmax & Hall).
    destruct (Z.eqb_spec (Z.of_nat (length (s :: seen')) + 1) 1) as [He|_];
      [simpl in He; lia|].
    set (old := map F64.of_int (s :: seen')) in *.
    assert (Hmm : (AgentMetrics.MinLatencyMs m <= AgentMetrics.MaxLatencyMs m)%Q).
    { destruct (Hall _ Hmin) as [_ H]. exact H. }
    destruct (F64.ltb x0 (AgentMetrics.MinLatencyMs m)) eqn:Hlt;
      destruct (F64.gtb x0 (AgentMetrics.MaxLatencyMs m)) eqn:Hgt.
    + apply F64_ltb_lt in Hlt. apply F64_gtb_gt in Hgt.
      exfalso. apply (Qlt_irrefl x0).
      eapply Qlt_le_trans; [exact Hlt|].
      eapply Qle_trans; [exact Hmm | apply Qlt_le_weak, Hgt].
    + apply F64_ltb_lt in Hlt.
      assert (Hle : (x0 <= AgentMetrics.MaxLatencyMs m)%Q).
      { apply Qnot_lt_le. intros H. apply F64_gtb_gt in H. congruence. }
      split; [apply in_or_app; right; left; reflexivity|].
      split; [apply in_or_app; left; exact Hmax|].
      intros x Hx. apply in_app_or in Hx. destruct Hx as [Hx|[<-|[]]].
      * destruct (Hall x Hx) as [H1 H2]. split; [|exact H2].
        eapply Qle_trans; [apply Qlt_le_weak, Hlt | exact H1].
      * split; [apply Qle_refl | exact Hle].
    + apply F64_gtb_gt in Hgt.
      assert (Hge : (AgentMetrics.MinLatencyMs m <= x0)%Q).
      { apply Qnot_lt_le. intros H. apply F64_ltb_lt in H. congruence. }
      split; [apply in_or_app; left; exact Hmin|].
      split; [apply in_or_app; right; left; reflexivity|].
      intros x Hx. apply in_app_or in Hx. destruct Hx as [Hx|[<-|[]]].
      * destruct (Hall x Hx) as [H1 H2]. split; [exact H1|].
        eapply Qle_trans; [exact H2 | apply Qlt_le_weak, Hgt].
      * split; [exact Hge | apply Qle_refl].
    + assert (Hle : (x0 <= AgentMetrics.MaxLatencyMs m)%Q).
      { apply Qnot_lt_le. intros H. apply F64_gtb_gt in H. congruence. }
      assert (Hge : (AgentMetrics.MinLatencyMs m <= x0)%Q).
      { apply Qnot_lt_le. intros H. apply F64_ltb_lt in H. congruence. }
      split; [apply in_or_app; left; exact Hmin|].
      split; [apply in_or_app; left; exact Hmax|].
      intros x Hx. apply in_app_or in Hx. destruct Hx as [Hx|[<-|[]]].
      * apply Hall, Hx.
      * split; assumption.
Qed.

Lemma fold_applyOp_latencyInv (ops : list MetricOp) :
  forall (m : AgentMetrics.t) (seen : list Z),
  latencyInv m seen ->
  Z.of_nat (length seen) + requestCalls ops <= max_int64 ->
  latencyInv (fold_left applyOp ops m) (seen ++ requestMillis ops).
Proof.
  induction ops as [|op ops IH]; intros m seen Hinv Hlen.
  - simpl. rewrite app_nil_r. exact Hinv.
  - pose proof (requestCalls_le_length ops) as [Hops _].
    destruct op as [c l|].
    + change (requestMillis (OpRequest c l :: ops))
        with ([Milliseconds l] ++ requestMillis ops).
      rewrite app_assoc. simpl fold_left.
      assert (Hcall : requestCalls (OpRequest c l :: ops) = 1 + requestCalls ops).
      { unfold requestCalls. simpl. lia. }
      apply IH.
      * apply recordRequest_latencyInv; [exact Hinv | lia].
      * rewrite length_app. simpl. lia.
    + change (requestMillis (OpError :: ops)) with (requestMillis ops).
      simpl fold_left. apply IH; [|exact Hlen].
      destruct Hinv as [Hn Hb]. split; [exact Hn | exact Hb].
Qed.

Lemma resetMetrics_latencyInv m : latencyInv (resetMetrics m) [].
Proof. split; [reflexivity | congruence]. Qed.

(** X4.  After any sequence of calls on freshly reset metrics that holds at
    least one [recordRequest], the minimum and the maximum latency are
    latencies that were recorded, and every recorded latency lies between
    them: they are the least and the greatest recorded latency (in whole
    milliseconds). *)
Theorem latency_bounds (m : AgentMetrics.t) (ops : list MetricOp) :
  Z.of_nat (length ops) <= max_int64 ->
  latenciesMs ops <> [] ->
  let m' := runOps m ops in
  In (AgentMetrics.MinLatencyMs m') (latenciesMs ops)
  /\ In (AgentMetrics.MaxLatencyMs m') (latenciesMs ops)
  /\ forall x, In x (latenciesMs ops) ->
       (AgentMetrics.MinLatencyMs m' <= x <= AgentMetrics.MaxLatencyMs m')%Q.
Proof.
  intros Hlen Hne m'.
  pose proof (requestCalls_le_length ops) as Hcalls.
  destruct (fold_applyOp_latencyInv ops (resetMetrics m) [] (resetMetrics_latencyInv m))
    as [_ Hb]; [simpl; lia|].
  simpl in Hb. apply Hb. intros H. apply Hne. unfold latenciesMs. rewrite H. reflexivity.
Qed.

Lemma of_int_exact (z : Z) : 0 <= z <= 2 ^ 53 -> (F64.of_int z == inject_Z z)%Q.
Proof. apply round_int. Qed.

Lemma round_of_int (z : Z) : 0 <= z <= 2 ^ 53 -> (F64.round (F64.of_int z) == F64.of_int z)%Q.
Proof.
  intros Hz. unfold F64.of_int at 2.
  apply round_comp_nonneg; [apply of_int_nonneg; lia | apply of_int_exact, Hz].
Qed.

Lemma sumZ_app (l1 l2 : list Z) : sumZ (l1 ++ l2) = sumZ l1 + sumZ l2.
Proof. unfold sumZ. induction l1 as [|x l1 IH]; simpl; [reflexivity | rewrite IH; lia]. Qed.

Lemma sumZ_nonneg (l : list Z) : (forall x, In x l -> 0 <= x) -> 0 <= sumZ l.
Proof.
  induction l as [|x l IH]; intros H; simpl; [lia|].
  assert (0 <= x) by (apply H; left; reflexivity).
  assert (0 <= sumZ l) by (apply IH; intros y Hy; apply H; right; exact Hy).
  unfold sumZ in *. lia.
Qed.

(** A sum of whole numbers lies between the count times a lower bound and
    the count times an upper bound of their doubles. *)
Lemma sum_between (a b : Q) (l : list Z) :
  (forall x, In x l -> 0 <= x <= 2 ^ 53) ->
  (forall q, In q (map F64.of_int l) -> (a <= q <= b)%Q) ->
  (inject_Z (Z.of_nat (length l)) * a <= inject_Z (sumZ l)
   <= inject_Z (Z.of_nat (length l)) * b)%Q.
Proof.
  induction l as [|x l IH]; intros Hr Hq.
  - simpl. split; rewrite Qmult_0_l; apply Qle_refl.
  - assert (Hx : (a <= inject_Z x <= b)%Q).
    { rewrite <- (of_int_exact x) by (apply Hr; left; reflexivity).
      apply Hq. left. reflexivity. }
    destruct IH as [IH1 IH2].
    { intros y Hy. apply Hr. right. exact Hy. }
    { intros q Hq'. apply Hq. right. exact Hq'. }
    change (sumZ (x :: l)) with (x + sumZ l).
    change (length (x :: l)) with (S (length l)).
    rewrite Nat2Z.inj_succ. unfold Z.succ. rewrite !inject_Z_plus.
    change (inject_Z 1) with 1%Q.
    split; lra.
Qed.

Lemma fold_applyOp_averageInv (ops : list MetricOp) :
  forall (m : AgentMetrics.t) (seen : list Z),
  averageInv m seen ->
  (forall x, In x (seen ++ requestMillis ops) -> 0 <= x) ->
  sumZ (seen ++ requestMillis ops) <= 2 ^ 53 ->
  Z.of_nat (length seen) + requestCalls ops <= max_int64 ->
  averageInv (fold_left applyOp ops m) (seen ++ requestMillis ops).
Proof.
  induction ops as [|op ops IH]; intros m seen Hinv Hpos Hsum Hlen.
  - simpl. rewrite app_nil_r. exact Hinv.
  - pose proof (requestCalls_le_length ops) as [Hops _].
    destruct op as [c l|].
    + change (requestMillis (OpRequest c l :: ops))
        with ([Milliseconds l] ++ requestMillis ops) in *.
      rewrite app_assoc in *. simpl fold_left.
      assert (Hcall : requestCalls (OpRequest c l :: ops) = 1 + requestCalls ops).
      { unfold requestCalls. simpl. lia. }
      apply IH; [|exact Hpos | exact Hsum | rewrite length_app; simpl; lia].
      destruct Hinv as (Hn & Ht & Ha).
      set (ms := Milliseconds l) in *.
      assert (Hms : 0 <= ms).
      { apply Hpos. apply in_or_app. left. apply in_or_app. right. left. reflexivity. }
      assert (Hseen : 0 <= sumZ seen).
      { apply sumZ_nonneg. intros x Hx. apply Hpos.
        apply in_or_app. left. apply in_or_app. left. exact Hx. }
      assert (Hrest : 0 <= sumZ (requestMillis ops)).
      { apply sumZ_nonneg. intros x Hx. apply Hpos. apply in_or_app. right. exact Hx. }
      rewrite !sumZ_app in Hsum. change (sumZ [ms]) with (ms + 0) in Hsum.
      unfold averageInv, recordRequest.
      cbn [AgentMetrics.Requests AgentMetrics.totalLatency AgentMetrics.AvgLatencyMs].
      fold ms. rewrite Hn, wrap64_id by (unfold in_int64, min_int64; lia).
      split; [rewrite length_app; simpl; lia|].
      split; [|intros _; reflexivity].
      rewrite sumZ_app. change (sumZ [ms]) with (ms + 0). rewrite Z.add_0_r.
      unfold F64.add.
      assert (Hx0 : (F64.of_int ms == inject_Z ms)%Q) by (apply of_int_exact; lia).
      assert (Heq : (AgentMetrics.totalLatency m + F64.of_int ms
                     == inject_Z (sumZ seen + ms))%Q).
      { rewrite Ht, Hx0, inject_Z_plus. reflexivity. }
      assert (Hnn : (0 <= AgentMetrics.totalLatency m + F64.of_int ms)%Q).
      { rewrite Heq. change 0%Q with (inject_Z 0). rewrite <- Zle_Qle. lia. }
      rewrite (round_comp_nonneg _ _ Hnn Heq). apply round_int. lia.
    + change (requestMillis (OpError :: ops)) with (requestMillis ops) in *.
      simpl fold_left. apply IH; [|exact Hpos | exact Hsum | exact Hlen].
      destruct Hinv as (Hn & Ht & Ha). split; [exact Hn|]. split; [exact Ht | exact Ha].
Qed.

(** X5.  The average latency lies between the minimum and the maximum:
    after any sequence of calls on freshly reset metrics with at least one
    request, non-negative latencies, and a count and a sum of whole
    milliseconds of at most [2^53] (so that the running total is exact),
    [MinLatencyMs <= AvgLatencyMs <= MaxLatencyMs]. *)
Theorem average_latency_between_bounds (m : AgentMetrics.t) (ops : list MetricOp) :
  requestMillis ops <> [] ->
  (forall x, In x (requestMillis ops) -> 0 <= x) ->
  sumZ (requestMillis ops) <= 2 ^ 53 ->
  requestCalls ops <= 2 ^ 53 ->
  let m' := runOps m ops in
  (AgentMetrics.MinLatencyMs m' <= AgentMetrics.AvgLatencyMs m'
   <= AgentMetrics.MaxLatencyMs m')%Q.
Proof.
  intros Hne Hpos Hsum Hcount m'.
  assert (Hlen : 0 + requestCalls ops <= max_int64) by (unfold max_int64; lia).
  destruct (fold_applyOp_latencyInv ops (resetMetrics m) [] (resetMetrics_latencyInv m))
    as [_ Hb]; [exact Hlen|].
  destruct (fold_applyOp_averageInv ops (resetMetrics m) [])
    as (Hn & Ht & Ha); [| exact Hpos | exact Hsum | exact Hlen |].
  { split; [reflexivity|]. split; [reflexivity | congruence]. }
  simpl app in Hb, Hn, Ht, Ha. fold (runOps m ops) in Hb, Hn, Ht, Ha. fold m' in Hb, Hn, Ht, Ha.
  destruct (Hb Hne) as (Hmin & Hmax & Hall). specialize (Ha Hne).
  set (l := requestMillis ops) in *.
  assert (Hrange : forall x, In x l -> 0 <= x <= 2 ^ 53).
  { intros x Hx. split; [apply Hpos, Hx|].
    apply in_split in Hx. destruct Hx as (l1 & l2 & Hl). rewrite Hl in Hsum, Hpos.
    rewrite sumZ_app in Hsum. change (sumZ (x :: l2)) with (x + sumZ l2) in Hsum.
    assert (0 <= sumZ l1)
      by (apply sumZ_nonneg; intros y Hy; apply Hpos, in_or_app; left; exact Hy).
    assert (0 <= sumZ l2)
      by (apply sumZ_nonneg; intros y Hy; apply Hpos, in_or_app; right; right; exact Hy).
    lia. }
  destruct (sum_between _ _ l Hrange Hall) as [Hlo Hhi].
  assert (Hnpos : 0 < Z.of_nat (length l)).
  { destruct l; [congruence | simpl; lia]. }
  set (n := Z.of_nat (length l)) in *.
  assert (Hn' : AgentMetrics.Requests m' = n) by exact Hn.
  assert (HnQ : (0 < inject_Z n)%Q)
    by (change 0%Q with (inject_Z 0); rewrite <- Zlt_Qlt; exact Hnpos).
  assert (Hofn : (F64.of_int n == inject_Z n)%Q).
  { apply of_int_exact. unfold n, l. rewrite requestMillis_length.
    pose proof (requestCalls_le_length ops). lia. }
  set (S := inject_Z (sumZ l)) in *.
  assert (Hquot : (AgentMetrics.totalLatency m' / F64.of_int (AgentMetrics.Requests m')
                   == S / inject_Z n)%Q).
  { rewrite Hn', Ht, Hofn. reflexivity. }
  assert (Hlo' : (AgentMetrics.MinLatencyMs m' <= S / inject_Z n)%Q).
  { apply Qle_shift_div_l; [exact HnQ|]. rewrite Qmult_comm. exact Hlo. }
  assert (Hhi' : (S / inject_Z n <= AgentMetrics.MaxLatencyMs m')%Q).
  { apply Qle_shift_div_r; [exact HnQ|]. rewrite Qmult_comm. exact Hhi. }
  assert (Hfix : forall q, In q (map F64.of_int l) ->
                   (0 <= q)%Q /\ (F64.round q == q)%Q).
  { intros q Hq. apply in_map_iff in Hq. destruct Hq as (x & <- & Hx).
    split; [apply of_int_nonneg, Hpos, Hx | apply round_of_int, Hrange, Hx]. }
  destruct (Hfix _ Hmin) as [Hmin0 Hminr]. destruct (Hfix _ Hmax) as [Hmax0 Hmaxr].
  assert (Hq0 : (0 <= S / inject_Z n)%Q) by (eapply Qle_trans; [exact Hmin0 | exact Hlo']).
  assert (Hq0' : (0 <= AgentMetrics.totalLatency m'
                       / F64.of_int (AgentMetrics.Requests m'))%Q)
    by (rewrite Hquot; exact Hq0).
  rewrite Ha. unfold F64.div.
  rewrite (round_comp_nonneg _ _ Hq0' Hquot).
  split.
  - rewrite <- Hminr. apply round_mono; [exact Hmin0 | exact Hlo'].
  - rewrite <- Hmaxr. apply round_mono; [exact Hq0 | exact Hhi'].
Qed.

(** X6.  Telemetry is published only after a response was recorded: on
    metrics that were reset, [reportMetrics] publishes nothing exactly when
    no [recordRequest] call was made, whatever the number of [recordError]
    calls; otherwise it publishes the counters with the given time stamp. *)
Theorem errors_only_never_reported (m : AgentMetrics.t) (ops : list MetricOp)
    (ts : string) :
  Z.of_nat (length ops) <= max_int64 ->
  (reportMetrics (runOps m ops) ts = None <-> requestCalls ops = 0)
  /\ ((forall op, In op ops -> op = OpError) -> reportMetrics (runOps m ops) ts = None)
  /\ (forall snapshot, reportMetrics (runOps m ops) ts = Some snapshot ->
        AgentMetrics.Timestamp snapshot = ts
        /\ AgentMetrics.Requests snapshot = requestCalls ops
        /\ AgentMetrics.Errors snapshot = errorCalls ops
        /\ 0 < AgentMetrics.Requests snapshot).
Proof.
  intros Hlen.
  destruct (runOps_counters m ops Hlen) as (Hreq & Herr & _).
  pose proof (requestCalls_le_length ops) as [Hnn _].
  assert (Hiff : reportMetrics (runOps m ops) ts = None <-> requestCalls ops = 0).
  { unfold reportMetrics. rewrite Hreq.
    destruct (Z.eqb_spec (requestCalls ops) 0); split; congruence. }
  split; [exact Hiff|]. split.
  - intros Hall. apply Hiff. unfold requestCalls.
    replace (List.filter isRequest ops) with (@nil MetricOp); [reflexivity|].
    symmetry. clear -Hall. induction ops as [|op ops IH]; [reflexivity|].
    simpl. rewrite (Hall op (or_introl eq_refl)). simpl.
    apply IH. intros op' H. apply Hall. right. exact H.
  - intros snapshot Hs. unfold reportMetrics in Hs. rewrite Hreq in Hs.
    destruct (Z.eqb_spec (requestCalls ops) 0) as [|Hnz]; [discriminate|].
    inversion Hs; subst snapshot.
    cbn [AgentMetrics.Timestamp AgentMetrics.Requests AgentMetrics.Errors].
    rewrite ?Hreq, ?Herr.
    repeat split; lia.
Qed.

(** ** Sequential phases and the stop channel *)

Lemma sequentialLoop_prefix testRunID stopAt phaseIndex phase phaseID perAgent :
  forall agentIDs (i : nat) (clock : Z),
  sequentialLoop testRunID stopAt phaseIndex phase phaseID perAgent agentIDs i clock
  `prefix_of`
  sequentialLoop testRunID None phaseIndex phase phaseID perAgent agentIDs i clock.
Proof.
  induction agentIDs as [|agentID rest IH]; intros i clock; simpl.
  - reflexivity.
  - destruct (match stopAt with Some s => s <=? clock | None => false end).
    + apply prefix_nil.
    + apply prefix_cons, IH.
Qed.

Lemma sequentialLoop_before_stop testRunID s phaseIndex phase phaseID perAgent :
  forall agentIDs (i : nat) (clock : Z) sent,
  In sent (sequentialLoop testRunID (Some s) phaseIndex phase phaseID perAgent
             agentIDs i clock) ->
  Sent.at_time sent < s + Z.max 0 perAgent /\ clock <= Sent.at_time sent.
Proof.
  induction agentIDs as [|agentID rest IH]; intros i clock sent; simpl; [intros []|].
  destruct (Z.leb_spec s clock) as [Hstop|Hrun]; [intros []|].
  set (clock' := if (0 <? i)%nat then Sleep perAgent clock else clock).
  assert (Hc : clock <= clock' <= clock + Z.max 0 perAgent).
  { unfold clock', Sleep. destruct (0 <? i)%nat; lia. }
  intros [<-|Hin].
  - simpl. lia.
  - apply IH in Hin. lia.
Qed.

(** X7.  Stopping the orchestrator cuts the schedule of a sequential phase
    short and changes nothing else: the commands sent when the stop channel
    is closed at time [s] are a prefix of the commands of the undisturbed
    phase; none is sent if the stop precedes the phase; and since the loop
    looks at the stop channel only before it sleeps, a command can still
    leave up to one time slot after the stop, but not later. *)
Theorem sequential_phase_stop_prefix (testRunID : string) (stopAt : option Z)
    (rangeOrder : list string) (phaseIndex : Z) (phase : RampPhase.t)
    (phaseID : string) :
  let stopped :=
    executeSequentialPhase testRunID stopAt rangeOrder phaseIndex phase phaseID in
  let undisturbed :=
    executeSequentialPhase testRunID None rangeOrder phaseIndex phase phaseID in
  stopped `prefix_of` undisturbed
  /\ (forall s, stopAt = Some s -> s <= 0 -> stopped = [])
  /\ (forall s sent, stopAt = Some s -> In sent stopped ->
        0 <= Sent.at_time sent
        < s + Z.max 0 (timePerAgent phase (length rangeOrder))).
Proof.
  intros stopped undisturbed.
  assert (Hlen : length (sortStrings rangeOrder) = length rangeOrder)
    by (apply Permutation_length, sortStrings_perm).
  unfold stopped, undisturbed, executeSequentialPhase.
  rewrite Hlen. fold (timePerAgent phase (length rangeOrder)).
  destruct (sortStrings rangeOrder) as [|agentID rest] eqn:Hsorted.
  - split; [reflexivity|]. split; [reflexivity | intros s sent _ []].
  - split; [apply sequentialLoop_prefix|]. split.
    + intros s -> Hs. simpl. destruct (Z.leb_spec s 0); [reflexivity | lia].
    + intros s sent -> Hin. apply sequentialLoop_before_stop in Hin. lia.
Qed.

(** ** Phase completion *)

Lemma reported_snoc seen completion phaseIndex agentID :
  reported (seen ++ [completion]) phaseIndex agentID
  <-> reported seen phaseIndex agentID
      \/ (PhaseCompletion.AgentID completion = agentID
          /\ PhaseCompletion.PhaseIndex completion = phaseIndex).
Proof.
  unfold reported. split.
  - intros (c & Hin & Hid & Hidx). apply in_app_or in Hin.
    destruct Hin as [Hin|[<-|[]]]; [left; eauto | right; auto].
  - intros [(c & Hin & Hid & Hidx)|[Hid Hidx]].
    + exists c. split; [apply in_or_app; left; exact Hin | auto].
    + exists completion. split; [apply in_or_app; right; left; reflexivity | auto].
Qed.

Lemma monitorPhaseCompletion_inv po0 po seen completion :
  monitorInv po0 po seen ->
  (PhaseCompletion.PhaseIndex completion = PhaseOrchestrator.currentPhase po0 ->
   is_Some (PhaseOrchestrator.activeAgents po0 !! PhaseCompletion.AgentID completion)) ->
  monitorInv po0 (monitorPhaseCompletion po completion) (seen ++ [completion]).
Proof.
  intros (Hcur & Hact & Hrep & Hsub & Hch & Hall & Hcap) Hactive.
  unfold monitorPhaseCompletion. rewrite Hcur.
  destruct (Z.eqb_spec (PhaseCompletion.PhaseIndex completion)
              (PhaseOrchestrator.currentPhase po0)) as [Hidx|Hidx].
  - specialize (Hactive Hidx).
    set (id := PhaseCompletion.AgentID completion) in *.
    set (completed := <[id := true]> (PhaseOrchestrator.completedAgents po)).
    assert (Hsub' : dom completed ⊆ dom (PhaseOrchestrator.activeAgents po0)).
    { unfold completed. rewrite dom_insert.
      apply elem_of_dom in Hactive. apply union_least; [|exact Hsub].
      apply singleton_subseteq_l, Hactive. }
    assert (Hne : completed <> ∅) by (unfold completed; apply insert_non_empty).
    assert (Hsize : (size completed =? size (PhaseOrchestrator.activeAgents po))%nat = true
                    <-> dom completed = dom (PhaseOrchestrator.activeAgents po0)).
    { rewrite Nat.eqb_eq, Hact, <- !size_dom. split.
      - intros Heq.
        pose proof (set_subseteq_size_eq _ _ Hsub' ltac:(lia)) as Hequiv.
        exact Hequiv.
      - intros ->. reflexivity. }
    unfold monitorInv.
    cbn [PhaseOrchestrator.currentPhase PhaseOrchestrator.activeAgents
         PhaseOrchestrator.completedAgents PhaseOrchestrator.phaseDoneCh].
    fold completed.
    split; [reflexivity|]. split; [exact Hact|]. split.
    { intros agentID. rewrite reported_snoc. fold id. unfold completed.
      destruct (decide (id = agentID)) as [->|Hneq].
      - rewrite lookup_insert_eq. split; [intros _; right; auto | intros _; eauto].
      - rewrite lookup_insert_ne by exact Hneq. rewrite Hrep.
        split; [intros H; left; exact H | intros [H|[H _]]; [exact H | contradiction]]. }
    split; [exact Hsub'|].
    destruct (size completed =? size (PhaseOrchestrator.activeAgents po))%nat.
    + assert (Hsz : dom completed = dom (PhaseOrchestrator.activeAgents po0))
        by (apply Hsize; reflexivity).
      destruct (length (PhaseOrchestrator.phaseDoneCh po) <? phaseDoneCapacity)%nat
        eqn:Hfull.
      * apply Nat.ltb_lt in Hfull. split; [|split].
        -- split; [intros _; auto|]. intros _.
           destruct (PhaseOrchestrator.phaseDoneCh po); discriminate.
        -- apply Forall_app. split; [exact Hall|]. constructor; [exact Hidx | constructor].
        -- rewrite length_app. simpl. lia.
      * apply Nat.ltb_ge in Hfull. split; [|split; assumption].
        split; [intros _; auto|]. intros _ Hnil. rewrite Hnil in Hfull.
        unfold phaseDoneCapacity in Hfull. simpl in Hfull. lia.
    + split; [|split; assumption]. split.
      * intros Hsent. exfalso. apply Hch in Hsent. destruct Hsent as [_ Hdom].
        assert (Heq : dom completed = dom (PhaseOrchestrator.activeAgents po0)).
        { apply set_eq_subseteq. split; [exact Hsub'|].
          rewrite <- Hdom. unfold completed. rewrite dom_insert.
          apply union_subseteq_r. }
        apply Hsize in Heq. discriminate.
      * intros [_ Hdom]. apply Hsize in Hdom. discriminate.
  - unfold monitorInv. split; [exact Hcur|]. split; [exact Hact|].
    split; [|auto 10].
    intros agentID. rewrite reported_snoc, Hrep.
    split; [intros H; left; exact H | intros [H|[_ H]]; [exact H | contradiction]].
Qed.

Lemma fold_monitorPhaseCompletion_inv po0 (completions : list PhaseCompletion.t) :
  forall po seen,
  monitorInv po0 po seen ->
  (forall completion, In completion completions ->
     PhaseCompletion.PhaseIndex completion = PhaseOrchestrator.currentPhase po0 ->
     is_Some (PhaseOrchestrator.activeAgents po0 !! PhaseCompletion.AgentID completion)) ->
  monitorInv po0 (fold_left monitorPhaseCompletion completions po) (seen ++ completions).
Proof.
  induction completions as [|completion rest IH]; intros po seen Hinv Hactive.
  - simpl. rewrite app_nil_r. exact Hinv.
  - simpl. replace (seen ++ completion :: rest) with ((seen ++ [completion]) ++ rest)
      by (rewrite <- app_assoc; reflexivity).
    apply IH.
    + apply monitorPhaseCompletion_inv; [exact Hinv|]. apply Hactive. left. reflexivity.
    + intros c Hc. apply Hactive. right. exact Hc.
Qed.

Lemma fold_monitorPhaseCompletion_other (phaseIndex : Z)
    (completions : list PhaseCompletion.t) :
  forall po,
  PhaseOrchestrator.currentPhase po = phaseIndex ->
  (forall completion, In completion completions ->
     PhaseCompletion.PhaseIndex completion <> phaseIndex) ->
  fold_left monitorPhaseCompletion completions po = po.
Proof.
  induction completions as [|c rest IH]; intros po Hcur Hother; [reflexivity|].
  simpl. unfold monitorPhaseCompletion at 2. rewrite Hcur.
  destruct (Z.eqb_spec (PhaseCompletion.PhaseIndex c) phaseIndex) as [He|_].
  - exfalso. apply (Hother c); [left; reflexivity | exact He].
  - apply IH; [exact Hcur | intros c' Hc'; apply Hother; right; exact Hc'].
Qed.

(** X8.  A phase is signalled as done only when every active agent has
    reported it: after [executePhases] entered a phase (with an empty
    channel), and for completion messages that come from active agents,
    the monitor has put a signal on the channel if and only if there are
    active agents and each of them reported the completion of the current
    phase; messages for another phase change nothing, every signal carries
    the index of the current phase, and the channel never holds more than
    its capacity of 10. *)
Theorem phase_done_when_all_reported (po : PhaseOrchestrator.t) (phaseIndex : Z)
    (completions : list PhaseCompletion.t) :
  PhaseOrchestrator.phaseDoneCh po = [] ->
  (forall completion, In completion completions ->
     PhaseCompletion.PhaseIndex completion = phaseIndex ->
     is_Some (PhaseOrchestrator.activeAgents po !! PhaseCompletion.AgentID completion)) ->
  let po' := fold_left monitorPhaseCompletion completions (beginPhase po phaseIndex) in
  (PhaseOrchestrator.phaseDoneCh po' <> [] <->
     PhaseOrchestrator.activeAgents po <> ∅
     /\ forall agentID, is_Some (PhaseOrchestrator.activeAgents po !! agentID) ->
          reported completions phaseIndex agentID)
  /\ Forall (fun signal => signal = phaseIndex) (PhaseOrchestrator.phaseDoneCh po')
  /\ (length (PhaseOrchestrator.phaseDoneCh po') <= 10)%nat
  /\ ((forall completion, In completion completions ->
         PhaseCompletion.PhaseIndex completion <> phaseIndex) ->
      po' = beginPhase po phaseIndex).
Proof.
  intros Hempty Hactive po'.
  set (po0 := beginPhase po phaseIndex) in *.
  assert (Hinv0 : monitorInv po0 po0 []).
  { unfold monitorInv, po0, beginPhase.
    cbn [PhaseOrchestrator.currentPhase PhaseOrchestrator.activeAgents
         PhaseOrchestrator.completedAgents PhaseOrchestrator.phaseDoneCh].
    rewrite Hempty. split; [reflexivity|]. split; [reflexivity|]. split.
    { intros agentID. rewrite lookup_empty. split.
      - intros [x Hx]. discriminate.
      - intros (c & [] & _). }
    split; [rewrite dom_empty_L; apply empty_subseteq|].
    split; [split; [congruence | intros [H _]; congruence]|].
    split; [constructor | simpl; lia]. }
  destruct (fold_monitorPhaseCompletion_inv po0 completions po0 [] Hinv0)
    as (Hcur & Hact & Hrep & Hsub & Hch & Hall & Hcap).
  { exact Hactive. }
  simpl app in *. fold po' in Hcur, Hact, Hrep, Hsub, Hch, Hall, Hcap.
  change (PhaseOrchestrator.currentPhase po0) with phaseIndex in *.
  change (PhaseOrchestrator.activeAgents po0) with (PhaseOrchestrator.activeAgents po) in *.
  split; [|split; [exact Hall | split; [exact Hcap|]]].
  - rewrite Hch. split.
    + intros [Hne Hdom]. split.
      * intros Hnone. apply Hne. apply dom_empty_iff_L.
        rewrite Hdom, Hnone. apply dom_empty_L.
      * intros agentID Hin. apply Hrep. apply elem_of_dom. rewrite Hdom.
        apply elem_of_dom. exact Hin.
    + intros [Hne Hallrep].
      assert (Hdom : dom (PhaseOrchestrator.completedAgents po')
                     = dom (PhaseOrchestrator.activeAgents po)).
      { apply set_eq_subseteq. split; [exact Hsub|].
        intros agentID Hin. apply elem_of_dom, Hrep, Hallrep, elem_of_dom, Hin. }
      split; [|exact Hdom].
      intros Hnone. apply Hne. apply dom_empty_iff_L.
      rewrite <- Hdom, Hnone. apply dom_empty_L.
  - intros Hother.
    apply (fold_monitorPhaseCompletion_other phaseIndex); [reflexivity | exact Hother].
Qed.

(** ** The agent registry *)

Lemma atoi_itoa (n : Z) : in_int64 n -> atoi (itoa n) = Some n.
Proof.
  intros Hn. unfold atoi, itoa.
  assert (Hparse : NilZero.int_of_string (NilZero.string_of_int (Z.to_int n))
                   = Some (Z.to_int n)).
  { apply NilZero.isi; destruct n; simpl; try discriminate;
      intros H; inversion H as [H']; revert H'; apply DecimalPos.Unsigned.to_uint_nonnil. }
  destruct (String.eqb_spec (NilZero.string_of_int (Z.to_int n)) "-0") as [Hz|_].
  - rewrite Hz in Hparse.
    assert (Hm : NilZero.int_of_string "-0"
                 = Some (Decimal.Neg (Decimal.D0 Decimal.Nil))) by reflexivity.
    rewrite Hm in Hparse. inversion Hparse as [Hd].
    rewrite <- (DecimalZ.of_to n), <- Hd. reflexivity.
  - rewrite Hparse, DecimalZ.of_to, String.eqb_refl.
    unfold in_int64 in Hn.
    destruct (Z.leb_spec min_int64 n); [|lia].
    destruct (Z.leb_spec n max_int64); [reflexivity | lia].
Qed.

(** The loop of [cleanupStaleAgents] removes the entries that satisfy the
    test and no other. *)
Lemma map_fold_delete_lookup (stale : AgentInfo.t -> bool)
    (agents0 : gmap string AgentInfo.t) (agentID : string) :
  forall agents : gmap string AgentInfo.t,
  map_fold (fun id agent acc => if stale agent then delete id acc else acc)
    agents0 agents !! agentID
  = match agents !! agentID with
    | Some agent => if stale agent then None else agents0 !! agentID
    | None => agents0 !! agentID
    end.
Proof.
  apply (map_fold_weak_ind
           (fun r agents =>
              r !! agentID
              = match agents !! agentID with
                | Some agent => if stale agent then None else agents0 !! agentID
                | None => agents0 !! agentID
                end)).
  - rewrite lookup_empty. reflexivity.
  - intros id agent agents r Hfresh IH.
    destruct (decide (id = agentID)) as [->|Hne].
    + rewrite lookup_insert_eq. rewrite Hfresh in IH.
      destruct (stale agent); [apply lookup_delete_eq | exact IH].
    + rewrite lookup_insert_ne by exact Hne.
      destruct (stale agent); [rewrite lookup_delete_ne by exact Hne|]; exact IH.
Qed.

(** X9.  The clean-up removes exactly the agents that were last seen more
    than 60 seconds ago and leaves every other entry, and the rest of the
    coordinator, as it was.  Hence an agent whose heartbeat was handled at
    most 60 seconds before the clean-up stays registered. *)
Theorem cleanupStaleAgents_keeps_fresh (c : Coordinator.t) (now : Z) :
  let c' := cleanupStaleAgents c now in
  (forall agentID,
     Coordinator.connectedAgents c' !! agentID
     = match Coordinator.connectedAgents c !! agentID with
       | Some agent =>
           if 60 * Second <? Sub now (AgentInfo.LastSeen agent) then None else Some agent
       | None => None
       end)
  /\ (forall agentID agent (h : Z),
        Coordinator.connectedAgents c !! agentID = Some agent ->
        h <= now <= h + 60 * Second ->
        Coordinator.connectedAgents
          (cleanupStaleAgents (handleAgentHeartbeat c agentID h) now) !! agentID
        = Some (setLastSeen h agent))
  /\ Coordinator.testRuns c' = Coordinator.testRuns c
  /\ Coordinator.currentTestRun c' = Coordinator.currentTestRun c
  /\ Coordinator.agentResults c' = Coordinator.agentResults c
  /\ Coordinator.database c' = Coordinator.database c.
Proof.
  intros c'.
  assert (Hlookup : forall (c0 : Coordinator.t) agentID,
     Coordinator.connectedAgents (cleanupStaleAgents c0 now) !! agentID
     = match Coordinator.connectedAgents c0 !! agentID with
       | Some agent =>
           if 60 * Second <? Sub now (AgentInfo.LastSeen agent) then None else Some agent
       | None => None
       end).
  { intros c0 agentID. unfold cleanupStaleAgents.
    cbn [setAgents Coordinator.connectedAgents].
    rewrite (map_fold_delete_lookup
               (fun agent => 60 * Second <? Sub now (AgentInfo.LastSeen agent))).
    destruct (Coordinator.connectedAgents c0 !! agentID) as [agent|]; reflexivity. }
  split; [apply Hlookup|]. split; [|repeat split].
  intros agentID agent h Hagent Hh. rewrite Hlookup.
  unfold handleAgentHeartbeat. cbn [setAgents Coordinator.connectedAgents].
  rewrite lookup_alter_eq, Hagent. cbn [fmap option_fmap option_map setLastSeen AgentInfo.LastSeen].
  destruct (Z.ltb_spec (60 * Second) (Sub now h)) as [Hstale|_]; [|reflexivity].
  exfalso. unfold Sub, min_int64, max_int64 in Hstale. lia.
Qed.

Lemma alter_absent (f : AgentInfo.t -> AgentInfo.t) (agentID : string)
    (agents : gmap string AgentInfo.t) :
  agents !! agentID = None -> alter f agentID agents = agents.
Proof.
  intros Hnone. apply map_eq. intros id.
  destruct (decide (id = agentID)) as [->|Hne].
  - rewrite lookup_alter_eq, Hnone. reflexivity.
  - rewrite lookup_alter_ne by congruence. reflexivity.
Qed.

(** X10.  A heartbeat reaches the registry: the message of [sendHeartbeat]
    is published on the subject to which the coordinator subscribed its
    heartbeat callback, and its delivery sets [LastSeen] of the sending
    agent to the time of arrival and touches nothing else; a heartbeat of
    an agent that is not registered leaves the coordinator unchanged (it
    does not register the agent). *)
Theorem heartbeat_delivered (c : Coordinator.t) (a : Agent.t) (ts : string) (now : Z) :
  let c' := deliver startAgentRegistration (sendHeartbeat a ts) now c in
  c' = handleAgentHeartbeat c (Agent.id a) now
  /\ (Coordinator.connectedAgents c !! Agent.id a = None -> c' = c)
  /\ (forall agent, Coordinator.connectedAgents c !! Agent.id a = Some agent ->
        Coordinator.connectedAgents c' !! Agent.id a = Some (setLastSeen now agent))
  /\ (forall other, other <> Agent.id a ->
        Coordinator.connectedAgents c' !! other
        = Coordinator.connectedAgents c !! other).
Proof.
  intros c'.
  assert (Hc' : c' = handleAgentHeartbeat c (Agent.id a) now).
  { unfold c', deliver, startAgentRegistration, sendHeartbeat. simpl.
    rewrite lookup_insert_eq. reflexivity. }
  split; [exact Hc'|]. rewrite Hc'. unfold handleAgentHeartbeat.
  split; [|split].
  - intros Hnone. rewrite alter_absent by exact Hnone. destruct c. reflexivity.
  - intros agent Hagent. cbn [setAgents Coordinator.connectedAgents].
    rewrite lookup_alter_eq, Hagent. reflexivity.
  - intros other Hne. cbn [setAgents Coordinator.connectedAgents].
    rewrite lookup_alter_ne by congruence. reflexivity.
Qed.

(** ** Telemetry *)

Lemma telemetry_pass_iff lastUpdate metrics now :
  (exists lastTime, lastUpdate !! AgentMetrics.AgentID metrics = Some lastTime
                    /\ now - lastTime < Second
                    /\ startTelemetryCollection lastUpdate metrics now = (lastUpdate, None))
  \/ ((forall lastTime, lastUpdate !! AgentMetrics.AgentID metrics = Some lastTime ->
         lastTime + Second <= now)
      /\ startTelemetryCollection lastUpdate metrics now
         = (<[AgentMetrics.AgentID metrics := now]> lastUpdate, Some metrics)).
Proof.
  unfold startTelemetryCollection.
  destruct (lastUpdate !! AgentMetrics.AgentID metrics) as [lastTime|].
  - destruct (Z.ltb_spec (Sub now lastTime) Second) as [Hlt|Hge].
    + left. exists lastTime. split; [reflexivity|]. split; [|reflexivity].
      unfold Sub, Second, Millisecond, Microsecond, Nanosecond, min_int64, max_int64 in *. lia.
    + right. split; [|reflexivity]. intros t Ht. inversion Ht; subst t.
      unfold Sub, Second, Millisecond, Microsecond, Nanosecond, min_int64, max_int64 in *. lia.
  - right. split; [intros t Ht; discriminate | reflexivity].
Qed.

Lemma telemetryLoop_spaced (events : list (Z * AgentMetrics.t)) :
  forall lastUpdate : gmap string Z,
  let accepted := telemetryLoop events lastUpdate in
  (forall t metrics lastTime,
     In (t, metrics) accepted ->
     lastUpdate !! AgentMetrics.AgentID metrics = Some lastTime ->
     lastTime + Second <= t)
  /\ ForallOrdPairs spaced accepted
  /\ accepted `sublist_of` events
  /\ (forall t metrics, In (t, metrics) events ->
        (exists t0 metrics0, In (t0, metrics0) accepted
           /\ AgentMetrics.AgentID metrics0 = AgentMetrics.AgentID metrics
           /\ t - t0 < Second)
        \/ (exists lastTime, lastUpdate !! AgentMetrics.AgentID metrics = Some lastTime
              /\ t - lastTime < Second)).
Proof.
  assert (HS : 0 < Second) by (vm_compute; reflexivity).
  induction events as [|[now metrics] rest IH]; intros lastUpdate accepted.
  - split; [intros t m l []|]. split; [constructor|]. split; [constructor|].
    intros t m [].
  - unfold accepted. simpl.
    destruct (telemetry_pass_iff lastUpdate metrics now)
      as [(lastTime & Hlast & Hnear & ->)|[Hfar ->]].
    + destruct (IH lastUpdate) as (H1 & H2 & H3 & H4).
      split; [exact H1|]. split; [exact H2|]. split; [apply sublist_cons, H3|].
      intros t m [Heq|Hin].
      * inversion Heq; subst t m. right. exists lastTime. split; assumption.
      * apply H4, Hin.
    + set (lastUpdate' := <[AgentMetrics.AgentID metrics := now]> lastUpdate).
      destruct (IH lastUpdate') as (H1 & H2 & H3 & H4).
      assert (Hafter : forall t m, In (t, m) (telemetryLoop rest lastUpdate') ->
                AgentMetrics.AgentID m = AgentMetrics.AgentID metrics -> now + Second <= t).
      { intros t m Hin Hid. apply (H1 t m now Hin).
        unfold lastUpdate'. rewrite Hid. apply lookup_insert_eq. }
      split; [|split; [|split]].
      * intros t m lastTime [Heq|Hin] Hl.
        -- inversion Heq; subst t m. apply Hfar, Hl.
        -- destruct (decide (AgentMetrics.AgentID m = AgentMetrics.AgentID metrics))
             as [Hid|Hid].
           ++ specialize (Hafter t m Hin Hid). rewrite Hid in Hl.
              specialize (Hfar lastTime Hl). lia.
           ++ apply (H1 t m lastTime Hin). unfold lastUpdate'.
              rewrite lookup_insert_ne by congruence. exact Hl.
      * constructor; [|exact H2].
        apply Forall_forall. intros [t m] Hin Hid. simpl in *.
        apply list_elem_of_In in Hin. apply (Hafter t m Hin). congruence.
      * apply sublist_skip, H3.
      * intros t m [Heq|Hin].
        -- inversion Heq; subst t m. left. exists now, metrics.
           split; [left; reflexivity|]. split; [reflexivity | lia].
        -- destruct (H4 t m Hin) as [(t0 & m0 & Hin0 & Hid & Hnear)
                                    |(lastTime & Hl & Hnear)].
           ++ left. exists t0, m0. split; [right; exact Hin0 | auto].
           ++ unfold lastUpdate' in Hl.
              destruct (decide (AgentMetrics.AgentID metrics = AgentMetrics.AgentID m))
                as [Hid|Hid].
              ** rewrite Hid, lookup_insert_eq in Hl. inversion Hl; subst lastTime.
                 left. exists now, metrics. split; [left; reflexivity | auto].
              ** rewrite lookup_insert_ne in Hl by exact Hid.
                 right. exists lastTime. auto.
Qed.

(** X12.  The coordinator processes at most one telemetry update per agent
    and second: of the messages that the limiter passes on, two of the same
    agent are at least one second apart; the limiter only drops messages
    (it passes them unchanged and in order); and every message that
    arrives, dropped or not, comes less than a second after a passed
    message of the same agent. *)
Theorem telemetry_rate_limit (events : list (Z * AgentMetrics.t)) :
  let accepted := telemetryLoop events ∅ in
  ForallOrdPairs spaced accepted
  /\ accepted `sublist_of` events
  /\ (forall t metrics, In (t, metrics) events ->
        exists t0 metrics0, In (t0, metrics0) accepted
          /\ AgentMetrics.AgentID metrics0 = AgentMetrics.AgentID metrics
          /\ t - t0 < Second).
Proof.
  intros accepted.
  destruct (telemetryLoop_spaced events ∅) as (_ & H2 & H3 & H4).
  split; [exact H2|]. split; [exact H3|].
  intros t m Hin. destruct (H4 t m Hin) as [H|(lastTime & Hl & _)]; [exact H|].
  rewrite lookup_empty in Hl. discriminate.
Qed.

(** The search loop overwrites the first result of the agent and keeps the
    others; it fails exactly when the agent has no result. *)
Lemma replaceResult_spec (result : AgentResult.t) (results : list AgentResult.t) :
  match replaceResult result results with
  | Some results' =>
      exists before old after,
        results = before ++ old :: after
        /\ results' = before ++ result :: after
        /\ AgentResult.AgentID old = AgentResult.AgentID result
        /\ forall r, In r before -> AgentResult.AgentID r <> AgentResult.AgentID result
  | None => forall r, In r results -> AgentResult.AgentID r <> AgentResult.AgentID result
  end.
Proof.
  induction results as [|agent rest IH]; simpl; [intros r []|].
  destruct (String.eqb_spec (AgentResult.AgentID agent) (AgentResult.AgentID result))
    as [Heq|Hne].
  - exists [], agent, rest.
    split; [reflexivity|]. split; [reflexivity|]. split; [exact Heq|]. intros r [].
  - destruct (replaceResult result rest) as [rest'|].
    + destruct IH as (before & old & after & -> & -> & Hold & Hbefore).
      exists (agent :: before), old, after.
      split; [reflexivity|]. split; [reflexivity|]. split; [exact Hold|].
      intros r [<-|Hr]; [exact Hne | apply Hbefore, Hr].
    + intros r [<-|Hr]; [exact Hne | apply IH, Hr].
Qed.

Lemma latestUpdate_snoc_other seen c metrics testRunID result :
  latestUpdate seen testRunID result ->
  (Coordinator.currentTestRun c = Some testRunID ->
   AgentMetrics.AgentID metrics <> AgentResult.AgentID result) ->
  latestUpdate (seen ++ [(c, metrics)]) testRunID result.
Proof.
  intros (before & c0 & m0 & after & -> & Hcur & -> & Hlast) Hother.
  exists before, c0, m0, (after ++ [(c, metrics)]).
  split; [rewrite <- app_assoc; reflexivity|]. split; [exact Hcur|].
  split; [reflexivity|].
  intros c' m' Hin Hc'. apply in_app_or in Hin. destruct Hin as [Hin|[Heq|[]]].
  - apply (Hlast c' m' Hin Hc').
  - inversion Heq; subst c' m'. apply Hother, Hc'.
Qed.

Lemma NoDup_replace (before after : list AgentResult.t) (old result : AgentResult.t) :
  AgentResult.AgentID old = AgentResult.AgentID result ->
  NoDup (map AgentResult.AgentID (before ++ old :: after)) ->
  NoDup (map AgentResult.AgentID (before ++ result :: after))
  /\ forall r, In r before \/ In r after ->
       AgentResult.AgentID r <> AgentResult.AgentID result.
Proof.
  intros Hid Hnd. rewrite map_app in *. simpl in *. rewrite <- Hid.
  split; [exact Hnd|].
  apply NoDup_app in Hnd. destruct Hnd as (_ & Hcross & Hcons).
  apply NoDup_cons in Hcons. destruct Hcons as [Hnotin _].
  intros r [Hr|Hr] Heq.
  - apply (Hcross (AgentResult.AgentID r)).
    + apply list_elem_of_In, in_map, Hr.
    + rewrite Heq. left.
  - apply Hnotin. rewrite <- Heq. apply list_elem_of_In, in_map, Hr.
Qed.

Lemma processTelemetryUpdate_inv seen agentResults c metrics :
  telemetryInv seen agentResults ->
  telemetryInv (seen ++ [(c, metrics)])
    (fst (processTelemetryUpdate c metrics agentResults)).
Proof.
  intros [Hold Hall]. unfold processTelemetryUpdate, getCurrentTestRunInfo.
  destruct (Coordinator.currentTestRun c) as [current|] eqn:Hcur.
  2: { change (String.eqb "" "") with true. cbn [fst]. split.
       - intros id results Hl. destruct (Hold id results Hl) as (Hne & Hnd & Hlatest).
         split; [exact Hne|]. split; [exact Hnd|].
         intros r Hr. apply latestUpdate_snoc_other; [apply Hlatest, Hr | congruence].
       - intros c' m' id Hin Hc' Hid. apply in_app_or in Hin.
         destruct Hin as [Hin|[Heq|[]]]; [apply (Hall c' m' id Hin Hc' Hid)|].
         inversion Heq; subst c' m'. congruence. }
  destruct (String.eqb_spec current "") as [Hempty|Hnonempty]; cbn [fst].
  - split.
    + intros id results Hl. destruct (Hold id results Hl) as (Hne & Hnd & Hlatest).
      split; [exact Hne|]. split; [exact Hnd|].
      intros r Hr. apply latestUpdate_snoc_other; [apply Hlatest, Hr|]. congruence.
    + intros c' m' id Hin Hc' Hid. apply in_app_or in Hin.
      destruct Hin as [Hin|[Heq|[]]]; [apply (Hall c' m' id Hin Hc' Hid)|].
      inversion Heq; subst c' m'. congruence.
  - set (result := newResult metrics "").
    set (results := default [] (agentResults !! current)).
    assert (Hresults : NoDup (map AgentResult.AgentID results)
                       /\ forall r, In r results -> latestUpdate seen current r).
    { unfold results. destruct (agentResults !! current) as [l|] eqn:Hl; simpl.
      - destruct (Hold current l Hl) as (_ & Hnd & Hlatest). auto.
      - split; [constructor | intros r []]. }
    destruct Hresults as [Hnd Hlatest].
    assert (Hnew : latestUpdate (seen ++ [(c, metrics)]) current result).
    { exists seen, c, metrics, [].
      split; [reflexivity|]. split; [exact Hcur|]. split; [reflexivity|].
      intros c' m' []. }
    set (results' := match replaceResult result results with
                     | Some results' => results'
                     | None => results ++ [result]
                     end).
    assert (Hresults' : NoDup (map AgentResult.AgentID results')
                        /\ In result results'
                        /\ forall r, In r results' ->
                             r = result
                             \/ (In r results
                                 /\ AgentResult.AgentID r <> AgentResult.AgentID result)).
    { unfold results'. pose proof (replaceResult_spec result results) as Hspec.
      destruct (replaceResult result results) as [l|].
      - destruct Hspec as (before & old & after & Heq & -> & Hid & _).
        rewrite Heq in Hnd. destruct (NoDup_replace _ _ _ _ Hid Hnd) as [Hnd' Hothers].
        split; [exact Hnd'|]. split; [apply in_or_app; right; left; reflexivity|].
        intros r Hr. apply in_app_or in Hr. destruct Hr as [Hr|[<-|Hr]].
        + right. split; [rewrite Heq; apply in_or_app; left; exact Hr | apply Hothers; auto].
        + left. reflexivity.
        + right. split; [rewrite Heq; apply in_or_app; right; right; exact Hr
                        | apply Hothers; auto].
      - split; [|split].
        + rewrite map_app. simpl. apply NoDup_app. split; [exact Hnd|]. split.
          * intros id Hin Hin2. apply list_elem_of_In in Hin2.
            destruct Hin2 as [Heq|[]]. apply list_elem_of_In, in_map_iff in Hin.
            destruct Hin as (r & Hr & Hin). apply (Hspec r Hin).
            transitivity id; [exact Hr | symmetry; exact Heq].
          * apply NoDup_singleton.
        + apply in_or_app. right. left. reflexivity.
        + intros r Hr. apply in_app_or in Hr. destruct Hr as [Hr|[<-|[]]].
          * right. split; [exact Hr | apply Hspec, Hr].
          * left. reflexivity. }
    destruct Hresults' as (Hnd' & Hin' & Hcases).
    split.
    + intros id l Hl. destruct (decide (id = current)) as [->|Hne].
      * rewrite lookup_insert_eq in Hl. inversion Hl; subst l.
        split; [exact Hnonempty|]. split; [exact Hnd'|].
        intros r Hr. destruct (Hcases r Hr) as [->|[Hr' Hid]]; [exact Hnew|].
        apply latestUpdate_snoc_other; [apply Hlatest, Hr'|].
        intros _ Heq. apply Hid. symmetry. exact Heq.
      * rewrite lookup_insert_ne in Hl by congruence.
        destruct (Hold id l Hl) as (Hid & Hndl & Hlat).
        split; [exact Hid|]. split; [exact Hndl|].
        intros r Hr. apply latestUpdate_snoc_other; [apply Hlat, Hr|]. congruence.
    + intros c' m' id Hin Hc' Hid. apply in_app_or in Hin.
      destruct Hin as [Hin|[Heq|[]]].
      * destruct (Hall c' m' id Hin Hc' Hid) as (l & r & Hl & Hr & Hrid).
        destruct (decide (id = current)) as [->|Hne].
        -- exists results'. rewrite lookup_insert_eq.
           assert (Hl' : results = l) by (unfold results; rewrite Hl; reflexivity).
           destruct (decide (AgentResult.AgentID r = AgentResult.AgentID result))
             as [Hsame|Hdiff].
           ++ exists result. split; [reflexivity|]. split; [exact Hin'|]. congruence.
           ++ exists r. split; [reflexivity|]. split; [|exact Hrid].
              unfold results'. pose proof (replaceResult_spec result results) as Hspec.
              destruct (replaceResult result results) as [l'|].
              ** destruct Hspec as (before & old & after & Heq & -> & Hold' & _).
                 rewrite <- Hl', Heq in Hr. apply in_app_or in Hr.
                 apply in_or_app. destruct Hr as [Hr|[<-|Hr]];
                   [left; exact Hr | contradiction | right; right; exact Hr].
              ** apply in_or_app. left. rewrite Hl'. exact Hr.
        -- exists l, r. rewrite lookup_insert_ne by congruence. auto.
      * inversion Heq; subst c' m'.
        assert (id = current) by congruence. subst id.
        exists results', result. rewrite lookup_insert_eq. auto.
Qed.

Lemma telemetryUpdates_inv (updates : list (Coordinator.t * AgentMetrics.t)) :
  forall seen agentResults,
  telemetryInv seen agentResults ->
  telemetryInv (seen ++ updates) (telemetryUpdates updates agentResults).
Proof.
  induction updates as [|[c metrics] rest IH]; intros seen agentResults Hinv.
  - simpl. rewrite app_nil_r. exact Hinv.
  - unfold telemetryUpdates. simpl.
    replace (seen ++ (c, metrics) :: rest) with ((seen ++ [(c, metrics)]) ++ rest)
      by (rewrite <- app_assoc; reflexivity).
    apply IH, processTelemetryUpdate_inv, Hinv.
Qed.

(** X13.  The internal message handler keeps one result per agent and run,
    and it is the latest: starting from its empty map, after any sequence
    of telemetry updates the list of a run holds no two results of the
    same agent; each result is what the last update of its agent during
    that run reported, with an empty region; every agent whose update was
    processed during the run has a result; and nothing is stored while no
    run is current. *)
Theorem telemetry_latest_result_per_agent
    (updates : list (Coordinator.t * AgentMetrics.t)) :
  let agentResults := telemetryUpdates updates ∅ in
  (forall testRunID results,
     agentResults !! testRunID = Some results ->
     testRunID <> ""
     /\ NoDup (map AgentResult.AgentID results)
     /\ forall result, In result results ->
          latestUpdate updates testRunID result /\ AgentResult.Region result = "")
  /\ (forall c metrics testRunID,
        In (c, metrics) updates ->
        Coordinator.currentTestRun c = Some testRunID -> testRunID <> "" ->
        exists results result,
          agentResults !! testRunID = Some results
          /\ In result results
          /\ AgentResult.AgentID result = AgentMetrics.AgentID metrics)
  /\ ((forall c metrics, In (c, metrics) updates -> Coordinator.currentTestRun c = None) ->
      agentResults = ∅).
Proof.
  intros agentResults.
  destruct (telemetryUpdates_inv updates [] ∅) as [Hold Hall].
  { split; [intros id l Hl; rewrite lookup_empty in Hl; discriminate | intros c m id []]. }
  simpl app in *. fold agentResults in Hold, Hall.
  split; [|split; [exact Hall|]].
  - intros id l Hl. destruct (Hold id l Hl) as (Hid & Hnd & Hlatest).
    split; [exact Hid|]. split; [exact Hnd|].
    intros r Hr. split; [apply Hlatest, Hr|].
    destruct (Hlatest r Hr) as (_ & _ & m & _ & _ & _ & -> & _). reflexivity.
  - intros Hnone. unfold agentResults, telemetryUpdates. clear -Hnone.
    generalize (∅ : gmap string (list AgentResult.t)).
    induction updates as [|[c m] rest IH]; intros acc; [reflexivity|].
    simpl. unfold processTelemetryUpdate at 2, getCurrentTestRunInfo.
    rewrite (Hnone c m (or_introl eq_refl)). cbn [fst String.eqb].
    apply IH. intros c' m' Hin. apply (Hnone c' m'). right. exact Hin.
Qed.

(** ** Aggregation of the agent results *)

Lemma wrap64_add_l (a b : Z) : wrap64 (wrap64 a + b) = wrap64 (a + b).
Proof.
  unfold wrap64. f_equal.
  replace ((a + 2 ^ 63) mod 2 ^ 64 - 2 ^ 63 + b + 2 ^ 63)
    with ((a + 2 ^ 63) mod 2 ^ 64 + b) by lia.
  rewrite Zplus_mod_idemp_l. f_equal. lia.
Qed.

Lemma wrap64_0 : wrap64 0 = 0.
Proof. reflexivity. Qed.

(** [statusCodes[code] += count] for the entries of one result. *)
Lemma addCodes_lookup (codes acc : gmap string Z) (code : string) :
  addCodes codes acc !! code
  = match codes !! code with
    | Some count => Some (wrap64 (default 0 (acc !! code) + count))
    | None => acc !! code
    end.
Proof.
  unfold addCodes.
  apply (map_fold_weak_ind
           (fun r codes =>
              r !! code
              = match codes !! code with
                | Some count => Some (wrap64 (default 0 (acc !! code) + count))
                | None => acc !! code
                end)).
  - rewrite lookup_empty. reflexivity.
  - intros k count m r Hfresh IH.
    destruct (decide (k = code)) as [->|Hne].
    + rewrite !lookup_insert_eq. rewrite Hfresh in IH. rewrite IH. reflexivity.
    + rewrite !lookup_insert_ne by exact Hne. exact IH.
Qed.

Lemma fold_sumsOf (step : Totals.t -> AgentResult.t -> Totals.t) :
  (forall acc r,
     Totals.totalRequests (step acc r)
     = wrap64 (Totals.totalRequests acc + AgentResult.Requests r)
     /\ Totals.totalErrors (step acc r)
        = wrap64 (Totals.totalErrors acc + AgentResult.Errors r)
     /\ Totals.statusCodes (step acc r)
        = addCodes (AgentResult.StatusCodes r) (Totals.statusCodes acc)) ->
  forall results acc0,
  in_int64 (Totals.totalRequests acc0) ->
  in_int64 (Totals.totalErrors acc0) ->
  (forall code count, Totals.statusCodes acc0 !! code = Some count -> in_int64 count) ->
  sumsOf results acc0 (fold_left step results acc0).
Proof.
  intros Hstep results.
  induction results as [|r rest IH]; intros acc0 Hreq Herr Hcodes.
  - simpl. unfold sumsOf. simpl. rewrite !Z.add_0_r, !wrap64_id by assumption.
    split; [reflexivity|]. split; [reflexivity|]. split.
    + intros code. rewrite Z.add_0_r.
      destruct (Totals.statusCodes acc0 !! code) as [count|] eqn:Hc; simpl.
      * symmetry. apply wrap64_id, (Hcodes code count Hc).
      * reflexivity.
    + intros code. split; [intros H; left; exact H | intros [H|(r & [] & _)]; exact H].
  - simpl fold_left. destruct (Hstep acc0 r) as (Hr1 & Hr2 & Hr3).
    destruct (IH (step acc0 r)) as (H1 & H2 & H3 & H4).
    { rewrite Hr1. apply wrap64_range. }
    { rewrite Hr2. apply wrap64_range. }
    { intros code count. rewrite Hr3, addCodes_lookup.
      destruct (AgentResult.StatusCodes r !! code) as [n|].
      - intros Hc. inversion Hc. apply wrap64_range.
      - apply Hcodes. }
    unfold sumsOf. cbn [map]. change (sumZ (?x :: ?l)) with (x + sumZ l).
    split; [|split; [|split]].
    + rewrite H1, Hr1, wrap64_add_l. f_equal. lia.
    + rewrite H2, Hr2, wrap64_add_l. f_equal. lia.
    + intros code. rewrite H3, Hr3, addCodes_lookup.
      destruct (AgentResult.StatusCodes r !! code) as [n|];
        cbn [default from_option id];
        [rewrite wrap64_add_l|]; f_equal; lia.
    + intros code. rewrite H4, Hr3, addCodes_lookup. split.
      * intros [Hs|(r' & Hin & Hs)].
        -- destruct (AgentResult.StatusCodes r !! code) as [n|] eqn:Hn.
           ++ right. exists r. split; [left; reflexivity | rewrite Hn; eauto].
           ++ left. exact Hs.
        -- right. exists r'. split; [right; exact Hin | exact Hs].
      * intros [Hs|(r' & [<-|Hin] & Hs)].
        -- left. destruct (AgentResult.StatusCodes r !! code); [eauto | exact Hs].
        -- left. destruct Hs as [n Hn]. rewrite Hn. eauto.
        -- right. exists r'. auto.
Qed.

Lemma aggregate_sums results acc0 :
  in_int64 (Totals.totalRequests acc0) ->
  in_int64 (Totals.totalErrors acc0) ->
  (forall code count, Totals.statusCodes acc0 !! code = Some count -> in_int64 count) ->
  sumsOf results acc0 (fold_left aggregate results acc0).
Proof. apply fold_sumsOf. intros acc r. repeat split. Qed.

Lemma accumulate_sums results acc0 :
  in_int64 (Totals.totalRequests acc0) ->
  in_int64 (Totals.totalErrors acc0) ->
  (forall code count, Totals.statusCodes acc0 !! code = Some count -> in_int64 count) ->
  sumsOf results acc0 (fold_left accumulate results acc0).
Proof. apply fold_sumsOf. intros acc r. repeat split. Qed.

Lemma in_int64_0 : in_int64 0.
Proof. unfold in_int64, min_int64, max_int64. lia. Qed.

(** X14.  The totals that [completeTestRun] stores are the sums over the
    agent results, in 64-bit arithmetic: the total requests and errors are
    the sums of the agents' counts, the histogram of status codes adds up
    the agents' histograms code by code and has a code exactly when some
    agent has it, and the agent results are stored as they were given. *)
Theorem computeResults_totals (testRun : TestRun.t) (results : list AgentResult.t) :
  let res := computeResults testRun results in
  TestRunResults.TotalRequests res = wrap64 (sumZ (map AgentResult.Requests results))
  /\ TestRunResults.TotalErrors res = wrap64 (sumZ (map AgentResult.Errors results))
  /\ (forall code,
        default 0 (TestRunResults.StatusCodes res !! code)
        = wrap64 (sumZ (map (fun r => default 0 (AgentResult.StatusCodes r !! code))
                          results)))
  /\ (forall code,
        is_Some (TestRunResults.StatusCodes res !! code)
        <-> exists r, In r results /\ is_Some (AgentResult.StatusCodes r !! code))
  /\ TestRunResults.AgentResults res = results.
Proof.
  intros res. subst res. unfold computeResults.
  cbn [TestRunResults.TotalRequests TestRunResults.TotalErrors TestRunResults.StatusCodes
       TestRunResults.AgentResults].
  destruct (aggregate_sums results (initialTotals results)) as (H1 & H2 & H3 & H4);
    try apply in_int64_0.
  { intros code count Hc. simpl in Hc. rewrite lookup_empty in Hc. discriminate. }
  cbn [initialTotals Totals.totalRequests Totals.totalErrors Totals.statusCodes] in *.
  split; [rewrite H1; f_equal; lia|]. split; [rewrite H2; f_equal; lia|].
  split; [|split; [|reflexivity]].
  - intros code. rewrite H3, lookup_empty. reflexivity.
  - intros code. rewrite H4, lookup_empty. split.
    + intros [[x Hx]|H]; [discriminate | exact H].
    + intros H. right. exact H.
Qed.

Lemma getTotalOtherStatus_spec (statusCodes : gmap string Z) :
  getTotalOtherStatus statusCodes
  = wrap64 (sumCodes statusCodes - countOf statusCodes "200"
            - countOf statusCodes "400" - countOf statusCodes "500").
Proof.
  unfold getTotalOtherStatus.
  apply (map_fold_weak_ind
           (fun r m => r = wrap64 (sumCodes m - countOf m "200" - countOf m "400"
                                   - countOf m "500"))).
  - reflexivity.
  - intros code count m r Hfresh ->.
    rewrite (sumCodes_insert_fresh code count m Hfresh). unfold countOf.
    destruct (String.eqb_spec code "200") as [->|H2].
    { simpl. rewrite lookup_insert_eq, !lookup_insert_ne by discriminate.
      rewrite Hfresh. simpl. f_equal. lia. }
    destruct (String.eqb_spec code "400") as [->|H4].
    { simpl. rewrite lookup_insert_eq, !lookup_insert_ne by discriminate.
      rewrite Hfresh. simpl. f_equal. lia. }
    destruct (String.eqb_spec code "500") as [->|H5].
    { simpl. rewrite lookup_insert_eq, !lookup_insert_ne by discriminate.
      rewrite Hfresh. simpl. f_equal. lia. }
    simpl. rewrite !lookup_insert_ne by congruence.
    rewrite wrap64_add_l. f_equal. lia.
Qed.

(** X15.  The four status columns of the CSV file account for every
    response: for a histogram of non-negative counts whose sum fits 64
    bits, the counts of 200, 400 and 500 and the value of
    [getTotalOtherStatus] add up to the sum of all counts, and the last is
    not negative. *)
Theorem getTotalOtherStatus_partition (statusCodes : gmap string Z) :
  (forall code count, statusCodes !! code = Some count -> 0 <= count) ->
  sumCodes statusCodes <= max_int64 ->
  countOf statusCodes "200" + countOf statusCodes "400" + countOf statusCodes "500"
    + getTotalOtherStatus statusCodes
  = sumCodes statusCodes
  /\ 0 <= getTotalOtherStatus statusCodes.
Proof.
  intros Hnn Hmax. rewrite getTotalOtherStatus_spec.
  assert (Hrest : 0 <= sumCodes statusCodes - countOf statusCodes "200"
                       - countOf statusCodes "400" - countOf statusCodes "500").
  { unfold countOf.
    rewrite (sumCodes_split "200" statusCodes).
    rewrite (sumCodes_split "400" (delete "200" statusCodes)).
    rewrite (sumCodes_split "500" (delete "400" (delete "200" statusCodes))).
    rewrite !lookup_delete_ne by discriminate.
    assert (0 <= sumCodes (delete "500" (delete "400" (delete "200" statusCodes)))).
    { apply sumCodes_nonneg. intros code count Hc.
      apply lookup_delete_Some in Hc. destruct Hc as [_ Hc].
      apply lookup_delete_Some in Hc. destruct Hc as [_ Hc].
      apply lookup_delete_Some in Hc. destruct Hc as [_ Hc].
      apply (Hnn code count Hc). }
    lia. }
  assert (Hc : forall code, 0 <= countOf statusCodes code).
  { intros code. unfold countOf.
    destruct (statusCodes !! code) as [count|] eqn:Hl; simpl; [apply (Hnn code count Hl) | lia]. }
  pose proof (Hc "200"). pose proof (Hc "400"). pose proof (Hc "500").
  rewrite wrap64_id by (unfold in_int64, min_int64; lia).
  lia.
Qed.

(** X16.  The result writer and the finalisation of a run aggregate the
    same agent results to the same totals: total requests, total errors,
    histogram of status codes and average latency agree, and so does the
    success rate when there are requests; for an empty total
    [CreateTestResults] reports a success rate of 0 where [completeTestRun]
    reports 100. *)
Theorem CreateTestResults_agrees_with_completion (testName : string) (startTime : Z)
    (agents : list AgentResult.t) (now : Z) (testRun : TestRun.t) :
  let export := CreateTestResults testName startTime agents now in
  let res := computeResults testRun agents in
  TestResults.TotalRequests export = TestRunResults.TotalRequests res
  /\ TestResults.TotalErrors export = TestRunResults.TotalErrors res
  /\ TestResults.StatusCodes export = TestRunResults.StatusCodes res
  /\ TestResults.AvgLatencyMs export = TestRunResults.AvgLatencyMs res
  /\ (0 < TestRunResults.TotalRequests res ->
        TestResults.SuccessRate export = TestRunResults.SuccessRate res)
  /\ (TestRunResults.TotalRequests res = 0 ->
        TestResults.SuccessRate export = 0%Q
        /\ TestRunResults.SuccessRate res = F64.of_int 100)
  /\ TestResults.Agents export = agents
  /\ TestResults.AgentCount export = Z.of_nat (length agents).
Proof.
  intros export res.
  assert (Hsim : forall acc1 acc2,
            Totals.totalRequests acc1 = Totals.totalRequests acc2 ->
            Totals.totalErrors acc1 = Totals.totalErrors acc2 ->
            Totals.totalLatency acc1 = Totals.totalLatency acc2 ->
            Totals.statusCodes acc1 = Totals.statusCodes acc2 ->
            let t1 := fold_left accumulate agents acc1 in
            let t2 := fold_left aggregate agents acc2 in
            Totals.totalRequests t1 = Totals.totalRequests t2
            /\ Totals.totalErrors t1 = Totals.totalErrors t2
            /\ Totals.totalLatency t1 = Totals.totalLatency t2
            /\ Totals.statusCodes t1 = Totals.statusCodes t2).
  { induction agents as [|agent rest IH]; intros acc1 acc2 H1 H2 H3 H4; simpl.
    - auto.
    - apply IH; simpl; congruence. }
  pose (init := {| Totals.totalRequests := 0;
                      Totals.totalErrors := 0;
                      Totals.totalLatency := 0%Q;
                      Totals.minLatency := F64.of_int 999999;
                      Totals.maxLatency := F64.of_int 0;
                      Totals.statusCodes := ∅ |}).
  specialize (Hsim init (initialTotals agents) eq_refl eq_refl eq_refl eq_refl).
  subst init.
  cbv zeta in Hsim. destruct Hsim as (H1 & H2 & H3 & H4).
  subst export res. unfold CreateTestResults, computeResults.
  cbn [TestResults.TotalRequests TestResults.TotalErrors TestResults.StatusCodes
       TestResults.AvgLatencyMs TestResults.SuccessRate TestResults.Agents
       TestResults.AgentCount
       TestRunResults.TotalRequests TestRunResults.TotalErrors TestRunResults.StatusCodes
       TestRunResults.AvgLatencyMs TestRunResults.SuccessRate].
  rewrite H1, H2, H3, H4.
  set (t := fold_left aggregate agents (initialTotals agents)).
  split; [reflexivity|]. split; [reflexivity|]. split; [reflexivity|].
  split; [reflexivity|]. split; [|split; [|split; reflexivity]].
  - intros Hpos. destruct (Z.eqb_spec (Totals.totalRequests t) 0); [lia|].
    destruct (Z.ltb_spec 0 (Totals.totalRequests t)); [reflexivity | lia].
  - intros Hz. rewrite Hz. split; reflexivity.
Qed.

(** ** Starting and re-running a run *)

Lemma activeConflict_None (c : Coordinator.t) :
  singleActive c -> (activeConflict c = None <-> noneActive c).
Proof.
  intros HJ. unfold activeConflict, currentRun. split.
  - intros Hnone id testRun Hrun.
    destruct (isActive (TestRun.Status testRun)) eqn:Hact; [|reflexivity].
    rewrite (HJ id testRun Hrun Hact), Hrun, Hact in Hnone. discriminate.
  - intros Hno. destruct (Coordinator.currentTestRun c) as [id|]; [|reflexivity].
    destruct (Coordinator.testRuns c !! id) as [current|] eqn:Hcur; [|reflexivity].
    rewrite (Hno id current Hcur). reflexivity.
Qed.

Lemma activeConflict_code (c : Coordinator.t) (conflict : Reply.t) :
  activeConflict c = Some conflict -> Reply.code conflict = StatusConflict.
Proof.
  unfold activeConflict. destruct (currentRun c) as [current|]; [|discriminate].
  destruct (isActive (TestRun.Status current)); [|discriminate].
  intros H. inversion H. reflexivity.
Qed.

Lemma startAndSave_singleActive (c : Coordinator.t) (id : string) (testRun : TestRun.t)
    (now : Z) :
  noneActive c -> singleActive (fst (fst (startAndSave c id testRun now))).
Proof.
  intros Hno id' run'. unfold startAndSave.
  cbn [fst Coordinator.testRuns Coordinator.currentTestRun].
  destruct (decide (id' = id)) as [->|Hne]; [reflexivity|].
  rewrite lookup_insert_ne by congruence.
  intros Hrun Hact. rewrite (Hno id' run' Hrun) in Hact. discriminate.
Qed.

(** X17.  At most one run is active.  If every running or waiting run is
    the current run, this is still so after [handleStartTestRun], whatever
    it answers.  It answers 200 exactly when the run exists in state
    created and no run in memory is running or waiting; it then marks the
    run as waiting with the start time, makes it current and saves it, and
    launches [startTestRun] exactly when enough agents are connected.  Any
    other answer (404, 400 or 409) leaves the coordinator as it was. *)
Theorem handleStartTestRun_single_active (c : Coordinator.t) (testRunID : string)
    (now : Z) :
  singleActive c ->
  let c' := fst (fst (handleStartTestRun c testRunID now)) in
  let reply := snd (fst (handleStartTestRun c testRunID now)) in
  let launched := snd (handleStartTestRun c testRunID now) in
  singleActive c'
  /\ (Reply.code reply = StatusOK <->
        (exists testRun, Coordinator.testRuns c !! testRunID = Some testRun
                         /\ TestRun.Status testRun = TestRunStatusCreated)
        /\ noneActive c)
  /\ (Reply.code reply <> StatusOK -> c' = c /\ launched = false)
  /\ (forall testRun,
        Reply.code reply = StatusOK ->
        Coordinator.testRuns c !! testRunID = Some testRun ->
        Coordinator.currentTestRun c' = Some testRunID
        /\ Coordinator.testRuns c'
           = <[testRunID := StartRun testRun now]> (Coordinator.testRuns c)
        /\ Coordinator.database c'
           = SaveTestRun (Coordinator.database c) (StartRun testRun now)
        /\ TestRun.Status (StartRun testRun now) = TestRunStatusWaiting
        /\ reply = {| Reply.code := StatusOK;
                      Reply.body := BodyTestRun (StartRun testRun now) |}
        /\ (launched = true <->
              TestRun.AgentCount testRun
              <= Z.of_nat (size (Coordinator.connectedAgents c)))).
Proof.
  intros HJ c' reply launched. subst c' reply launched.
  pose proof (activeConflict_None c HJ) as Hconf.
  unfold handleStartTestRun.
  destruct (Coordinator.testRuns c !! testRunID) as [testRun|] eqn:Hrun.
  2: { cbn [fst snd Reply.code]. split; [exact HJ|]. split.
       - split; [discriminate | intros [(r & Hr & _) _]; discriminate].
       - split; [auto | intros r _ Hr; discriminate]. }
  destruct (TestRun.Status testRun) eqn:Hstatus;
    try (cbn [fst snd Reply.code]; split; [exact HJ|]; split;
         [split; [discriminate
                 | intros [(r & Hr & Hs) _]; inversion Hr; subst r; congruence]
         | split; [auto | intros r Hcode; discriminate]]).
  destruct (activeConflict c) as [conflict|] eqn:Hc.
  - pose proof (activeConflict_code c conflict Hc) as Hcode.
    cbn [fst snd]. rewrite Hcode. split; [exact HJ|]. split.
    + split; [discriminate|]. intros [_ Hno]. apply Hconf in Hno. discriminate.
    + split; [auto | intros r H; discriminate].
  - assert (Hno : noneActive c) by (apply Hconf; reflexivity).
    pose proof (startAndSave_singleActive c testRunID testRun now Hno) as HJ'.
    unfold startAndSave in *. cbn [fst snd Reply.code] in *.
    split; [exact HJ'|]. split.
    + split; [intros _; split; [eauto | exact Hno] | reflexivity].
    + split; [intros H; contradiction|].
      intros r _ Hr. inversion Hr; subst r.
      cbn [Coordinator.currentTestRun Coordinator.testRuns Coordinator.database].
      repeat split.
      * intros H. apply Z.leb_le in H. exact H.
      * intros H. apply Z.leb_le. exact H.
Qed.

(** X18.  Re-running keeps at most one run active and does not touch the
    original.  If every running or waiting run is the current run and the
    generated identifier is new, this is still so after
    [handleRerunTestRun].  It answers 201 exactly when the original exists,
    is neither created, waiting nor running, and no run in memory is
    running or waiting; the new run then carries the name of the original
    followed by [" (Rerun)"], its plan and its agent count, is waiting and
    current, and the original run is still stored unchanged.  Any other
    answer leaves the coordinator as it was. *)
Theorem handleRerunTestRun_single_active (c : Coordinator.t)
    (testRunID newID : string) (created now : Z) :
  singleActive c ->
  Coordinator.testRuns c !! newID = None ->
  let c' := fst (fst (handleRerunTestRun c testRunID newID created now)) in
  let reply := snd (fst (handleRerunTestRun c testRunID newID created now)) in
  singleActive c'
  /\ (Reply.code reply = StatusCreated <->
        (exists original, Coordinator.testRuns c !! testRunID = Some original
                          /\ isActive (TestRun.Status original) = false
                          /\ TestRun.Status original <> TestRunStatusCreated)
        /\ noneActive c)
  /\ (Reply.code reply <> StatusCreated -> c' = c)
  /\ (forall original,
        Reply.code reply = StatusCreated ->
        Coordinator.testRuns c !! testRunID = Some original ->
        let newTestRun :=
          StartRun (NewTestRun newID (TestRun.Name original +:+ " (Rerun)")
                      (TestRun.PlanDuration original) (TestRun.PlanStrategy original)
                      (TestRun.AgentCount original) created) now in
        Coordinator.currentTestRun c' = Some newID
        /\ Coordinator.testRuns c' !! newID = Some newTestRun
        /\ Coordinator.testRuns c' !! testRunID = Some original
        /\ Database.test_runs (Coordinator.database c') !! newID = Some newTestRun
        /\ TestRun.Status newTestRun = TestRunStatusWaiting
        /\ reply = {| Reply.code := StatusCreated;
                      Reply.body := BodyTestRun newTestRun |}).
Proof.
  intros HJ Hfresh c' reply. subst c' reply.
  pose proof (activeConflict_None c HJ) as Hconf.
  unfold handleRerunTestRun.
  destruct (Coordinator.testRuns c !! testRunID) as [original|] eqn:Hrun.
  2: { cbn [fst snd Reply.code]. split; [exact HJ|]. split.
       - split; [discriminate | intros [(r & Hr & _) _]; discriminate].
       - split; [auto | intros r _ Hr; discriminate]. }
  assert (Hne : testRunID <> newID) by (intros ->; congruence).
  destruct (TestRun.Status original) eqn:Hstatus;
    try (cbn [fst snd Reply.code]; split; [exact HJ|]; split;
         [split; [discriminate
                 | intros [(r & Hr & Ha & Hs) _]; inversion Hr; subst r;
                   rewrite Hstatus in Ha, Hs; simpl in Ha; congruence]
         | split; [auto | intros r Hcode; discriminate]]).
  all: destruct (activeConflict c) as [conflict|] eqn:Hc;
    [ pose proof (activeConflict_code c conflict Hc) as Hcode;
      cbn [fst snd]; rewrite Hcode; split; [exact HJ|]; split;
      [ split; [discriminate | intros [_ Hno]; apply Hconf in Hno; discriminate]
      | split; [auto | intros r H; discriminate] ]
    | ].
  all: assert (Hno : noneActive c) by (apply Hconf; reflexivity).
  all: set (newTestRun := NewTestRun newID (TestRun.Name original +:+ " (Rerun)")
                            (TestRun.PlanDuration original) (TestRun.PlanStrategy original)
                            (TestRun.AgentCount original) created).
  all: match goal with
       | |- context [startAndSave ?stored _ _ _] =>
           assert (Hno' : noneActive stored)
       end;
    [ intros id' run'; cbn [Coordinator.testRuns];
      destruct (decide (id' = newID)) as [->|Hd];
      [ rewrite lookup_insert_eq; intros H; inversion H; reflexivity
      | rewrite lookup_insert_ne by congruence; apply Hno ]
    | ].
  all: match goal with
       | |- context [startAndSave ?stored _ _ _] =>
           pose proof (startAndSave_singleActive stored newID newTestRun now Hno') as HJ'
       end.
  all: unfold startAndSave in *; cbn [fst snd Reply.code] in *.
  all: split; [exact HJ'|]; split;
    [ split; [intros _; split;
                [exists original; rewrite Hstatus; repeat split; discriminate | exact Hno]
             | reflexivity]
    | split; [intros H; contradiction|] ].
  all: intros r _ Hr; inversion Hr; subst r;
    cbn [Coordinator.currentTestRun Coordinator.testRuns Coordinator.database
         SaveTestRun Database.test_runs StartRun TestRun.ID NewTestRun];
    rewrite ?lookup_insert_eq;
    rewrite !lookup_insert_ne by congruence;
    repeat split; try exact Hrun; fold newTestRun; rewrite ?lookup_insert_eq; reflexivity.
Qed.

(** ** Stopping a run *)

(** X19.  A stopped run is completing, not cancelled.  For a run that is
    running or waiting, [handleStopTestRun] answers 200 and launches
    [stopTestRun], which publishes the command [STOP] with the id of the run
    on [armonite.test.command] and marks the run as completing without
    touching anything else.  From then on no run is active (when at most
    one was), so another run may be started, and a second stop is refused
    with 400.  When the completion timer of the run fires, the run becomes
    completed with that time as its end. *)
Theorem stopped_run_is_completing (c : Coordinator.t) (testRunID : string)
    (testRun : TestRun.t) (now : Z) :
  singleActive c ->
  Coordinator.testRuns c !! testRunID = Some testRun ->
  isActive (TestRun.Status testRun) = true ->
  let c1 := fst (stopTestRun c testRunID) in
  let c2 := completeTestRun c1 testRunID now in
  handleStopTestRun c testRunID
  = ({| Reply.code := StatusOK;
        Reply.body := BodyObject {[ "message" := "Test run stop initiated" ]} |}, true)
  /\ snd (stopTestRun c testRunID)
     = ("armonite.test.command",
        {| TestStartCommand.TestRunID := testRunID;
           TestStartCommand.Command := "STOP";
           TestStartCommand.CurrentPhase := None |})
  /\ Coordinator.testRuns c1
     = <[testRunID := setStatus TestRunStatusCompleting testRun]> (Coordinator.testRuns c)
  /\ Coordinator.currentTestRun c1 = Some testRunID
  /\ Coordinator.database c1 = Coordinator.database c
  /\ noneActive c1
  /\ Reply.code (fst (handleStopTestRun c1 testRunID)) = StatusBadRequest
  /\ (exists testRun',
        Coordinator.testRuns c2 !! testRunID = Some testRun'
        /\ TestRun.Status testRun' = TestRunStatusCompleted
        /\ TestRun.CompletedAt testRun' = Some now
        /\ TestRun.StartedAt testRun' = TestRun.StartedAt testRun
        /\ Database.test_runs (Coordinator.database c2) !! TestRun.ID testRun
           = Some testRun')
  /\ Coordinator.currentTestRun c2 = None.
Proof.
  intros HJ Hrun Hact c1 c2.
  assert (Hruns : Coordinator.testRuns c1
                  = <[testRunID := setStatus TestRunStatusCompleting testRun]>
                      (Coordinator.testRuns c)).
  { subst c1. unfold stopTestRun, setTestRuns. cbn [fst Coordinator.testRuns].
    apply map_eq. intros id. destruct (decide (id = testRunID)) as [->|Hne].
    - rewrite lookup_alter_eq, lookup_insert_eq, Hrun. reflexivity.
    - rewrite lookup_alter_ne, lookup_insert_ne by congruence. reflexivity. }
  assert (Hcur : Coordinator.currentTestRun c1 = Some testRunID).
  { subst c1. unfold stopTestRun, setTestRuns. cbn [fst Coordinator.currentTestRun].
    exact (HJ testRunID testRun Hrun Hact). }
  assert (Hlook : Coordinator.testRuns c1 !! testRunID
                  = Some (setStatus TestRunStatusCompleting testRun)).
  { rewrite Hruns. apply lookup_insert_eq. }
  split.
  { unfold handleStopTestRun. rewrite Hrun, Hact. reflexivity. }
  split; [reflexivity|].
  split; [exact Hruns|].
  split; [exact Hcur|].
  split; [reflexivity|].
  split.
  { intros id run'. rewrite Hruns.
    destruct (decide (id = testRunID)) as [->|Hne].
    - rewrite lookup_insert_eq. intros H. inversion H. reflexivity.
    - rewrite lookup_insert_ne by congruence. intros Hrun'.
      destruct (isActive (TestRun.Status run')) eqn:Hact'; [|reflexivity].
      pose proof (HJ id run' Hrun' Hact') as Hid.
      rewrite (HJ testRunID testRun Hrun Hact) in Hid. congruence. }
  split.
  { unfold handleStopTestRun. rewrite Hlook. reflexivity. }
  subst c2. unfold completeTestRun. rewrite Hlook.
  cbn [Coordinator.testRuns Coordinator.currentTestRun Coordinator.database
       SaveTestRun Database.test_runs].
  split.
  - eexists. rewrite lookup_insert_eq.
    split; [reflexivity|]. split; [reflexivity|]. split; [reflexivity|].
    split; [reflexivity|]. cbn [Complete TestRun.ID setStatus].
    apply lookup_insert_eq.
  - unfold isCurrent. rewrite Hcur, String.eqb_refl. reflexivity.
Qed.

(** ** Bulk deletion *)

Lemma removeFromMemory_lookup (selected : TestRun.t -> bool) (c : Coordinator.t)
    (id : string) :
  let c' := removeFromMemory selected c in
  let removed testRun := selected testRun && negb (isActive (TestRun.Status testRun)) in
  Coordinator.testRuns c' !! id
  = match Coordinator.testRuns c !! id with
    | Some testRun => if removed testRun then None else Some testRun
    | None => None
    end
  /\ Coordinator.agentResults c' !! id
     = match Coordinator.testRuns c !! id with
       | Some testRun => if removed testRun then None else Coordinator.agentResults c !! id
       | None => Coordinator.agentResults c !! id
       end.
Proof.
  intros c' removed. subst c'. unfold removeFromMemory.
  set (step := fun (id : string) (testRun : TestRun.t)
                   (acc : gmap string TestRun.t * gmap string (list AgentResult.t)) =>
                 if selected testRun && negb (isActive (TestRun.Status testRun))
                 then (delete id (fst acc), delete id (snd acc)) else acc).
  set (runs0 := Coordinator.testRuns c). set (results0 := Coordinator.agentResults c).
  assert (H : forall runs : gmap string TestRun.t,
             fst (map_fold step (runs0, results0) runs) !! id
             = match runs !! id with
               | Some testRun => if removed testRun then None else runs0 !! id
               | None => runs0 !! id
               end
             /\ snd (map_fold step (runs0, results0) runs) !! id
                = match runs !! id with
                  | Some testRun => if removed testRun then None else results0 !! id
                  | None => results0 !! id
                  end).
  { apply (map_fold_weak_ind
             (fun r (runs : gmap string TestRun.t) =>
                fst r !! id
                = match runs !! id with
                  | Some testRun => if removed testRun then None else runs0 !! id
                  | None => runs0 !! id
                  end
                /\ snd r !! id
                   = match runs !! id with
                     | Some testRun => if removed testRun then None else results0 !! id
                     | None => results0 !! id
                     end)).
    - rewrite lookup_empty. split; reflexivity.
    - intros id' testRun runs r Hfresh [IH1 IH2]. unfold step. fold (removed testRun).
      destruct (decide (id' = id)) as [->|Hne].
      + rewrite lookup_insert_eq. rewrite Hfresh in IH1, IH2.
        destruct (removed testRun); cbn [fst snd];
          [rewrite !lookup_delete_eq; split; reflexivity | split; assumption].
      + rewrite lookup_insert_ne by exact Hne.
        destruct (removed testRun); cbn [fst snd];
          [rewrite !lookup_delete_ne by exact Hne|]; split; assumption. }
  specialize (H runs0). destruct H as [H1 H2].
  destruct (map_fold step (runs0, results0) runs0) as [runs results].
  cbn [fst snd Coordinator.testRuns Coordinator.agentResults] in *.
  split.
  - rewrite H1. subst runs0. destruct (Coordinator.testRuns c !! id) as [testRun|];
      [destruct (removed testRun)|]; reflexivity.
  - exact H2.
Qed.

Lemma deleteRows_lookup (d : Database.t) (rows : gmap string TestRun.t) (id : string) :
  (forall id row, rows !! id = Some row -> Database.test_runs d !! id = Some row) ->
  Database.test_runs (fst (deleteRows d rows)) !! id
  = match rows !! id with
    | Some _ => None
    | None => Database.test_runs d !! id
    end
  /\ Database.agent_results (fst (deleteRows d rows)) !! id
     = match rows !! id with
       | Some _ => None
       | None => Database.agent_results d !! id
       end
  /\ snd (deleteRows d rows) = Z.of_nat (size rows).
Proof.
  intros Hsub. unfold deleteRows.
  destruct (size rows =? 0)%nat eqn:Hsize.
  - apply Nat.eqb_eq in Hsize. pose proof Hsize as Hempty.
    apply map_size_empty_iff in Hempty. subst rows.
    rewrite lookup_empty. cbn [fst snd]. rewrite map_size_empty. auto.
  - cbn [fst snd Database.test_runs Database.agent_results].
    split; [|split; [|reflexivity]].
    + destruct (rows !! id) as [row|] eqn:Hrow.
      * apply map_lookup_filter_None. right. intros x _ H. cbn [fst] in H. congruence.
      * destruct (Database.test_runs d !! id) as [x|] eqn:Hx.
        -- apply map_lookup_filter_Some. split; [exact Hx | exact Hrow].
        -- apply map_lookup_filter_None. left. exact Hx.
    + destruct (rows !! id) as [row|] eqn:Hrow.
      * apply map_lookup_filter_None. right. intros x _ H. cbn [fst] in H. congruence.
      * destruct (Database.agent_results d !! id) as [x|] eqn:Hx.
        -- apply map_lookup_filter_Some. split; [exact Hx | exact Hrow].
        -- apply map_lookup_filter_None. left. exact Hx.
Qed.

Lemma rowsWithStatus_lookup (d : Database.t) (status id : string) :
  rowsWithStatus d status !! id
  = match Database.test_runs d !! id with
    | Some row =>
        if decide (status_string (TestRun.Status row) = status) then Some row else None
    | None => None
    end.
Proof.
  unfold rowsWithStatus.
  destruct (Database.test_runs d !! id) as [row|] eqn:Hrow.
  - destruct (decide (status_string (TestRun.Status row) = status)) as [Hs|Hs].
    + apply map_lookup_filter_Some. split; [exact Hrow | exact Hs].
    + apply map_lookup_filter_None. right. intros x Hx. cbn [snd].
      rewrite Hrow in Hx. inversion Hx; subst x. exact Hs.
  - apply map_lookup_filter_None. left. exact Hrow.
Qed.

(** X20.  Bulk deletion by status empties the database more than the
    memory.  On a confirmed request with a status, the database loses every
    run whose status has that text, with its agent results, and the reply
    is 200 with their number.  In memory the same runs are removed with
    their agent results, except those that are running or waiting, and
    [currentTestRun] is left as it was.  Hence a request for the status
    [running] or [waiting_for_agents] deletes the rows of the active runs
    and changes nothing in memory. *)
Theorem bulk_delete_by_status (c : Coordinator.t) (req : BulkDeleteRequest.t)
    (now later : Z) :
  BulkDeleteRequest.Confirm req = true ->
  BulkDeleteRequest.Status req <> "" ->
  let status := BulkDeleteRequest.Status req in
  let c' := fst (handleBulkDeleteTestRuns c req now later) in
  let reply := snd (handleBulkDeleteTestRuns c req now later) in
  let deletedCount :=
    Z.of_nat (size (rowsWithStatus (Coordinator.database c) status)) in
  (forall id,
     Database.test_runs (Coordinator.database c') !! id
     = match Database.test_runs (Coordinator.database c) !! id with
       | Some row =>
           if decide (status_string (TestRun.Status row) = status) then None else Some row
       | None => None
       end)
  /\ (forall id row,
        Database.test_runs (Coordinator.database c) !! id = Some row ->
        status_string (TestRun.Status row) = status ->
        Database.agent_results (Coordinator.database c') !! id = None)
  /\ (forall id,
        Coordinator.testRuns c' !! id
        = match Coordinator.testRuns c !! id with
          | Some testRun =>
              if decide (status_string (TestRun.Status testRun) = status
                         /\ isActive (TestRun.Status testRun) = false)
              then None else Some testRun
          | None => None
          end)
  /\ (forall id testRun,
        Coordinator.testRuns c !! id = Some testRun ->
        Coordinator.agentResults c' !! id
        = if decide (status_string (TestRun.Status testRun) = status
                     /\ isActive (TestRun.Status testRun) = false)
          then None else Coordinator.agentResults c !! id)
  /\ Coordinator.currentTestRun c' = Coordinator.currentTestRun c
  /\ reply
     = {| Reply.code := StatusOK;
          Reply.body :=
            BodyObject
              (<[ "message" := "Deleted " +:+ itoa deletedCount
                               +:+ " test runs with status: " +:+ status ]>
                 {[ "deleted_count" := itoa deletedCount ]}) |}
  /\ (status = "running" \/ status = "waiting_for_agents" ->
      Coordinator.testRuns c' = Coordinator.testRuns c
      /\ Coordinator.agentResults c' = Coordinator.agentResults c
      /\ forall id testRun,
           Coordinator.testRuns c !! id = Some testRun ->
           Database.test_runs (Coordinator.database c) !! id = Some testRun ->
           status_string (TestRun.Status testRun) = status ->
           Coordinator.testRuns c' !! id = Some testRun
           /\ Database.test_runs (Coordinator.database c') !! id = None).
Proof.
  intros Hconfirm Hstatus status c' reply deletedCount.
  assert (Hnonempty : String.eqb status "" = false) by (apply String.eqb_neq; exact Hstatus).
  set (d := Coordinator.database c) in *.
  assert (Hsub : forall id row, rowsWithStatus d status !! id = Some row ->
                                Database.test_runs d !! id = Some row).
  { intros id row. rewrite rowsWithStatus_lookup.
    destruct (Database.test_runs d !! id) as [x|]; [|discriminate].
    destruct (decide (status_string (TestRun.Status x) = status)); [auto | discriminate]. }
  pose proof (fun id => deleteRows_lookup d (rowsWithStatus d status) id Hsub) as Hdel.
  set (selected := fun testRun : TestRun.t =>
                     String.eqb (status_string (TestRun.Status testRun)) status).
  assert (Hc' : c' = removeFromMemory selected
                       (setDatabase c (fst (DeleteTestRunsByStatus d status)))
                /\ reply
                   = {| Reply.code := StatusOK;
                        Reply.body :=
                          BodyObject
                            (<[ "message" := "Deleted " +:+ itoa deletedCount
                                             +:+ " test runs with status: " +:+ status ]>
                               {[ "deleted_count" := itoa deletedCount ]}) |}).
  { subst c' reply. unfold handleBulkDeleteTestRuns. rewrite Hconfirm.
    fold status. rewrite Hnonempty. cbn [negb]. fold d.
    unfold DeleteTestRunsByStatus.
    destruct (Hdel "") as (_ & _ & Hcount).
    destruct (deleteRows d (rowsWithStatus d status)) as [d' n] eqn:Hrows.
    cbn [fst snd] in *. subst n. split; reflexivity. }
  destruct Hc' as [Hc' Hreply].
  assert (Hdb : Coordinator.database c' = fst (deleteRows d (rowsWithStatus d status))).
  { rewrite Hc'. unfold removeFromMemory.
    destruct (map_fold _ _ _) as [runs results]. reflexivity. }
  assert (Hcur : Coordinator.currentTestRun c' = Coordinator.currentTestRun c).
  { rewrite Hc'. unfold removeFromMemory.
    destruct (map_fold _ _ _) as [runs results]. reflexivity. }
  pose proof (fun id => removeFromMemory_lookup selected
                          (setDatabase c (fst (DeleteTestRunsByStatus d status))) id)
    as Hmem.
  cbv zeta in Hmem. rewrite <- Hc' in Hmem.
  cbn [setDatabase Coordinator.testRuns Coordinator.agentResults] in Hmem.
  assert (Hsel : forall testRun,
             selected testRun && negb (isActive (TestRun.Status testRun))
             = if decide (status_string (TestRun.Status testRun) = status
                          /\ isActive (TestRun.Status testRun) = false)
               then true else false).
  { intros testRun. unfold selected.
    destruct (String.eqb_spec (status_string (TestRun.Status testRun)) status) as [He|He];
      destruct (isActive (TestRun.Status testRun)); cbn [andb negb];
      destruct (decide _) as [[H1 H2]|Hn]; try reflexivity; try congruence.
    exfalso. apply Hn. split; [exact He | reflexivity]. }
  assert (Hruns : forall id,
             Coordinator.testRuns c' !! id
             = match Coordinator.testRuns c !! id with
               | Some testRun =>
                   if decide (status_string (TestRun.Status testRun) = status
                              /\ isActive (TestRun.Status testRun) = false)
                   then None else Some testRun
               | None => None
               end).
  { intros id. destruct (Hmem id) as [H _]. rewrite H.
    destruct (Coordinator.testRuns c !! id) as [testRun|]; [|reflexivity].
    rewrite Hsel. destruct (decide _); reflexivity. }
  assert (Hresults : forall id testRun,
             Coordinator.testRuns c !! id = Some testRun ->
             Coordinator.agentResults c' !! id
             = if decide (status_string (TestRun.Status testRun) = status
                          /\ isActive (TestRun.Status testRun) = false)
               then None else Coordinator.agentResults c !! id).
  { intros id testRun Hrun. destruct (Hmem id) as [_ H]. rewrite H, Hrun, Hsel.
    destruct (decide _); reflexivity. }
  assert (Hrows : forall id,
             Database.test_runs (Coordinator.database c') !! id
             = match Database.test_runs d !! id with
               | Some row =>
                   if decide (status_string (TestRun.Status row) = status)
                   then None else Some row
               | None => None
               end).
  { intros id. rewrite Hdb. destruct (Hdel id) as (H & _ & _). rewrite H.
    rewrite rowsWithStatus_lookup.
    destruct (Database.test_runs d !! id) as [row|]; [|reflexivity].
    destruct (decide _); reflexivity. }
  split; [exact Hrows|].
  split.
  { intros id row Hrow Hs. rewrite Hdb. destruct (Hdel id) as (_ & H & _). rewrite H.
    rewrite rowsWithStatus_lookup, Hrow.
    destruct (decide _) as [|Hn]; [reflexivity | contradiction]. }
  split; [exact Hruns|].
  split; [exact Hresults|].
  split; [exact Hcur|].
  split; [exact Hreply|].
  intros Hactive.
  assert (Hnever : forall testRun,
             ~ (status_string (TestRun.Status testRun) = status
                /\ isActive (TestRun.Status testRun) = false)).
  { intros testRun [Hs Ha]. destruct (TestRun.Status testRun);
      destruct Hactive as [Hst|Hst]; rewrite Hst in Hs; simpl in *; discriminate. }
  assert (Hsame : Coordinator.testRuns c' = Coordinator.testRuns c).
  { apply map_eq. intros id. rewrite Hruns.
    destruct (Coordinator.testRuns c !! id) as [testRun|]; [|reflexivity].
    destruct (decide _) as [H|_]; [destruct (Hnever _ H) | reflexivity]. }
  split; [exact Hsame|].
  split.
  { apply map_eq. intros id. destruct (Hmem id) as [_ H]. rewrite H.
    destruct (Coordinator.testRuns c !! id) as [testRun|]; [|reflexivity].
    rewrite Hsel. destruct (decide _) as [Hd|_]; [destruct (Hnever _ Hd) | reflexivity]. }
  intros id testRun Hrun Hrow Hs. split.
  - rewrite Hsame. exact Hrun.
  - rewrite Hrows, Hrow. destruct (decide _) as [|Hn]; [reflexivity | contradiction].
Qed.

(** ** Statistics *)

Lemma size_filter_insert {A : Type} (P : string * A -> Prop)
    `{forall x, Decision (P x)} (m : gmap string A) (i : string) (x : A) :
  m !! i = None ->
  Z.of_nat (size (filter P (<[i := x]> m)))
  = Z.of_nat (size (filter P m)) + (if decide (P (i, x)) then 1 else 0).
Proof.
  intros Hfresh. destruct (decide (P (i, x))) as [HP|HP].
  - rewrite map_filter_insert_True by exact HP.
    rewrite map_size_insert_None; [lia|].
    apply map_lookup_filter_None. left. exact Hfresh.
  - rewrite map_filter_insert_False by exact HP.
    rewrite delete_id by exact Hfresh. lia.
Qed.

Lemma rows_partition (rows : gmap string TestRun.t) :
  let count status :=
    Z.of_nat (size (filter (fun row : string * TestRun.t =>
                              status_string (TestRun.Status (snd row)) = status) rows)) in
  Z.of_nat (size rows)
  = count "created" + count "waiting_for_agents" + count "running" + count "completing"
    + count "completed" + count "failed" + count "cancelled".
Proof.
  cbv zeta. induction rows as [|id row rows Hfresh IH] using map_ind.
  - rewrite !map_filter_empty, map_size_empty. reflexivity.
  - rewrite map_size_insert_None by exact Hfresh.
    rewrite !size_filter_insert by exact Hfresh. cbn [snd].
    destruct (TestRun.Status row); cbn [status_string];
      repeat (destruct (decide _) as [?|?]; try discriminate; try congruence); lia.
Qed.

(** X21.  The statistics do not count every run.  [handleTestRunStats]
    reports the number of rows of the database as the total and, in the
    breakdown, the number of rows for each of [created], [running],
    [completed], [failed] and [cancelled].  The entry [waiting] of the
    breakdown is always 0, since a waiting run is stored with the status
    [waiting_for_agents], and there is no entry for that status nor for
    [completing]: the total is the sum of the breakdown plus the waiting and
    the completing runs. *)
Theorem handleTestRunStats_breakdown (c : Coordinator.t) :
  let stats := handleTestRunStats c in
  let count status := GetTestRunCountByStatus (Coordinator.database c) status in
  let breakdown status := default 0 (Stats.status_breakdown stats !! status) in
  Stats.status_breakdown stats !! "waiting" = Some 0
  /\ Stats.status_breakdown stats !! "waiting_for_agents" = None
  /\ Stats.status_breakdown stats !! "completing" = None
  /\ (forall status,
        In status ["created"; "running"; "completed"; "failed"; "cancelled"] ->
        Stats.status_breakdown stats !! status = Some (count status))
  /\ Stats.total_test_runs stats
     = breakdown "created" + breakdown "waiting" + breakdown "running"
       + breakdown "completed" + breakdown "failed" + breakdown "cancelled"
       + count "waiting_for_agents" + count "completing"
  /\ 0 <= count "waiting_for_agents" /\ 0 <= count "completing".
Proof.
  intros stats count breakdown.
  assert (Hwaiting : count "waiting" = 0).
  { subst count. cbv beta. unfold GetTestRunCountByStatus, rowsWithStatus.
    rewrite map_empty_filter_2; [rewrite map_size_empty; reflexivity|].
    intros id row _. cbn [snd]. destruct (TestRun.Status row); discriminate. }
  assert (Hlook : forall status,
             In status ["created"; "waiting"; "running"; "completed"; "failed"; "cancelled"] ->
             Stats.status_breakdown stats !! status = Some (count status)).
  { intros status Hin. subst stats. unfold handleTestRunStats.
    cbn [Stats.status_breakdown fold_left].
    cbn [In] in Hin.
    destruct Hin as [<-|[<-|[<-|[<-|[<-|[<-|[]]]]]]];
      repeat (first [ rewrite lookup_insert_eq; reflexivity
                    | rewrite lookup_insert_ne by discriminate ]). }
  split; [rewrite Hlook by (cbn [In]; auto); rewrite Hwaiting; reflexivity|].
  split; [subst stats; unfold handleTestRunStats; cbn [Stats.status_breakdown fold_left];
          rewrite !lookup_insert_ne by discriminate; apply lookup_empty|].
  split; [subst stats; unfold handleTestRunStats; cbn [Stats.status_breakdown fold_left];
          rewrite !lookup_insert_ne by discriminate; apply lookup_empty|].
  split; [intros status Hin; apply Hlook;
          destruct Hin as [<-|[<-|[<-|[<-|[<-|[]]]]]]; cbn [In]; auto 10|].
  split.
  - subst breakdown. cbv beta.
    rewrite !Hlook by (cbn [In]; auto 10). cbn [default from_option id].
    rewrite Hwaiting.
    pose proof (rows_partition (Database.test_runs (Coordinator.database c))) as Hpart.
    cbv zeta in Hpart. subst count stats. cbv beta.
    unfold handleTestRunStats, GetTestRunCount, GetTestRunCountByStatus, rowsWithStatus.
    cbn [Stats.total_test_runs]. lia.
  - subst count. cbv beta. unfold GetTestRunCountByStatus. lia.
Qed.

(** ** Phase completions from the agent to the orchestrator *)

(** X22.  A phase completion is counted only for an agent that already
    holds the id of the run.  When the orchestrator sends [START_PHASE] for
    its current phase to an agent and the agent runs the phase, the agent
    publishes a completion with its own id and the index of the phase, on
    the subject of the run in its field [currentTestRunID]: the id that the
    command carries is not used.  If that field is the run of the
    orchestrator, the orchestrator marks the agent as completed; otherwise
    the completion does not reach the orchestrator, whose state does not
    change. *)
Theorem phase_completion_needs_run_id (a : Agent.t) (po : PhaseOrchestrator.t)
    (phase : PhaseInfo.t) (clock : Z) :
  workerCount (executePhase a (Some phase)) <> None ->
  PhaseInfo.PhaseIndex phase = PhaseOrchestrator.currentPhase po ->
  let sent := sendPhaseCommand (PhaseOrchestrator.testRunID po) (Agent.id a)
                "START_PHASE" phase clock in
  let published := receivePhaseCommand a sent in
  let po' := deliverPhaseCompletion po published in
  TestStartCommand.TestRunID (Sent.command sent) = PhaseOrchestrator.testRunID po
  /\ (exists completion,
        published = Some ("armonite.phase.complete." +:+ Agent.currentTestRunID a,
                          completion)
        /\ PhaseCompletion.AgentID completion = Agent.id a
        /\ PhaseCompletion.PhaseIndex completion = PhaseOrchestrator.currentPhase po
        /\ (Agent.currentTestRunID a = PhaseOrchestrator.testRunID po ->
            po' = monitorPhaseCompletion po completion))
  /\ (Agent.currentTestRunID a = PhaseOrchestrator.testRunID po ->
      PhaseOrchestrator.completedAgents po' !! Agent.id a = Some true)
  /\ (Agent.currentTestRunID a <> PhaseOrchestrator.testRunID po -> po' = po).
Proof.
  intros Hran Hindex sent published po'.
  assert (Hpub : exists workers queue ran completion,
             executePhase a (Some phase) = PhaseRan workers queue ran completion
             /\ PhaseCompletion.AgentID completion = Agent.id a
             /\ PhaseCompletion.PhaseIndex completion = PhaseInfo.PhaseIndex phase).
  { unfold executePhase, executePhaseLoad in *.
    destruct (wrap64 _ <? 0); [exfalso; apply Hran; reflexivity|].
    do 4 eexists. split; [reflexivity|]. split; reflexivity. }
  destruct Hpub as (workers & queue & ran & completion & Hexec & Hid & Hidx).
  assert (Hpublished : published
                       = Some ("armonite.phase.complete." +:+ Agent.currentTestRunID a,
                               completion)).
  { subst published sent. unfold receivePhaseCommand, sendPhaseCommand, agentCommandSubject.
    cbn [Sent.subject Sent.command]. rewrite String.eqb_refl.
    unfold handleAgentCommand. cbn [TestStartCommand.Command TestStartCommand.CurrentPhase].
    rewrite String.eqb_refl. unfold publishPhaseCompletion. rewrite Hexec. reflexivity. }
  assert (Hsame : Agent.currentTestRunID a = PhaseOrchestrator.testRunID po ->
                  po' = monitorPhaseCompletion po completion).
  { intros Heq. subst po'. rewrite Hpublished. unfold deliverPhaseCompletion, phaseCompleteSubject.
    rewrite Heq, String.eqb_refl. reflexivity. }
  split; [reflexivity|].
  split.
  { exists completion. split; [exact Hpublished|]. split; [exact Hid|].
    split; [congruence | exact Hsame]. }
  split.
  - intros Heq. rewrite (Hsame Heq). unfold monitorPhaseCompletion.
    rewrite Hidx, Hindex, Z.eqb_refl. cbn [PhaseOrchestrator.completedAgents].
    rewrite Hid. apply lookup_insert_eq.
  - intros Hne. subst po'. rewrite Hpublished.
    unfold deliverPhaseCompletion, phaseCompleteSubject.
    destruct (String.eqb_spec ("armonite.phase.complete." +:+ Agent.currentTestRunID a)
                ("armonite.phase.complete." +:+ PhaseOrchestrator.testRunID po))
      as [Heq|_]; [|reflexivity].
    apply String.app_inj in Heq. contradiction.
Qed.

(** ** A waiting run and the registration of agents *)

(** X23.  A run that waits for agents is launched by the agent that
    completes the count.  When [handleStartTestRun] accepts a run while
    fewer than [AgentCount] agents are connected, it does not launch
    [startTestRun]; a following registration launches it exactly when the
    agent is new and is the [AgentCount]-th one.  A registration of an agent
    that is already connected never launches it. *)
Theorem waiting_run_launched_by_registration (c : Coordinator.t) (testRunID : string)
    (testRun : TestRun.t) (registration : AgentRegistration.t) (now later started : Z) :
  noneActive c ->
  Coordinator.testRuns c !! testRunID = Some testRun ->
  TestRun.Status testRun = TestRunStatusCreated ->
  Z.of_nat (size (Coordinator.connectedAgents c)) < TestRun.AgentCount testRun ->
  let c1 := fst (fst (handleStartTestRun c testRunID now)) in
  let agentID := AgentRegistration.AgentID registration in
  let c2 := fst (fst (handleAgentRegistration c1 registration later started)) in
  let launched := snd (handleAgentRegistration c1 registration later started) in
  snd (handleStartTestRun c testRunID now) = false
  /\ (launched = true <->
        Coordinator.connectedAgents c !! agentID = None
        /\ TestRun.AgentCount testRun
           = Z.of_nat (size (Coordinator.connectedAgents c)) + 1)
  /\ Coordinator.testRuns c2 !! testRunID = Some (StartRun testRun now)
  /\ Coordinator.currentTestRun c2 = Some testRunID
  /\ is_Some (Coordinator.connectedAgents c2 !! agentID).
Proof.
  intros Hno Hrun Hstatus Hfew c1 agentID c2 launched.
  assert (Hconf : activeConflict c = None).
  { unfold activeConflict, currentRun.
    destruct (Coordinator.currentTestRun c) as [id|]; [|reflexivity].
    destruct (Coordinator.testRuns c !! id) as [current|] eqn:Hcur; [|reflexivity].
    rewrite (Hno id current Hcur). reflexivity. }
  assert (Hstart : handleStartTestRun c testRunID now
                   = (fst (fst (startAndSave c testRunID testRun now)),
                      {| Reply.code := StatusOK;
                         Reply.body := BodyTestRun (StartRun testRun now) |},
                      false)).
  { unfold handleStartTestRun. rewrite Hrun, Hstatus, Hconf. unfold startAndSave.
    cbn [fst snd StartRun TestRun.AgentCount].
    replace (TestRun.AgentCount testRun <=? Z.of_nat (size (Coordinator.connectedAgents c)))
      with false by (symmetry; apply Z.leb_gt; exact Hfew).
    reflexivity. }
  subst c1 c2 launched. rewrite Hstart. cbn [fst snd].
  unfold startAndSave. cbn [fst snd].
  unfold handleAgentRegistration, currentRun, setAgents.
  cbn [fst snd Coordinator.currentTestRun Coordinator.testRuns Coordinator.connectedAgents].
  rewrite lookup_insert_eq. cbn [StartRun TestRun.Status TestRun.AgentCount].
  fold agentID.
  split; [reflexivity|].
  split; [|split; [reflexivity|split; [reflexivity|rewrite lookup_insert_eq; eauto]]].
  destruct (Coordinator.connectedAgents c !! agentID) as [known|] eqn:Hknown.
  - rewrite bool_decide_eq_true_2 by eauto. cbn [negb andb].
    split; [discriminate | intros [H _]; discriminate].
  - rewrite bool_decide_eq_false_2 by (intros [x Hx]; discriminate). cbn [negb andb].
    rewrite map_size_insert_None by exact Hknown.
    split.
    + intros H. apply Z.leb_le in H. split; [reflexivity | lia].
    + intros [_ H]. apply Z.leb_le. lia.
Qed.

(** ** Deleting a run *)

(** X24.  A deleted run is gone for every later operation.  Deleting a run
    that is neither running nor waiting answers 200 and removes the run and
    its agent results from memory and from the database, and the run is no
    longer current.  Afterwards a start, a stop, a rerun and a second
    deletion of its id answer 404, and the completion timer of the run
    changes nothing. *)
Theorem deleted_run_is_gone (c : Coordinator.t) (testRunID newID : string)
    (testRun : TestRun.t) (created now : Z) :
  Coordinator.testRuns c !! testRunID = Some testRun ->
  isActive (TestRun.Status testRun) = false ->
  let c' := fst (handleDeleteTestRun c testRunID) in
  Response.code (snd (handleDeleteTestRun c testRunID)) = StatusOK
  /\ Coordinator.testRuns c' !! testRunID = None
  /\ Coordinator.agentResults c' !! testRunID = None
  /\ Database.test_runs (Coordinator.database c') !! testRunID = None
  /\ Database.agent_results (Coordinator.database c') !! testRunID = None
  /\ Coordinator.currentTestRun c' <> Some testRunID
  /\ (forall id, id <> testRunID ->
        Coordinator.testRuns c' !! id = Coordinator.testRuns c !! id
        /\ Database.test_runs (Coordinator.database c') !! id
           = Database.test_runs (Coordinator.database c) !! id)
  /\ Reply.code (snd (fst (handleStartTestRun c' testRunID now))) = StatusNotFound
  /\ Reply.code (fst (handleStopTestRun c' testRunID)) = StatusNotFound
  /\ Reply.code (snd (fst (handleRerunTestRun c' testRunID newID created now)))
     = StatusNotFound
  /\ Response.code (snd (handleDeleteTestRun c' testRunID)) = StatusNotFound
  /\ completeTestRun c' testRunID now = c'.
Proof.
  intros Hrun Hact c'.
  assert (Hdel : handleDeleteTestRun c testRunID
                 = ({| Coordinator.database := DeleteTestRun (Coordinator.database c) testRunID;
                       Coordinator.connectedAgents := Coordinator.connectedAgents c;
                       Coordinator.testRuns := delete testRunID (Coordinator.testRuns c);
                       Coordinator.currentTestRun :=
                         if isCurrent c testRunID then None
                         else Coordinator.currentTestRun c;
                       Coordinator.agentResults :=
                         delete testRunID (Coordinator.agentResults c);
                       Coordinator.phaseOrchestrator := Coordinator.phaseOrchestrator c |},
                    {| Response.code := StatusOK;
                       Response.body := {[ "message" := "Test run deleted" ]} |})).
  { unfold handleDeleteTestRun. rewrite Hrun.
    destruct (TestRun.Status testRun); try discriminate; reflexivity. }
  subst c'. rewrite Hdel. cbn [fst snd Response.code].
  set (c' := {| Coordinator.database := _ |}).
  assert (Hgone : Coordinator.testRuns c' !! testRunID = None) by apply lookup_delete_eq.
  split; [reflexivity|].
  split; [exact Hgone|].
  split; [apply lookup_delete_eq|].
  split; [apply lookup_delete_eq|].
  split; [apply lookup_delete_eq|].
  split.
  { cbn [c' Coordinator.currentTestRun]. unfold isCurrent.
    destruct (Coordinator.currentTestRun c) as [id|]; [|discriminate].
    destruct (String.eqb_spec id testRunID) as [->|Hne]; [discriminate | congruence]. }
  split.
  { intros id Hne. cbn [c' Coordinator.testRuns Coordinator.database DeleteTestRun
                        Database.test_runs].
    rewrite !lookup_delete_ne by congruence. split; reflexivity. }
  split; [unfold handleStartTestRun; rewrite Hgone; reflexivity|].
  split; [unfold handleStopTestRun; rewrite Hgone; reflexivity|].
  split; [unfold handleRerunTestRun; rewrite Hgone; reflexivity|].
  split; [unfold handleDeleteTestRun; rewrite Hgone; reflexivity|].
  unfold completeTestRun. rewrite Hgone. reflexivity.
Qed.

(** ** What the database records of a run *)

Lemma SaveTestRun_rowsSaved (d : Database.t) (testRun : TestRun.t) :
  rowsSaved d -> savedStatus (TestRun.Status testRun) ->
  rowsSaved (SaveTestRun d testRun).
Proof.
  intros Hd Hs id row. unfold SaveTestRun. cbn [Database.test_runs].
  destruct (decide (TestRun.ID testRun = id)) as [->|Hne].
  - rewrite lookup_insert_eq. intros H. inversion H; subst row. exact Hs.
  - rewrite lookup_insert_ne by exact Hne. apply Hd.
Qed.

Lemma filter_rowsSaved (d : Database.t) (P : string * TestRun.t -> Prop)
    `{forall x, Decision (P x)} (results : gmap string (list AgentResult.t)) :
  rowsSaved d ->
  rowsSaved {| Database.test_runs := filter P (Database.test_runs d);
               Database.agent_results := results |}.
Proof.
  intros Hd id row. cbn [Database.test_runs]. intros Hrow.
  apply map_lookup_filter_Some in Hrow. destruct Hrow as [Hrow _]. exact (Hd id row Hrow).
Qed.

Lemma deleteRows_rowsSaved (d : Database.t) (rows : gmap string TestRun.t) :
  rowsSaved d -> rowsSaved (fst (deleteRows d rows)).
Proof.
  intros Hd. unfold deleteRows. destruct (size rows =? 0)%nat; cbn [fst]; [exact Hd|].
  apply filter_rowsSaved. exact Hd.
Qed.

Lemma removeFromMemory_database (selected : TestRun.t -> bool) (c : Coordinator.t) :
  Coordinator.database (removeFromMemory selected c) = Coordinator.database c.
Proof.
  unfold removeFromMemory. destruct (map_fold _ _ _) as [runs results]. reflexivity.
Qed.

Lemma startAndSave_rowsSaved (c : Coordinator.t) (testRunID : string)
    (testRun : TestRun.t) (now : Z) :
  rowsSaved (Coordinator.database c) ->
  rowsSaved (Coordinator.database (fst (fst (startAndSave c testRunID testRun now)))).
Proof.
  intros Hd. unfold startAndSave. cbn [fst Coordinator.database].
  apply SaveTestRun_rowsSaved; [exact Hd|]. right. left. reflexivity.
Qed.

Lemma operation_rowsSaved (c c' : Coordinator.t) :
  operation c c' -> rowsSaved (Coordinator.database c) ->
  rowsSaved (Coordinator.database c').
Proof.
  intros Hop Hd. destruct Hop.
  - unfold handleCreateTestRun.
    destruct (String.eqb _ ""); [exact Hd|].
    destruct (length _ =? 0)%nat; [exact Hd|].
    cbn [fst Coordinator.database].
    apply SaveTestRun_rowsSaved; [exact Hd|]. left. reflexivity.
  - unfold handleStartTestRun.
    destruct (Coordinator.testRuns c !! testRunID) as [testRun|]; [|exact Hd].
    destruct (TestRun.Status testRun); try exact Hd.
    destruct (activeConflict c); [exact Hd|].
    pose proof (startAndSave_rowsSaved c testRunID testRun now Hd) as H.
    destruct (startAndSave c testRunID testRun now) as [[c1 started] launched].
    exact H.
  - unfold handleRerunTestRun.
    destruct (Coordinator.testRuns c !! testRunID) as [original|]; [|exact Hd].
    destruct (TestRun.Status original); try exact Hd;
      (destruct (activeConflict c); [exact Hd|]);
      match goal with
      | |- context [startAndSave ?stored ?id ?run ?t] =>
          pose proof (startAndSave_rowsSaved stored id run t) as H;
          destruct (startAndSave stored id run t) as [[c1 started] launched];
          apply H; cbn [Coordinator.database];
          apply SaveTestRun_rowsSaved; [exact Hd | left; reflexivity]
      end.
  - unfold startTestRun in H.
    destruct (Coordinator.testRuns c !! testRunID) as [testRun|]; [|discriminate].
    unfold broadcastTestStart in H.
    destruct (hasSequentialPhases _); [|destruct publishOK];
      inversion H; subst r; exact Hd.
  - exact Hd.
  - unfold completeTestRun.
    destruct (Coordinator.testRuns c !! testRunID) as [testRun|]; [|exact Hd].
    cbn [Coordinator.database].
    apply SaveTestRun_rowsSaved; [exact Hd|]. right. right. reflexivity.
  - unfold handleDeleteTestRun.
    destruct (Coordinator.testRuns c !! testRunID) as [testRun|]; [|exact Hd].
    destruct (TestRun.Status testRun); try exact Hd;
      cbn [fst Coordinator.database]; intros id row; unfold DeleteTestRun;
      cbn [Database.test_runs]; intros Hrow;
      apply lookup_delete_Some in Hrow; destruct Hrow as [_ Hrow]; exact (Hd id row Hrow).
  - unfold handleBulkDeleteTestRuns.
    destruct (negb (BulkDeleteRequest.Confirm req)); [exact Hd|].
    destruct (negb (String.eqb (BulkDeleteRequest.Status req) "")).
    { unfold DeleteTestRunsByStatus.
      pose proof (deleteRows_rowsSaved (Coordinator.database c)
                    (rowsWithStatus (Coordinator.database c) (BulkDeleteRequest.Status req))
                    Hd) as H.
      destruct (deleteRows _ _) as [d n]. cbn [fst] in *.
      rewrite removeFromMemory_database. exact H. }
    destruct (negb (String.eqb (BulkDeleteRequest.OlderThan req) "")); [|exact Hd].
    destruct (ParseDuration (BulkDeleteRequest.OlderThan req)) as [duration|]; [|exact Hd].
    unfold DeleteTestRunsOlderThan.
    pose proof (deleteRows_rowsSaved (Coordinator.database c)
                  (rowsCreatedBefore (Coordinator.database c) (now - duration)) Hd) as H.
    destruct (deleteRows _ _) as [d n]. cbn [fst] in *.
    rewrite removeFromMemory_database. exact H.
  - unfold onRegistration.
    destruct (unmarshalRegistration data) as [registration|]; [|exact Hd].
    destruct (String.eqb _ "register"); [exact Hd|].
    destruct (String.eqb _ "unregister"); exact Hd.
  - exact Hd.
  - unfold handleAgentExecutionUpdate. destruct (String.eqb _ "completed"); exact Hd.
  - exact Hd.
  - exact Hd.
Qed.

(** X25.  The database never records a run as running.  Every operation
    of the coordinator keeps the rows of the database in the states
    created, waiting and completed: [startTestRun] marks the run as running,
    or failed, and [stopTestRun] as completing without saving it.  Hence,
    after any sequence of operations on a database of such rows, the
    statistics count no running, failed or cancelled run, and the reply of
    [handleGetTestRun] for a run that has a row is in one of the three
    states. *)
Theorem database_never_records_running (c c' : Coordinator.t) :
  rtc operation c c' ->
  rowsSaved (Coordinator.database c) ->
  rowsSaved (Coordinator.database c')
  /\ (forall status,
        In status ["running"; "completing"; "failed"; "cancelled"] ->
        GetTestRunCountByStatus (Coordinator.database c') status = 0)
  /\ (forall testRunID row,
        GetTestRun (Coordinator.database c') testRunID = Some row ->
        handleGetTestRun c' testRunID
        = {| Reply.code := StatusOK; Reply.body := BodyTestRun row |}
        /\ savedStatus (TestRun.Status row)).
Proof.
  intros Hsteps Hd.
  assert (Hd' : rowsSaved (Coordinator.database c')).
  { induction Hsteps as [|c c1 c2 Hop _ IH]; [exact Hd|].
    apply IH. exact (operation_rowsSaved c c1 Hop Hd). }
  split; [exact Hd'|]. split.
  - intros status Hin. unfold GetTestRunCountByStatus, rowsWithStatus.
    rewrite map_empty_filter_2; [rewrite map_size_empty; reflexivity|].
    intros id row Hrow. cbn [snd]. intros Hs.
    destruct (Hd' id row Hrow) as [H|[H|H]]; rewrite H in Hs; cbn [status_string] in Hs;
      subst status; cbn [In] in Hin;
      repeat (destruct Hin as [Hin|Hin]; [discriminate|]); exact Hin.
  - intros testRunID row Hrow. split.
    + unfold handleGetTestRun. rewrite Hrow. reflexivity.
    + exact (Hd' testRunID row Hrow).
Qed.

(** X26.  A running run reads as waiting.  When a created run is started
    and [startTestRun] has published its command, the run is running in
    memory and current, and the timer of its completion is set to the
    duration of its plan, or to one minute if that does not parse.  The row
    of the database is still the one that [handleStartTestRun] saved: the
    reply of [handleGetTestRun], which reads the database first, shows the
    run as waiting for agents. *)
Theorem running_run_reads_as_waiting (c : Coordinator.t) (testRunID : string)
    (testRun : TestRun.t) (executions : gmap string RampUpExecution.t)
    (started : string -> Z) (ts : string) (now failedAt : Z) :
  noneActive c ->
  Coordinator.testRuns c !! testRunID = Some testRun ->
  TestRun.ID testRun = testRunID ->
  TestRun.Status testRun = TestRunStatusCreated ->
  let c1 := fst (fst (handleStartTestRun c testRunID now)) in
  exists r,
    startTestRun c1 executions testRunID started ts true failedAt = Some r
    /\ Coordinator.testRuns (Started.coordinator r) !! testRunID
       = Some (MarkRunning (StartRun testRun now))
    /\ Coordinator.currentTestRun (Started.coordinator r) = Some testRunID
    /\ Started.timer r
       = Some match ParseDuration (TestRun.PlanDuration testRun) with
              | Some duration => duration
              | None => Minute
              end
    /\ handleGetTestRun (Started.coordinator r) testRunID
       = {| Reply.code := StatusOK; Reply.body := BodyTestRun (StartRun testRun now) |}
    /\ TestRun.Status (StartRun testRun now) = TestRunStatusWaiting
    /\ TestRun.Status (MarkRunning (StartRun testRun now)) = TestRunStatusRunning.
Proof.
  intros Hno Hrun Hid Hstatus c1.
  assert (Hconf : activeConflict c = None).
  { unfold activeConflict, currentRun.
    destruct (Coordinator.currentTestRun c) as [id|]; [|reflexivity].
    destruct (Coordinator.testRuns c !! id) as [current|] eqn:Hcur; [|reflexivity].
    rewrite (Hno id current Hcur). reflexivity. }
  assert (Hc1 : c1 = fst (fst (startAndSave c testRunID testRun now))).
  { subst c1. unfold handleStartTestRun. rewrite Hrun, Hstatus, Hconf.
    destruct (startAndSave c testRunID testRun now) as [[c' s] l]. reflexivity. }
  unfold startAndSave in Hc1. cbn [fst] in Hc1.
  assert (Hlook : Coordinator.testRuns c1 !! testRunID = Some (StartRun testRun now)).
  { rewrite Hc1. cbn [Coordinator.testRuns]. apply lookup_insert_eq. }
  unfold startTestRun. rewrite Hlook. unfold broadcastTestStart.
  destruct (hasSequentialPhases (TestRun.PlanStrategy (MarkRunning (StartRun testRun now))));
    eexists; (split; [reflexivity|]);
    cbn [Started.coordinator Started.timer setOrchestrator setTestRuns
         Coordinator.testRuns Coordinator.currentTestRun Coordinator.database];
    (split; [apply lookup_insert_eq|]);
    (split; [rewrite Hc1; reflexivity|]);
    (split; [reflexivity|]);
    (split; [|split; reflexivity]);
    unfold handleGetTestRun, GetTestRun;
    cbn [Coordinator.database setOrchestrator setTestRuns];
    rewrite Hc1; cbn [Coordinator.database SaveTestRun Database.test_runs StartRun TestRun.ID];
    rewrite Hid, lookup_insert_eq; reflexivity.
Qed.

(** X27.  The completion of a stopped run ends the phases of the next one.
    Let a run [stopped] be stopped and, while its completion timer is
    pending, a created run with a sequential phase be started.
    [startTestRun] then creates the orchestrator of the new run and
    publishes no [START] command.  When the timer of the stopped run fires,
    [completeTestRun] completes that run and removes the orchestrator,
    although it drives the new run, which stays running and current. *)
Theorem completion_stops_other_orchestrator (c : Coordinator.t)
    (stopped testRunID : string) (stoppedRun testRun : TestRun.t)
    (executions : gmap string RampUpExecution.t) (started : string -> Z) (ts : string)
    (publishOK : bool) (now later failedAt : Z) :
  singleActive c ->
  Coordinator.testRuns c !! stopped = Some stoppedRun ->
  isActive (TestRun.Status stoppedRun) = true ->
  Coordinator.testRuns c !! testRunID = Some testRun ->
  TestRun.ID testRun = testRunID ->
  TestRun.Status testRun = TestRunStatusCreated ->
  hasSequentialPhases (TestRun.PlanStrategy testRun) = true ->
  let c1 := fst (stopTestRun c stopped) in
  let c2 := fst (fst (handleStartTestRun c1 testRunID now)) in
  exists r,
    startTestRun c2 executions testRunID started ts publishOK failedAt = Some r
    /\ Coordinator.phaseOrchestrator (Started.coordinator r) = Some testRunID
    /\ Started.orchestrator r
       = Some (NewPhaseOrchestrator testRunID (Coordinator.connectedAgents c))
    /\ Started.published r = []
    /\ let c4 := completeTestRun (Started.coordinator r) stopped later in
       Coordinator.phaseOrchestrator c4 = None
       /\ Coordinator.testRuns c4 !! testRunID = Some (MarkRunning (StartRun testRun now))
       /\ Coordinator.currentTestRun c4 = Some testRunID
       /\ exists stoppedRun',
            Coordinator.testRuns c4 !! stopped = Some stoppedRun'
            /\ TestRun.Status stoppedRun' = TestRunStatusCompleted.
Proof.
  intros HJ HrunA HactA Hrun Hid Hstatus Hseq c1 c2.
  assert (Hne : stopped <> testRunID).
  { intros ->. rewrite HrunA in Hrun. inversion Hrun; subst testRun.
    rewrite Hstatus in HactA. discriminate. }
  assert (Hruns1 : forall id,
             Coordinator.testRuns c1 !! id
             = if decide (id = stopped)
               then Some (setStatus TestRunStatusCompleting stoppedRun)
               else Coordinator.testRuns c !! id).
  { intros id. subst c1. unfold stopTestRun, setTestRuns. cbn [fst Coordinator.testRuns].
    destruct (decide (id = stopped)) as [->|Hd].
    - rewrite lookup_alter_eq, HrunA. reflexivity.
    - rewrite lookup_alter_ne by congruence. reflexivity. }
  assert (Hno1 : noneActive c1).
  { intros id run'. rewrite Hruns1. destruct (decide (id = stopped)) as [->|Hd].
    - intros H. inversion H. reflexivity.
    - intros Hrun'. destruct (isActive (TestRun.Status run')) eqn:Hact'; [|reflexivity].
      pose proof (HJ id run' Hrun' Hact') as H1.
      pose proof (HJ stopped stoppedRun HrunA HactA) as H2. congruence. }
  assert (Hconf : activeConflict c1 = None).
  { unfold activeConflict, currentRun.
    destruct (Coordinator.currentTestRun c1) as [id|]; [|reflexivity].
    destruct (Coordinator.testRuns c1 !! id) as [current|] eqn:Hcur; [|reflexivity].
    rewrite (Hno1 id current Hcur). reflexivity. }
  assert (Hrun1 : Coordinator.testRuns c1 !! testRunID = Some testRun).
  { rewrite Hruns1. destruct (decide (testRunID = stopped)); [congruence | exact Hrun]. }
  assert (Hc2 : c2 = fst (fst (startAndSave c1 testRunID testRun now))).
  { subst c2. unfold handleStartTestRun. rewrite Hrun1, Hstatus, Hconf.
    destruct (startAndSave c1 testRunID testRun now) as [[c' s] l]. reflexivity. }
  unfold startAndSave in Hc2. cbn [fst] in Hc2.
  assert (Hlook : Coordinator.testRuns c2 !! testRunID = Some (StartRun testRun now)).
  { rewrite Hc2. cbn [Coordinator.testRuns]. apply lookup_insert_eq. }
  unfold startTestRun. rewrite Hlook. unfold broadcastTestStart.
  cbn [MarkRunning TestRun.PlanStrategy StartRun TestRun.ID]. rewrite Hseq, Hid.
  eexists. split; [reflexivity|].
  cbn [Started.coordinator Started.orchestrator Started.published].
  split; [reflexivity|].
  split; [cbn [setTestRuns Coordinator.connectedAgents]; rewrite Hc2; reflexivity|].
  split; [reflexivity|].
  set (c3 := setOrchestrator (setTestRuns c2 _) (Some testRunID)).
  assert (Hruns3 : Coordinator.testRuns c3
                   = <[testRunID := MarkRunning (StartRun testRun now)]>
                       (Coordinator.testRuns c2)) by reflexivity.
  assert (Hcur3 : Coordinator.currentTestRun c3 = Some testRunID)
    by (subst c3; cbn [setOrchestrator setTestRuns Coordinator.currentTestRun];
        rewrite Hc2; reflexivity).
  assert (Hstopped : Coordinator.testRuns c3 !! stopped
                     = Some (setStatus TestRunStatusCompleting stoppedRun)).
  { rewrite Hruns3, lookup_insert_ne by congruence.
    rewrite Hc2. cbn [Coordinator.testRuns]. rewrite lookup_insert_ne by congruence.
    rewrite Hruns1. destruct (decide (stopped = stopped)); [reflexivity | contradiction]. }
  unfold completeTestRun. rewrite Hstopped.
  cbn [Coordinator.phaseOrchestrator Coordinator.testRuns Coordinator.currentTestRun].
  split; [reflexivity|].
  split.
  { rewrite lookup_insert_ne by congruence. rewrite Hruns3. apply lookup_insert_eq. }
  split.
  { unfold isCurrent. rewrite Hcur3.
    destruct (String.eqb_spec testRunID stopped) as [Heq|_]; [congruence | reflexivity]. }
  eexists. split; [apply lookup_insert_eq | reflexivity].
Qed.

(** ** Phases from the orchestrator to the agents *)

Lemma executePhase_ran (a : Agent.t) (phase : PhaseInfo.t) :
  0 <= PhaseInfo.Concurrency phase ->
  0 <= Agent.concurrency a ->
  Z.min (PhaseInfo.Concurrency phase) (Agent.concurrency a) * 10 <= max_int64 ->
  let n := Z.min (PhaseInfo.Concurrency phase) (Agent.concurrency a) in
  executePhase a (Some phase)
  = PhaseRan (workerIDs n) (n * 10)
      match ParseDuration (PhaseInfo.Duration phase) with
      | Some d => d
      | None => 30 * Second
      end
      {| PhaseCompletion.AgentID := Agent.id a;
         PhaseCompletion.PhaseID := PhaseInfo.PhaseID phase;
         PhaseCompletion.PhaseIndex := PhaseInfo.PhaseIndex phase |}.
Proof.
  intros HP HC Hq n.
  assert (Hsel : (if Agent.concurrency a <? PhaseInfo.Concurrency phase
                  then Agent.concurrency a else PhaseInfo.Concurrency phase) = n).
  { unfold n. destruct (Z.ltb_spec (Agent.concurrency a) (PhaseInfo.Concurrency phase)); lia. }
  assert (Hn : 0 <= n) by (unfold n; lia).
  assert (Hw : wrap64 (n * 10) = n * 10).
  { apply wrap64_id. unfold in_int64, min_int64. fold n in Hq. lia. }
  unfold executePhase, executePhaseLoad. rewrite Hsel, Hw.
  destruct (Z.ltb_spec (n * 10) 0); [lia|]. reflexivity.
Qed.

(** X28.  The agents of a sequential phase take turns.  Let the phase have
    the parseable duration [D >= 0] and [n] active agents, and let the text
    that the orchestrator makes of [D / n] parse back to [D / n].  The
    agent at position [k] of the sorted ids receives its [START_PHASE] on
    its own subject [k * (D / n)] after the phase was entered and runs the
    load with [min P C] workers for [D / n]: its turn ends when that of the
    next agent begins, and the last turn ends within the phase. *)
Theorem sequential_phase_turns (testRunID : string) (rangeOrder : list string)
    (phaseIndex : Z) (phase : RampPhase.t) (phaseID : string) (D : Z) (k : nat)
    (a : Agent.t) :
  ParseDuration (RampPhase.Duration phase) = Some D ->
  0 <= D ->
  let agentIDs := sortStrings rangeOrder in
  let perAgent := D / Z.of_nat (length rangeOrder) in
  ParseDuration (DurationString perAgent) = Some perAgent ->
  agentIDs !! k = Some (Agent.id a) ->
  0 <= RampPhase.Concurrency phase ->
  0 <= Agent.concurrency a ->
  Z.min (RampPhase.Concurrency phase) (Agent.concurrency a) * 10 <= max_int64 ->
  let workers := Z.min (RampPhase.Concurrency phase) (Agent.concurrency a) in
  exists sent completion,
    executeSequentialPhase testRunID None rangeOrder phaseIndex phase phaseID !! k
    = Some sent
    /\ Sent.at_time sent = Z.of_nat k * perAgent
    /\ Sent.subject sent = agentCommandSubject a
    /\ executePhase a (TestStartCommand.CurrentPhase (Sent.command sent))
       = PhaseRan (workerIDs workers) (workers * 10) perAgent completion
    /\ PhaseCompletion.AgentID completion = Agent.id a
    /\ PhaseCompletion.PhaseIndex completion = phaseIndex
    /\ Sent.at_time sent + perAgent = Z.of_nat (S k) * perAgent
    /\ Z.of_nat (S k) * perAgent <= phaseTimer phase.
Proof.
  intros HD Hpos agentIDs perAgent Hround Hk HP HC Hq workers.
  assert (Hlen : length agentIDs = length rangeOrder).
  { unfold agentIDs. rewrite sortStrings_perm. reflexivity. }
  assert (Hklt : (k < length rangeOrder)%nat).
  { rewrite <- Hlen. apply lookup_lt_is_Some. eauto. }
  assert (Hn : 0 < Z.of_nat (length rangeOrder)) by lia.
  assert (Hper : 0 <= perAgent) by (unfold perAgent; apply Z.div_pos; lia).
  assert (Hsched : executeSequentialPhase testRunID None rangeOrder phaseIndex phase phaseID
                   = imap (expectedSend testRunID phaseIndex phase phaseID perAgent) agentIDs).
  { unfold executeSequentialPhase. fold agentIDs. rewrite HD.
    rewrite Hlen, Z.quot_div_nonneg by lia. fold perAgent.
    destruct agentIDs as [|agentID rest] eqn:Hids; [reflexivity|].
    pose proof (sequentialLoop_schedule testRunID phaseIndex phase phaseID perAgent
                  Hper rest 0%nat) as Hloop.
    change (Z.of_nat 0) with 0 in Hloop. rewrite Z.mul_0_l in Hloop.
    cbn [sequentialLoop]. cbn [Nat.ltb Nat.leb]. rewrite Hloop. reflexivity. }
  exists (expectedSend testRunID phaseIndex phase phaseID perAgent k (Agent.id a)).
  eexists.
  split.
  { rewrite Hsched, list_lookup_imap, Hk. reflexivity. }
  split; [reflexivity|].
  split; [reflexivity|].
  split.
  { cbn [expectedSend Sent.command TestStartCommand.CurrentPhase].
    rewrite executePhase_ran by (cbn [PhaseInfo.Concurrency]; assumption).
    cbn [PhaseInfo.Concurrency PhaseInfo.Duration PhaseInfo.PhaseID PhaseInfo.PhaseIndex].
    rewrite Hround. fold workers. reflexivity. }
  split; [reflexivity|].
  split; [reflexivity|].
  split; [cbn [expectedSend Sent.at_time]; lia|].
  unfold phaseTimer. rewrite HD.
  assert (Hdiv : Z.of_nat (length rangeOrder) * perAgent <= D).
  { unfold perAgent. apply Z.mul_div_le. lia. }
  nia.
Qed.

(** X29.  A parallel phase gives every agent the whole concurrency of the
    phase.  Every active agent is sent one [START_PHASE] at the same time,
    on its own subject, with the concurrency and the duration of the phase
    undivided; it runs the load with [min P C] workers of its own for the
    time that the orchestrator waits for the phase.  Hence the workers of
    the phase over all agents are the sum of these numbers, not [P]. *)
Theorem parallel_phase_load (testRunID : string) (agents : list Agent.t)
    (phaseIndex : Z) (phase : RampPhase.t) (phaseID : string) (clock : Z) :
  0 <= RampPhase.Concurrency phase ->
  Forall (fun a => 0 <= Agent.concurrency a
                   /\ Z.min (RampPhase.Concurrency phase) (Agent.concurrency a) * 10
                      <= max_int64) agents ->
  let commands :=
    executeParallelPhase testRunID (map Agent.id agents) phaseIndex phase phaseID clock in
  let workersOf a := Z.min (RampPhase.Concurrency phase) (Agent.concurrency a) in
  Forall2
    (fun a sent =>
       Sent.at_time sent = clock
       /\ Sent.subject sent = agentCommandSubject a
       /\ exists completion,
            executePhase a (TestStartCommand.CurrentPhase (Sent.command sent))
            = PhaseRan (workerIDs (workersOf a)) (workersOf a * 10) (phaseTimer phase)
                completion
            /\ PhaseCompletion.AgentID completion = Agent.id a
            /\ PhaseCompletion.PhaseIndex completion = phaseIndex)
    agents commands
  /\ sumZ (map (fun a =>
                  default 0 (workerCount
                               (executePhase a
                                  (Some {| PhaseInfo.PhaseIndex := phaseIndex;
                                           PhaseInfo.PhaseID := phaseID;
                                           PhaseInfo.Mode := RampPhase.Mode phase;
                                           PhaseInfo.Concurrency := RampPhase.Concurrency phase;
                                           PhaseInfo.Duration := RampPhase.Duration phase;
                                           PhaseInfo.AgentOrder := [] |}))))
             agents)
     = sumZ (map workersOf agents)
  /\ ((forall a, In a agents -> RampPhase.Concurrency phase <= Agent.concurrency a) ->
      sumZ (map workersOf agents)
      = Z.of_nat (length agents) * RampPhase.Concurrency phase).
Proof.
  intros HP Hagents commands workersOf. subst commands. unfold executeParallelPhase.
  split; [|split].
  - induction Hagents as [|a rest [HC Hq] _ IH]; [constructor|].
    cbn [map]. constructor; [|exact IH].
    split; [reflexivity|]. split; [reflexivity|].
    eexists. cbn [sendPhaseCommand Sent.command TestStartCommand.CurrentPhase].
    rewrite executePhase_ran by (cbn [PhaseInfo.Concurrency]; assumption).
    cbn [PhaseInfo.Concurrency PhaseInfo.Duration PhaseInfo.PhaseID PhaseInfo.PhaseIndex].
    split; [reflexivity|]. split; reflexivity.
  - induction Hagents as [|a rest [HC Hq] _ IH]; [reflexivity|].
    cbn [map sumZ fold_right]. unfold sumZ in IH. rewrite IH. f_equal.
    rewrite executePhase_ran by (cbn [PhaseInfo.Concurrency]; assumption).
    cbn [workerCount PhaseInfo.Concurrency default from_option id].
    unfold workerIDs. rewrite length_map, length_seq, Z2Nat.id; [reflexivity|].
    apply Z.min_glb; assumption.
  - intros Hbig. clear Hagents.
    induction agents as [|a rest IH]; [reflexivity|].
    cbn [map sumZ fold_right length]. unfold sumZ in IH.
    rewrite IH by (intros b Hb; apply Hbig; right; exact Hb).
    unfold workersOf.
    rewrite Z.min_l by (apply Hbig; left; reflexivity). lia.
Qed.

(** ** The stop command on the agents *)

(** X30.  A stop reaches only the agents that hold the id of the run.  The
    command of [stopTestRun] goes out on the subject of the test commands
    with the id of the run.  [broadcastTestStart] publishes a [START] with
    that id unless the run has a sequential phase, and then publishes
    nothing.  An agent that has handled this [START] holds the id and
    stops; an agent whose [currentTestRunID] is another id, or empty as for
    an agent that was only sent phase commands, ignores the stop. *)
Theorem stop_needs_run_id (c : Coordinator.t) (testRun : TestRun.t) (a : Agent.t)
    (executions : gmap string RampUpExecution.t) (started : string -> Z)
    (planName ts startTime : string) :
  TestRun.ID testRun <> "" ->
  let testRunID := TestRun.ID testRun in
  let stop := snd (snd (stopTestRun c testRunID)) in
  let start :=
    {| TestStart.TestRunID := testRunID;
       TestStart.PlanDuration := TestRun.PlanDuration testRun;
       TestStart.PlanStrategy := TestRun.PlanStrategy testRun;
       TestStart.StartTime := startTime;
       TestStart.Command := "START" |} in
  fst (snd (stopTestRun c testRunID)) = "armonite.test.command"
  /\ snd (fst (broadcastTestStart c executions testRun started startTime true))
     = (if hasSequentialPhases (TestRun.PlanStrategy testRun) then [] else [start])
  /\ (exists update,
        handleTestCommand a (commandOf start) planName ts
        = TestStarted (setCurrentTestRunID a testRunID) update
        /\ handleTestCommand (setCurrentTestRunID a testRunID) stop planName ts
           = TestStopped
               (sendExecutionUpdate (setCurrentTestRunID a testRunID) "stopping"
                  "Received stop command from coordinator" ts))
  /\ (Agent.currentTestRunID a <> testRunID ->
      handleTestCommand a stop planName ts = StopIgnored)
  /\ (handleTestCommand a stop planName ts <> StopIgnored ->
      Agent.currentTestRunID a = testRunID).
Proof.
  intros Hid testRunID stop start.
  assert (Hnonempty : String.eqb testRunID "" = false) by (apply String.eqb_neq; exact Hid).
  split; [reflexivity|].
  split.
  { unfold broadcastTestStart.
    destruct (hasSequentialPhases (TestRun.PlanStrategy testRun)); reflexivity. }
  split.
  { eexists. split.
    - unfold handleTestCommand, commandOf, start.
      cbn [TestStartCommand.Command TestStartCommand.TestRunID TestStart.Command
           TestStart.TestRunID].
      rewrite String.eqb_refl, Hnonempty. cbn [negb]. reflexivity.
    - unfold handleTestCommand, stop, stopTestRun.
      cbn [snd TestStartCommand.Command TestStartCommand.TestRunID setCurrentTestRunID
           Agent.currentTestRunID].
      change (String.eqb "STOP" "START") with false.
      change (String.eqb "STOP" "STOP") with true.
      rewrite Hnonempty, String.eqb_refl. reflexivity. }
  assert (Hstop : handleTestCommand a stop planName ts
                  = if String.eqb testRunID (Agent.currentTestRunID a)
                    then TestStopped
                           (sendExecutionUpdate a "stopping"
                              "Received stop command from coordinator" ts)
                    else StopIgnored).
  { unfold handleTestCommand, stop, stopTestRun.
    cbn [snd TestStartCommand.Command TestStartCommand.TestRunID].
    change (String.eqb "STOP" "START") with false.
    change (String.eqb "STOP" "STOP") with true.
    rewrite Hnonempty. cbn [negb andb].
    destruct (String.eqb testRunID (Agent.currentTestRunID a)); reflexivity. }
  split.
  - intros Hne. rewrite Hstop.
    destruct (String.eqb_spec testRunID (Agent.currentTestRunID a)) as [Heq|_];
      [congruence | reflexivity].
  - intros Hobeyed. rewrite Hstop in Hobeyed.
    destruct (String.eqb_spec testRunID (Agent.currentTestRunID a)) as [Heq|_];
      [congruence | contradiction].
Qed.

End Armonite.

(* ===================================================================== *)
(** * The properties on concrete plans and states *)
(* ===================================================================== *)

(** C8 (counterexample).  An immediate strategy with a phase of negative
    concurrency is accepted, although it has one of the defects that the
    specification lists. *)
Lemma ValidateRampUpStrategy_counterexample :
  ~ (ValidateRampUpStrategy parse_units Examples.immediateWithBadPhase <> None
     <-> rejectedBySpec parse_units Examples.immediateWithBadPhase).
Proof.
  intros [_ H]. apply H; [|reflexivity].
  unfold rejectedBySpec. do 4 right. left. constructor.
  unfold negativeConcurrency. simpl. lia.
Qed.

(** C3 on the custom strategy of 5 users for 10s and 20 users for 20s,
    15s after the start. *)
Lemma phase_based_target_witness :
  let phases := RampUpStrategy.Phases Examples.custom in
  let calc := Examples.calculator Examples.custom 50 (30 * Second) in
  let execution := Examples.execution Examples.custom 5 50 in
  let elapsed := Since execution (15 * Second) in
  let target := fst (GetCurrentConcurrency parse_units calc execution (15 * Second)) in
  (forall (i : nat) phase,
      phases !! i = Some phase ->
      covers parse_units phases elapsed i ->
      (forall j : nat, (j < i)%nat -> ~ covers parse_units phases elapsed j) ->
      target = RampPhase.Concurrency phase)
  /\ ((forall j : nat, ~ covers parse_units phases elapsed j) -> target = 50)
  /\ (IsComplete calc execution (15 * Second) = true <-> elapsed >= 30 * Second).
Proof.
  apply (phase_based_target parse_units Examples.custom 50).
  - right. reflexivity.
  - discriminate.
  - intros i Hi. destruct i as [|[|[|i]]]; [| | |simpl in Hi; lia];
      vm_compute; split; discriminate.
  - reflexivity.
  - reflexivity.
Defined.

(** C10 on an agent of concurrency 8 and a phase that asks for 20. *)
Lemma executePhase_workers_witness :
  (exists queue ran_for completion,
      executePhase parse_units Examples.agent (Some Examples.phaseInfo)
      = PhaseRan (workerIDs 8) queue ran_for completion)
  /\ workerCount (executePhase parse_units Examples.agent (Some Examples.phaseInfo))
     = Some 8
  /\ 8 <= Agent.concurrency Examples.agent.
Proof.
  apply (executePhase_workers parse_units Examples.agent Examples.phaseInfo);
    vm_compute; discriminate.
Defined.

(** C7 on S4: three agents and a sequential phase of 9s. *)
Lemma executeSequentialPhase_schedule_witness :
  let phase := Examples.phase "9s" 10 "sequential" in
  let rangeOrder := ["c"; "a"; "b"] in
  let agentIDs := sortStrings rangeOrder in
  let perAgent := 9 * Second / Z.of_nat (length rangeOrder) in
  Sorted string_le agentIDs
  /\ agentIDs ≡ₚ rangeOrder
  /\ (forall other, other ≡ₚ rangeOrder -> sortStrings other = agentIDs)
  /\ executeSequentialPhase parse_units string_seconds "run-1" None rangeOrder 0
       phase "run-1-phase-0"
     = imap (expectedSend string_seconds "run-1" 0 phase "run-1-phase-0" perAgent)
         agentIDs.
Proof.
  apply (executeSequentialPhase_schedule parse_units string_seconds "run-1"
           ["c"; "a"; "b"] 0 (Examples.phase "9s" 10 "sequential") "run-1-phase-0"
           (9 * Second)).
  - reflexivity.
  - vm_compute. discriminate.
  - discriminate.
Defined.

(** S4, evaluated: [a] at 0s, [b] at 3s, [c] at 6s, each for ["3s"]. *)
Example sequential_phase_three_agents :
  map (fun sent => (Sent.at_time sent, Sent.subject sent,
                    PhaseInfo.Duration <$> TestStartCommand.CurrentPhase (Sent.command sent)))
      (executeSequentialPhase parse_units string_seconds "run-1" None ["c"; "a"; "b"] 0
         (Examples.phase "9s" 10 "sequential") "run-1-phase-0")
  = [ (0, "armonite.agent.a.command", Some "3s");
      (3 * Second, "armonite.agent.b.command", Some "3s");
      (6 * Second, "armonite.agent.c.command", Some "3s") ].
Proof. vm_compute. reflexivity. Qed.

(** C5 (counterexample, S6).  The deletion of a running run is answered
    with status 400, not 409. *)
Lemma handleDeleteTestRun_counterexample :
  let c := Examples.coordinator (Examples.run "run-1" TestRunStatusRunning (Some 0)) in
  Response.code (snd (handleDeleteTestRun c "run-1")) = StatusBadRequest
  /\ ~ Response.code (snd (handleDeleteTestRun c "run-1")) = StatusConflict.
Proof. split; [reflexivity | vm_compute; discriminate]. Qed.

(** C5 on a coordinator whose current run is running. *)
Lemma handleDeleteTestRun_active_witness :
  let testRun := Examples.run "run-1" TestRunStatusRunning (Some 0) in
  let c := Examples.coordinator testRun in
  let c' := fst (handleDeleteTestRun c "run-1") in
  let response := snd (handleDeleteTestRun c "run-1") in
  (activeStatus (TestRun.Status testRun) ->
     response = {| Response.code := StatusBadRequest;
                   Response.body := activeRunBody (TestRun.Status testRun) |}
     /\ c' = c)
  /\ (Response.code response = StatusOK -> ~ activeStatus (TestRun.Status testRun))
  /\ (terminalStatus (TestRun.Status testRun) ->
        Response.code response = StatusOK
        /\ Coordinator.testRuns c' !! "run-1" = None
        /\ Coordinator.agentResults c' !! "run-1" = None
        /\ Database.test_runs (Coordinator.database c') !! "run-1" = None
        /\ Database.agent_results (Coordinator.database c') !! "run-1" = None
        /\ Coordinator.currentTestRun c' <> Some "run-1").
Proof.
  apply (handleDeleteTestRun_active
           (Examples.coordinator (Examples.run "run-1" TestRunStatusRunning (Some 0)))
           "run-1" (Examples.run "run-1" TestRunStatusRunning (Some 0))).
  reflexivity.
Defined.

(** A completed run is deleted from memory and from the database. *)
Example delete_completed_run :
  let c := Examples.coordinator (Examples.run "run-1" TestRunStatusCompleted (Some 0)) in
  let c' := fst (handleDeleteTestRun c "run-1") in
  Response.code (snd (handleDeleteTestRun c "run-1")) = StatusOK
  /\ Coordinator.testRuns c' = ∅
  /\ Database.test_runs (Coordinator.database c') = ∅
  /\ Coordinator.currentTestRun c' = None.
Proof. vm_compute. repeat split. Qed.

(** C1 (counterexample).  With the default of three steps the second phase
    gets 66, which is [floor(2 * 100 / 3)]; [round(2 * max / 3)] is 67 for
    a maximum of 100 and 33 for a maximum of 50. *)
Lemma CreateStepRampUp_counterexample :
  ~ (forall (max k : Z) phase,
       1 <= k <= 3 ->
       RampUpStrategy.Phases (CreateStepRampUp parse_units "30s" 0) !! Z.to_nat (k - 1)
       = Some phase ->
       RampPhase.Concurrency phase = roundedShare k max 3).
Proof.
  intros H. specialize (H 100 2 (Examples.phase "10s" 66 "parallel")).
  assert (Hc : 66 = roundedShare 2 100 3); [|vm_compute in Hc; discriminate].
  apply H; [lia | vm_compute; reflexivity].
Qed.

(** C1 on ten seconds and the default number of steps. *)
Lemma CreateStepRampUp_phases_witness :
  let s := CreateStepRampUp parse_units "10s" 0 in
  RampUpStrategy.Type_ s = RampUpTypeStep
  /\ RampUpStrategy.Duration s = "10s"
  /\ Z.of_nat (length (RampUpStrategy.Phases s)) = 3
  /\ (forall k : Z, 1 <= k <= 3 ->
        RampUpStrategy.Phases s !! Z.to_nat (k - 1)
        = Some {| RampPhase.Duration := stepDuration parse_units "10s" 3;
                  RampPhase.Concurrency := k * 100 / 3;
                  RampPhase.Mode := "parallel" |}).
Proof.
  apply (CreateStepRampUp_phases parse_units "10s" 0). vm_compute. discriminate.
Defined.

(** Ten seconds in three steps: each phase lasts ["3s"], not a third of
    ten seconds. *)
Example step_durations_are_whole_seconds :
  map RampPhase.Duration (RampUpStrategy.Phases (CreateStepRampUp parse_units "10s" 3))
  = ["3s"; "3s"; "3s"]
  /\ map RampPhase.Concurrency
       (RampUpStrategy.Phases (CreateStepRampUp parse_units "10s" 3))
     = [33; 66; 100].
Proof. vm_compute. split; reflexivity. Qed.

(** C6 (failing input).  A run created, started at time 0 and marked
    running as the API does it, with 100 requests reported by one agent,
    completed by the timer two seconds later: the stored results have a
    request rate of 0, where [total / (completed_at - started_at)] is 50
    per second.  Success rate and latency bounds are as specified. *)
Theorem completeTestRun_requests_per_sec :
  let started := MarkRunning (StartRun (NewTestRun "run-1" "load test" "2s" None 1 0) 0) in
  let c := Examples.coordinator started in
  let c' := completeTestRun string_seconds c "run-1" (2 * Second) in
  exists testRun results,
    Coordinator.testRuns c' !! "run-1" = Some testRun
    /\ TestRun.Status testRun = TestRunStatusCompleted
    /\ TestRun.StartedAt testRun = Some 0
    /\ TestRun.CompletedAt testRun = Some (2 * Second)
    /\ TestRun.Results testRun = Some results
    /\ TestRunResults.TotalRequests results = 100
    /\ TestRunResults.RequestsPerSec results = 0%Q
    /\ (F64.div (F64.of_int 100) (Seconds (Sub (2 * Second) 0)) == 50)%Q
    /\ (TestRunResults.SuccessRate results == 100)%Q
    /\ (TestRunResults.MinLatencyMs results == 3)%Q
    /\ (TestRunResults.MaxLatencyMs results == 40)%Q.
Proof.
  cbv zeta. eexists _, _. split; [vm_compute; reflexivity|].
  repeat (split; [vm_compute; reflexivity|]). vm_compute. reflexivity.
Qed.

(** C9, on a coordinator with [agent-1] registered: after the agent
    reports [running] the registry still holds its initial execution
    state. *)
Example status_update_leaves_registry :
  let c := Examples.coordinator (Examples.run "run-1" TestRunStatusRunning (Some 0)) in
  let update := sendExecutionUpdate Examples.agent "running" "Load test running"
                  "2024-05-01T10:00:00Z" in
  let c' := deliver Examples.ignoreRegistration startAgentRegistration update 5 c in
  Msg.data update !! "status" = Some "running"
  /\ AgentInfo.ExecutionState <$> (Coordinator.connectedAgents c' !! "agent-1")
     = Some "".
Proof. vm_compute. split; reflexivity. Qed.

(** The arithmetic of [F64] against the IEEE 754 specification of the
    standard library, on products [max * (elapsed / duration)] with small
    and with 63-bit operands. *)
Example F64_agrees_with_SpecFloat :
  forallb F64.ramp_product_agrees
    [ (100, 2900000000, 10000000000); (100, 29, 100);
      (100, 5000000000, 10000000000); (7, 1, 3); (0, 0, 5); (12345, 0, 7);
      (1000, 123456789, 987654321); (2 ^ 50, 2 ^ 62 - 1, 2 ^ 62);
      (3, 2 ^ 53 + 1, 2 ^ 53 + 3); (50, 1, 2 ^ 63 - 1);
      (2 ^ 53 - 1, 2 ^ 63 - 2, 2 ^ 63 - 1); (1, 3, 2 ^ 60 + 1) ]
  = true.
Proof. vm_compute. reflexivity. Qed.

(** The same on 900 pseudo-random products, with durations of up to 10,
    34 and 55 bits, and on 300 pseudo-random durations for [Seconds]. *)
Example F64_agrees_with_SpecFloat_random :
  forallb F64.ramp_product_agrees
    (F64.triples 300 1 34 ++ F64.triples 300 2 55 ++ F64.triples 300 3 10)
  = true
  /\ forallb Seconds_agrees
       (map (fun t => fst (fst t) * 1000003) (F64.triples 300 4 10))
     = true.
Proof. split; vm_compute; reflexivity. Qed.

Example Seconds_agrees_with_SpecFloat :
  forallb Seconds_agrees
    [ 0; 1; 999999999; Second; 1500 * Millisecond; 10 * Second; 90 * Minute;
      123456789012345; - (2500 * Millisecond); 2 ^ 63 - 1 ]
  = true.
Proof. vm_compute. reflexivity. Qed.

(** C2 (counterexample).  A linear ramp of 10s to 100 users, 2.9s after
    the start: the double quotient is just below 0.29, the product just
    below 29, and the target is 28, where
    [floor(100 * min(1, 2.9 / 10))] is 29. *)
Lemma GetCurrentConcurrency_linear_counterexample :
  let strategy := Examples.linear "10s" in
  let calc := Examples.calculator strategy 100 (10 * Second) in
  let execution := Examples.execution strategy 1 100 in
  let now := 2900 * Millisecond in
  NewRampUpCalculator parse_units strategy 100 = Some calc
  /\ Start calc 0 = (calc, execution)
  /\ Since execution now = 2900 * Millisecond
  /\ fst (GetCurrentConcurrency parse_units calc execution now) = 28
  /\ linearSpec 100 (2900 * Millisecond) (10 * Second) = 29
  /\ fst (GetCurrentConcurrency parse_units calc execution now)
     <> linearSpec 100 (Since execution now) (10 * Second).
Proof.
  cbv zeta. repeat (split; [vm_compute; reflexivity|]).
  vm_compute. discriminate.
Qed.

(** A linear ramp of duration ["0s"] is at the maximum from the start. *)
Example linear_zero_duration_starts_at_max :
  let strategy := Examples.linear "0s" in
  let calc := Examples.calculator strategy 100 0 in
  let execution := Examples.execution strategy 1 100 in
  NewRampUpCalculator parse_units strategy 100 = Some calc
  /\ fst (GetCurrentConcurrency parse_units calc execution 0) = 100.
Proof. vm_compute. split; reflexivity. Qed.

(** S3: a linear ramp of 10s to 100 users at 0s, 5s, 10s and 15s. *)
Example linear_ramp_scenario :
  let strategy := Examples.linear "10s" in
  let calc := Examples.calculator strategy 100 (10 * Second) in
  let execution := Examples.execution strategy 1 100 in
  map (fun t => fst (GetCurrentConcurrency parse_units calc execution (t * Second)))
      [0; 5; 10; 15]
  = [0; 50; 100; 100].
Proof. vm_compute. reflexivity. Qed.

(** C2 on a linear ramp of 10s to 100 users, 5s after the start. *)
Lemma GetCurrentConcurrency_immediate_linear_witness :
  let strategy := Examples.linear "10s" in
  let calc := Examples.calculator strategy 100 (10 * Second) in
  let execution := Examples.execution strategy 1 100 in
  let now := 5 * Second in
  let D := 10 * Second in
  let elapsed := Since execution now in
  let target := fst (GetCurrentConcurrency parse_units calc execution now) in
  (RampUpStrategy.Type_ strategy = RampUpTypeImmediate -> target = 100)
  /\ (RampUpStrategy.Type_ strategy = RampUpTypeLinear ->
        (D <= elapsed -> target = 100)
        /\ (elapsed < D ->
              target = linearTarget 100 elapsed D
              /\ Z.abs (target - 100 * elapsed / D) <= 1)
        /\ (elapsed = 0 -> 0 < D -> target = 0))
  /\ (RampUpStrategy.Type_ strategy = RampUpTypeImmediate
      \/ RampUpStrategy.Type_ strategy = RampUpTypeLinear ->
        0 <= target <= 100).
Proof.
  apply (GetCurrentConcurrency_immediate_linear parse_units (Examples.linear "10s") 100).
  - reflexivity.
  - reflexivity.
  - vm_compute. split; discriminate.
  - vm_compute. discriminate.
Defined.

(** The target of a custom strategy is the concurrency of the phase as it
    is written, also when that is above the maximum of the calculator. *)
Example custom_target_above_maximum :
  let strategy := CreateCustomRampUp "10s" [Examples.phase "10s" 500 "parallel"] in
  let calc := Examples.calculator strategy 100 (10 * Second) in
  let execution := Examples.execution strategy 500 100 in
  ValidateRampUpStrategy parse_units strategy = None
  /\ NewRampUpCalculator parse_units strategy 100 = Some calc
  /\ fst (GetCurrentConcurrency parse_units calc execution (5 * Second)) = 500.
Proof. vm_compute. repeat split. Qed.

(** The counters after two failed attempts and one response. *)
Example counters_after_two_errors_and_a_response :
  let m0 := {| AgentMetrics.AgentID := "agent-1";
               AgentMetrics.Timestamp := "";
               AgentMetrics.Requests := 7;
               AgentMetrics.Errors := 1;
               AgentMetrics.AvgLatencyMs := 0%Q;
               AgentMetrics.MinLatencyMs := 0%Q;
               AgentMetrics.MaxLatencyMs := 0%Q;
               AgentMetrics.StatusCodes := {[ "200" := 7 ]};
               AgentMetrics.totalLatency := 0%Q |} in
  let ops := [OpError; OpError; OpRequest 200 (5 * Millisecond)] in
  let m' := runOps m0 ops in
  AgentMetrics.Requests m' = requestCalls ops
  /\ AgentMetrics.Errors m' = errorCalls ops
  /\ sumCodes (AgentMetrics.StatusCodes m') = AgentMetrics.Requests m'
  /\ sumCodes (AgentMetrics.StatusCodes m')
     >= AgentMetrics.Requests m' - AgentMetrics.Errors m'.
Proof.
  apply runOps_counters. vm_compute. discriminate.
Qed.

(** X1 on a linear ramp of 10s, 3s after its start: 7s remain. *)
Lemma GetRemainingDuration_complete_witness :
  let calc := Examples.calculator (Examples.linear "10s") 100 (10 * Second) in
  let execution := Examples.execution (Examples.linear "10s") 1 100 in
  let now := 3 * Second in
  let elapsed := Since execution now in
  let remaining := GetRemainingDuration calc execution now in
  (IsComplete calc execution now = true <-> remaining = 0)
  /\ (IsComplete calc execution now = false -> 0 <= elapsed ->
        0 < remaining <= RampUpCalculator.duration calc
        /\ elapsed + remaining = RampUpCalculator.duration calc).
Proof.
  apply (GetRemainingDuration_complete
           (Examples.calculator (Examples.linear "10s") 100 (10 * Second))).
  vm_compute. split; discriminate.
Defined.

(** X2 on the custom strategy of 5 users for 10s and 20 users for 20s. *)
Lemma validated_strategy_target_witness :
  exists calc,
    NewRampUpCalculator parse_units Examples.custom 50 = Some calc
    /\ (phaseBased (RampUpStrategy.Type_ Examples.custom) ->
        forall (execution : RampUpExecution.t) (now : Z),
          let r := GetCurrentConcurrency parse_units calc execution now in
          (r = (50, execution)
           \/ exists (i : nat) phase,
                RampUpStrategy.Phases Examples.custom !! i = Some phase
                /\ 0 <= RampPhase.Concurrency phase
                /\ fst r = RampPhase.Concurrency phase
                /\ snd r = enterPhase execution i phase)
          /\ (0 <= 50 -> 0 <= fst r)).
Proof.
  apply (validated_strategy_target parse_units Examples.custom 50).
  reflexivity.
Defined.

(** X3 on a linear ramp of 10s to 100 users, between 2.9s and 3s. *)
Lemma linear_ramp_monotone_witness :
  let calc := Examples.calculator (Examples.linear "10s") 100 (10 * Second) in
  let execution := Examples.execution (Examples.linear "10s") 1 100 in
  fst (GetCurrentConcurrency parse_units calc execution (2900 * Millisecond))
  <= fst (GetCurrentConcurrency parse_units calc execution (3 * Second)).
Proof.
  apply (linear_ramp_monotone parse_units
           (Examples.calculator (Examples.linear "10s") 100 (10 * Second))
           (Examples.execution (Examples.linear "10s") 1 100)
           (2900 * Millisecond) (3 * Second)).
  - reflexivity.
  - vm_compute. split; discriminate.
  - vm_compute. discriminate.
  - vm_compute. discriminate.
Defined.

(** X4 on three responses of 5ms, 2ms and 9ms. *)
Lemma latency_bounds_witness :
  let m' := runOps Examples.metrics Examples.calls in
  In (AgentMetrics.MinLatencyMs m') (latenciesMs Examples.calls)
  /\ In (AgentMetrics.MaxLatencyMs m') (latenciesMs Examples.calls)
  /\ forall x, In x (latenciesMs Examples.calls) ->
       (AgentMetrics.MinLatencyMs m' <= x <= AgentMetrics.MaxLatencyMs m')%Q.
Proof.
  apply (latency_bounds Examples.metrics Examples.calls).
  - vm_compute. discriminate.
  - vm_compute. discriminate.
Defined.

(** X5 on the same calls: the average of 5, 2 and 9 lies in [2, 9]. *)
Lemma average_latency_between_bounds_witness :
  let m' := runOps Examples.metrics Examples.calls in
  (AgentMetrics.MinLatencyMs m' <= AgentMetrics.AvgLatencyMs m'
   <= AgentMetrics.MaxLatencyMs m')%Q.
Proof.
  apply (average_latency_between_bounds Examples.metrics Examples.calls).
  - vm_compute. discriminate.
  - intros x Hx. vm_compute in Hx.
    destruct Hx as [<-|[<-|[<-|[]]]]; vm_compute; discriminate.
  - vm_compute. discriminate.
  - vm_compute. discriminate.
Defined.

(** X6 on the same calls, and on two failed attempts alone. *)
Lemma errors_only_never_reported_witness :
  (reportMetrics (runOps Examples.metrics [OpError; OpError]) "t" = None
   <-> requestCalls [OpError; OpError] = 0)
  /\ ((forall op, In op [OpError; OpError] -> op = OpError) ->
      reportMetrics (runOps Examples.metrics [OpError; OpError]) "t" = None)
  /\ (forall snapshot,
        reportMetrics (runOps Examples.metrics [OpError; OpError]) "t" = Some snapshot ->
        AgentMetrics.Timestamp snapshot = "t"
        /\ AgentMetrics.Requests snapshot = requestCalls [OpError; OpError]
        /\ AgentMetrics.Errors snapshot = errorCalls [OpError; OpError]
        /\ 0 < AgentMetrics.Requests snapshot).
Proof.
  apply (errors_only_never_reported Examples.metrics [OpError; OpError] "t").
  vm_compute. discriminate.
Defined.

(** X8 on two agents: [a] reports phase 1 twice, [b] reports phase 0 late
    and then phase 1. *)
Lemma phase_done_when_all_reported_witness :
  let completions :=
    [ Examples.completion "a" 1; Examples.completion "b" 0;
      Examples.completion "a" 1; Examples.completion "b" 1 ] in
  let po' := fold_left monitorPhaseCompletion completions
               (beginPhase Examples.orchestrator 1) in
  (PhaseOrchestrator.phaseDoneCh po' <> [] <->
     PhaseOrchestrator.activeAgents Examples.orchestrator <> ∅
     /\ forall agentID,
          is_Some (PhaseOrchestrator.activeAgents Examples.orchestrator !! agentID) ->
          reported completions 1 agentID)
  /\ Forall (fun signal => signal = 1) (PhaseOrchestrator.phaseDoneCh po')
  /\ (length (PhaseOrchestrator.phaseDoneCh po') <= 10)%nat
  /\ ((forall completion, In completion completions ->
         PhaseCompletion.PhaseIndex completion <> 1) ->
      po' = beginPhase Examples.orchestrator 1).
Proof.
  apply (phase_done_when_all_reported Examples.orchestrator 1).
  - reflexivity.
  - intros completion Hin _.
    destruct Hin as [<-|[<-|[<-|[<-|[]]]]]; vm_compute; eauto.
Defined.

(** The signal of the example is sent by the last message only. *)
Example phase_done_after_last_report :
  PhaseOrchestrator.phaseDoneCh
    (fold_left monitorPhaseCompletion
       [ Examples.completion "a" 1; Examples.completion "b" 0;
         Examples.completion "a" 1 ]
       (beginPhase Examples.orchestrator 1)) = []
  /\ PhaseOrchestrator.phaseDoneCh
       (fold_left monitorPhaseCompletion
          [ Examples.completion "a" 1; Examples.completion "b" 0;
            Examples.completion "a" 1; Examples.completion "b" 1 ]
          (beginPhase Examples.orchestrator 1)) = [1].
Proof. vm_compute. split; reflexivity. Qed.

(** X11.  Registration and unregistration reach the registry and undo each
    other.  The message of [registerWithCoordinator], delivered through the
    subscriptions of the coordinator, stores a fresh entry for the agent,
    with its region and concurrency, both times set to the arrival and an
    empty execution state, whatever entry the agent had before; the message
    of [unregisterFromCoordinator] removes the entry again, so that a
    coordinator that did not know the agent is back in its initial state.
    Neither touches the runs, the results or the database. *)
Theorem registration_round_trip (ParseDuration : string -> option Z)
    (c : Coordinator.t) (a : Agent.t) (region ts1 ts2 : string) (now1 now2 : Z) :
  in_int64 (Agent.concurrency a) ->
  let c1 := deliver (onRegistration ParseDuration) startAgentRegistration
              (registerWithCoordinator a region ts1) now1 c in
  let c2 := deliver (onRegistration ParseDuration) startAgentRegistration
              (unregisterFromCoordinator a region ts2) now2 c1 in
  Coordinator.connectedAgents c1
  = <[Agent.id a := {| AgentInfo.ID := Agent.id a;
                       AgentInfo.Region := region;
                       AgentInfo.ConnectedAt := now1;
                       AgentInfo.LastSeen := now1;
                       AgentInfo.Concurrency := Agent.concurrency a;
                       AgentInfo.ExecutionState := "" |}]>
      (Coordinator.connectedAgents c)
  /\ Coordinator.connectedAgents c2 = delete (Agent.id a) (Coordinator.connectedAgents c)
  /\ (Coordinator.connectedAgents c !! Agent.id a = None -> c2 = c)
  /\ Coordinator.testRuns c1 = Coordinator.testRuns c
  /\ Coordinator.currentTestRun c1 = Coordinator.currentTestRun c
  /\ Coordinator.agentResults c1 = Coordinator.agentResults c
  /\ Coordinator.database c1 = Coordinator.database c.
Proof.
  intros Hint c1 c2.
  assert (Hreg : forall status ts action,
            unmarshalRegistration (Msg.data (registrationMessage a region status ts action))
            = Some {| AgentRegistration.AgentID := Agent.id a;
                      AgentRegistration.Region := region;
                      AgentRegistration.Concurrency := Agent.concurrency a;
                      AgentRegistration.Status := status;
                      AgentRegistration.Timestamp := ts;
                      AgentRegistration.Action := action |}).
  { intros status ts action. unfold unmarshalRegistration, registrationMessage.
    cbn [Msg.data].
    repeat (rewrite ?lookup_insert_eq, ?lookup_singleton_eq;
            try rewrite lookup_insert_ne by discriminate).
    rewrite (atoi_itoa _ Hint). reflexivity. }
  assert (H1 : c1 = setAgents c
                      (<[Agent.id a := {| AgentInfo.ID := Agent.id a;
                                          AgentInfo.Region := region;
                                          AgentInfo.ConnectedAt := now1;
                                          AgentInfo.LastSeen := now1;
                                          AgentInfo.Concurrency := Agent.concurrency a;
                                          AgentInfo.ExecutionState := "" |}]>
                         (Coordinator.connectedAgents c))).
  { unfold c1, deliver, startAgentRegistration, registerWithCoordinator.
    cbn [fold_left fst snd Msg.subject registrationMessage String.eqb Ascii.eqb Bool.eqb
         runCallback].
    unfold onRegistration. fold (registrationMessage a region "ready" ts1 "register").
    rewrite Hreg. reflexivity. }
  assert (H2 : c2 = setAgents c1 (delete (Agent.id a) (Coordinator.connectedAgents c1))).
  { unfold c2, deliver, startAgentRegistration, unregisterFromCoordinator.
    cbn [fold_left fst snd Msg.subject registrationMessage String.eqb Ascii.eqb Bool.eqb
         runCallback].
    unfold onRegistration.
    fold (registrationMessage a region "shutting_down" ts2 "unregister").
    rewrite Hreg. reflexivity. }
  assert (Hdel : Coordinator.connectedAgents c2
                 = delete (Agent.id a) (Coordinator.connectedAgents c)).
  { rewrite H2, H1. cbn [setAgents Coordinator.connectedAgents].
    apply delete_insert_eq. }
  split; [rewrite H1; reflexivity|]. split; [exact Hdel|].
  split; [|rewrite H1; repeat split].
  intros Hnone. rewrite H2, H1. cbn [setAgents Coordinator.connectedAgents
    Coordinator.database Coordinator.testRuns Coordinator.currentTestRun
    Coordinator.agentResults Coordinator.phaseOrchestrator].
  rewrite delete_insert_eq, delete_id by exact Hnone. destruct c. reflexivity.
Qed.

(** X11 on a coordinator that knows [agent-1] and an agent [agent-2] of
    concurrency 16 in region [eu]. *)
Lemma registration_round_trip_witness :
  let c := Examples.coordinator (Examples.run "run-1" TestRunStatusCreated None) in
  let a := Examples.newAgent in
  let c1 := deliver (onRegistration parse_units) startAgentRegistration
              (registerWithCoordinator a "eu" "t1") 5 c in
  let c2 := deliver (onRegistration parse_units) startAgentRegistration
              (unregisterFromCoordinator a "eu" "t2") 9 c1 in
  Coordinator.connectedAgents c1
  = <[Agent.id a := {| AgentInfo.ID := Agent.id a;
                       AgentInfo.Region := "eu";
                       AgentInfo.ConnectedAt := 5;
                       AgentInfo.LastSeen := 5;
                       AgentInfo.Concurrency := Agent.concurrency a;
                       AgentInfo.ExecutionState := "" |}]>
      (Coordinator.connectedAgents c)
  /\ Coordinator.connectedAgents c2 = delete (Agent.id a) (Coordinator.connectedAgents c)
  /\ (Coordinator.connectedAgents c !! Agent.id a = None -> c2 = c)
  /\ Coordinator.testRuns c1 = Coordinator.testRuns c
  /\ Coordinator.currentTestRun c1 = Coordinator.currentTestRun c
  /\ Coordinator.agentResults c1 = Coordinator.agentResults c
  /\ Coordinator.database c1 = Coordinator.database c.
Proof.
  apply (registration_round_trip parse_units
           (Examples.coordinator (Examples.run "run-1" TestRunStatusCreated None))
           Examples.newAgent "eu" "t1" "t2" 5 9).
  vm_compute. split; discriminate.
Defined.

(** X15 on a histogram of seven 200s, two 404s, one 500 and one 503. *)
Lemma getTotalOtherStatus_partition_witness :
  let statusCodes : gmap string Z :=
    {[ "200" := 7; "404" := 2; "500" := 1; "503" := 1 ]} in
  countOf statusCodes "200" + countOf statusCodes "400" + countOf statusCodes "500"
    + getTotalOtherStatus statusCodes
  = sumCodes statusCodes
  /\ 0 <= getTotalOtherStatus statusCodes.
Proof.
  apply (getTotalOtherStatus_partition {[ "200" := 7; "404" := 2; "500" := 1; "503" := 1 ]}).
  - intros code count Hc.
    destruct (decide (code = "200")) as [->|H1]; [vm_compute in Hc; inversion Hc; lia|].
    destruct (decide (code = "404")) as [->|H2]; [vm_compute in Hc; inversion Hc; lia|].
    destruct (decide (code = "500")) as [->|H3]; [vm_compute in Hc; inversion Hc; lia|].
    destruct (decide (code = "503")) as [->|H4]; [vm_compute in Hc; inversion Hc; lia|].
    rewrite !lookup_insert_ne, lookup_singleton_ne in Hc by congruence. discriminate.
  - vm_compute. discriminate.
Defined.

(** The other column of the example holds the 404s and the 503. *)
Example other_status_of_example :
  getTotalOtherStatus {[ "200" := 7; "404" := 2; "500" := 1; "503" := 1 ]} = 3.
Proof. vm_compute. reflexivity. Qed.

(** The coordinator of the examples keeps at most one run active. *)
Lemma coordinator_singleActive (testRun : TestRun.t) :
  singleActive (Examples.coordinator testRun).
Proof.
  intros id run' Hrun _. cbn [Examples.coordinator Coordinator.testRuns] in Hrun.
  apply lookup_singleton_Some in Hrun. destruct Hrun as [<- _]. reflexivity.
Qed.

(** X17 on a created run with one agent connected: the run is started and
    [startTestRun] is launched. *)
Lemma handleStartTestRun_single_active_witness :
  let c := Examples.coordinator (Examples.run "run-1" TestRunStatusCreated None) in
  let result := handleStartTestRun c "run-1" 5 in
  singleActive c
  /\ singleActive (fst (fst result))
  /\ (Reply.code (snd (fst result)) = StatusOK <->
        (exists testRun, Coordinator.testRuns c !! "run-1" = Some testRun
                         /\ TestRun.Status testRun = TestRunStatusCreated)
        /\ noneActive c).
Proof.
  pose proof (handleStartTestRun_single_active
                (Examples.coordinator (Examples.run "run-1" TestRunStatusCreated None))
                "run-1" 5 (coordinator_singleActive _)) as H.
  cbv zeta in *. destruct H as (H1 & H2 & _).
  split; [apply coordinator_singleActive|]. split; [exact H1 | exact H2].
Defined.

(** The start of the example answers 200 and launches [startTestRun]. *)
Example handleStartTestRun_example :
  let c := Examples.coordinator (Examples.run "run-1" TestRunStatusCreated None) in
  Reply.code (snd (fst (handleStartTestRun c "run-1" 5))) = StatusOK
  /\ snd (handleStartTestRun c "run-1" 5) = true
  /\ Reply.code (snd (fst (handleStartTestRun c "run-2" 5))) = StatusNotFound.
Proof. vm_compute. repeat split. Qed.

(** X18 on a completed run. *)
Lemma handleRerunTestRun_single_active_witness :
  let c := Examples.coordinator (Examples.run "run-1" TestRunStatusCompleted (Some 0)) in
  let result := handleRerunTestRun c "run-1" "run-2" 5 6 in
  singleActive (fst (fst result))
  /\ (Reply.code (snd (fst result)) = StatusCreated <->
        (exists original, Coordinator.testRuns c !! "run-1" = Some original
                          /\ isActive (TestRun.Status original) = false
                          /\ TestRun.Status original <> TestRunStatusCreated)
        /\ noneActive c).
Proof.
  pose proof (handleRerunTestRun_single_active
                (Examples.coordinator (Examples.run "run-1" TestRunStatusCompleted (Some 0)))
                "run-1" "run-2" 5 6 (coordinator_singleActive _) eq_refl) as H.
  cbv zeta in *. destruct H as (H1 & H2 & _). split; [exact H1 | exact H2].
Defined.

(** The rerun of the example answers 201 and makes [run-2] current. *)
Example handleRerunTestRun_example :
  let c := Examples.coordinator (Examples.run "run-1" TestRunStatusCompleted (Some 0)) in
  let result := handleRerunTestRun c "run-1" "run-2" 5 6 in
  Reply.code (snd (fst result)) = StatusCreated
  /\ Coordinator.currentTestRun (fst (fst result)) = Some "run-2"
  /\ snd result = true.
Proof. vm_compute. repeat split. Qed.

(** X19 on a running run that is stopped and whose timer fires at 2 s. *)
Lemma stopped_run_is_completing_witness :
  let c := Examples.coordinator (Examples.run "run-1" TestRunStatusRunning (Some 0)) in
  let c1 := fst (stopTestRun c "run-1") in
  let c2 := completeTestRun string_seconds c1 "run-1" (2 * Second) in
  Coordinator.testRuns c1
  = <[ "run-1" := setStatus TestRunStatusCompleting
                    (Examples.run "run-1" TestRunStatusRunning (Some 0)) ]>
      (Coordinator.testRuns c)
  /\ noneActive c1
  /\ Coordinator.currentTestRun c2 = None.
Proof.
  pose proof (stopped_run_is_completing string_seconds
                (Examples.coordinator (Examples.run "run-1" TestRunStatusRunning (Some 0)))
                "run-1" (Examples.run "run-1" TestRunStatusRunning (Some 0)) (2 * Second)
                (coordinator_singleActive _) eq_refl eq_refl) as H.
  cbv zeta in *. destruct H as (_ & _ & H3 & _ & _ & H6 & _ & _ & H9).
  split; [exact H3|]. split; [exact H6 | exact H9].
Defined.

(** X20 on a request for the status [running] while [run-1] is running:
    its row is deleted and the run stays in memory. *)
Lemma bulk_delete_by_status_witness :
  let testRun := Examples.run "run-1" TestRunStatusRunning (Some 0) in
  let c := Examples.coordinator testRun in
  let req := {| BulkDeleteRequest.Status := "running";
                BulkDeleteRequest.OlderThan := "";
                BulkDeleteRequest.Confirm := true |} in
  let c' := fst (handleBulkDeleteTestRuns parse_units (fun text => text) c req 5 6) in
  Coordinator.testRuns c' = Coordinator.testRuns c
  /\ Coordinator.agentResults c' = Coordinator.agentResults c
  /\ Coordinator.testRuns c' !! "run-1" = Some testRun
  /\ Database.test_runs (Coordinator.database c') !! "run-1" = None.
Proof.
  pose proof (bulk_delete_by_status parse_units (fun text => text)
                (Examples.coordinator (Examples.run "run-1" TestRunStatusRunning (Some 0)))
                {| BulkDeleteRequest.Status := "running";
                   BulkDeleteRequest.OlderThan := "";
                   BulkDeleteRequest.Confirm := true |} 5 6 eq_refl
                ltac:(discriminate)) as H.
  cbv zeta in *. destruct H as (_ & _ & _ & _ & _ & _ & H7).
  destruct (H7 (or_introl eq_refl)) as (Hruns & Hresults & Hrow).
  destruct (Hrow "run-1" (Examples.run "run-1" TestRunStatusRunning (Some 0))
              eq_refl eq_refl eq_refl) as [Hmem Hdb].
  split; [exact Hruns|]. split; [exact Hresults|]. split; [exact Hmem | exact Hdb].
Defined.

(** The statistics of a database whose only run is waiting: a total of one
    and no status of the breakdown that counts it. *)
Example handleTestRunStats_example :
  let c := Examples.coordinator (Examples.run "run-1" TestRunStatusWaiting (Some 0)) in
  Stats.total_test_runs (handleTestRunStats c) = 1
  /\ Forall (fun status => Stats.status_breakdown (handleTestRunStats c) !! status = Some 0)
       ["created"; "waiting"; "running"; "completed"; "failed"; "cancelled"].
Proof. vm_compute. repeat constructor. Qed.

(** X22 on an agent that has not been sent [START]: its completion of
    phase 0 of [run-1] does not reach the orchestrator of [run-1]. *)
Lemma phase_completion_needs_run_id_witness :
  let a := Examples.newAgent in
  let po := Examples.orchestrator in
  let sent := sendPhaseCommand "run-1" "agent-2" "START_PHASE" Examples.phaseInfo 0 in
  deliverPhaseCompletion po (receivePhaseCommand parse_units a sent) = po.
Proof.
  pose proof (phase_completion_needs_run_id parse_units Examples.newAgent
                Examples.orchestrator Examples.phaseInfo 0
                ltac:(vm_compute; discriminate) eq_refl) as H.
  cbv zeta in H. destruct H as (_ & _ & _ & H). apply H. discriminate.
Defined.

(** The same command is counted for the agent that holds the id of the
    run. *)
Example phase_completion_counted :
  let a := {| Agent.id := "a"; Agent.concurrency := 8; Agent.currentTestRunID := "run-1" |} in
  let sent := sendPhaseCommand "run-1" "a" "START_PHASE" Examples.phaseInfo 0 in
  PhaseOrchestrator.completedAgents
    (deliverPhaseCompletion Examples.orchestrator (receivePhaseCommand parse_units a sent))
  !! "a" = Some true.
Proof. vm_compute. reflexivity. Qed.

(** The coordinator of the examples has no active run when its run is
    not active. *)
Lemma coordinator_noneActive (testRun : TestRun.t) :
  isActive (TestRun.Status testRun) = false ->
  noneActive (Examples.coordinator testRun).
Proof.
  intros Hact id run' Hrun. cbn [Examples.coordinator Coordinator.testRuns] in Hrun.
  apply lookup_singleton_Some in Hrun. destruct Hrun as [_ <-]. exact Hact.
Qed.

(** X23 on a coordinator without agents and a run that waits for one. *)
Lemma waiting_run_launched_by_registration_witness :
  let c := setAgents (Examples.coordinator (Examples.run "run-1" TestRunStatusCreated None)) ∅ in
  let registration :=
    {| AgentRegistration.AgentID := "agent-2";
       AgentRegistration.Region := "eu";
       AgentRegistration.Concurrency := 16;
       AgentRegistration.Status := "ready";
       AgentRegistration.Timestamp := "t1";
       AgentRegistration.Action := "register" |} in
  let c1 := fst (fst (handleStartTestRun c "run-1" 5)) in
  snd (handleStartTestRun c "run-1" 5) = false
  /\ snd (handleAgentRegistration parse_units c1 registration 6 6) = true.
Proof.
  pose (none := ∅ : gmap string AgentInfo.t).
  pose (c0 := setAgents (Examples.coordinator
                           (Examples.run "run-1" TestRunStatusCreated None)) none).
  assert (Hfew : Z.of_nat (size (Coordinator.connectedAgents c0))
                 < TestRun.AgentCount (Examples.run "run-1" TestRunStatusCreated None))
    by (vm_compute; reflexivity).
  assert (Hno : noneActive c0)
    by exact (coordinator_noneActive (Examples.run "run-1" TestRunStatusCreated None)
                eq_refl).
  pose proof (waiting_run_launched_by_registration parse_units c0
                "run-1" (Examples.run "run-1" TestRunStatusCreated None)
                {| AgentRegistration.AgentID := "agent-2";
                   AgentRegistration.Region := "eu";
                   AgentRegistration.Concurrency := 16;
                   AgentRegistration.Status := "ready";
                   AgentRegistration.Timestamp := "t1";
                   AgentRegistration.Action := "register" |} 5 6 6
                Hno eq_refl eq_refl Hfew) as H.
  cbv zeta in H. destruct H as (H1 & H2 & _).
  split; [exact H1|]. apply H2. split; reflexivity.
Defined.

(** X24 on a completed run. *)
Lemma deleted_run_is_gone_witness :
  let c := Examples.coordinator (Examples.run "run-1" TestRunStatusCompleted (Some 0)) in
  let c' := fst (handleDeleteTestRun c "run-1") in
  Coordinator.testRuns c' !! "run-1" = None
  /\ Database.test_runs (Coordinator.database c') !! "run-1" = None
  /\ completeTestRun string_seconds c' "run-1" 9 = c'.
Proof.
  pose proof (deleted_run_is_gone string_seconds
                (Examples.coordinator (Examples.run "run-1" TestRunStatusCompleted (Some 0)))
                "run-1" "run-2" (Examples.run "run-1" TestRunStatusCompleted (Some 0)) 8 9
                eq_refl eq_refl) as H.
  cbv zeta in H.
  destruct H as (_ & H2 & _ & H4 & _ & _ & _ & _ & _ & _ & _ & H12).
  split; [exact H2|]. split; [exact H4 | exact H12].
Defined.

(** X26 on a created run whose plan lasts 2 s. *)
Lemma running_run_reads_as_waiting_witness :
  let testRun := Examples.run "run-1" TestRunStatusCreated None in
  let c1 := fst (fst (handleStartTestRun (Examples.coordinator testRun) "run-1" 5)) in
  exists r,
    startTestRun parse_units string_seconds c1 ∅ "run-1" (fun _ => 6) "t1" true 7 = Some r
    /\ Coordinator.testRuns (Started.coordinator r) !! "run-1"
       = Some (MarkRunning (StartRun testRun 5))
    /\ Started.timer r = Some (2 * Second)
    /\ handleGetTestRun (Started.coordinator r) "run-1"
       = {| Reply.code := StatusOK; Reply.body := BodyTestRun (StartRun testRun 5) |}.
Proof.
  pose proof (running_run_reads_as_waiting parse_units string_seconds
                (Examples.coordinator (Examples.run "run-1" TestRunStatusCreated None))
                "run-1" (Examples.run "run-1" TestRunStatusCreated None)
                ∅ (fun _ => 6) "t1" 5 7
                (coordinator_noneActive (Examples.run "run-1" TestRunStatusCreated None) eq_refl) eq_refl eq_refl eq_refl) as H.
  cbv zeta in H. destruct H as (r & H1 & H2 & _ & H4 & H5 & _).
  exists r. split; [exact H1|]. split; [exact H2|]. split; [exact H4 | exact H5].
Defined.

(** The coordinator with two runs keeps at most one run active. *)
Lemma coordinator2_singleActive (testRun : TestRun.t) :
  singleActive (Examples.coordinator2 testRun).
Proof.
  intros id run' Hrun Hact. cbn [Examples.coordinator2 Coordinator.testRuns] in Hrun.
  apply lookup_insert_Some in Hrun. destruct Hrun as [[_ <-]|[_ Hrun]]; [discriminate|].
  apply lookup_singleton_Some in Hrun. destruct Hrun as [<- _]. reflexivity.
Qed.

(** X27 on the running run [run-1], which is stopped, and the created run
    [run-2] with a sequential phase. *)
Lemma completion_stops_other_orchestrator_witness :
  let c := Examples.coordinator2 (Examples.run "run-1" TestRunStatusRunning (Some 0)) in
  let c1 := fst (stopTestRun c "run-1") in
  let c2 := fst (fst (handleStartTestRun c1 "run-2" 5)) in
  exists r,
    startTestRun parse_units string_seconds c2 ∅ "run-2" (fun _ => 6) "t1" true 7 = Some r
    /\ Coordinator.phaseOrchestrator (Started.coordinator r) = Some "run-2"
    /\ Started.published r = []
    /\ Coordinator.phaseOrchestrator
         (completeTestRun string_seconds (Started.coordinator r) "run-1" (2 * Second))
       = None
    /\ Coordinator.currentTestRun
         (completeTestRun string_seconds (Started.coordinator r) "run-1" (2 * Second))
       = Some "run-2".
Proof.
  pose proof (completion_stops_other_orchestrator parse_units string_seconds
                (Examples.coordinator2 (Examples.run "run-1" TestRunStatusRunning (Some 0)))
                "run-1" "run-2" (Examples.run "run-1" TestRunStatusRunning (Some 0))
                (Examples.sequentialRun "run-2") ∅ (fun _ => 6) "t1" true 5 (2 * Second) 7
                (coordinator2_singleActive _) eq_refl eq_refl eq_refl eq_refl eq_refl
                eq_refl) as H.
  cbv zeta in H. destruct H as (r & H1 & H2 & _ & H4 & H5 & _ & H7 & _).
  exists r. split; [exact H1|]. split; [exact H2|]. split; [exact H4|].
  split; [exact H5 | exact H7].
Defined.

(** X25 on the start of a created run followed by [startTestRun]: the
    database counts no running run. *)
Lemma database_never_records_running_witness :
  let c := Examples.coordinator (Examples.run "run-1" TestRunStatusCreated None) in
  let c1 := fst (fst (handleStartTestRun c "run-1" 5)) in
  exists r,
    startTestRun parse_units string_seconds c1 ∅ "run-1" (fun _ => 6) "t1" true 7 = Some r
    /\ rowsSaved (Coordinator.database (Started.coordinator r))
    /\ GetTestRunCountByStatus (Coordinator.database (Started.coordinator r)) "running" = 0.
Proof.
  cbv zeta.
  destruct (startTestRun parse_units string_seconds
              (fst (fst (handleStartTestRun
                           (Examples.coordinator
                              (Examples.run "run-1" TestRunStatusCreated None))
                           "run-1" 5)))
              ∅ "run-1" (fun _ => 6) "t1" true 7) as [r|] eqn:Hr;
    [|vm_compute in Hr; discriminate].
  exists r. split; [reflexivity|].
  pose proof (database_never_records_running parse_units string_seconds (fun text => text)
                (Examples.coordinator (Examples.run "run-1" TestRunStatusCreated None))
                (Started.coordinator r)) as H.
  destruct H as (H1 & H2 & _).
  - eapply rtc_l; [apply (op_start _ _ _ _ "run-1" 5)|].
    apply rtc_once. eapply op_startTestRun. exact Hr.
  - intros id row Hrow.
    cbn [Examples.coordinator Coordinator.database Database.test_runs] in Hrow.
    apply lookup_singleton_Some in Hrow. destruct Hrow as [_ <-]. left. reflexivity.
  - split; [exact H1|]. apply H2. cbn [In]. auto.
Defined.

(** X28 on three agents and a phase of 9 s: the agent [b], of declared
    concurrency 8, has the second turn, from 3 s to 6 s, with 8 workers. *)
Lemma sequential_phase_turns_witness :
  let phase := Examples.phase "9s" 10 "sequential" in
  let b := {| Agent.id := "b"; Agent.concurrency := 8; Agent.currentTestRunID := "" |} in
  exists sent completion,
    executeSequentialPhase parse_units string_seconds "run-1" None ["c"; "a"; "b"] 0
      phase "run-1-phase-0" !! 1%nat = Some sent
    /\ Sent.at_time sent = 3 * Second
    /\ executePhase parse_units b (TestStartCommand.CurrentPhase (Sent.command sent))
       = PhaseRan (workerIDs 8) 80 (3 * Second) completion
    /\ Sent.at_time sent + 3 * Second = 6 * Second.
Proof.
  pose proof (sequential_phase_turns parse_units string_seconds "run-1" ["c"; "a"; "b"] 0
                (Examples.phase "9s" 10 "sequential") "run-1-phase-0" (9 * Second) 1
                {| Agent.id := "b"; Agent.concurrency := 8; Agent.currentTestRunID := "" |}
                eq_refl ltac:(vm_compute; discriminate) eq_refl eq_refl
                ltac:(vm_compute; discriminate) ltac:(vm_compute; discriminate)
                ltac:(vm_compute; discriminate)) as H.
  cbv zeta in H. destruct H as (sent & completion & H1 & H2 & _ & H4 & _ & _ & H7 & _).
  exists sent, completion.
  split; [exact H1|]. split; [exact H2|]. split; [exact H4 | exact H7].
Defined.

(** X29 on two agents of declared concurrency 8 and 16 and a phase of
    concurrency 10: 8 and 10 workers, 18 in all. *)
Lemma parallel_phase_load_witness :
  let phase := Examples.phase "9s" 10 "parallel" in
  let agents := [Examples.agent; Examples.newAgent] in
  sumZ (map (fun a => Z.min (RampPhase.Concurrency phase) (Agent.concurrency a)) agents)
  = 18
  /\ Forall2
       (fun a sent =>
          Sent.at_time sent = 0
          /\ Sent.subject sent = agentCommandSubject a
          /\ exists completion,
               executePhase parse_units a (TestStartCommand.CurrentPhase (Sent.command sent))
               = PhaseRan (workerIDs (Z.min 10 (Agent.concurrency a)))
                   (Z.min 10 (Agent.concurrency a) * 10) (9 * Second) completion
               /\ PhaseCompletion.AgentID completion = Agent.id a
               /\ PhaseCompletion.PhaseIndex completion = 0)
       agents
       (executeParallelPhase "run-1" (map Agent.id agents) 0 phase "run-1-phase-0" 0).
Proof.
  pose proof (parallel_phase_load parse_units "run-1" [Examples.agent; Examples.newAgent] 0
                (Examples.phase "9s" 10 "parallel") "run-1-phase-0" 0
                ltac:(vm_compute; discriminate)) as H.
  cbv zeta in H. destruct H as (H1 & _ & _).
  - repeat constructor; vm_compute; discriminate.
  - split; [reflexivity | exact H1].
Defined.

(** X30 on the run [run-1] and an agent that has not been sent [START]. *)
Lemma stop_needs_run_id_witness :
  let c := Examples.coordinator (Examples.run "run-1" TestRunStatusRunning (Some 0)) in
  let stop := snd (snd (stopTestRun c "run-1")) in
  handleTestCommand Examples.newAgent stop "plan" "t1" = StopIgnored
  /\ exists update,
       handleTestCommand (setCurrentTestRunID Examples.newAgent "run-1") stop "plan" "t1"
       = TestStopped update.
Proof.
  pose proof (stop_needs_run_id parse_units
                (Examples.coordinator (Examples.run "run-1" TestRunStatusRunning (Some 0)))
                (Examples.run "run-1" TestRunStatusRunning (Some 0)) Examples.newAgent
                (∅ : gmap string RampUpExecution.t) (fun _ => 0) "plan" "t1" "t0"
                ltac:(discriminate)) as H.
  cbv zeta in H. destruct H as (_ & _ & (update & _ & H3) & H4 & _).
  split; [apply H4; discriminate|]. eexists. exact H3.
Defined.
